(** * RDMA userspace connection manager (drivers/infiniband/core/ucma.c)

    A shallow embedding of the context registry, the event queue, the
    multicast registry and the command dispatcher of [ucma.c], and the
    properties of the natural-language specification stated over it.

    Modelling conventions.
    - Kernel objects live in a heap: one finite map per object type, keyed
      by address ([loc]).  A C pointer that may be NULL is an [option loc].
    - The two xarrays [ctx_table] and [multicast_table] are finite maps from
      index to entry.
    - A [list_head] chain is the Rocq list of its members, head first.
    - C [int] fields are [Z] values kept in range by [to_int]; the kernel is
      built with wrapping signed arithmetic.
    - Every function runs in the monad [M]: it threads the machine state and
      yields [None] where the C code would dereference an address that holds
      no object.
    - What the environment decides (allocation results, user-copy results,
      what the connection-manager engine returns) is an explicit argument of
      the function that asks for it.
    - Lock operations, wake-ups, engine calls and user copies are appended
      to a log kept in the state, in program order. *)

From stdpp Require Import base option list gmap.
From Stdlib Require Import ZArith Lia.

Open Scope Z_scope.

(** ** Machine integers and error numbers *)

Definition INT_MAX : Z := 2 ^ 31 - 1.
Definition INT_MIN : Z := - 2 ^ 31.
Definition UINT_MAX : Z := 2 ^ 32 - 1.

(** Conversion of a mathematical integer to a C [int] (two's complement). *)
Definition to_int (z : Z) : Z := (z + 2 ^ 31) mod 2 ^ 32 - 2 ^ 31.

(** Conversion to [u32] / [unsigned int]. *)
Definition to_u32 (z : Z) : Z := z mod 2 ^ 32.

(** Error numbers of include/uapi/asm-generic/errno-base.h and errno.h as
    ucma.c uses them.  The specification's taxonomy names them NotFound
    (ENOENT), InvalidOwner and InvalidArgument (EINVAL), Busy (EIO, the
    code returned for a context that is closing), ResourceExhausted
    (ENOMEM), NotSupported (ENOSYS), IOFault (EFAULT) and
    InsufficientSpace (ENOSPC). *)
Definition ENOENT : Z := 2.
Definition EIO : Z := 5.
Definition ENXIO : Z := 6.
Definition EAGAIN : Z := 11.
Definition ENOMEM : Z := 12.
Definition EACCES : Z := 13.
Definition EFAULT : Z := 14.
Definition EINVAL : Z := 22.
Definition ENOSPC : Z := 28.
Definition ENOSYS : Z := 38.
Definition ERESTARTSYS : Z := 512.

(** ** Data model *)

(** Addresses of kernel objects. *)
Definition loc := positive.

(** [enum rdma_cm_event_type] (include/rdma/rdma_cm.h). *)
Inductive rdma_cm_event_type :=
| RDMA_CM_EVENT_ADDR_RESOLVED
| RDMA_CM_EVENT_ADDR_ERROR
| RDMA_CM_EVENT_ROUTE_RESOLVED
| RDMA_CM_EVENT_ROUTE_ERROR
| RDMA_CM_EVENT_CONNECT_REQUEST
| RDMA_CM_EVENT_CONNECT_RESPONSE
| RDMA_CM_EVENT_CONNECT_ERROR
| RDMA_CM_EVENT_UNREACHABLE
| RDMA_CM_EVENT_REJECTED
| RDMA_CM_EVENT_ESTABLISHED
| RDMA_CM_EVENT_DISCONNECTED
| RDMA_CM_EVENT_DEVICE_REMOVAL
| RDMA_CM_EVENT_MULTICAST_JOIN
| RDMA_CM_EVENT_MULTICAST_ERROR
| RDMA_CM_EVENT_ADDR_CHANGE
| RDMA_CM_EVENT_TIMEWAIT_EXIT.

#[global] Instance rdma_cm_event_type_eq_dec : EqDecision rdma_cm_event_type.
Proof. solve_decision. Defined.

(** The two queue-pair classes [ucma_event_handler] tells apart. *)
Inductive ib_qp_type := IB_QPT_RC | IB_QPT_UD | IB_QPT_OTHER (n : Z).

#[global] Instance ib_qp_type_eq_dec : EqDecision ib_qp_type.
Proof. solve_decision. Defined.

(** [struct rdma_cm_id], the engine's connection object: the fields ucma.c
    reads or writes. *)
Record rdma_cm_id := mk_cm_id {
  cm_context : loc;            (* void *context: the owning ucma_context *)
  cm_device : option loc;      (* struct ib_device *device *)
  cm_qp_type : ib_qp_type
}.

(** [struct ucma_context]. [ctx_list] and [mc_list] membership is kept in
    the owning file and in [ctx_mc_list]. *)
Record ucma_context := mk_ctx {
  ctx_id : Z;
  ctx_comp : nat;              (* struct completion: times completed *)
  ctx_ref : Z;                 (* refcount_t *)
  ctx_events_reported : Z;
  ctx_backlog : Z;
  ctx_file : loc;
  ctx_cm_id : option loc;
  ctx_uid : Z;
  ctx_mc_list : list loc;
  ctx_closing : Z;
  ctx_destroying : Z
}.

(** [struct ucma_multicast]. *)
Record ucma_multicast := mk_mc {
  mc_ctx : loc;
  mc_id : Z;
  mc_events_reported : Z;
  mc_uid : Z;
  mc_join_state : Z;
  mc_addr : list Z
}.

(** Connection parameters carried by an event; the private data bytes are
    a list of byte values. *)
Record rdma_conn_param := mk_conn_param {
  conn_private_data : list Z;
  conn_responder_resources : Z;
  conn_initiator_depth : Z;
  conn_flow_control : Z;
  conn_retry_count : Z;
  conn_rnr_retry_count : Z;
  conn_srq : Z;
  conn_qp_num : Z
}.

Record rdma_ud_param := mk_ud_param {
  ud_private_data : option loc;   (* for multicast events: the ucma_multicast *)
  ud_private_bytes : list Z;
  ud_qp_num : Z;
  ud_qkey : Z
}.

(** [struct rdma_cm_event]; the [param] union is given by its two views. *)
Record rdma_cm_event := mk_cm_event {
  event : rdma_cm_event_type;
  status : Z;
  param_conn : rdma_conn_param;
  param_ud : rdma_ud_param;
  ece_vendor_id : Z;
  ece_attr_mod : Z
}.

(** The [param] union of [struct rdma_ucm_event_resp]. *)
Inductive resp_param :=
| resp_none
| resp_conn (c : rdma_conn_param)
| resp_ud (private_bytes : list Z) (qp_num qkey : Z).

(** [struct rdma_ucm_event_resp]. *)
Record rdma_ucm_event_resp := mk_resp {
  resp_uid : Z;
  resp_id : Z;
  resp_event : rdma_cm_event_type;
  resp_status : Z;
  resp_param_of : resp_param;
  resp_ece_vendor_id : Z;
  resp_ece_attr_mod : Z
}.

(** [struct ucma_event]. *)
Record ucma_event := mk_uevent {
  uevent_ctx : loc;
  uevent_mc : option loc;
  uevent_cm_id : loc;
  uevent_resp : rdma_ucm_event_resp
}.

(** [struct ucma_file]. *)
Record ucma_file := mk_file {
  file_nonblock : bool;        (* filp->f_flags & O_NONBLOCK *)
  file_ctx_list : list loc;
  file_event_list : list ucma_event
}.

(** The objects a lock or a table operation names. *)
Inductive xarray_name := XA_ctx_table | XA_multicast_table.

Inductive mutex_name :=
| file_mut (f : loc)
| ctx_mutex (c : loc).

(** What a response copied to user space carries. *)
Inductive user_resp :=
| resp_of_id (id : Z)                      (* rdma_ucm_create_id_resp *)
| resp_of_events_reported (n : Z)          (* destroy_id / migrate response *)
| resp_of_event (r : rdma_ucm_event_resp) (len : Z).

(** Entries of the operation log. *)
Inductive op :=
| op_xa_lock (t : xarray_name)
| op_xa_unlock (t : xarray_name)
| op_mutex_lock (m : mutex_name)
| op_mutex_unlock (m : mutex_name)
| op_refcount_inc (c : loc)
| op_refcount_dec (c : loc)
| op_complete (c : loc)
| op_wake_up (f : loc)
| op_kfree_ctx (c : loc)
| op_kfree_mc (m : loc)
| op_kfree_uevent (e : ucma_event)
| op_queue_close_id (f : loc) (c : loc)
| op_queue_close_event_id (f : loc) (e : ucma_event)
| op_rdma_create_id (ctx : loc)
| op_rdma_destroy_id (cm : loc)
| op_rdma_listen (cm : loc) (backlog : Z)
| op_rdma_join_multicast (cm : loc) (mc : loc)
| op_rdma_leave_multicast (cm : loc) (mc : loc)
| op_copy_to_user (r : user_resp) (ok : bool)
| op_pr_err.

(** The machine state. *)
Record state := mk_state {
  max_backlog : Z;             (* static unsigned int max_backlog *)
  ctx_table : gmap Z loc;
  multicast_table : gmap Z (option loc);
  ctxs : gmap loc ucma_context;
  mcs : gmap loc ucma_multicast;
  files : gmap loc ucma_file;
  cm_ids : gmap loc rdma_cm_id;
  trace : list op
}.

(** Field updates. *)
Definition ctx_with_id (c : ucma_context) (v : Z) : ucma_context :=
  mk_ctx v (ctx_comp c) (ctx_ref c) (ctx_events_reported c) (ctx_backlog c)
         (ctx_file c) (ctx_cm_id c) (ctx_uid c) (ctx_mc_list c)
         (ctx_closing c) (ctx_destroying c).
Definition ctx_with_comp (c : ucma_context) (v : nat) : ucma_context :=
  mk_ctx (ctx_id c) v (ctx_ref c) (ctx_events_reported c) (ctx_backlog c)
         (ctx_file c) (ctx_cm_id c) (ctx_uid c) (ctx_mc_list c)
         (ctx_closing c) (ctx_destroying c).
Definition ctx_with_ref (c : ucma_context) (v : Z) : ucma_context :=
  mk_ctx (ctx_id c) (ctx_comp c) v (ctx_events_reported c) (ctx_backlog c)
         (ctx_file c) (ctx_cm_id c) (ctx_uid c) (ctx_mc_list c)
         (ctx_closing c) (ctx_destroying c).
Definition ctx_with_events_reported (c : ucma_context) (v : Z) : ucma_context :=
  mk_ctx (ctx_id c) (ctx_comp c) (ctx_ref c) v (ctx_backlog c)
         (ctx_file c) (ctx_cm_id c) (ctx_uid c) (ctx_mc_list c)
         (ctx_closing c) (ctx_destroying c).
Definition ctx_with_backlog (c : ucma_context) (v : Z) : ucma_context :=
  mk_ctx (ctx_id c) (ctx_comp c) (ctx_ref c) (ctx_events_reported c) v
         (ctx_file c) (ctx_cm_id c) (ctx_uid c) (ctx_mc_list c)
         (ctx_closing c) (ctx_destroying c).
Definition ctx_with_file (c : ucma_context) (v : loc) : ucma_context :=
  mk_ctx (ctx_id c) (ctx_comp c) (ctx_ref c) (ctx_events_reported c)
         (ctx_backlog c) v (ctx_cm_id c) (ctx_uid c) (ctx_mc_list c)
         (ctx_closing c) (ctx_destroying c).
Definition ctx_with_cm_id (c : ucma_context) (v : option loc) : ucma_context :=
  mk_ctx (ctx_id c) (ctx_comp c) (ctx_ref c) (ctx_events_reported c)
         (ctx_backlog c) (ctx_file c) v (ctx_uid c) (ctx_mc_list c)
         (ctx_closing c) (ctx_destroying c).
Definition ctx_with_uid (c : ucma_context) (v : Z) : ucma_context :=
  mk_ctx (ctx_id c) (ctx_comp c) (ctx_ref c) (ctx_events_reported c)
         (ctx_backlog c) (ctx_file c) (ctx_cm_id c) v (ctx_mc_list c)
         (ctx_closing c) (ctx_destroying c).
Definition ctx_with_mc_list (c : ucma_context) (v : list loc) : ucma_context :=
  mk_ctx (ctx_id c) (ctx_comp c) (ctx_ref c) (ctx_events_reported c)
         (ctx_backlog c) (ctx_file c) (ctx_cm_id c) (ctx_uid c) v
         (ctx_closing c) (ctx_destroying c).
Definition ctx_with_closing (c : ucma_context) (v : Z) : ucma_context :=
  mk_ctx (ctx_id c) (ctx_comp c) (ctx_ref c) (ctx_events_reported c)
         (ctx_backlog c) (ctx_file c) (ctx_cm_id c) (ctx_uid c)
         (ctx_mc_list c) v (ctx_destroying c).

Definition mc_with_id (m : ucma_multicast) (v : Z) : ucma_multicast :=
  mk_mc (mc_ctx m) v (mc_events_reported m) (mc_uid m) (mc_join_state m)
        (mc_addr m).
Definition mc_with_events_reported (m : ucma_multicast) (v : Z) : ucma_multicast :=
  mk_mc (mc_ctx m) (mc_id m) v (mc_uid m) (mc_join_state m) (mc_addr m).
Definition mc_with_uid (m : ucma_multicast) (v : Z) : ucma_multicast :=
  mk_mc (mc_ctx m) (mc_id m) (mc_events_reported m) v (mc_join_state m)
        (mc_addr m).
Definition mc_with_join_state (m : ucma_multicast) (v : Z) : ucma_multicast :=
  mk_mc (mc_ctx m) (mc_id m) (mc_events_reported m) (mc_uid m) v (mc_addr m).
Definition mc_with_addr (m : ucma_multicast) (v : list Z) : ucma_multicast :=
  mk_mc (mc_ctx m) (mc_id m) (mc_events_reported m) (mc_uid m)
        (mc_join_state m) v.

Definition resp_with_id (r : rdma_ucm_event_resp) (v : Z) : rdma_ucm_event_resp :=
  mk_resp (resp_uid r) v (resp_event r) (resp_status r) (resp_param_of r)
          (resp_ece_vendor_id r) (resp_ece_attr_mod r).

Definition uevent_with_resp (e : ucma_event) (r : rdma_ucm_event_resp) : ucma_event :=
  mk_uevent (uevent_ctx e) (uevent_mc e) (uevent_cm_id e) r.

Definition file_with_ctx_list (f : ucma_file) (v : list loc) : ucma_file :=
  mk_file (file_nonblock f) v (file_event_list f).
Definition file_with_event_list (f : ucma_file) (v : list ucma_event) : ucma_file :=
  mk_file (file_nonblock f) (file_ctx_list f) v.

Definition cm_with_context (c : rdma_cm_id) (v : loc) : rdma_cm_id :=
  mk_cm_id v (cm_device c) (cm_qp_type c).

Definition st_with_ctx_table (s : state) (v : gmap Z loc) : state :=
  mk_state (max_backlog s) v (multicast_table s) (ctxs s) (mcs s) (files s) (cm_ids s) (trace s).
Definition st_with_multicast_table (s : state) (v : gmap Z (option loc)) : state :=
  mk_state (max_backlog s) (ctx_table s) v (ctxs s) (mcs s) (files s) (cm_ids s) (trace s).
Definition st_with_ctxs (s : state) (v : gmap loc ucma_context) : state :=
  mk_state (max_backlog s) (ctx_table s) (multicast_table s) v (mcs s) (files s) (cm_ids s) (trace s).
Definition st_with_mcs (s : state) (v : gmap loc ucma_multicast) : state :=
  mk_state (max_backlog s) (ctx_table s) (multicast_table s) (ctxs s) v (files s) (cm_ids s) (trace s).
Definition st_with_files (s : state) (v : gmap loc ucma_file) : state :=
  mk_state (max_backlog s) (ctx_table s) (multicast_table s) (ctxs s) (mcs s) v (cm_ids s) (trace s).
Definition st_with_cm_ids (s : state) (v : gmap loc rdma_cm_id) : state :=
  mk_state (max_backlog s) (ctx_table s) (multicast_table s) (ctxs s) (mcs s) (files s) v (trace s).
Definition st_with_trace (s : state) (v : list op) : state :=
  mk_state (max_backlog s) (ctx_table s) (multicast_table s) (ctxs s) (mcs s) (files s) (cm_ids s) v.

(** ** The state monad with faults *)

Definition M (A : Type) : Type := state -> option (A * state).

Definition ret {A} (a : A) : M A := fun s => Some (a, s).

Definition bind {A B} (m : M A) (k : A -> M B) : M B :=
  fun s => match m s with
           | Some (a, s') => k a s'
           | None => None
           end.

Declare Scope ucma_scope.
Delimit Scope ucma_scope with ucma.
Notation "'let*' x ':=' m 'in' k" := (bind m (fun x => k))
  (at level 10, x name, m at level 100, k at level 200) : ucma_scope.
Notation "m ';;;' k" := (bind m (fun _ => k))
  (at level 199, k at level 200, right associativity) : ucma_scope.
Open Scope ucma_scope.

(** A dereference of an address that holds no object. *)
Definition fault {A} : M A := fun _ => None.

Definition emit (o : op) : M unit :=
  fun s => Some (tt, st_with_trace s (trace s ++ [o])).

Definition get_state : M state := fun s => Some (s, s).

Definition deref {A} (o : option A) : M A :=
  match o with Some a => ret a | None => fault end.

Definition load_ctx (p : loc) : M ucma_context :=
  fun s => deref (ctxs s !! p) s.
Definition store_ctx (p : loc) (c : ucma_context) : M unit :=
  fun s => match ctxs s !! p with
           | Some _ => Some (tt, st_with_ctxs s (<[p := c]> (ctxs s)))
           | None => None
           end.
Definition load_mc (p : loc) : M ucma_multicast :=
  fun s => deref (mcs s !! p) s.
Definition store_mc (p : loc) (m : ucma_multicast) : M unit :=
  fun s => match mcs s !! p with
           | Some _ => Some (tt, st_with_mcs s (<[p := m]> (mcs s)))
           | None => None
           end.
Definition load_file (p : loc) : M ucma_file :=
  fun s => deref (files s !! p) s.
Definition store_file (p : loc) (f : ucma_file) : M unit :=
  fun s => match files s !! p with
           | Some _ => Some (tt, st_with_files s (<[p := f]> (files s)))
           | None => None
           end.
Definition load_cm_id (p : loc) : M rdma_cm_id :=
  fun s => deref (cm_ids s !! p) s.
Definition store_cm_id (p : loc) (c : rdma_cm_id) : M unit :=
  fun s => match cm_ids s !! p with
           | Some _ => Some (tt, st_with_cm_ids s (<[p := c]> (cm_ids s)))
           | None => None
           end.

(** [kzalloc] of a context / multicast at the address the allocator chose,
    and [kfree]. *)
Definition kzalloc_ctx (p : loc) (c : ucma_context) : M unit :=
  fun s => Some (tt, st_with_ctxs s (<[p := c]> (ctxs s))).
Definition kfree_ctx (p : loc) : M unit :=
  fun s => Some (tt, st_with_trace (st_with_ctxs s (delete p (ctxs s)))
                                   (trace s ++ [op_kfree_ctx p])).
Definition kzalloc_mc (p : loc) (m : ucma_multicast) : M unit :=
  fun s => Some (tt, st_with_mcs s (<[p := m]> (mcs s))).
Definition kfree_mc (p : loc) : M unit :=
  fun s => Some (tt, st_with_trace (st_with_mcs s (delete p (mcs s)))
                                   (trace s ++ [op_kfree_mc p])).

(** Modelled from the spec: the xarray primitives [xa_load], [xa_erase] and
    [xa_store] of lib/xarray.c, which is not part of the sources: a
    registry is a table from index to entry with lookup, erase and
    store. *)
Definition xa_load_ctx (id : Z) : M (option loc) :=
  fun s => Some (ctx_table s !! id, s).
Definition xa_erase_ctx (id : Z) : M unit :=
  fun s => Some (tt, st_with_ctx_table s (delete id (ctx_table s))).
Definition xa_store_ctx (id : Z) (p : loc) : M unit :=
  fun s => Some (tt, st_with_ctx_table s (<[id := p]> (ctx_table s))).
(** A reserved index of [multicast_table] holds [None]; [xa_load] returns
    NULL for it as for an absent index. *)
Definition xa_load_mc (id : Z) : M (option loc) :=
  fun s => Some (mjoin (multicast_table s !! id), s).
Definition xa_erase_mc (id : Z) : M unit :=
  fun s => Some (tt, st_with_multicast_table s (delete id (multicast_table s))).
Definition xa_store_mc (id : Z) (e : option loc) : M unit :=
  fun s => Some (tt, st_with_multicast_table s (<[id := e]> (multicast_table s))).

(** Modelled from the spec: [refcount_inc], [refcount_inc_not_zero] and
    [refcount_dec_and_test] of include/linux/refcount.h, which is not part
    of the sources: the count is incremented, incremented unless it is
    zero, and decremented with a report of whether it reached zero. *)
Definition refcount_inc (p : loc) : M unit :=
  let* c := load_ctx p in
  store_ctx p (ctx_with_ref c (ctx_ref c + 1)) ;;;
  emit (op_refcount_inc p).

Definition refcount_inc_not_zero (p : loc) : M bool :=
  let* c := load_ctx p in
  if bool_decide (ctx_ref c = 0) then ret false
  else store_ctx p (ctx_with_ref c (ctx_ref c + 1)) ;;;
       emit (op_refcount_inc p) ;;;
       ret true.

Definition refcount_dec_and_test (p : loc) : M bool :=
  let* c := load_ctx p in
  store_ctx p (ctx_with_ref c (ctx_ref c - 1)) ;;;
  emit (op_refcount_dec p) ;;;
  ret (bool_decide (ctx_ref c - 1 = 0)).

Definition complete (p : loc) : M unit :=
  let* c := load_ctx p in
  store_ctx p (ctx_with_comp c (S (ctx_comp c))) ;;;
  emit (op_complete p).

(** A pointer-or-error value ([ERR_PTR] / [IS_ERR]). *)
Inductive errptr :=
| Err (e : Z)
| Ptr (p : loc).

(** ** Context registry lookups *)

(** [id] is the index of [ctx_table] that the [int id] argument of the C
    function converts to. *)
Definition _ucma_find_context (id : Z) (file : loc) : M errptr :=
  let* o := xa_load_ctx id in
  match o with
  | None => ret (Err (- ENOENT))
  | Some p =>
      let* ctx := load_ctx p in
      if negb (bool_decide (ctx_file ctx = file)) || negb (bool_decide (is_Some (ctx_cm_id ctx)))
      then ret (Err (- EINVAL))
      else ret (Ptr p)
  end.

Definition ucma_get_ctx (file : loc) (id : Z) : M errptr :=
  emit (op_xa_lock XA_ctx_table) ;;;
  let* r := _ucma_find_context id file in
  let* r' :=
    match r with
    | Ptr p =>
        let* ctx := load_ctx p in
        if negb (bool_decide (ctx_closing ctx = 0)) then ret (Err (- EIO))
        else refcount_inc p ;;; ret (Ptr p)
    | Err e => ret (Err e)
    end in
  emit (op_xa_unlock XA_ctx_table) ;;;
  ret r'.

Definition ucma_put_ctx (ctx : loc) : M unit :=
  let* z := refcount_dec_and_test ctx in
  if z then complete ctx else ret tt.

Definition ucma_get_ctx_dev (file : loc) (id : Z) : M errptr :=
  let* r := ucma_get_ctx file id in
  match r with
  | Err e => ret (Err e)
  | Ptr p =>
      let* ctx := load_ctx p in
      let* cm := deref (ctx_cm_id ctx) in
      let* cmo := load_cm_id cm in
      match cm_device cmo with
      | None => ucma_put_ctx p ;;; ret (Err (- EINVAL))
      | Some _ => ret (Ptr p)
      end
  end.

(** ** Allocation *)

(** [kz] is what [kzalloc] returned (NULL or a fresh address), [xid] the
    index [xa_alloc] picked ([None]: the allocation of an index failed). *)
Definition ucma_alloc_ctx (file : loc) (kz : option loc) (xid : option Z)
  : M (option loc) :=
  match kz with
  | None => ret None
  | Some p =>
      kzalloc_ctx p (mk_ctx 0 0%nat 1 0 0 file None 0 [] 0 0) ;;;
      match xid with
      | None => kfree_ctx p ;;; ret None
      | Some i =>
          let* c := load_ctx p in
          store_ctx p (ctx_with_id c i) ;;;
          xa_store_ctx i p ;;;
          let* f := load_file file in
          store_file file (file_with_ctx_list f (file_ctx_list f ++ [p])) ;;;
          ret (Some p)
      end
  end.

Definition ucma_alloc_multicast (ctx : loc) (kz : option loc) (xid : option Z)
  : M (option loc) :=
  match kz with
  | None => ret None
  | Some p =>
      kzalloc_mc p (mk_mc ctx 0 0 0 0 []) ;;;
      match xid with
      | None => kfree_mc p ;;; ret None
      | Some i =>
          let* m := load_mc p in
          store_mc p (mc_with_id m i) ;;;
          xa_store_mc i None ;;;
          let* c := load_ctx ctx in
          store_ctx ctx (ctx_with_mc_list c (ctx_mc_list c ++ [p])) ;;;
          ret (Some p)
      end
  end.

(** ** Event callback ingestion *)

Definition ucma_copy_conn_event (src : rdma_conn_param) : resp_param :=
  resp_conn src.

(** The address handle attributes [ib_copy_ah_attr_to_user] fills in are
    left out of the response. *)
Definition ucma_copy_ud_event (src : rdma_ud_param) : resp_param :=
  resp_ud (ud_private_bytes src) (ud_qp_num src) (ud_qkey src).

(** Returns [uevent->mc], [uevent->resp.uid] and [uevent->resp.id]. *)
Definition ucma_set_event_context (ctx : loc) (ev : rdma_cm_event)
  : M (option loc * Z * Z) :=
  match event ev with
  | RDMA_CM_EVENT_MULTICAST_JOIN
  | RDMA_CM_EVENT_MULTICAST_ERROR =>
      let* mcp := deref (ud_private_data (param_ud ev)) in
      let* mc := load_mc mcp in
      ret (Some mcp, mc_uid mc, mc_id mc)
  | _ =>
      let* c := load_ctx ctx in
      ret (None, ctx_uid c, ctx_id c)
  end.

(** The first queued connect request that carries [cm], and the queue
    without it. *)
Fixpoint find_con_req_eve (cm : loc) (l : list ucma_event)
  : option (ucma_event * list ucma_event) :=
  match l with
  | [] => None
  | e :: t =>
      if bool_decide (uevent_cm_id e = cm)
         && bool_decide (resp_event (uevent_resp e) = RDMA_CM_EVENT_CONNECT_REQUEST)
      then Some (e, t)
      else match find_con_req_eve cm t with
           | Some (x, t') => Some (x, e :: t')
           | None => None
           end
  end.

Definition ucma_removal_event_handler (cm_id : loc) : M unit :=
  let* cm := load_cm_id cm_id in
  let ctxp := cm_context cm in
  let* ctx := load_ctx ctxp in
  if negb (bool_decide (ctx_destroying ctx = 0)) then ret tt
  else if bool_decide (ctx_cm_id ctx = Some cm_id) then
    emit (op_xa_lock XA_ctx_table) ;;;
    store_ctx ctxp (ctx_with_closing ctx 1) ;;;
    emit (op_xa_unlock XA_ctx_table) ;;;
    emit (op_queue_close_id (ctx_file ctx) ctxp)
  else
    let* f := load_file (ctx_file ctx) in
    match find_con_req_eve cm_id (file_event_list f) with
    | Some (con_req_eve, rest) =>
        store_file (ctx_file ctx) (file_with_event_list f rest) ;;;
        emit (op_queue_close_event_id (ctx_file ctx) con_req_eve)
    | None => emit op_pr_err
    end.

(** [kz] tells whether the [kzalloc] of the event succeeded. *)
Definition ucma_event_handler (cm_id : loc) (ev : rdma_cm_event) (kz : bool)
  : M Z :=
  let* cm := load_cm_id cm_id in
  let ctxp := cm_context cm in
  if negb kz then
    ret (if bool_decide (event ev = RDMA_CM_EVENT_CONNECT_REQUEST) then 1 else 0)
  else
    let* ctx := load_ctx ctxp in
    emit (op_mutex_lock (file_mut (ctx_file ctx))) ;;;
    let* tgt := ucma_set_event_context ctxp ev in
    let uevent :=
      mk_uevent ctxp (tgt.1.1) cm_id
        (mk_resp (tgt.1.2) (tgt.2) (event ev) (status ev)
           (if bool_decide (cm_qp_type cm = IB_QPT_UD)
            then ucma_copy_ud_event (param_ud ev)
            else ucma_copy_conn_event (param_conn ev))
           (ece_vendor_id ev) (ece_attr_mod ev)) in
    let* go :=
      if bool_decide (event ev = RDMA_CM_EVENT_CONNECT_REQUEST) then
        if bool_decide (ctx_backlog ctx = 0) then
          emit (op_kfree_uevent uevent) ;;; ret (Some (- ENOMEM))
        else
          store_ctx ctxp (ctx_with_backlog ctx (to_int (ctx_backlog ctx - 1))) ;;;
          ret None
      else if bool_decide (ctx_uid ctx = 0)
              || negb (bool_decide (ctx_cm_id ctx = Some cm_id)) then
        (if bool_decide (event ev = RDMA_CM_EVENT_DEVICE_REMOVAL)
         then ucma_removal_event_handler cm_id else ret tt) ;;;
        emit (op_kfree_uevent uevent) ;;; ret (Some 0)
      else ret None in
    let* r :=
      match go with
      | Some r => ret r
      | None =>
          let* c := load_ctx ctxp in
          let* f := load_file (ctx_file c) in
          store_file (ctx_file c)
            (file_with_event_list f (file_event_list f ++ [uevent])) ;;;
          emit (op_wake_up (ctx_file c)) ;;;
          (if bool_decide (event ev = RDMA_CM_EVENT_DEVICE_REMOVAL)
           then ucma_removal_event_handler cm_id else ret tt) ;;;
          ret 0
      end in
    let* c := load_ctx ctxp in
    emit (op_mutex_unlock (file_mut (ctx_file c))) ;;;
    ret r.

(** ** Commands *)

(** Sizes of the user ABI structures of include/uapi/rdma/rdma_user_cm.h,
    which is not part of the sources; the commands take them as given. *)
Record uapi_sizes := mk_uapi_sizes {
  sizeof_hdr : Z;                    (* struct rdma_ucm_cmd_hdr *)
  sizeof_event_resp : Z;             (* struct rdma_ucm_event_resp *)
  sizeof_event_resp_reserved : Z;    (* its trailing reserved field *)
  sizeof_event_resp_ece : Z;         (* its ece field *)
  sizeof_create_id_resp : Z;         (* struct rdma_ucm_create_id_resp *)
  sizeof_destroy_id_resp : Z         (* struct rdma_ucm_destroy_id_resp *)
}.

(** How a call that may sleep ends. *)
Inductive outcome :=
| Done (ret : Z)
| Sleeps.

Definition copy_to_user (r : user_resp) (ok : bool) : M bool :=
  emit (op_copy_to_user r ok) ;;; ret ok.

Definition rdma_destroy_id (cm : loc) : M unit :=
  fun s => Some (tt, st_with_trace (st_with_cm_ids s (delete cm (cm_ids s)))
                                   (trace s ++ [op_rdma_destroy_id cm])).

(** [__rdma_create_id]: [r] is what the engine returned; a new connection
    object starts with the given context, no device and the queue-pair
    type asked for. *)
Definition __rdma_create_id (ctx : loc) (qp_type : ib_qp_type) (r : errptr)
  : M errptr :=
  emit (op_rdma_create_id ctx) ;;;
  match r with
  | Err e => ret (Err e)
  | Ptr cm =>
      (fun s => Some (tt, st_with_cm_ids s (<[cm := mk_cm_id ctx None qp_type]> (cm_ids s)))) ;;;
      ret (Ptr cm)
  end.

Section Commands.

Variable abi : uapi_sizes.

(** [in_len] and [out_len] are the [u16] fields [hdr.in] and [hdr.out], so
    the mixed [int]/[size_t] comparisons are comparisons of their values.
    [cmd] is the response address read by [copy_from_user] ([None] when
    the read faults), [signal] tells whether a sleeping reader is
    interrupted, [kz] and [xid] are the allocation results and [copy_ok]
    tells whether [copy_to_user] succeeds. *)
Definition ucma_get_event (file : loc) (out_len : Z) (cmd : option Z)
    (signal : bool) (kz : option loc) (xid : option Z) (copy_ok : bool)
  : M outcome :=
  if out_len <? sizeof_event_resp abi - sizeof_event_resp_reserved abi
                - sizeof_event_resp_ece abi
  then ret (Done (- ENOSPC))
  else match cmd with
  | None => ret (Done (- EFAULT))
  | Some _ =>
    emit (op_mutex_lock (file_mut file)) ;;;
    let* f := load_file file in
    match file_event_list f with
    | [] =>
        emit (op_mutex_unlock (file_mut file)) ;;;
        if file_nonblock f then ret (Done (- EAGAIN))
        else if signal then ret (Done (- ERESTARTSYS))
        else ret Sleeps
    | uevent :: rest =>
        let* go :=
          if bool_decide (resp_event (uevent_resp uevent) = RDMA_CM_EVENT_CONNECT_REQUEST)
          then
            let* o := ucma_alloc_ctx file kz xid in
            match o with
            | None => ret (inl (- ENOMEM))
            | Some ctxp =>
                let* parent := load_ctx (uevent_ctx uevent) in
                store_ctx (uevent_ctx uevent)
                  (ctx_with_backlog parent (to_int (ctx_backlog parent + 1))) ;;;
                let* ctx := load_ctx ctxp in
                store_ctx ctxp (ctx_with_cm_id ctx (Some (uevent_cm_id uevent))) ;;;
                let* cm := load_cm_id (uevent_cm_id uevent) in
                store_cm_id (uevent_cm_id uevent) (cm_with_context cm ctxp) ;;;
                let uevent' :=
                  uevent_with_resp uevent (resp_with_id (uevent_resp uevent) (ctx_id ctx)) in
                let* f1 := load_file file in
                store_file file (file_with_event_list f1 (uevent' :: rest)) ;;;
                ret (inr uevent')
            end
          else ret (inr uevent) in
        let* r :=
          match go with
          | inl r => ret r
          | inr uevent =>
              let* ok := copy_to_user
                           (resp_of_event (uevent_resp uevent)
                              (Z.min out_len (sizeof_event_resp abi))) copy_ok in
              if negb ok then ret (- EFAULT)
              else
                let* f2 := load_file file in
                store_file file (file_with_event_list f2 rest) ;;;
                let* c := load_ctx (uevent_ctx uevent) in
                store_ctx (uevent_ctx uevent)
                  (ctx_with_events_reported c (to_int (ctx_events_reported c + 1))) ;;;
                match uevent_mc uevent with
                | Some mcp =>
                    let* mc := load_mc mcp in
                    store_mc mcp
                      (mc_with_events_reported mc (to_int (mc_events_reported mc + 1)))
                | None => ret tt
                end ;;;
                emit (op_kfree_uevent uevent) ;;;
                ret 0
          end in
        emit (op_mutex_unlock (file_mut file)) ;;;
        ret (Done r)
    end
  end.

(** Port spaces of include/rdma/rdma_cm.h that [ucma_get_qp_type] tells
    apart. *)
Inductive rdma_port_space :=
| RDMA_PS_IPOIB
| RDMA_PS_IB
| RDMA_PS_TCP
| RDMA_PS_UDP
| RDMA_PS_other (n : Z).

Record rdma_ucm_create_id := mk_create_id {
  create_uid : Z;
  create_response : Z;
  create_ps : rdma_port_space;
  create_qp_type : ib_qp_type
}.

Definition ucma_get_qp_type (cmd : rdma_ucm_create_id) : Z * ib_qp_type :=
  match create_ps cmd with
  | RDMA_PS_TCP => (0, IB_QPT_RC)
  | RDMA_PS_UDP
  | RDMA_PS_IPOIB => (0, IB_QPT_UD)
  | RDMA_PS_IB => (0, create_qp_type cmd)
  | RDMA_PS_other _ => (- EINVAL, IB_QPT_OTHER 0)
  end.

(** [cmd] is the command read by [copy_from_user], [kz] and [xid] the
    allocation results, [engine] what [__rdma_create_id] returns and
    [copy_ok] whether the id reaches the client. *)
Definition ucma_create_id (file : loc) (out_len : Z)
    (cmd : option rdma_ucm_create_id) (kz : option loc) (xid : option Z)
    (engine : errptr) (copy_ok : bool) : M Z :=
  if out_len <? sizeof_create_id_resp abi then ret (- ENOSPC)
  else match cmd with
  | None => ret (- EFAULT)
  | Some cmd =>
    let '(r, qp_type) := ucma_get_qp_type cmd in
    if negb (bool_decide (r = 0)) then ret r
    else
      emit (op_mutex_lock (file_mut file)) ;;;
      let* o := ucma_alloc_ctx file kz xid in
      emit (op_mutex_unlock (file_mut file)) ;;;
      match o with
      | None => ret (- ENOMEM)
      | Some ctxp =>
          let* ctx := load_ctx ctxp in
          store_ctx ctxp (ctx_with_uid ctx (create_uid cmd)) ;;;
          let* cm := __rdma_create_id ctxp qp_type engine in
          let* fail :=
            match cm with
            | Err e => ret (Some e)                          (* goto err1 *)
            | Ptr cm_id =>
                let* ctx := load_ctx ctxp in
                let* ok := copy_to_user (resp_of_id (ctx_id ctx)) copy_ok in
                if negb ok then
                  rdma_destroy_id cm_id ;;; ret (Some (- EFAULT))   (* err2 *)
                else
                  let* ctx := load_ctx ctxp in
                  store_ctx ctxp (ctx_with_cm_id ctx (Some cm_id)) ;;;
                  ret None
            end in
          match fail with
          | None => ret 0
          | Some e =>
              (* err1 *)
              let* ctx := load_ctx ctxp in
              xa_erase_ctx (ctx_id ctx) ;;;
              emit (op_mutex_lock (file_mut file)) ;;;
              let* c := load_ctx ctxp in
              let* f := load_file (ctx_file c) in
              store_file (ctx_file c)
                (file_with_ctx_list f (filter (fun q => q <> ctxp) (file_ctx_list f))) ;;;
              emit (op_mutex_unlock (file_mut file)) ;;;
              kfree_ctx ctxp ;;;
              ret e
          end
      end
  end.

End Commands.

(** *** listen *)

Record rdma_ucm_listen := mk_listen {
  listen_id : Z;
  listen_backlog : Z           (* __u32 *)
}.

(** [engine] is what [rdma_listen] returns.  The engine dereferences the
    id it is handed, so handing it a NULL [cm_id] is a fault; the same
    holds for [rdma_join_multicast] and [rdma_leave_multicast] below. *)
Definition ucma_listen (file : loc) (cmd : option rdma_ucm_listen) (engine : Z)
  : M Z :=
  match cmd with
  | None => ret (- EFAULT)
  | Some cmd =>
      let* r := ucma_get_ctx file (listen_id cmd) in
      match r with
      | Err e => ret e
      | Ptr ctxp =>
          let* s := get_state in
          let* ctx := load_ctx ctxp in
          store_ctx ctxp
            (ctx_with_backlog ctx
               (to_int (if (0 <? listen_backlog cmd)
                           && (listen_backlog cmd <? max_backlog s)
                        then listen_backlog cmd else max_backlog s))) ;;;
          emit (op_mutex_lock (ctx_mutex ctxp)) ;;;
          let* ctx := load_ctx ctxp in
          let* cm := deref (ctx_cm_id ctx) in
          emit (op_rdma_listen cm (ctx_backlog ctx)) ;;;
          emit (op_mutex_unlock (ctx_mutex ctxp)) ;;;
          ucma_put_ctx ctxp ;;;
          ret engine
      end
  end.

(** *** multicast *)

(** One pass of [list_for_each_entry_safe] over the queue: the entries
    that stay, and the entries of [mc] unlinked and freed, both in queue
    order. *)
Fixpoint cleanup_mc_events_loop (mc : loc) (l : list ucma_event)
  : list ucma_event * list ucma_event :=
  match l with
  | [] => ([], [])
  | uevent :: tmp =>
      let '(kept, freed) := cleanup_mc_events_loop mc tmp in
      if negb (bool_decide (uevent_mc uevent = Some mc))
      then (uevent :: kept, freed)
      else (kept, uevent :: freed)
  end.

Fixpoint emit_all (l : list op) : M unit :=
  match l with
  | [] => ret tt
  | o :: t => emit o ;;; emit_all t
  end.

Definition ucma_cleanup_mc_events (mcp : loc) : M unit :=
  let* mc := load_mc mcp in
  let* ctx := load_ctx (mc_ctx mc) in
  let* f := load_file (ctx_file ctx) in
  let '(kept, freed) := cleanup_mc_events_loop mcp (file_event_list f) in
  store_file (ctx_file ctx) (file_with_event_list f kept) ;;;
  emit_all (map op_kfree_uevent freed).

Inductive rdma_mc_join_flags :=
| RDMA_MC_JOIN_FLAG_FULLMEMBER
| RDMA_MC_JOIN_FLAG_SENDONLY_FULLMEMBER
| RDMA_MC_JOIN_FLAG_other (n : Z).

(** [enum ib_sa_mc_join_states] (include/rdma/ib_sa.h). *)
Definition FULLMEMBER_JOIN : Z := 0.
Definition SENDONLY_FULLMEMBER_JOIN : Z := 3.
Definition BIT (n : Z) : Z := Z.shiftl 1 n.

Record rdma_ucm_join_mcast := mk_join_mcast {
  join_response : Z;
  join_uid : Z;
  join_id : Z;
  join_addr_size : Z;
  join_flags : rdma_mc_join_flags;
  join_addr : list Z
}.

Section Multicast.

Variable abi : uapi_sizes.

(** [rdma_addr_size] of drivers/infiniband/core/addr.c. *)
Variable rdma_addr_size : list Z -> Z.

(** [kz], [xid]: allocation results; [engine]: what [rdma_join_multicast]
    returns; [copy_ok]: whether the id reaches the client. *)
Definition ucma_process_join (file : loc) (cmd : rdma_ucm_join_mcast)
    (out_len : Z) (kz : option loc) (xid : option Z) (engine : Z)
    (copy_ok : bool) : M Z :=
  if out_len <? sizeof_create_id_resp abi then ret (- ENOSPC)
  else if negb (bool_decide (join_addr_size cmd = rdma_addr_size (join_addr cmd)))
  then ret (- EINVAL)
  else
    match
      match join_flags cmd with
      | RDMA_MC_JOIN_FLAG_FULLMEMBER => Some (BIT FULLMEMBER_JOIN)
      | RDMA_MC_JOIN_FLAG_SENDONLY_FULLMEMBER => Some (BIT SENDONLY_FULLMEMBER_JOIN)
      | RDMA_MC_JOIN_FLAG_other _ => None
      end
    with
    | None => ret (- EINVAL)
    | Some join_state =>
        let* r := ucma_get_ctx_dev file (join_id cmd) in
        match r with
        | Err e => ret e
        | Ptr ctxp =>
            emit (op_mutex_lock (file_mut file)) ;;;
            let* o := ucma_alloc_multicast ctxp kz xid in
            let* ret_ :=
              match o with
              | None => ret (- ENOMEM)                       (* goto err1 *)
              | Some mcp =>
                  let* mc := load_mc mcp in
                  store_mc mcp
                    (mc_with_addr
                       (mc_with_uid (mc_with_join_state mc join_state) (join_uid cmd))
                       (take (Z.to_nat (join_addr_size cmd)) (join_addr cmd))) ;;;
                  emit (op_mutex_lock (ctx_mutex ctxp)) ;;;
                  let* ctx := load_ctx ctxp in
                  let* cm := deref (ctx_cm_id ctx) in
                  emit (op_rdma_join_multicast cm mcp) ;;;
                  emit (op_mutex_unlock (ctx_mutex ctxp)) ;;;
                  let* fail :=
                    if negb (bool_decide (engine = 0)) then ret (Some engine) (* err2 *)
                    else
                      let* mc := load_mc mcp in
                      let* ok := copy_to_user (resp_of_id (mc_id mc)) copy_ok in
                      if negb ok then
                        (* err3 *)
                        emit (op_mutex_lock (ctx_mutex ctxp)) ;;;
                        let* ctx := load_ctx ctxp in
                        let* cm := deref (ctx_cm_id ctx) in
                        emit (op_rdma_leave_multicast cm mcp) ;;;
                        emit (op_mutex_unlock (ctx_mutex ctxp)) ;;;
                        ucma_cleanup_mc_events mcp ;;;
                        ret (Some (- EFAULT))
                      else
                        let* mc := load_mc mcp in
                        xa_store_mc (mc_id mc) (Some mcp) ;;;
                        ret None in
                  match fail with
                  | None => ret 0
                  | Some e =>
                      (* err2 *)
                      let* mc := load_mc mcp in
                      xa_erase_mc (mc_id mc) ;;;
                      let* c := load_ctx (mc_ctx mc) in
                      store_ctx (mc_ctx mc)
                        (ctx_with_mc_list c (filter (fun q => q <> mcp) (ctx_mc_list c))) ;;;
                      kfree_mc mcp ;;;
                      ret e
                  end
              end in
            emit (op_mutex_unlock (file_mut file)) ;;;
            ucma_put_ctx ctxp ;;;
            ret ret_
        end
    end.

(** [cmd] is the group id read by [copy_from_user]. *)
Definition ucma_leave_multicast (file : loc) (out_len : Z) (cmd : option Z)
    (copy_ok : bool) : M Z :=
  if out_len <? sizeof_destroy_id_resp abi then ret (- ENOSPC)
  else match cmd with
  | None => ret (- EFAULT)
  | Some id =>
      emit (op_xa_lock XA_multicast_table) ;;;
      let* o := xa_load_mc id in
      let* r :=
        match o with
        | None => ret (Err (- ENOENT))
        | Some mcp =>
            let* mc := load_mc mcp in
            let* ctx := load_ctx (mc_ctx mc) in
            if negb (bool_decide (ctx_file ctx = file)) then ret (Err (- EINVAL))
            else
              let* got := refcount_inc_not_zero (mc_ctx mc) in
              if negb got then ret (Err (- ENXIO))
              else xa_erase_mc (mc_id mc) ;;; ret (Ptr mcp)
        end in
      emit (op_xa_unlock XA_multicast_table) ;;;
      match r with
      | Err e => ret e
      | Ptr mcp =>
          let* mc := load_mc mcp in
          emit (op_mutex_lock (ctx_mutex (mc_ctx mc))) ;;;
          let* ctx := load_ctx (mc_ctx mc) in
          let* cm := deref (ctx_cm_id ctx) in
          emit (op_rdma_leave_multicast cm mcp) ;;;
          emit (op_mutex_unlock (ctx_mutex (mc_ctx mc))) ;;;
          emit (op_mutex_lock (file_mut (ctx_file ctx))) ;;;
          ucma_cleanup_mc_events mcp ;;;
          let* c := load_ctx (mc_ctx mc) in
          store_ctx (mc_ctx mc)
            (ctx_with_mc_list c (filter (fun q => q <> mcp) (ctx_mc_list c))) ;;;
          emit (op_mutex_unlock (file_mut (ctx_file c))) ;;;
          ucma_put_ctx (mc_ctx mc) ;;;
          let* mc := load_mc mcp in
          let resp := mc_events_reported mc in
          kfree_mc mcp ;;;
          let* ok := copy_to_user (resp_of_events_reported resp) copy_ok in
          if negb ok then ret (- EFAULT) else ret 0
      end
  end.

End Multicast.

(** *** migration *)

Definition ucma_lock_files (file1 file2 : loc) : M unit :=
  if (file1 <? file2)%positive then
    emit (op_mutex_lock (file_mut file1)) ;;;
    emit (op_mutex_lock (file_mut file2))
  else
    emit (op_mutex_lock (file_mut file2)) ;;;
    emit (op_mutex_lock (file_mut file1)).

Definition ucma_unlock_files (file1 file2 : loc) : M unit :=
  if (file1 <? file2)%positive then
    emit (op_mutex_unlock (file_mut file2)) ;;;
    emit (op_mutex_unlock (file_mut file1))
  else
    emit (op_mutex_unlock (file_mut file1)) ;;;
    emit (op_mutex_unlock (file_mut file2)).

(** One pass of [list_for_each_entry_safe] over the source queue: the
    entries that stay and the entries moved to the tail of the other
    queue, both in queue order. *)
Fixpoint move_events_loop (ctx : loc) (l : list ucma_event)
  : list ucma_event * list ucma_event :=
  match l with
  | [] => ([], [])
  | uevent :: tmp =>
      let '(kept, moved) := move_events_loop ctx tmp in
      if bool_decide (uevent_ctx uevent = ctx)
      then (kept, uevent :: moved)
      else (uevent :: kept, moved)
  end.

(** Called with [file] different from the file that owns [ctx]. *)
Definition ucma_move_events (ctxp : loc) (file : loc) : M unit :=
  let* ctx := load_ctx ctxp in
  let* src := load_file (ctx_file ctx) in
  let '(kept, moved) := move_events_loop ctxp (file_event_list src) in
  store_file (ctx_file ctx) (file_with_event_list src kept) ;;;
  let* dst := load_file file in
  store_file file (file_with_event_list dst (file_event_list dst ++ moved)).

Record rdma_ucm_migrate_id := mk_migrate_id {
  migrate_response : Z;
  migrate_id : Z;
  migrate_fd : Z
}.

(** What [fdget] finds behind a descriptor: nothing, a file of another
    driver, or a ucma file with its [private_data]. *)
Inductive fd_file :=
| fd_none
| fd_foreign
| fd_ucma (private_data : loc).

Definition ucma_migrate_id (new_file : loc) (cmd : option rdma_ucm_migrate_id)
    (f : fd_file) (copy_ok : bool) : M Z :=
  match cmd with
  | None => ret (- EFAULT)
  | Some cmd =>
      match f with
      | fd_none => ret (- ENOENT)
      | fd_foreign => ret (- EINVAL)
      | fd_ucma private_data =>
          let* r := ucma_get_ctx private_data (migrate_id cmd) in
          match r with
          | Err e => ret e
          | Ptr ctxp =>
              let* ctx := load_ctx ctxp in
              let cur_file := ctx_file ctx in
              let* resp :=
                if bool_decide (cur_file = new_file) then
                  emit (op_mutex_lock (file_mut cur_file)) ;;;
                  let* c := load_ctx ctxp in
                  emit (op_mutex_unlock (file_mut cur_file)) ;;;
                  ret (ctx_events_reported c)
                else
                  ucma_lock_files cur_file new_file ;;;
                  emit (op_xa_lock XA_ctx_table) ;;;
                  (* list_move_tail(&ctx->list, &new_file->ctx_list) *)
                  let* src := load_file cur_file in
                  store_file cur_file
                    (file_with_ctx_list src
                       (filter (fun q => q <> ctxp) (file_ctx_list src))) ;;;
                  let* dst := load_file new_file in
                  store_file new_file
                    (file_with_ctx_list dst (file_ctx_list dst ++ [ctxp])) ;;;
                  ucma_move_events ctxp new_file ;;;
                  let* c := load_ctx ctxp in
                  store_ctx ctxp (ctx_with_file c new_file) ;;;
                  let* c := load_ctx ctxp in
                  emit (op_xa_unlock XA_ctx_table) ;;;
                  ucma_unlock_files cur_file new_file ;;;
                  ret (ctx_events_reported c) in
              let* ok := copy_to_user (resp_of_events_reported resp) copy_ok in
              ucma_put_ctx ctxp ;;;
              ret (if negb ok then - EFAULT else 0)
          end
      end
  end.

(** ** Command dispatch *)

(** [enum] of the command numbers (include/uapi/rdma/rdma_user_cm.h), in
    the order in which [ucma_cmd_table] names them. *)
Inductive rdma_user_cm_cmd :=
| RDMA_USER_CM_CMD_CREATE_ID
| RDMA_USER_CM_CMD_DESTROY_ID
| RDMA_USER_CM_CMD_BIND_IP
| RDMA_USER_CM_CMD_RESOLVE_IP
| RDMA_USER_CM_CMD_RESOLVE_ROUTE
| RDMA_USER_CM_CMD_QUERY_ROUTE
| RDMA_USER_CM_CMD_CONNECT
| RDMA_USER_CM_CMD_LISTEN
| RDMA_USER_CM_CMD_ACCEPT
| RDMA_USER_CM_CMD_REJECT
| RDMA_USER_CM_CMD_DISCONNECT
| RDMA_USER_CM_CMD_INIT_QP_ATTR
| RDMA_USER_CM_CMD_GET_EVENT
| RDMA_USER_CM_CMD_GET_OPTION
| RDMA_USER_CM_CMD_SET_OPTION
| RDMA_USER_CM_CMD_NOTIFY
| RDMA_USER_CM_CMD_JOIN_IP_MCAST
| RDMA_USER_CM_CMD_LEAVE_MCAST
| RDMA_USER_CM_CMD_MIGRATE_ID
| RDMA_USER_CM_CMD_QUERY
| RDMA_USER_CM_CMD_BIND
| RDMA_USER_CM_CMD_RESOLVE_ADDR
| RDMA_USER_CM_CMD_JOIN_MCAST.

(** The handlers the table points to. *)
Inductive ucma_handler :=
| h_ucma_create_id
| h_ucma_destroy_id
| h_ucma_bind_ip
| h_ucma_resolve_ip
| h_ucma_resolve_route
| h_ucma_query_route
| h_ucma_connect
| h_ucma_listen
| h_ucma_accept
| h_ucma_reject
| h_ucma_disconnect
| h_ucma_init_qp_attr
| h_ucma_get_event
| h_ucma_set_option
| h_ucma_notify
| h_ucma_join_ip_multicast
| h_ucma_leave_multicast
| h_ucma_migrate_id
| h_ucma_query
| h_ucma_bind
| h_ucma_resolve_addr
| h_ucma_join_multicast.

(** The designated initialisers of [ucma_cmd_table], in source order. *)
Definition ucma_cmd_table_init : list (rdma_user_cm_cmd * option ucma_handler) :=
  [ (RDMA_USER_CM_CMD_CREATE_ID, Some h_ucma_create_id);
    (RDMA_USER_CM_CMD_DESTROY_ID, Some h_ucma_destroy_id);
    (RDMA_USER_CM_CMD_BIND_IP, Some h_ucma_bind_ip);
    (RDMA_USER_CM_CMD_RESOLVE_IP, Some h_ucma_resolve_ip);
    (RDMA_USER_CM_CMD_RESOLVE_ROUTE, Some h_ucma_resolve_route);
    (RDMA_USER_CM_CMD_QUERY_ROUTE, Some h_ucma_query_route);
    (RDMA_USER_CM_CMD_CONNECT, Some h_ucma_connect);
    (RDMA_USER_CM_CMD_LISTEN, Some h_ucma_listen);
    (RDMA_USER_CM_CMD_ACCEPT, Some h_ucma_accept);
    (RDMA_USER_CM_CMD_REJECT, Some h_ucma_reject);
    (RDMA_USER_CM_CMD_DISCONNECT, Some h_ucma_disconnect);
    (RDMA_USER_CM_CMD_INIT_QP_ATTR, Some h_ucma_init_qp_attr);
    (RDMA_USER_CM_CMD_GET_EVENT, Some h_ucma_get_event);
    (RDMA_USER_CM_CMD_GET_OPTION, None);
    (RDMA_USER_CM_CMD_SET_OPTION, Some h_ucma_set_option);
    (RDMA_USER_CM_CMD_NOTIFY, Some h_ucma_notify);
    (RDMA_USER_CM_CMD_JOIN_IP_MCAST, Some h_ucma_join_ip_multicast);
    (RDMA_USER_CM_CMD_LEAVE_MCAST, Some h_ucma_leave_multicast);
    (RDMA_USER_CM_CMD_MIGRATE_ID, Some h_ucma_migrate_id);
    (RDMA_USER_CM_CMD_QUERY, Some h_ucma_query);
    (RDMA_USER_CM_CMD_BIND, Some h_ucma_bind);
    (RDMA_USER_CM_CMD_RESOLVE_ADDR, Some h_ucma_resolve_addr);
    (RDMA_USER_CM_CMD_JOIN_MCAST, Some h_ucma_join_multicast) ].

Record rdma_ucm_cmd_hdr := mk_hdr {
  hdr_cmd : Z;                 (* __u32 cmd *)
  hdr_in : Z;                  (* __u16 in *)
  hdr_out : Z                  (* __u16 out *)
}.

Section Dispatch.

Variable abi : uapi_sizes.

(** The value of each enumerator of [rdma_user_cm_cmd]. *)
Variable cmd_value : rdma_user_cm_cmd -> Z.

(** What a handler of the table does when called. *)
Variable call : ucma_handler -> loc -> Z -> Z -> M Z.

(** An array with designated initialisers has one element more than its
    largest designated index. *)
Definition ARRAY_SIZE_ucma_cmd_table : Z :=
  foldr (fun e n => Z.max (cmd_value e.1 + 1) n) 0 ucma_cmd_table_init.

(** Element [i] of the array: the last initialiser that designates [i],
    NULL where there is none. *)
Definition ucma_cmd_table (i : Z) : option ucma_handler :=
  foldl (fun h e => if bool_decide (cmd_value e.1 = i) then e.2 else h)
        None ucma_cmd_table_init.

(** [safe] is the result of [ib_safe_file_access], [len] the number of
    bytes supplied and [hdr] the header read by [copy_from_user]. *)
Definition ucma_write (file : loc) (safe : bool) (len : Z)
    (hdr : option rdma_ucm_cmd_hdr) : M Z :=
  if negb safe then emit op_pr_err ;;; ret (- EACCES)
  else if len <? sizeof_hdr abi then ret (- EINVAL)
  else match hdr with
  | None => ret (- EFAULT)
  | Some hdr =>
      if ARRAY_SIZE_ucma_cmd_table <=? hdr_cmd hdr then ret (- EINVAL)
      else if len <? hdr_in hdr + sizeof_hdr abi then ret (- EINVAL)
      else match ucma_cmd_table (hdr_cmd hdr) with
      | None => ret (- ENOSYS)
      | Some h =>
          let* r := call h file (hdr_in hdr) (hdr_out hdr) in
          ret (if bool_decide (r = 0) then len else r)
      end
  end.

End Dispatch.

(** The numbering of include/uapi/rdma/rdma_user_cm.h: the enumerators
    count from zero in declaration order. *)
Definition uapi_cmd_value (c : rdma_user_cm_cmd) : Z :=
  match c with
  | RDMA_USER_CM_CMD_CREATE_ID => 0
  | RDMA_USER_CM_CMD_DESTROY_ID => 1
  | RDMA_USER_CM_CMD_BIND_IP => 2
  | RDMA_USER_CM_CMD_RESOLVE_IP => 3
  | RDMA_USER_CM_CMD_RESOLVE_ROUTE => 4
  | RDMA_USER_CM_CMD_QUERY_ROUTE => 5
  | RDMA_USER_CM_CMD_CONNECT => 6
  | RDMA_USER_CM_CMD_LISTEN => 7
  | RDMA_USER_CM_CMD_ACCEPT => 8
  | RDMA_USER_CM_CMD_REJECT => 9
  | RDMA_USER_CM_CMD_DISCONNECT => 10
  | RDMA_USER_CM_CMD_INIT_QP_ATTR => 11
  | RDMA_USER_CM_CMD_GET_EVENT => 12
  | RDMA_USER_CM_CMD_GET_OPTION => 13
  | RDMA_USER_CM_CMD_SET_OPTION => 14
  | RDMA_USER_CM_CMD_NOTIFY => 15
  | RDMA_USER_CM_CMD_JOIN_IP_MCAST => 16
  | RDMA_USER_CM_CMD_LEAVE_MCAST => 17
  | RDMA_USER_CM_CMD_MIGRATE_ID => 18
  | RDMA_USER_CM_CMD_QUERY => 19
  | RDMA_USER_CM_CMD_BIND => 20
  | RDMA_USER_CM_CMD_RESOLVE_ADDR => 21
  | RDMA_USER_CM_CMD_JOIN_MCAST => 22
  end.

(** The sizes of the same header on the ABI of this kernel version. *)
Definition uapi_abi : uapi_sizes := mk_uapi_sizes 8 336 4 8 4 4.

(** *** the two join commands *)

Record rdma_ucm_join_ip_mcast := mk_join_ip_mcast {
  join_ip_response : Z;
  join_ip_uid : Z;
  join_ip_addr : list Z;
  join_ip_id : Z
}.

Section JoinCommands.

Variable abi : uapi_sizes.

(** [rdma_addr_size_in6] and [rdma_addr_size_kss] of
    drivers/infiniband/core/addr.c, on an address given by its bytes. *)
Variable rdma_addr_size_in6 : list Z -> Z.
Variable rdma_addr_size_kss : list Z -> Z.

Definition ucma_join_ip_multicast (file : loc)
    (cmd : option rdma_ucm_join_ip_mcast) (out_len : Z) (kz : option loc)
    (xid : option Z) (engine : Z) (copy_ok : bool) : M Z :=
  match cmd with
  | None => ret (- EFAULT)
  | Some cmd =>
      let addr_size := rdma_addr_size_in6 (join_ip_addr cmd) in
      if bool_decide (addr_size = 0) then ret (- EINVAL)
      else
        ucma_process_join abi rdma_addr_size_kss file
          (mk_join_mcast (join_ip_response cmd) (join_ip_uid cmd)
             (join_ip_id cmd) addr_size RDMA_MC_JOIN_FLAG_FULLMEMBER
             (take (Z.to_nat addr_size) (join_ip_addr cmd)))
          out_len kz xid engine copy_ok
  end.

Definition ucma_join_multicast (file : loc) (cmd : option rdma_ucm_join_mcast)
    (out_len : Z) (kz : option loc) (xid : option Z) (engine : Z)
    (copy_ok : bool) : M Z :=
  match cmd with
  | None => ret (- EFAULT)
  | Some cmd =>
      if bool_decide (rdma_addr_size_kss (join_addr cmd) = 0)
      then ret (- EINVAL)
      else ucma_process_join abi rdma_addr_size_kss file cmd out_len kz xid
             engine copy_ok
  end.

End JoinCommands.

(** ** Context teardown *)

Definition ctx_with_destroying (c : ucma_context) (v : Z) : ucma_context :=
  mk_ctx (ctx_id c) (ctx_comp c) (ctx_ref c) (ctx_events_reported c)
         (ctx_backlog c) (ctx_file c) (ctx_cm_id c) (ctx_uid c)
         (ctx_mc_list c) (ctx_closing c) v.

(** Modelled from the spec: [wait_for_completion] of
    kernel/sched/completion.c, which is not part of the sources: the
    waiter goes on once the completion has been signalled and consumes
    that signal; [false] stands for a waiter that sleeps because nothing
    has signalled the completion. *)
Definition wait_for_completion (p : loc) : M bool :=
  let* c := load_ctx p in
  match ctx_comp c with
  | O => ret false
  | S n => store_ctx p (ctx_with_comp c n) ;;; ret true
  end.

(** The work items of a session's [close_wq]: the [close_work] of a
    context runs [ucma_close_id], that of an event [ucma_close_event_id]. *)
Inductive close_work :=
| work_close_id (ctx : loc)
| work_close_event_id (uevent : ucma_event).

Definition ucma_close_event_id (uevent_close : ucma_event) : M unit :=
  rdma_destroy_id (uevent_cm_id uevent_close) ;;;
  emit (op_kfree_uevent uevent_close).

(** [false]: the work sleeps in [wait_for_completion]. *)
Definition ucma_close_id (ctx : loc) : M bool :=
  ucma_put_ctx ctx ;;;
  let* done := wait_for_completion ctx in
  if negb done then ret false
  else
    let* c := load_ctx ctx in
    let* cm := deref (ctx_cm_id c) in
    rdma_destroy_id cm ;;;
    ret true.

(** [flush_workqueue] on an ordered workqueue: [pending] are the work
    items queued and not yet run, oldest first; they run one after the
    other.  [false]: a work item sleeps, and the flush with it. *)
Fixpoint flush_workqueue (pending : list close_work) : M bool :=
  match pending with
  | [] => ret true
  | w :: rest =>
      let* ran :=
        match w with
        | work_close_id ctx => ucma_close_id ctx
        | work_close_event_id uevent => ucma_close_event_id uevent ;;; ret true
        end in
      if negb ran then ret false else flush_workqueue rest
  end.

(** The body of the loop of [ucma_cleanup_multicast], over the members of
    [ctx->mc_list]. *)
Fixpoint cleanup_multicast_loop (ctx : loc) (l : list loc) : M unit :=
  match l with
  | [] => ret tt
  | mcp :: tmp =>
      let* c := load_ctx ctx in
      store_ctx ctx
        (ctx_with_mc_list c (filter (fun q => q <> mcp) (ctx_mc_list c))) ;;;
      let* mc := load_mc mcp in
      xa_erase_mc (mc_id mc) ;;;
      kfree_mc mcp ;;;
      cleanup_multicast_loop ctx tmp
  end.

Definition ucma_cleanup_multicast (ctx : loc) : M unit :=
  let* c := load_ctx ctx in
  emit (op_mutex_lock (file_mut (ctx_file c))) ;;;
  cleanup_multicast_loop ctx (ctx_mc_list c) ;;;
  let* c := load_ctx ctx in
  emit (op_mutex_unlock (file_mut (ctx_file c))).

(** The second loop of [ucma_free_ctx], over the events taken off the
    queue. *)
Fixpoint free_events_loop (l : list ucma_event) : M unit :=
  match l with
  | [] => ret tt
  | uevent :: tmp =>
      (if bool_decide (resp_event (uevent_resp uevent) = RDMA_CM_EVENT_CONNECT_REQUEST)
       then rdma_destroy_id (uevent_cm_id uevent) else ret tt) ;;;
      emit (op_kfree_uevent uevent) ;;;
      free_events_loop tmp
  end.

(** The first loop is the pass of [move_events_loop], with the local
    [list] as the other queue. *)
Definition ucma_free_ctx (ctx : loc) : M Z :=
  ucma_cleanup_multicast ctx ;;;
  let* c := load_ctx ctx in
  emit (op_mutex_lock (file_mut (ctx_file c))) ;;;
  let* f := load_file (ctx_file c) in
  let '(kept, list) := move_events_loop ctx (file_event_list f) in
  store_file (ctx_file c) (file_with_event_list f kept) ;;;
  let* f := load_file (ctx_file c) in
  store_file (ctx_file c)
    (file_with_ctx_list f (filter (fun q => q <> ctx) (file_ctx_list f))) ;;;
  let* c := load_ctx ctx in
  let events_reported := ctx_events_reported c in
  emit (op_mutex_unlock (file_mut (ctx_file c))) ;;;
  free_events_loop list ;;;
  kfree_ctx ctx ;;;
  ret events_reported.

Section Teardown.

Variable abi : uapi_sizes.

(** [cmd] is the id read by [copy_from_user], [pending] the work items
    that [flush_workqueue] finds on the session's [close_wq] and
    [copy_ok] whether the response reaches the client.  The call sleeps
    where the flush or [wait_for_completion] does. *)
Definition ucma_destroy_id (file : loc) (out_len : Z) (cmd : option Z)
    (pending : list close_work) (copy_ok : bool) : M outcome :=
  if out_len <? sizeof_destroy_id_resp abi then ret (Done (- ENOSPC))
  else match cmd with
  | None => ret (Done (- EFAULT))
  | Some id =>
      emit (op_xa_lock XA_ctx_table) ;;;
      let* r := _ucma_find_context id file in
      match r with
      | Ptr ctx => let* c := load_ctx ctx in xa_erase_ctx (ctx_id c)
      | Err _ => ret tt
      end ;;;
      emit (op_xa_unlock XA_ctx_table) ;;;
      match r with
      | Err e => ret (Done e)
      | Ptr ctx =>
          let* c := load_ctx ctx in
          emit (op_mutex_lock (file_mut (ctx_file c))) ;;;
          store_ctx ctx (ctx_with_destroying c 1) ;;;
          emit (op_mutex_unlock (file_mut (ctx_file c))) ;;;
          let* flushed := flush_workqueue pending in
          if negb flushed then ret Sleeps
          else
            emit (op_xa_lock XA_ctx_table) ;;;
            let* c := load_ctx ctx in
            let* closed :=
              if bool_decide (ctx_closing c = 0) then
                emit (op_xa_unlock XA_ctx_table) ;;;
                ucma_put_ctx ctx ;;;
                let* done := wait_for_completion ctx in
                if negb done then ret false
                else
                  let* c := load_ctx ctx in
                  let* cm := deref (ctx_cm_id c) in
                  rdma_destroy_id cm ;;;
                  ret true
              else
                emit (op_xa_unlock XA_ctx_table) ;;; ret true in
            if negb closed then ret Sleeps
            else
              let* events_reported := ucma_free_ctx ctx in
              let* ok := copy_to_user (resp_of_events_reported events_reported)
                           copy_ok in
              ret (Done (if negb ok then - EFAULT else 0))
      end
  end.

End Teardown.

(** ** Sessions *)

(** [kmalloc] and [kfree] of a session. *)
Definition kmalloc_file (p : loc) (f : ucma_file) : M unit :=
  fun s => Some (tt, st_with_files s (<[p := f]> (files s))).
Definition kfree_file (p : loc) : M unit :=
  fun s => Some (tt, st_with_files s (delete p (files s))).

(** Event mask bits of include/uapi/linux/eventpoll.h. *)
Definition EPOLLIN : Z := 1.
Definition EPOLLRDNORM : Z := 64.

(** [filp->private_data] is the session. *)
Definition ucma_poll (file : loc) : M Z :=
  let* f := load_file file in
  match file_event_list f with
  | [] => ret 0
  | _ :: _ => ret (Z.lor EPOLLIN EPOLLRDNORM)
  end.

(** [kz] is what [kmalloc] returned, [wq] whether the workqueue could be
    allocated, [nonblock] the O_NONBLOCK flag of [filp] and [stream] what
    [stream_open] returns.  The result is the return value and the
    [private_data] left in [filp]. *)
Definition ucma_open (kz : option loc) (wq : bool) (nonblock : bool)
    (stream : Z) : M (Z * option loc) :=
  match kz with
  | None => ret (- ENOMEM, None)
  | Some p =>
      if negb wq then ret (- ENOMEM, None)
      else
        kmalloc_file p (mk_file nonblock [] []) ;;;
        ret (stream, Some p)
  end.

(** The body of the loop of [ucma_close], over the contexts of the
    session; [pending] gives the work items each flush finds.  [false]:
    the loop sleeps. *)
Fixpoint ucma_close_loop (file : loc) (pending : loc -> list close_work)
    (l : list loc) : M bool :=
  match l with
  | [] => ret true
  | ctx :: tmp =>
      let* c := load_ctx ctx in
      store_ctx ctx (ctx_with_destroying c 1) ;;;
      emit (op_mutex_unlock (file_mut file)) ;;;
      xa_erase_ctx (ctx_id c) ;;;
      let* flushed := flush_workqueue (pending ctx) in
      if negb flushed then ret false
      else
        emit (op_xa_lock XA_ctx_table) ;;;
        let* c := load_ctx ctx in
        let* closed :=
          if bool_decide (ctx_closing c = 0) then
            emit (op_xa_unlock XA_ctx_table) ;;;
            ucma_put_ctx ctx ;;;
            let* done := wait_for_completion ctx in
            if negb done then ret false
            else
              let* c := load_ctx ctx in
              let* cm := deref (ctx_cm_id c) in
              rdma_destroy_id cm ;;;
              ret true
          else
            emit (op_xa_unlock XA_ctx_table) ;;; ret true in
        if negb closed then ret false
        else
          ucma_free_ctx ctx ;;;
          emit (op_mutex_lock (file_mut file)) ;;;
          ucma_close_loop file pending tmp
  end.

Definition ucma_close (file : loc) (pending : loc -> list close_work)
  : M outcome :=
  emit (op_mutex_lock (file_mut file)) ;;;
  let* f := load_file file in
  let* finished := ucma_close_loop file pending (file_ctx_list f) in
  if negb finished then ret Sleeps
  else
    emit (op_mutex_unlock (file_mut file)) ;;;
    kfree_file file ;;;
    ret (Done 0).

(** ** Commands forwarded to the engine *)

(** The commands of this section hand the context's engine object to the
    connection-manager engine under the context's mutex.  What the engine
    returns is an argument of the command: a value where the call takes
    nothing from the command but the engine object, a function of the
    arguments built from the command otherwise.  These engine calls and
    the copy of [ucma_init_qp_attr] leave no entry in the log. *)

(** A socket address as the client hands it over. *)
Record sockaddr := mk_sockaddr {
  sa_family : Z;
  sa_data : list Z
}.

(** [struct rdma_ucm_conn_param]. *)
Record rdma_ucm_conn_param := mk_ucm_conn_param {
  ucp_qp_num : Z;
  ucp_qkey : Z;
  ucp_private_data : list Z;
  ucp_private_data_len : Z;
  ucp_srq : Z;
  ucp_responder_resources : Z;
  ucp_initiator_depth : Z;
  ucp_flow_control : Z;
  ucp_retry_count : Z;
  ucp_rnr_retry_count : Z;
  ucp_valid : Z
}.

(** [struct rdma_conn_param] as [ucma_copy_conn_param] fills it in: the
    fields of [rdma_conn_param] and the two fields [private_data_len] and
    [qkey], which the event path does not read. *)
Record conn_request := mk_conn_request {
  req_param : rdma_conn_param;
  req_private_data_len : Z;
  req_qkey : Z
}.

(** [struct rdma_ucm_ece]. *)
Record rdma_ucm_ece := mk_ece {
  ucm_ece_vendor_id : Z;
  ucm_ece_attr_mod : Z
}.

(** [src_is_ib]: whether the family of the source address of the engine
    object is AF_IB. *)
Definition ucma_copy_conn_param (src_is_ib : bool) (src : rdma_ucm_conn_param)
  : conn_request :=
  mk_conn_request
    (mk_conn_param (ucp_private_data src) (ucp_responder_resources src)
       (ucp_initiator_depth src) (ucp_flow_control src) (ucp_retry_count src)
       (ucp_rnr_retry_count src) (ucp_srq src)
       (Z.land (ucp_qp_num src) 16777215))
    (ucp_private_data_len src)
    (if src_is_ib then ucp_qkey src else 0).

Record rdma_ucm_bind_ip := mk_bind_ip {
  bind_ip_id : Z;
  bind_ip_addr : sockaddr
}.

Record rdma_ucm_bind := mk_bind {
  bind_id : Z;
  bind_addr_size : Z;
  bind_reserved : Z;
  bind_addr : sockaddr
}.

Record rdma_ucm_resolve_ip := mk_resolve_ip {
  resolve_ip_id : Z;
  resolve_ip_timeout_ms : Z;
  resolve_ip_src_addr : sockaddr;
  resolve_ip_dst_addr : sockaddr
}.

Record rdma_ucm_resolve_addr := mk_resolve_addr {
  resolve_id : Z;
  resolve_timeout_ms : Z;
  resolve_src_size : Z;
  resolve_dst_size : Z;
  resolve_reserved : Z;
  resolve_src_addr : sockaddr;
  resolve_dst_addr : sockaddr
}.

Record rdma_ucm_resolve_route := mk_resolve_route {
  resolve_route_id : Z;
  resolve_route_timeout_ms : Z
}.

Record rdma_ucm_connect := mk_connect {
  connect_conn_param : rdma_ucm_conn_param;
  connect_id : Z;
  connect_ece : rdma_ucm_ece
}.

Record rdma_ucm_accept := mk_accept {
  accept_uid : Z;
  accept_conn_param : rdma_ucm_conn_param;
  accept_id : Z;
  accept_ece : rdma_ucm_ece
}.

Record rdma_ucm_reject := mk_reject {
  reject_id : Z;
  reject_private_data_len : Z;
  reject_reason : Z;
  reject_private_data : list Z
}.

Record rdma_ucm_notify := mk_notify {
  notify_id : Z;
  notify_event : Z
}.

Record rdma_ucm_init_qp_attr := mk_init_qp_attr {
  init_qp_attr_response : Z;
  init_qp_attr_id : Z;
  init_qp_attr_qp_state : Z
}.

(** Where the fields [reserved] and [ece] of a connect or accept command
    end, and the size of the command. *)
Record ece_layout := mk_ece_layout {
  offsetofend_reserved : Z;
  offsetofend_ece : Z;
  sizeof_cmd : Z
}.

Section Forwarding.

(** [rdma_addr_size_in6] and [rdma_addr_size_kss] of
    drivers/infiniband/core/addr.c. *)
Variable rdma_addr_size_in6 : sockaddr -> Z.
Variable rdma_addr_size_kss : sockaddr -> Z.

(** [engine] is what [rdma_bind_addr] returns. *)
Definition ucma_bind_ip (file : loc) (cmd : option rdma_ucm_bind_ip)
    (engine : Z) : M Z :=
  match cmd with
  | None => ret (- EFAULT)
  | Some cmd =>
      if bool_decide (rdma_addr_size_in6 (bind_ip_addr cmd) = 0)
      then ret (- EINVAL)
      else
        let* r := ucma_get_ctx file (bind_ip_id cmd) in
        match r with
        | Err e => ret e
        | Ptr ctxp =>
            emit (op_mutex_lock (ctx_mutex ctxp)) ;;;
            let* ctx := load_ctx ctxp in
            let* cm := deref (ctx_cm_id ctx) in
            emit (op_mutex_unlock (ctx_mutex ctxp)) ;;;
            ucma_put_ctx ctxp ;;;
            ret engine
        end
  end.

Definition ucma_bind (file : loc) (cmd : option rdma_ucm_bind) (engine : Z)
  : M Z :=
  match cmd with
  | None => ret (- EFAULT)
  | Some cmd =>
      if negb (bool_decide (bind_reserved cmd = 0))
         || bool_decide (bind_addr_size cmd = 0)
         || negb (bool_decide (bind_addr_size cmd
                               = rdma_addr_size_kss (bind_addr cmd)))
      then ret (- EINVAL)
      else
        let* r := ucma_get_ctx file (bind_id cmd) in
        match r with
        | Err e => ret e
        | Ptr ctxp =>
            emit (op_mutex_lock (ctx_mutex ctxp)) ;;;
            let* ctx := load_ctx ctxp in
            let* cm := deref (ctx_cm_id ctx) in
            emit (op_mutex_unlock (ctx_mutex ctxp)) ;;;
            ucma_put_ctx ctxp ;;;
            ret engine
        end
  end.

(** [engine] is what [rdma_resolve_addr] returns. *)
Definition ucma_resolve_ip (file : loc) (cmd : option rdma_ucm_resolve_ip)
    (engine : Z) : M Z :=
  match cmd with
  | None => ret (- EFAULT)
  | Some cmd =>
      if (negb (bool_decide (sa_family (resolve_ip_src_addr cmd) = 0))
          && bool_decide (rdma_addr_size_in6 (resolve_ip_src_addr cmd) = 0))
         || bool_decide (rdma_addr_size_in6 (resolve_ip_dst_addr cmd) = 0)
      then ret (- EINVAL)
      else
        let* r := ucma_get_ctx file (resolve_ip_id cmd) in
        match r with
        | Err e => ret e
        | Ptr ctxp =>
            emit (op_mutex_lock (ctx_mutex ctxp)) ;;;
            let* ctx := load_ctx ctxp in
            let* cm := deref (ctx_cm_id ctx) in
            emit (op_mutex_unlock (ctx_mutex ctxp)) ;;;
            ucma_put_ctx ctxp ;;;
            ret engine
        end
  end.

Definition ucma_resolve_addr (file : loc) (cmd : option rdma_ucm_resolve_addr)
    (engine : Z) : M Z :=
  match cmd with
  | None => ret (- EFAULT)
  | Some cmd =>
      if negb (bool_decide (resolve_reserved cmd = 0))
         || (negb (bool_decide (resolve_src_size cmd = 0))
             && negb (bool_decide (resolve_src_size cmd
                                   = rdma_addr_size_kss (resolve_src_addr cmd))))
         || bool_decide (resolve_dst_size cmd = 0)
         || negb (bool_decide (resolve_dst_size cmd
                               = rdma_addr_size_kss (resolve_dst_addr cmd)))
      then ret (- EINVAL)
      else
        let* r := ucma_get_ctx file (resolve_id cmd) in
        match r with
        | Err e => ret e
        | Ptr ctxp =>
            emit (op_mutex_lock (ctx_mutex ctxp)) ;;;
            let* ctx := load_ctx ctxp in
            let* cm := deref (ctx_cm_id ctx) in
            emit (op_mutex_unlock (ctx_mutex ctxp)) ;;;
            ucma_put_ctx ctxp ;;;
            ret engine
        end
  end.

End Forwarding.

(** [engine] is what [rdma_resolve_route] returns. *)
Definition ucma_resolve_route (file : loc) (cmd : option rdma_ucm_resolve_route)
    (engine : Z) : M Z :=
  match cmd with
  | None => ret (- EFAULT)
  | Some cmd =>
      let* r := ucma_get_ctx_dev file (resolve_route_id cmd) in
      match r with
      | Err e => ret e
      | Ptr ctxp =>
          emit (op_mutex_lock (ctx_mutex ctxp)) ;;;
          let* ctx := load_ctx ctxp in
          let* cm := deref (ctx_cm_id ctx) in
          emit (op_mutex_unlock (ctx_mutex ctxp)) ;;;
          ucma_put_ctx ctxp ;;;
          ret engine
      end
  end.

(** [cmd] is the id read by [copy_from_user], [engine] what
    [rdma_disconnect] returns. *)
Definition ucma_disconnect (file : loc) (cmd : option Z) (engine : Z) : M Z :=
  match cmd with
  | None => ret (- EFAULT)
  | Some id =>
      let* r := ucma_get_ctx_dev file id in
      match r with
      | Err e => ret e
      | Ptr ctxp =>
          emit (op_mutex_lock (ctx_mutex ctxp)) ;;;
          let* ctx := load_ctx ctxp in
          let* cm := deref (ctx_cm_id ctx) in
          emit (op_mutex_unlock (ctx_mutex ctxp)) ;;;
          ucma_put_ctx ctxp ;;;
          ret engine
      end
  end.

(** [engine] is what [rdma_notify] returns. *)
Definition ucma_notify (file : loc) (cmd : option rdma_ucm_notify) (engine : Z)
  : M Z :=
  match cmd with
  | None => ret (- EFAULT)
  | Some cmd =>
      let* r := ucma_get_ctx file (notify_id cmd) in
      match r with
      | Err e => ret e
      | Ptr ctxp =>
          emit (op_mutex_lock (ctx_mutex ctxp)) ;;;
          let* ctx := load_ctx ctxp in
          let* cm := deref (ctx_cm_id ctx) in
          let* cmo := load_cm_id cm in
          let ret_ := match cm_device cmo with
                      | Some _ => engine
                      | None => - EINVAL
                      end in
          emit (op_mutex_unlock (ctx_mutex ctxp)) ;;;
          ucma_put_ctx ctxp ;;;
          ret ret_
      end
  end.

Section Reject.

(** The two reasons of [enum ib_cm_rej_reason] (include/rdma/ib_cm.h) that
    a client may give. *)
Variable IB_CM_REJ_CONSUMER_DEFINED : Z.
Variable IB_CM_REJ_VENDOR_OPTION_NOT_SUPPORTED : Z.

(** [engine] maps the private data, its length and the reason handed to
    [rdma_reject] to what it returns. *)
Definition ucma_reject (file : loc) (cmd : option rdma_ucm_reject)
    (engine : list Z -> Z -> Z -> Z) : M Z :=
  match cmd with
  | None => ret (- EFAULT)
  | Some cmd =>
      let reason := if bool_decide (reject_reason cmd = 0)
                    then IB_CM_REJ_CONSUMER_DEFINED else reject_reason cmd in
      if negb (bool_decide (reason = IB_CM_REJ_CONSUMER_DEFINED)
               || bool_decide (reason = IB_CM_REJ_VENDOR_OPTION_NOT_SUPPORTED))
      then ret (- EINVAL)
      else
        let* r := ucma_get_ctx_dev file (reject_id cmd) in
        match r with
        | Err e => ret e
        | Ptr ctxp =>
            emit (op_mutex_lock (ctx_mutex ctxp)) ;;;
            let* ctx := load_ctx ctxp in
            let* cm := deref (ctx_cm_id ctx) in
            let ret_ := engine (reject_private_data cmd)
                          (reject_private_data_len cmd) reason in
            emit (op_mutex_unlock (ctx_mutex ctxp)) ;;;
            ucma_put_ctx ctxp ;;;
            ret ret_
        end
  end.

End Reject.

Section ConnectAccept.

Variable lay : ece_layout.

(** [in_len] is the [u16] field [hdr.in]; [src_is_ib] is read from the
    engine object; [engine] maps the parameters and the ECE data handed
    to [rdma_connect_ece] to what it returns. *)
Definition ucma_connect (file : loc) (in_len : Z) (cmd : option rdma_ucm_connect)
    (src_is_ib : bool) (engine : conn_request -> rdma_ucm_ece -> Z) : M Z :=
  if in_len <? offsetofend_reserved lay then ret (- EINVAL)
  else
    let in_size := Z.min in_len (sizeof_cmd lay) in
    match cmd with
    | None => ret (- EFAULT)
    | Some cmd =>
        if bool_decide (ucp_valid (connect_conn_param cmd) = 0)
        then ret (- EINVAL)
        else
          let* r := ucma_get_ctx_dev file (connect_id cmd) in
          match r with
          | Err e => ret e
          | Ptr ctxp =>
              let* ctx := load_ctx ctxp in
              let* cm := deref (ctx_cm_id ctx) in
              let conn_param :=
                ucma_copy_conn_param src_is_ib (connect_conn_param cmd) in
              let ece := if offsetofend_ece lay <=? in_size
                         then connect_ece cmd else mk_ece 0 0 in
              emit (op_mutex_lock (ctx_mutex ctxp)) ;;;
              let ret_ := engine conn_param ece in
              emit (op_mutex_unlock (ctx_mutex ctxp)) ;;;
              ucma_put_ctx ctxp ;;;
              ret ret_
          end
    end.

(** [engine] maps the parameters (NULL when the command carries none)
    and the ECE data handed to [__rdma_accept_ece] to what it returns. *)
Definition ucma_accept (file : loc) (in_len : Z) (cmd : option rdma_ucm_accept)
    (src_is_ib : bool) (engine : option conn_request -> rdma_ucm_ece -> Z)
  : M Z :=
  if in_len <? offsetofend_reserved lay then ret (- EINVAL)
  else
    let in_size := Z.min in_len (sizeof_cmd lay) in
    match cmd with
    | None => ret (- EFAULT)
    | Some cmd =>
        let* r := ucma_get_ctx_dev file (accept_id cmd) in
        match r with
        | Err e => ret e
        | Ptr ctxp =>
            let ece := if offsetofend_ece lay <=? in_size
                       then accept_ece cmd else mk_ece 0 0 in
            let* ret_ :=
              if negb (bool_decide (ucp_valid (accept_conn_param cmd) = 0)) then
                let* ctx := load_ctx ctxp in
                let* cm := deref (ctx_cm_id ctx) in
                let conn_param :=
                  ucma_copy_conn_param src_is_ib (accept_conn_param cmd) in
                emit (op_mutex_lock (file_mut file)) ;;;
                emit (op_mutex_lock (ctx_mutex ctxp)) ;;;
                let ret_ := engine (Some conn_param) ece in
                emit (op_mutex_unlock (ctx_mutex ctxp)) ;;;
                (if bool_decide (ret_ = 0) then
                   let* ctx := load_ctx ctxp in
                   store_ctx ctxp (ctx_with_uid ctx (accept_uid cmd))
                 else ret tt) ;;;
                emit (op_mutex_unlock (file_mut file)) ;;;
                ret ret_
              else
                emit (op_mutex_lock (ctx_mutex ctxp)) ;;;
                let* ctx := load_ctx ctxp in
                let* cm := deref (ctx_cm_id ctx) in
                let ret_ := engine None ece in
                emit (op_mutex_unlock (ctx_mutex ctxp)) ;;;
                ret ret_ in
            ucma_put_ctx ctxp ;;;
            ret ret_
        end
    end.

End ConnectAccept.

Section InitQpAttr.

(** [sizeof(struct ib_uverbs_qp_attr)] and the last state [IB_QPS_ERR] of
    [enum ib_qp_state] (include/rdma/ib_verbs.h). *)
Variable sizeof_qp_attr : Z.
Variable IB_QPS_ERR : Z.

(** [engine] maps the state asked for to what [rdma_init_qp_attr]
    returns, [copy_ok] tells whether the attributes reach the client. *)
Definition ucma_init_qp_attr (file : loc) (out_len : Z)
    (cmd : option rdma_ucm_init_qp_attr) (engine : Z -> Z) (copy_ok : bool)
  : M Z :=
  if out_len <? sizeof_qp_attr then ret (- ENOSPC)
  else match cmd with
  | None => ret (- EFAULT)
  | Some cmd =>
      if IB_QPS_ERR <? init_qp_attr_qp_state cmd then ret (- EINVAL)
      else
        let* r := ucma_get_ctx_dev file (init_qp_attr_id cmd) in
        match r with
        | Err e => ret e
        | Ptr ctxp =>
            emit (op_mutex_lock (ctx_mutex ctxp)) ;;;
            let* ctx := load_ctx ctxp in
            let* cm := deref (ctx_cm_id ctx) in
            let ret_ := engine (init_qp_attr_qp_state cmd) in
            emit (op_mutex_unlock (ctx_mutex ctxp)) ;;;
            let ret_ :=
              if negb (bool_decide (ret_ = 0)) then ret_
              else if negb copy_ok then - EFAULT else ret_ in
            ucma_put_ctx ctxp ;;;
            ret ret_
        end
  end.

End InitQpAttr.

(** ** Queries *)

(** The queries fill a response from the fields of the engine object and
    copy it out.  The model keeps what decides the result and the number
    of bytes copied: the result of a query is its return value and the
    size handed to [copy_to_user], [None] where nothing is copied.  The
    contents of the responses are left out.  [out_len] is the [u16]
    field [out] of the command header, so its comparisons with sizes
    are comparisons of non-negative numbers. *)

(** [enum] of the query options (include/uapi/rdma/rdma_user_cm.h). *)
Inductive rdma_user_cm_query :=
| RDMA_USER_CM_QUERY_ADDR
| RDMA_USER_CM_QUERY_PATH
| RDMA_USER_CM_QUERY_GID
| RDMA_USER_CM_QUERY_other (n : Z).

Record rdma_ucm_query := mk_query {
  query_response : Z;
  query_id : Z;
  query_option : rdma_user_cm_query
}.

(** Sizes of the response structures. *)
Record query_sizes := mk_query_sizes {
  offsetof_route_resp_ibdev_index : Z;  (* in struct rdma_ucm_query_route_resp *)
  sizeof_route_resp : Z;
  offsetof_addr_resp_ibdev_index : Z;   (* in struct rdma_ucm_query_addr_resp *)
  sizeof_addr_resp : Z;
  sizeof_path_resp : Z;                 (* struct rdma_ucm_query_path_resp,
                                           without its flexible array *)
  sizeof_path_rec_data : Z              (* struct ib_path_rec_data *)
}.

Section Query.

Variable qs : query_sizes.

(** The loop of [ucma_query_path] with [i] records filled in and
    [out_len] bytes of the buffer left; the result is the final [i].
    Every iteration increments [i] towards [num_paths], so [fuel]
    iterations suffice when [fuel] is at least [num_paths - i]. *)
Fixpoint query_path_loop (fuel : nat) (num_paths i out_len : Z) : Z :=
  match fuel with
  | O => i
  | S fuel =>
      if (i <? num_paths) && (sizeof_path_rec_data qs <? out_len)
      then query_path_loop fuel num_paths (i + 1)
             (out_len - sizeof_path_rec_data qs)
      else i
  end.

(** [num_paths] is [ctx->cm_id->route.num_paths], a count; [kz] tells
    whether the [kzalloc] of the response succeeds. *)
Definition ucma_query_path (num_paths : Z) (out_len : Z) (kz copy_ok : bool)
  : Z * option Z :=
  if out_len <? sizeof_path_resp qs then (- ENOSPC, None)
  else if negb kz then (- ENOMEM, None)
  else
    let i := query_path_loop (Z.to_nat num_paths) num_paths 0
               (out_len - sizeof_path_resp qs) in
    (if copy_ok then 0 else - EFAULT,
     Some (sizeof_path_resp qs + i * sizeof_path_rec_data qs)).

Definition ucma_query_addr (out_len : Z) (copy_ok : bool) : Z * option Z :=
  if out_len <? offsetof_addr_resp_ibdev_index qs then (- ENOSPC, None)
  else (if copy_ok then 0 else - EFAULT,
        Some (Z.min out_len (sizeof_addr_resp qs))).

Definition ucma_query_gid (out_len : Z) (copy_ok : bool) : Z * option Z :=
  if out_len <? offsetof_addr_resp_ibdev_index qs then (- ENOSPC, None)
  else (if copy_ok then 0 else - EFAULT,
        Some (Z.min out_len (sizeof_addr_resp qs))).

Definition ucma_query (file : loc) (out_len : Z) (cmd : option rdma_ucm_query)
    (num_paths : Z) (kz copy_ok : bool) : M (Z * option Z) :=
  match cmd with
  | None => ret (- EFAULT, None)
  | Some cmd =>
      let* r := ucma_get_ctx file (query_id cmd) in
      match r with
      | Err e => ret (e, None)
      | Ptr ctxp =>
          emit (op_mutex_lock (ctx_mutex ctxp)) ;;;
          let* ctx := load_ctx ctxp in
          let* ret_ :=
            match query_option cmd with
            | RDMA_USER_CM_QUERY_ADDR =>
                let* cm := deref (ctx_cm_id ctx) in
                ret (ucma_query_addr out_len copy_ok)
            | RDMA_USER_CM_QUERY_PATH =>
                let* cm := deref (ctx_cm_id ctx) in
                ret (ucma_query_path num_paths out_len kz copy_ok)
            | RDMA_USER_CM_QUERY_GID =>
                let* cm := deref (ctx_cm_id ctx) in
                ret (ucma_query_gid out_len copy_ok)
            | RDMA_USER_CM_QUERY_other _ => ret (- ENOSYS, None)
            end in
          emit (op_mutex_unlock (ctx_mutex ctxp)) ;;;
          ucma_put_ctx ctxp ;;;
          ret ret_
      end
  end.

Definition ucma_query_route (file : loc) (out_len : Z)
    (cmd : option rdma_ucm_query) (copy_ok : bool) : M (Z * option Z) :=
  if out_len <? offsetof_route_resp_ibdev_index qs then ret (- ENOSPC, None)
  else match cmd with
  | None => ret (- EFAULT, None)
  | Some cmd =>
      let* r := ucma_get_ctx file (query_id cmd) in
      match r with
      | Err e => ret (e, None)
      | Ptr ctxp =>
          emit (op_mutex_lock (ctx_mutex ctxp)) ;;;
          let* ctx := load_ctx ctxp in
          let* cm := deref (ctx_cm_id ctx) in
          let* cmo := load_cm_id cm in
          emit (op_mutex_unlock (ctx_mutex ctxp)) ;;;
          let ret_ := if copy_ok then 0 else - EFAULT in
          ucma_put_ctx ctxp ;;;
          ret (ret_, Some (Z.min out_len (sizeof_route_resp qs)))
      end
  end.

End Query.

(** ** Options *)

Record rdma_ucm_set_option := mk_set_option {
  set_option_optval : Z;
  set_option_id : Z;
  set_option_level : Z;
  set_option_optname : Z;
  set_option_optlen : Z
}.

(** The option levels and names of include/uapi/rdma/rdma_user_cm.h, the
    flags [IB_PATH_GMP | IB_PATH_PRIMARY | IB_PATH_BIDIRECTIONAL] and the
    size of [struct ib_path_rec_data] of include/uapi/rdma/ib_user_sa.h,
    and [KMALLOC_MAX_SIZE] of include/linux/slab.h. *)
Record option_consts := mk_option_consts {
  RDMA_OPTION_ID : Z;
  RDMA_OPTION_IB : Z;
  RDMA_OPTION_ID_TOS : Z;
  RDMA_OPTION_ID_REUSEADDR : Z;
  RDMA_OPTION_ID_AFONLY : Z;
  RDMA_OPTION_ID_ACK_TIMEOUT : Z;
  RDMA_OPTION_IB_PATH : Z;
  IB_PATH_PRIMARY_FLAGS : Z;
  sizeof_ib_path_rec_data : Z;
  KMALLOC_MAX_SIZE : Z
}.

Section Options.

Variable oc : option_consts.

(** How four bytes of memory make a [__u32] on this machine. *)
Variable u32_of_bytes : list Z -> Z.

(** The option value read as a [u8], and read as an [int] and tested
    for being non-zero, for the option value given by its bytes. *)
Definition optval_u8 (optval : list Z) : Z := nth 0 optval 0.
Definition optval_flag (optval : list Z) : Z :=
  if forallb (Z.eqb 0) (take 4 optval) then 0 else 1.

(** [engine] maps the option name and the value handed to the engine to
    what the engine returns; [rdma_set_service_type] returns nothing. *)
Definition ucma_set_option_id (ctxp : loc) (optname : Z) (optval : list Z)
    (optlen : Z) (engine : Z -> Z -> Z) : M Z :=
  let* ctx := load_ctx ctxp in
  if bool_decide (optname = RDMA_OPTION_ID_TOS oc) then
    if negb (bool_decide (optlen = 1)) then ret (- EINVAL)
    else let* cm := deref (ctx_cm_id ctx) in ret 0
  else if bool_decide (optname = RDMA_OPTION_ID_REUSEADDR oc) then
    if negb (bool_decide (optlen = 4)) then ret (- EINVAL)
    else let* cm := deref (ctx_cm_id ctx) in
         ret (engine optname (optval_flag optval))
  else if bool_decide (optname = RDMA_OPTION_ID_AFONLY oc) then
    if negb (bool_decide (optlen = 4)) then ret (- EINVAL)
    else let* cm := deref (ctx_cm_id ctx) in
         ret (engine optname (optval_flag optval))
  else if bool_decide (optname = RDMA_OPTION_ID_ACK_TIMEOUT oc) then
    if negb (bool_decide (optlen = 1)) then ret (- EINVAL)
    else let* cm := deref (ctx_cm_id ctx) in
         ret (engine optname (optval_u8 optval))
  else ret (- ENOSYS).

(** The array [path_data] of [optlen] bytes, in entries of the size of
    [struct ib_path_rec_data], that
    the option value holds, each entry given by its bytes. *)
Definition path_entries (optval : list Z) (optlen : Z) : list (list Z) :=
  reshape (replicate (Z.to_nat (optlen / sizeof_ib_path_rec_data oc))
             (Z.to_nat (sizeof_ib_path_rec_data oc))) optval.

(** The loop of [ucma_set_ib_path]: the first entry whose [flags], its
    first field, are the primary flags. *)
Fixpoint find_path_data (l : list (list Z)) : option (list Z) :=
  match l with
  | [] => None
  | path_data :: tmp =>
      if bool_decide (u32_of_bytes (take 4 path_data) = IB_PATH_PRIMARY_FLAGS oc)
      then Some path_data
      else find_path_data tmp
  end.

(** The zeroed event with [event.event = RDMA_CM_EVENT_ROUTE_RESOLVED]. *)
Definition route_resolved_event : rdma_cm_event :=
  mk_cm_event RDMA_CM_EVENT_ROUTE_RESOLVED 0
    (mk_conn_param [] 0 0 0 0 0 0 0) (mk_ud_param None [] 0 0) 0 0.

(** [opa] is the result of [rdma_cap_opa_ah]; [engine] maps it and the
    entry whose path record is unpacked to what [rdma_set_ib_path]
    returns; [kz] is the allocation result of the event handler. *)
Definition ucma_set_ib_path (ctxp : loc) (optval : list Z) (optlen : Z)
    (opa : bool) (engine : bool -> list Z -> Z) (kz : bool) : M Z :=
  if negb (bool_decide (optlen mod sizeof_ib_path_rec_data oc = 0))
  then ret (- EINVAL)
  else match find_path_data (path_entries optval optlen) with
  | None => ret (- EINVAL)
  | Some path_data =>
      let* ctx := load_ctx ctxp in
      let* cm := deref (ctx_cm_id ctx) in
      let* cmo := load_cm_id cm in
      match cm_device cmo with
      | None => ret (- EINVAL)
      | Some _ =>
          emit (op_mutex_lock (ctx_mutex ctxp)) ;;;
          let ret_ := engine opa path_data in
          emit (op_mutex_unlock (ctx_mutex ctxp)) ;;;
          if negb (bool_decide (ret_ = 0)) then ret ret_
          else ucma_event_handler cm route_resolved_event kz
      end
  end.

Definition ucma_set_option_ib (ctxp : loc) (optname : Z) (optval : list Z)
    (optlen : Z) (opa : bool) (engine : bool -> list Z -> Z) (kz : bool) : M Z :=
  if bool_decide (optname = RDMA_OPTION_IB_PATH oc)
  then ucma_set_ib_path ctxp optval optlen opa engine kz
  else ret (- ENOSYS).

Definition ucma_set_option_level (ctxp : loc) (level optname : Z)
    (optval : list Z) (optlen : Z) (engine_id : Z -> Z -> Z) (opa : bool)
    (engine_ib : bool -> list Z -> Z) (kz : bool) : M Z :=
  if bool_decide (level = RDMA_OPTION_ID oc) then
    emit (op_mutex_lock (ctx_mutex ctxp)) ;;;
    let* ret_ := ucma_set_option_id ctxp optname optval optlen engine_id in
    emit (op_mutex_unlock (ctx_mutex ctxp)) ;;;
    ret ret_
  else if bool_decide (level = RDMA_OPTION_IB oc) then
    ucma_set_option_ib ctxp optname optval optlen opa engine_ib kz
  else ret (- ENOSYS).

(** [optval] is what [memdup_user] returned: an error, or the
    [cmd.optlen] bytes of the option value. *)
Definition ucma_set_option (file : loc) (cmd : option rdma_ucm_set_option)
    (optval : Z + list Z) (engine_id : Z -> Z -> Z) (opa : bool)
    (engine_ib : bool -> list Z -> Z) (kz : bool) : M Z :=
  match cmd with
  | None => ret (- EFAULT)
  | Some cmd =>
      if KMALLOC_MAX_SIZE oc <? set_option_optlen cmd then ret (- EINVAL)
      else
        let* r := ucma_get_ctx file (set_option_id cmd) in
        match r with
        | Err e => ret e
        | Ptr ctxp =>
            let* ret_ :=
              match optval with
              | inl e => ret e
              | inr optval =>
                  ucma_set_option_level ctxp (set_option_level cmd)
                    (set_option_optname cmd) optval (set_option_optlen cmd)
                    engine_id opa engine_ib kz
              end in
            ucma_put_ctx ctxp ;;;
            ret ret_
        end
  end.

End Options.

(** ** Decidable equality of the command opcodes *)

#[global] Instance rdma_user_cm_cmd_eq_dec : EqDecision rdma_user_cm_cmd.
Proof. solve_decision. Defined.

(** ** Module registration *)

(** What [ucma_init] registers, in the order in which it does. *)
Inductive registration :=
| REG_misc                (* misc_register(&ucma_misc) *)
| REG_abi_version         (* device_create_file(..., &dev_attr_abi_version) *)
| REG_sysctl              (* register_net_sysctl(..., ucma_ctl_table) *)
| REG_ib_client.          (* ib_register_client(&rdma_cma_client) *)

#[global] Instance registration_eq_dec : EqDecision registration.
Proof. solve_decision. Defined.

Inductive init_op :=
| init_register (r : registration)
| init_unregister (r : registration)
| init_pr_err.

(** [misc], [attr] and [client] are what [misc_register],
    [device_create_file] and [ib_register_client] return, [sysctl] tells
    whether [register_net_sysctl] returned a table header.  The result is
    the value returned and the registrations and unregistrations made, in
    program order; a registration that fails is not listed. *)
Definition ucma_init (misc attr : Z) (sysctl : bool) (client : Z)
  : Z * list init_op :=
  if negb (bool_decide (misc = 0)) then (misc, [])
  else if negb (bool_decide (attr = 0)) then
    (attr, [init_register REG_misc; init_pr_err;
            init_unregister REG_misc])                                (* err1 *)
  else if negb sysctl then
    (- ENOMEM, [init_register REG_misc; init_register REG_abi_version;
                init_pr_err;
                init_unregister REG_abi_version;                      (* err2 *)
                init_unregister REG_misc])                            (* err1 *)
  else if negb (bool_decide (client = 0)) then
    (client, [init_register REG_misc; init_register REG_abi_version;
              init_register REG_sysctl;
              init_unregister REG_sysctl;                             (* err3 *)
              init_unregister REG_abi_version;                        (* err2 *)
              init_unregister REG_misc])                              (* err1 *)
  else
    (0, [init_register REG_misc; init_register REG_abi_version;
         init_register REG_sysctl; init_register REG_ib_client]).

Definition ucma_cleanup : list init_op :=
  [init_unregister REG_ib_client; init_unregister REG_sysctl;
   init_unregister REG_abi_version; init_unregister REG_misc].

(** ** The GPIO registration helper (src/unnamed/part_000) *)

Inductive resource_flags := IORESOURCE_MEM | IORESOURCE_IRQ.

(** [struct resource]: the fields the helper sets. *)
Record resource := mk_resource {
  res_start : Z;
  res_end : Z;
  res_flags : resource_flags
}.

(** The arguments of a call of [platform_device_register_resndata] on the
    bus [mxc_aips_bus] with no platform data. *)
Record platform_call := mk_platform_call {
  call_name : list Z;
  call_id : Z;
  call_res : list resource;       (* the first [num] elements of [res] *)
  call_num : Z
}.

Section Gpio.

(** The width in bits of [resource_size_t]. *)
Variable bits : Z.

Definition to_resource_size (z : Z) : Z := z mod 2 ^ bits.

(** [irq] and [irq_high] are [int] values.  The result is the call that
    the helper makes; what that call returns is what the helper returns. *)
Definition mxc_register_gpio (name : list Z) (id : Z) (iobase iosize : Z)
    (irq irq_high : Z) : platform_call :=
  let res :=
    [ mk_resource iobase (to_resource_size (iobase + iosize - 1)) IORESOURCE_MEM;
      mk_resource (to_resource_size irq) (to_resource_size irq) IORESOURCE_IRQ;
      mk_resource (to_resource_size irq_high) (to_resource_size irq_high)
        IORESOURCE_IRQ ] in
  let nres := if negb (bool_decide (irq_high = 0))
              then Z.of_nat (length res) else Z.of_nat (length res) - 1 in
  mk_platform_call name id (take (Z.to_nat nres) res) nres.

End Gpio.

(** * Definitions used by the statements *)

(** The state [s] with the operations [l] appended to its log. *)
Definition logged (s : state) (l : list op) : state :=
  st_with_trace s (trace s ++ l).

(** The state after a successful lookup of the context [c] at [p]: its
    reference count is one higher, and the increment is logged between
    the lock and the unlock of the registry. *)
Definition ctx_taken (s : state) (p : loc) (c : ucma_context) : state :=
  logged (st_with_ctxs s (<[p := ctx_with_ref c (ctx_ref c + 1)]> (ctxs s)))
         [op_xa_lock XA_ctx_table; op_refcount_inc p; op_xa_unlock XA_ctx_table].

(** The state after a refused lookup: only the lock and the unlock of the
    registry are logged. *)
Definition ctx_refused (s : state) : state :=
  logged s [op_xa_lock XA_ctx_table; op_xa_unlock XA_ctx_table].

(** A small machine state: session 1 owns the listening context 10 (id 0,
    engine object 20, two admission slots), session 2 owns nothing, and
    the engine holds a second object 21 spawned for context 10. *)
Definition demo_ctx : ucma_context :=
  mk_ctx 0 0%nat 1 0 2 1%positive (Some 20%positive) 7 [] 0 0.

Definition demo_state : state :=
  mk_state 1024 {[ 0 := 10%positive ]} ∅ {[ 10%positive := demo_ctx ]} ∅
    {[ 1%positive := mk_file false [10%positive] [];
       2%positive := mk_file true [] [] ]}
    {[ 20%positive := mk_cm_id 10%positive (Some 30%positive) IB_QPT_RC;
       21%positive := mk_cm_id 10%positive None IB_QPT_RC ]} [].

(** The backlog [ucma_listen] computes from the requested value. *)
Definition listen_clamp (s : state) (cmd : rdma_ucm_listen) : Z :=
  if (0 <? listen_backlog cmd) && (listen_backlog cmd <? max_backlog s)
  then listen_backlog cmd else max_backlog s.

(** [demo_state] after a write of -1 to the sysctl entry, which
    [proc_dointvec] stores in the [unsigned int] as 2^32 - 1. *)
Definition demo_unbounded : state :=
  mk_state UINT_MAX (ctx_table demo_state) (multicast_table demo_state)
    (ctxs demo_state) (mcs demo_state) (files demo_state) (cm_ids demo_state) [].

(** A handler that does nothing, for the examples. *)
Definition call_nothing (h : ucma_handler) (file : loc) (in_len out_len : Z) : M Z :=
  ret 0.

(** The event [ucma_event_handler] builds for a connect request that the
    engine object [cm_id] of context [ctxp] reports. *)
Definition connect_request_uevent (cm_id : loc) (ev : rdma_cm_event)
    (cm : rdma_cm_id) (ctx : ucma_context) : ucma_event :=
  mk_uevent (cm_context cm) None cm_id
    (mk_resp (ctx_uid ctx) (ctx_id ctx) (event ev) (status ev)
       (if bool_decide (cm_qp_type cm = IB_QPT_UD)
        then ucma_copy_ud_event (param_ud ev)
        else ucma_copy_conn_event (param_conn ev))
       (ece_vendor_id ev) (ece_attr_mod ev)).

(** A run of engine callbacks, one after the other: each is the engine
    object that reports, the event, and whether the event allocation
    succeeds.  The result is the list of the values returned to the
    engine. *)
Fixpoint deliver (cbs : list (loc * rdma_cm_event * bool)) : M (list Z) :=
  match cbs with
  | [] => ret []
  | (cm_id, ev, kz) :: rest =>
      let* r := ucma_event_handler cm_id ev kz in
      let* rs := deliver rest in
      ret (r :: rs)
  end.

(** The number of queued connect requests that target the context. *)
Definition pending_connect_requests (ctxp : loc) (q : list ucma_event) : Z :=
  Z.of_nat (length (filter (fun e => uevent_ctx e = ctxp
                                     /\ resp_event (uevent_resp e)
                                        = RDMA_CM_EVENT_CONNECT_REQUEST) q)).



(** A connect request with empty parameters, for the examples. *)
Definition demo_connect_request : rdma_cm_event :=
  mk_cm_event RDMA_CM_EVENT_CONNECT_REQUEST 0
    (mk_conn_param [] 0 0 0 0 0 0 0) (mk_ud_param None [] 0 0) 0 0.

(** The smallest response buffer [ucma_get_event] accepts. *)
Definition min_event_resp (abi : uapi_sizes) : Z :=
  sizeof_event_resp abi - sizeof_event_resp_reserved abi
  - sizeof_event_resp_ece abi.

(** The context [ucma_get_event] creates for a connect request: allocated
    by [ucma_alloc_ctx] for the reading session, then given the engine
    object of the event. *)
Definition spawned_ctx (file : loc) (i : Z) (cm_id : loc) : ucma_context :=
  mk_ctx i 0%nat 1 0 0 file (Some cm_id) 0 [] 0 0.

(** The connect request that the handler queues for the listener of
    [demo_state] when the engine object 21 reports it, and the state with
    that request queued. *)
Definition demo_uevent : ucma_event :=
  connect_request_uevent 21%positive demo_connect_request
    (mk_cm_id 10%positive None IB_QPT_RC) demo_ctx.

Definition demo_queued : state :=
  mk_state 1024 {[ 0 := 10%positive ]} ∅
    {[ 10%positive := ctx_with_backlog demo_ctx 1 ]} ∅
    {[ 1%positive := mk_file false [10%positive] [demo_uevent];
       2%positive := mk_file true [] [] ]}
    {[ 20%positive := mk_cm_id 10%positive (Some 30%positive) IB_QPT_RC;
       21%positive := mk_cm_id 10%positive None IB_QPT_RC ]} [].

(** A state with a multicast group: context 10 of session 1 has joined
    group 40, published under id 5, and the queue of session 1 holds two
    events of the group around one event of the context. *)
Definition demo_mc_event : ucma_event :=
  mk_uevent 10%positive (Some 40%positive) 20%positive
    (mk_resp 0 5 RDMA_CM_EVENT_MULTICAST_JOIN 0 resp_none 0 0).

Definition demo_ctx_event : ucma_event :=
  mk_uevent 10%positive None 20%positive
    (mk_resp 7 0 RDMA_CM_EVENT_ESTABLISHED 0 resp_none 0 0).

Definition demo_joined : state :=
  mk_state 1024 {[ 0 := 10%positive ]} {[ 5 := Some 40%positive ]}
    {[ 10%positive := ctx_with_mc_list demo_ctx [40%positive] ]}
    {[ 40%positive := mk_mc 10%positive 5 3 0 1 [] ]}
    {[ 1%positive := mk_file false [10%positive]
                       [demo_mc_event; demo_ctx_event; demo_mc_event];
       2%positive := mk_file true [] [] ]}
    {[ 20%positive := mk_cm_id 10%positive (Some 30%positive) IB_QPT_RC ]} [].


(** What every path of the handler keeps: the engine objects, the groups,
    the existence and the owning session of every context, the existence
    of every session. *)
Definition handler_frame (s s' : state) : Prop :=
  cm_ids s' = cm_ids s /\ mcs s' = mcs s
  /\ (forall p c, ctxs s !! p = Some c ->
        exists c', ctxs s' !! p = Some c' /\ ctx_file c' = ctx_file c)
  /\ (forall q, is_Some (files s !! q) -> is_Some (files s' !! q)).

(** For the listener [l]: its free slots plus its queued connect requests
    do not grow from [s] to [s'], and the free slots stay a count. *)
Definition slots_le (l : loc) (s s' : state) : Prop :=
  forall ctx f,
    ctxs s !! l = Some ctx -> files s !! ctx_file ctx = Some f ->
    0 <= ctx_backlog ctx <= INT_MAX ->
    exists ctx' f',
      ctxs s' !! l = Some ctx' /\ ctx_file ctx' = ctx_file ctx
      /\ files s' !! ctx_file ctx = Some f'
      /\ 0 <= ctx_backlog ctx' <= INT_MAX
      /\ pending_connect_requests l (file_event_list f') + ctx_backlog ctx'
         <= pending_connect_requests l (file_event_list f) + ctx_backlog ctx.

(** One run of the handler from [s] to [s']. *)
Definition handler_step (s s' : state) : Prop :=
  handler_frame s s' /\ forall l, slots_le l s s'.

(** ** Teardown, sessions and multicast *)

(** A map without the keys [ks]. *)
Definition erase_all {K A} `{Countable K} (ks : list K) (m : gmap K A) : gmap K A :=
  foldl (fun m k => delete k m) m ks.

(** The registry indices of the groups at the addresses [l]. *)
Definition group_ids (ms : gmap loc ucma_multicast) (l : list loc) : list Z :=
  omap (fun m => mc_id <$> ms !! m) l.

(** The engine objects carried by the connect requests among [l]. *)
Definition connect_request_ids (l : list ucma_event) : list loc :=
  uevent_cm_id <$>
    (filter (fun e => resp_event (uevent_resp e) = RDMA_CM_EVENT_CONNECT_REQUEST) l).

(** What [free_events_loop] logs for the events [l]. *)
Definition free_events_log (l : list ucma_event) : list op :=
  flat_map (fun e =>
    (if bool_decide (resp_event (uevent_resp e) = RDMA_CM_EVENT_CONNECT_REQUEST)
     then [op_rdma_destroy_id (uevent_cm_id e)] else [])
    ++ [op_kfree_uevent e]) l.

(** A context of [file] that nothing else uses: the creator's reference
    is the only one, no device removal has marked it, it has its engine
    object, and its multicast groups exist and point back to it. *)
Definition ctx_idle (s : state) (file q : loc) : Prop :=
  exists c cm,
    ctxs s !! q = Some c /\ ctx_file c = file /\ ctx_ref c = 1
    /\ ctx_closing c = 0 /\ ctx_cm_id c = Some cm
    /\ NoDup (ctx_mc_list c)
    /\ forall m, m ∈ ctx_mc_list c ->
         exists mc, mcs s !! m = Some mc /\ mc_ctx mc = q.

(** No work is pending on the workqueue. *)
Definition no_pending (ctx : loc) : list close_work := [].

(** The join state [ucma_process_join] derives from the flags. *)
Definition join_state_of (fl : rdma_mc_join_flags) : option Z :=
  match fl with
  | RDMA_MC_JOIN_FLAG_FULLMEMBER => Some (BIT FULLMEMBER_JOIN)
  | RDMA_MC_JOIN_FLAG_SENDONLY_FULLMEMBER => Some (BIT SENDONLY_FULLMEMBER_JOIN)
  | RDMA_MC_JOIN_FLAG_other _ => None
  end.

(** ** Event delivery *)

(** The event kinds that target a context and need no special handling:
    neither a connect request, nor a device removal, nor a multicast
    event. *)
Definition plain_event (t : rdma_cm_event_type) : Prop :=
  t <> RDMA_CM_EVENT_CONNECT_REQUEST /\ t <> RDMA_CM_EVENT_DEVICE_REMOVAL
  /\ t <> RDMA_CM_EVENT_MULTICAST_JOIN /\ t <> RDMA_CM_EVENT_MULTICAST_ERROR.

(** The event [ucma_event_handler] builds when the engine object [cm_id]
    of the context [ctx] reports [ev] and the event targets the context:
    it carries the context's uid and id. *)
Definition ctx_uevent (cm_id : loc) (ev : rdma_cm_event) (cm : rdma_cm_id)
    (ctx : ucma_context) : ucma_event :=
  mk_uevent (cm_context cm) None cm_id
    (mk_resp (ctx_uid ctx) (ctx_id ctx) (event ev) (status ev)
       (if bool_decide (cm_qp_type cm = IB_QPT_UD)
        then ucma_copy_ud_event (param_ud ev)
        else ucma_copy_conn_event (param_conn ev))
       (ece_vendor_id ev) (ece_attr_mod ev)).

(** An event that a read can deliver without allocating: it is no connect
    request, and its context and its group, if it has one, exist. *)
Definition event_readable (s : state) (e : ucma_event) : Prop :=
  resp_event (uevent_resp e) <> RDMA_CM_EVENT_CONNECT_REQUEST
  /\ is_Some (ctxs s !! uevent_ctx e)
  /\ forall mcp, uevent_mc e = Some mcp -> is_Some (mcs s !! mcp).

(** The event responses that reached the client, oldest first. *)
Definition delivered (l : list op) : list rdma_ucm_event_resp :=
  omap (fun o => match o with
                 | op_copy_to_user (resp_of_event r _) true => Some r
                 | _ => None
                 end) l.

(** [n] reads in a row by a client whose buffer has room and whose
    copies succeed; the result is what each read returned. *)
Fixpoint read_events (abi : uapi_sizes) (file : loc) (out_len : Z) (n : nat)
  : M (list outcome) :=
  match n with
  | O => ret []
  | S n =>
      let* o := ucma_get_event abi file out_len (Some 0) false None None true in
      let* os := read_events abi file out_len n in
      ret (o :: os)
  end.

(** Two events with empty parameters, for the examples. *)
Definition demo_established : rdma_cm_event :=
  mk_cm_event RDMA_CM_EVENT_ESTABLISHED 0
    (mk_conn_param [] 0 0 0 0 0 0 0) (mk_ud_param None [] 0 0) 0 0.

Definition demo_disconnected : rdma_cm_event :=
  mk_cm_event RDMA_CM_EVENT_DISCONNECTED 0
    (mk_conn_param [] 0 0 0 0 0 0 0) (mk_ud_param None [] 0 0) 0 0.

Definition demo_removal : rdma_cm_event :=
  mk_cm_event RDMA_CM_EVENT_DEVICE_REMOVAL 0
    (mk_conn_param [] 0 0 0 0 0 0 0) (mk_ud_param None [] 0 0) 0 0.

(** ** Forwarded commands and options *)

(** What the statements about the forwarding commands assume of the
    context: [id] names the context [p] of the calling session, which is
    in use, has an engine object bound to a device, and is not closing. *)
Definition ctx_usable (s : state) (file : loc) (id : Z) (p : loc)
    (c : ucma_context) (cm : loc) : Prop :=
  ctx_table s !! id = Some p /\ ctxs s !! p = Some c
  /\ ctx_file c = file /\ ctx_cm_id c = Some cm /\ ctx_closing c = 0
  /\ ctx_ref c <> 0
  /\ exists cmo, cm_ids s !! cm = Some cmo /\ is_Some (cm_device cmo).

(** The same without the device: what the commands that look the context
    up with [ucma_get_ctx] need.  A context is in this state from its
    creation on, before its engine object is bound to any device. *)
Definition ctx_in_use (s : state) (file : loc) (id : Z) (p : loc)
    (c : ucma_context) (cm : loc) : Prop :=
  ctx_table s !! id = Some p /\ ctxs s !! p = Some c
  /\ ctx_file c = file /\ ctx_cm_id c = Some cm /\ ctx_closing c = 0
  /\ ctx_ref c <> 0.

(** Session 1 with the context 10 as [ucma_create_id] leaves it: its
    engine object 20 is bound to no device. *)
Definition demo_created : state :=
  mk_state 1024 {[ 0 := 10%positive ]} ∅ {[ 10%positive := demo_ctx ]} ∅
    {[ 1%positive := mk_file false [10%positive] [] ]}
    {[ 20%positive := mk_cm_id 10%positive None IB_QPT_RC ]} [].

(** The log of such a command. *)
Definition forwarded_log (p : loc) : list op :=
  [op_xa_lock XA_ctx_table; op_refcount_inc p; op_xa_unlock XA_ctx_table;
   op_mutex_lock (ctx_mutex p); op_mutex_unlock (ctx_mutex p);
   op_refcount_dec p].


(** What [ucma_accept] hands to the engine: the parameters, when the
    command carries valid ones, and the ECE data, when the command is
    long enough to hold them. *)
Definition accept_params (src_is_ib : bool) (cmd : rdma_ucm_accept)
  : option conn_request :=
  if bool_decide (ucp_valid (accept_conn_param cmd) = 0) then None
  else Some (ucma_copy_conn_param src_is_ib (accept_conn_param cmd)).

Definition accept_ece_of (lay : ece_layout) (in_len : Z) (cmd : rdma_ucm_accept)
  : rdma_ucm_ece :=
  if offsetofend_ece lay <=? Z.min in_len (sizeof_cmd lay)
  then accept_ece cmd else mk_ece 0 0.

(** A context that [ucma_get_event] has just created for a connect
    request: no client has claimed it yet. *)
Definition demo_spawned : state :=
  mk_state 1024 {[ 0 := 10%positive; 1 := 11%positive ]} ∅
    {[ 10%positive := demo_ctx;
       11%positive := spawned_ctx 1%positive 1 21%positive ]} ∅
    {[ 1%positive := mk_file false [10%positive; 11%positive] [] ]}
    {[ 20%positive := mk_cm_id 10%positive (Some 30%positive) IB_QPT_RC;
       21%positive := mk_cm_id 11%positive (Some 30%positive) IB_QPT_RC ]} [].

Definition demo_ucm_conn_param : rdma_ucm_conn_param :=
  mk_ucm_conn_param 16777217 5 [] 0 0 1 1 0 7 7 1.

(** The reasons for which [ucma_set_option] refuses an option of a usable
    context with the error [err], once the option value has been read:
    an unknown level, an unknown name, a value of the wrong length, a
    path array that is no whole number of entries, or no entry with the
    primary flags. *)
Definition option_refused (oc : option_consts) (u32_of_bytes : list Z -> Z)
    (cmd : rdma_ucm_set_option) (optval : list Z) (err : Z) : Prop :=
  let level := set_option_level cmd in
  let optname := set_option_optname cmd in
  let optlen := set_option_optlen cmd in
  (level <> RDMA_OPTION_ID oc /\ level <> RDMA_OPTION_IB oc /\ err = - ENOSYS)
  \/ (level = RDMA_OPTION_ID oc /\
      ((optname = RDMA_OPTION_ID_TOS oc /\ optlen <> 1 /\ err = - EINVAL)
       \/ (optname <> RDMA_OPTION_ID_TOS oc
           /\ optname = RDMA_OPTION_ID_REUSEADDR oc /\ optlen <> 4
           /\ err = - EINVAL)
       \/ (optname <> RDMA_OPTION_ID_TOS oc
           /\ optname <> RDMA_OPTION_ID_REUSEADDR oc
           /\ optname = RDMA_OPTION_ID_AFONLY oc /\ optlen <> 4
           /\ err = - EINVAL)
       \/ (optname <> RDMA_OPTION_ID_TOS oc
           /\ optname <> RDMA_OPTION_ID_REUSEADDR oc
           /\ optname <> RDMA_OPTION_ID_AFONLY oc
           /\ optname = RDMA_OPTION_ID_ACK_TIMEOUT oc /\ optlen <> 1
           /\ err = - EINVAL)
       \/ (optname <> RDMA_OPTION_ID_TOS oc
           /\ optname <> RDMA_OPTION_ID_REUSEADDR oc
           /\ optname <> RDMA_OPTION_ID_AFONLY oc
           /\ optname <> RDMA_OPTION_ID_ACK_TIMEOUT oc /\ err = - ENOSYS)))
  \/ (level <> RDMA_OPTION_ID oc /\ level = RDMA_OPTION_IB oc /\
      ((optname <> RDMA_OPTION_IB_PATH oc /\ err = - ENOSYS)
       \/ (optname = RDMA_OPTION_IB_PATH oc
           /\ optlen mod sizeof_ib_path_rec_data oc <> 0 /\ err = - EINVAL)
       \/ (optname = RDMA_OPTION_IB_PATH oc
           /\ optlen mod sizeof_ib_path_rec_data oc = 0
           /\ Forall (fun e => u32_of_bytes (take 4 e) <> IB_PATH_PRIMARY_FLAGS oc)
                (path_entries oc optval optlen)
           /\ err = - EINVAL))).

(** An example numbering of the option constants, with path entries of
    72 bytes. *)
Definition demo_option_consts : option_consts :=
  mk_option_consts 0 1 0 1 2 3 1 43 72 4194304.

(** ** Module registration *)

(** The registrations in force after the operations [l], starting from
    [regs], most recent first; [None] when an unregistration does not
    undo the most recent registration still in force. *)
Fixpoint replay (l : list init_op) (regs : list registration)
  : option (list registration) :=
  match l with
  | [] => Some regs
  | init_register r :: l => replay l (r :: regs)
  | init_unregister r :: l =>
      match regs with
      | r' :: regs =>
          if bool_decide (r' = r) then replay l regs else None
      | [] => None
      end
  | init_pr_err :: l => replay l regs
  end.

(** * Proof tools *)

(** Unfolding of the monad, of its primitives and of the state
    projections, for states given by their fields. *)
Ltac mred :=
  cbv beta iota delta
    [bind ret fault emit get_state deref load_ctx store_ctx
     load_mc store_mc load_file store_file load_cm_id store_cm_id
     kzalloc_ctx kfree_ctx kzalloc_mc kfree_mc xa_load_ctx xa_erase_ctx
     xa_store_ctx xa_load_mc xa_erase_mc xa_store_mc copy_to_user
     rdma_destroy_id refcount_inc refcount_inc_not_zero refcount_dec_and_test
     complete logged negb orb andb
     st_with_trace st_with_ctxs st_with_mcs st_with_files
     st_with_cm_ids st_with_ctx_table st_with_multicast_table
     max_backlog ctx_table multicast_table ctxs mcs files cm_ids trace].

(** One lookup in an updated map, or one lookup that a hypothesis gives. *)
Ltac mlookup :=
  match goal with
  | |- context [<[?k := _]> _ !! ?k] => rewrite lookup_insert_eq
  | |- context [delete ?k _ !! ?k] => rewrite lookup_delete_eq
  | H : ?m !! ?k = _ |- context [?m !! ?k] => rewrite H
  | |- context [<[?k := _]> _ !! ?j] =>
      rewrite (lookup_insert_ne _ k j) by congruence
  | |- context [delete ?k _ !! ?j] =>
      rewrite (lookup_delete_ne _ k j) by congruence
  end.

(** One test that the hypotheses decide. *)
Ltac mcond :=
  first [ rewrite bool_decide_eq_true_2 by (assumption || congruence || lia)
        | rewrite bool_decide_eq_false_2 by (assumption || congruence || lia) ].

(** Symbolic execution as far as the hypotheses determine it. *)
Ltac mrun := repeat (mred; first [mlookup | mcond]).

(** Equality of two states that differ in how their logs are bracketed. *)
Ltac state_eq := mred; rewrite <- ?app_assoc; simpl; try reflexivity.

(** One field of a context that a hypothesis gives. *)
Ltac mfield :=
  match goal with
  | H : ctx_cm_id ?c = _ |- context [ctx_cm_id ?c] => rewrite H
  | H : ctx_file ?c = _ |- context [ctx_file ?c] => rewrite H
  end.

(** [mrun] interleaved with the reduction of record updates. *)
Ltac mgo := repeat first [progress mrun | progress simpl | mfield].

(** Symbolic execution that also runs the session allocator. *)

Ltac mred2 :=
  cbv beta iota delta
    [bind ret fault emit get_state deref load_ctx store_ctx
     load_mc store_mc load_file store_file load_cm_id store_cm_id
     kzalloc_ctx kfree_ctx kzalloc_mc kfree_mc xa_load_ctx xa_erase_ctx
     xa_store_ctx xa_load_mc xa_erase_mc xa_store_mc copy_to_user
     rdma_destroy_id refcount_inc refcount_inc_not_zero refcount_dec_and_test
     complete logged negb orb andb
     kmalloc_file kfree_file
     st_with_trace st_with_ctxs st_with_mcs st_with_files
     st_with_cm_ids st_with_ctx_table st_with_multicast_table
     max_backlog ctx_table multicast_table ctxs mcs files cm_ids trace].
Ltac mrun2 := repeat (mred2; first [mlookup | mcond]).
Ltac mgo2 := repeat first [progress mrun2 | progress simpl | mfield].

(** Equality of two logs up to the bracketing of their concatenations. *)
Ltac trace_eq := repeat first [rewrite <- app_assoc | progress simpl]; reflexivity.

(** Membership in a log given as a concatenation. *)
Ltac in_trace :=
  repeat first [rewrite elem_of_app | rewrite elem_of_cons]; by auto 30.

(** * Properties *)

Lemma bind_Some {A B} (m : M A) (k : A -> M B) s a s' :
  m s = Some (a, s') -> bind m k s = k a s'.
Proof. unfold bind. intros ->. reflexivity. Qed.

Lemma logged_nil s : logged s [] = s.
Proof. destruct s. unfold logged, st_with_trace. simpl. by rewrite app_nil_r. Qed.

(** ** Context lookup (claim C7) *)

Lemma not_is_Some_None {A} : ¬ is_Some (@None A).
Proof. by intros [? ?]. Qed.

Lemma ucma_get_ctx_unknown s file id :
  ctx_table s !! id = None ->
  ucma_get_ctx file id s = Some (Err (- ENOENT), ctx_refused s).
Proof.
  intros H. destruct s as [mb ct mt cx ms fs cs tr]; simpl in *.
  unfold ucma_get_ctx, _ucma_find_context, ctx_refused. mrun. state_eq.
Qed.

Lemma ucma_get_ctx_invalid s file id p c :
  ctx_table s !! id = Some p -> ctxs s !! p = Some c ->
  ctx_file c <> file \/ ctx_cm_id c = None ->
  ucma_get_ctx file id s = Some (Err (- EINVAL), ctx_refused s).
Proof.
  intros H1 H2 H3. destruct s as [mb ct mt cx ms fs cs tr]; simpl in *.
  unfold ucma_get_ctx, _ucma_find_context, ctx_refused. mrun.
  destruct H3 as [H3|H3].
  - mrun. state_eq.
  - rewrite H3. rewrite (bool_decide_eq_false_2 _ not_is_Some_None).
    destruct (bool_decide (ctx_file c = file)); mrun; state_eq.
Qed.

Lemma ucma_get_ctx_closing s file id p c :
  ctx_table s !! id = Some p -> ctxs s !! p = Some c ->
  ctx_file c = file -> is_Some (ctx_cm_id c) -> ctx_closing c <> 0 ->
  ucma_get_ctx file id s = Some (Err (- EIO), ctx_refused s).
Proof.
  intros H1 H2 H3 H4 H5. destruct s as [mb ct mt cx ms fs cs tr]; simpl in *.
  unfold ucma_get_ctx, _ucma_find_context, ctx_refused. mrun. state_eq.
Qed.

Lemma ucma_get_ctx_found s file id p c :
  ctx_table s !! id = Some p -> ctxs s !! p = Some c ->
  ctx_file c = file -> is_Some (ctx_cm_id c) -> ctx_closing c = 0 ->
  ucma_get_ctx file id s = Some (Ptr p, ctx_taken s p c).
Proof.
  intros H1 H2 H3 H4 H5. destruct s as [mb ct mt cx ms fs cs tr]; simpl in *.
  unfold ucma_get_ctx, _ucma_find_context, ctx_taken. mrun. state_eq.
Qed.

Lemma ucma_get_ctx_dev_err s file id e s' :
  ucma_get_ctx file id s = Some (Err e, s') ->
  ucma_get_ctx_dev file id s = Some (Err e, s').
Proof. intros H. unfold ucma_get_ctx_dev. by rewrite (bind_Some _ _ _ _ _ H). Qed.

Lemma ucma_get_ctx_dev_bound s file id p c cm cmo :
  ctx_table s !! id = Some p -> ctxs s !! p = Some c ->
  ctx_file c = file -> ctx_cm_id c = Some cm -> ctx_closing c = 0 ->
  cm_ids s !! cm = Some cmo -> is_Some (cm_device cmo) ->
  ucma_get_ctx_dev file id s = Some (Ptr p, ctx_taken s p c).
Proof.
  intros H1 H2 H3 H4 H5 H6 [d H7]. unfold ucma_get_ctx_dev.
  erewrite bind_Some by (eapply ucma_get_ctx_found; eauto; rewrite H4; eauto).
  destruct s as [mb ct mt cx ms fs cs tr]; simpl in *.
  unfold ctx_taken. mrun. simpl. rewrite H4. mrun. rewrite H7. reflexivity.
Qed.

Lemma ucma_get_ctx_dev_unbound s file id p c cm cmo :
  ctx_table s !! id = Some p -> ctxs s !! p = Some c ->
  ctx_file c = file -> ctx_cm_id c = Some cm -> ctx_closing c = 0 ->
  cm_ids s !! cm = Some cmo -> cm_device cmo = None ->
  exists s', ucma_get_ctx_dev file id s = Some (Err (- EINVAL), s')
             /\ ctx_table s' = ctx_table s
             /\ ctx_ref <$> ctxs s' !! p = Some (ctx_ref c).
Proof.
  intros H1 H2 H3 H4 H5 H6 H7. unfold ucma_get_ctx_dev.
  erewrite bind_Some by (eapply ucma_get_ctx_found; eauto; rewrite H4; eauto).
  destruct s as [mb ct mt cx ms fs cs tr]; simpl in *.
  unfold ctx_taken, ucma_put_ctx. mrun. simpl. rewrite H4. mrun. rewrite H7.
  mrun. simpl.
  destruct (bool_decide (ctx_ref c + 1 - 1 = 0)); mrun;
    (eexists; split; [reflexivity|]; simpl; split; [reflexivity|]);
    rewrite lookup_insert_eq; simpl; f_equal; lia.
Qed.

(** Claim C7.  A lookup by (id, calling session): an id with no entry in
    the registry gives -ENOENT (NotFound); an entry whose context belongs
    to another session or has no engine handle gives -EINVAL
    (InvalidOwner); otherwise a context that is closing gives -EIO (the
    code for Busy); otherwise the reference count is incremented between
    the lock and the unlock of the registry and the context is returned.
    The variant that requires a device returns the same, except that a
    context whose engine connection has no device gives -EINVAL with the
    reference count back at its former value. *)
Theorem ucma_get_ctx_lookup (s : state) (file : loc) (id : Z) :
  (ctx_table s !! id = None ->
     ucma_get_ctx file id s = Some (Err (- ENOENT), ctx_refused s)
     /\ ucma_get_ctx_dev file id s = Some (Err (- ENOENT), ctx_refused s))
  /\ (forall p c,
        ctx_table s !! id = Some p -> ctxs s !! p = Some c ->
        (ctx_file c <> file \/ ctx_cm_id c = None ->
           ucma_get_ctx file id s = Some (Err (- EINVAL), ctx_refused s)
           /\ ucma_get_ctx_dev file id s = Some (Err (- EINVAL), ctx_refused s))
        /\ (ctx_file c = file -> is_Some (ctx_cm_id c) -> ctx_closing c <> 0 ->
              ucma_get_ctx file id s = Some (Err (- EIO), ctx_refused s)
              /\ ucma_get_ctx_dev file id s = Some (Err (- EIO), ctx_refused s))
        /\ (forall cm,
              ctx_file c = file -> ctx_cm_id c = Some cm -> ctx_closing c = 0 ->
              ucma_get_ctx file id s = Some (Ptr p, ctx_taken s p c)
              /\ forall cmo, cm_ids s !! cm = Some cmo ->
                   match cm_device cmo with
                   | Some _ =>
                       ucma_get_ctx_dev file id s = Some (Ptr p, ctx_taken s p c)
                   | None =>
                       exists s',
                         ucma_get_ctx_dev file id s = Some (Err (- EINVAL), s')
                         /\ ctx_table s' = ctx_table s
                         /\ ctx_ref <$> ctxs s' !! p = Some (ctx_ref c)
                   end)).
Proof.
  split.
  - intros H. split; [|apply ucma_get_ctx_dev_err];
      by apply ucma_get_ctx_unknown.
  - intros p c H1 H2. split; [|split].
    + intros H. split; [|apply ucma_get_ctx_dev_err];
        by eapply ucma_get_ctx_invalid.
    + intros H3 H4 H5. split; [|apply ucma_get_ctx_dev_err];
        by eapply ucma_get_ctx_closing.
    + intros cm H3 H4 H5. split.
      * eapply ucma_get_ctx_found; eauto.
      * intros cmo H6. destruct (cm_device cmo) eqn:E.
        -- eapply ucma_get_ctx_dev_bound; eauto.
        -- eapply ucma_get_ctx_dev_unbound; eauto.
Qed.

Lemma ucma_get_ctx_lookup_witness :
  ucma_get_ctx 1%positive 0 demo_state
  = Some (Ptr 10%positive, ctx_taken demo_state 10%positive demo_ctx).
Proof.
  exact (proj1 (proj2 (proj2 (proj2 (ucma_get_ctx_lookup demo_state 1%positive 0)
                                10%positive demo_ctx eq_refl eq_refl))
                 20%positive eq_refl eq_refl eq_refl)).
Defined.

(** ** Listen (claim C10) *)

Lemma ucma_listen_run s file cmd engine p c cm :
  ctx_table s !! listen_id cmd = Some p -> ctxs s !! p = Some c ->
  ctx_file c = file -> ctx_cm_id c = Some cm -> ctx_closing c = 0 ->
  exists s',
    ucma_listen file (Some cmd) engine s = Some (engine, s')
    /\ ctx_backlog <$> ctxs s' !! p = Some (to_int (listen_clamp s cmd))
    /\ trace s' =
         trace s ++
         [op_xa_lock XA_ctx_table; op_refcount_inc p; op_xa_unlock XA_ctx_table;
          op_mutex_lock (ctx_mutex p);
          op_rdma_listen cm (to_int (listen_clamp s cmd));
          op_mutex_unlock (ctx_mutex p); op_refcount_dec p]
         ++ (if bool_decide (ctx_ref c = 0) then [op_complete p] else []).
Proof.
  intros H1 H2 H3 H4 H5. unfold ucma_listen.
  erewrite bind_Some by (eapply ucma_get_ctx_found; eauto; rewrite H4; eauto).
  destruct s as [mb ct mt cx ms fs cs tr]; simpl in *.
  unfold ctx_taken, ucma_put_ctx, listen_clamp. mrun. simpl. rewrite H4. mrun. simpl.
  replace (bool_decide (ctx_ref c + 1 - 1 = 0)) with (bool_decide (ctx_ref c = 0))
    by (apply bool_decide_ext; lia).
  destruct (bool_decide (ctx_ref c = 0)); mrun;
    (eexists; split; [reflexivity|]; simpl; split;
     [rewrite lookup_insert_eq; reflexivity|]);
    rewrite <- ?app_assoc; reflexivity.
Qed.

(** Claim C10, as the code has it.  The requested backlog is a [__u32]
    and is compared as such.  A listen command on a context the caller may
    use sets the context's backlog to the requested value exactly when
    that value is strictly between zero and [max_backlog], and to
    [max_backlog] otherwise: for a request of zero, for a request at or
    above the maximum, and, provided the maximum is at most 2^31, for a
    request that is negative as an [int].  The value stored is the value
    handed to [rdma_listen]. *)
Theorem ucma_listen_backlog (s : state) (file : loc) (cmd : rdma_ucm_listen)
    (engine : Z) (p : loc) (c : ucma_context) (cm : loc) :
  ctx_table s !! listen_id cmd = Some p -> ctxs s !! p = Some c ->
  ctx_file c = file -> ctx_cm_id c = Some cm -> ctx_closing c = 0 ->
  0 <= listen_backlog cmd <= UINT_MAX ->
  exists s' b,
    ucma_listen file (Some cmd) engine s = Some (engine, s')
    /\ ctx_backlog <$> ctxs s' !! p = Some b
    /\ (exists l1 l2, trace s' = trace s ++ l1 ++ [op_rdma_listen cm b] ++ l2
                      /\ forall cm' b', op_rdma_listen cm' b' ∉ l1 ++ l2)
    /\ (0 < listen_backlog cmd < max_backlog s -> b = to_int (listen_backlog cmd))
    /\ (listen_backlog cmd = 0 \/ max_backlog s <= listen_backlog cmd ->
        b = to_int (max_backlog s))
    /\ (max_backlog s <= 2 ^ 31 -> to_int (listen_backlog cmd) < 0 ->
        b = to_int (max_backlog s)).
Proof.
  intros H1 H2 H3 H4 H5 Hr.
  destruct (ucma_listen_run s file cmd engine p c cm H1 H2 H3 H4 H5)
    as (s' & Hrun & Hb & Ht).
  exists s', (to_int (listen_clamp s cmd)). split; [exact Hrun|].
  split; [exact Hb|]. split.
  { eexists [_; _; _; _], _. split.
    - rewrite Ht. reflexivity.
    - intros cm' b' Hin. simpl in Hin.
      destruct (bool_decide (ctx_ref c = 0));
        repeat (apply elem_of_cons in Hin as [Hin|Hin]; [discriminate|]);
        by apply elem_of_nil in Hin. }
  unfold listen_clamp, UINT_MAX in *. split; [|split].
  - intros [Ha Hc].
    rewrite (proj2 (Z.ltb_lt _ _) Ha), (proj2 (Z.ltb_lt _ _) Hc). reflexivity.
  - intros [Ha|Ha].
    + rewrite Ha. reflexivity.
    + rewrite (proj2 (Z.ltb_ge _ _) Ha), andb_false_r. reflexivity.
  - intros Hm Hn.
    assert (2 ^ 31 <= listen_backlog cmd) as Hge.
    { unfold to_int in Hn.
      destruct (Z_lt_ge_dec (listen_backlog cmd) (2 ^ 31)) as [Hlt|Hge]; [|lia].
      rewrite Z.mod_small in Hn by lia. lia. }
    rewrite (proj2 (Z.ltb_ge (listen_backlog cmd) (max_backlog s))) by lia.
    rewrite andb_false_r. reflexivity.
Qed.

Lemma ucma_listen_backlog_witness :
  exists s',
    ucma_listen 1%positive (Some (mk_listen 0 5000)) 0 demo_state = Some (0, s')
    /\ ctx_backlog <$> ctxs s' !! 10%positive = Some 1024.
Proof.
  destruct (ucma_listen_backlog demo_state 1%positive (mk_listen 0 5000) 0
              10%positive demo_ctx 20%positive eq_refl eq_refl eq_refl eq_refl
              eq_refl ltac:(vm_compute; split; discriminate))
    as (s' & b & Hrun & Hb & _ & _ & Hmax & _).
  exists s'. split; [exact Hrun|].
  etrans; [exact Hb|]. f_equal. apply Hmax. right. vm_compute. discriminate.
Defined.

(** Claim C10 as stated fails: with the maximum at 2^32 - 1, a request of
    2^31, which is negative as an [int], lies strictly between zero and
    the maximum; it is stored as it is, and handed to [rdma_listen] as
    it is, where the claim has the maximum. *)
Lemma ucma_listen_negative_backlog_counterexample :
  to_int (2 ^ 31) < 0
  /\ 0 < 2 ^ 31 < max_backlog demo_unbounded
  /\ exists s',
       ucma_listen 1%positive (Some (mk_listen 0 (2 ^ 31))) 0 demo_unbounded
       = Some (0, s')
       /\ ctx_backlog <$> ctxs s' !! 10%positive = Some INT_MIN
       /\ op_rdma_listen 20%positive INT_MIN ∈ trace s'
       /\ INT_MIN <> to_int (max_backlog demo_unbounded).
Proof.
  split; [reflexivity|]. split; [split; reflexivity|].
  eexists. split; [reflexivity|].
  split; [reflexivity|]. split; [|discriminate].
  vm_compute. do 4 right. by left.
Qed.

(** ** Command dispatch (claim C6) *)

Section DispatchFacts.

Variable abi : uapi_sizes.
Variable cmd_value : rdma_user_cm_cmd -> Z.
Variable call : ucma_handler -> loc -> Z -> Z -> M Z.

Lemma ucma_write_out_of_range s file len hdr :
  sizeof_hdr abi <= len ->
  ARRAY_SIZE_ucma_cmd_table cmd_value <= hdr_cmd hdr ->
  ucma_write abi cmd_value call file true len (Some hdr) s = Some (- EINVAL, s).
Proof.
  intros Hl Hc. unfold ucma_write. simpl.
  rewrite (proj2 (Z.ltb_ge _ _) Hl).
  rewrite (proj2 (Z.leb_le _ _) Hc). reflexivity.
Qed.

Lemma ucma_write_short_input s file len hdr :
  sizeof_hdr abi <= len ->
  len < hdr_in hdr + sizeof_hdr abi ->
  ucma_write abi cmd_value call file true len (Some hdr) s = Some (- EINVAL, s).
Proof.
  intros Hl Hc. unfold ucma_write. simpl.
  rewrite (proj2 (Z.ltb_ge _ _) Hl).
  destruct (_ <=? hdr_cmd hdr); [reflexivity|].
  rewrite (proj2 (Z.ltb_lt _ _) Hc). reflexivity.
Qed.

Lemma ucma_write_null_entry s file len hdr :
  sizeof_hdr abi <= len ->
  hdr_cmd hdr < ARRAY_SIZE_ucma_cmd_table cmd_value ->
  hdr_in hdr + sizeof_hdr abi <= len ->
  ucma_cmd_table cmd_value (hdr_cmd hdr) = None ->
  ucma_write abi cmd_value call file true len (Some hdr) s = Some (- ENOSYS, s).
Proof.
  intros Hl Hc Hi Hn. unfold ucma_write. simpl.
  rewrite (proj2 (Z.ltb_ge _ _) Hl).
  rewrite (proj2 (Z.leb_gt _ _) Hc).
  rewrite (proj2 (Z.ltb_ge _ _) Hi).
  rewrite Hn. reflexivity.
Qed.

(** With distinct enumerator values, the element that
    [RDMA_USER_CM_CMD_GET_OPTION] designates is the NULL the table gives
    it. *)
Lemma ucma_cmd_table_get_option :
  Inj (=) (=) cmd_value ->
  ucma_cmd_table cmd_value (cmd_value RDMA_USER_CM_CMD_GET_OPTION) = None.
Proof.
  intros Hinj. unfold ucma_cmd_table, ucma_cmd_table_init. simpl.
  repeat first
    [ rewrite (bool_decide_eq_true_2 (cmd_value RDMA_USER_CM_CMD_GET_OPTION = _))
        by reflexivity
    | rewrite bool_decide_eq_false_2
        by (let E := fresh in intros E; apply Hinj in E; discriminate E) ].
  reflexivity.
Qed.

Lemma designated_in_table (init : list (rdma_user_cm_cmd * option ucma_handler))
    (c : rdma_user_cm_cmd) (h : option ucma_handler) :
  (c, h) ∈ init ->
  cmd_value c < foldr (fun e n => Z.max (cmd_value e.1 + 1) n) 0 init.
Proof.
  induction init as [|e init IH]; intros Hin.
  - by apply elem_of_nil in Hin.
  - apply elem_of_cons in Hin as [<-|Hin]; simpl; [lia|].
    specialize (IH Hin). lia.
Qed.

Lemma get_option_in_table :
  cmd_value RDMA_USER_CM_CMD_GET_OPTION < ARRAY_SIZE_ucma_cmd_table cmd_value.
Proof.
  apply (designated_in_table ucma_cmd_table_init _ None).
  unfold ucma_cmd_table_init. rewrite !elem_of_cons. by auto 20.
Qed.

Lemma ucma_write_get_option s file len hdr :
  Inj (=) (=) cmd_value ->
  sizeof_hdr abi <= len ->
  hdr_cmd hdr = cmd_value RDMA_USER_CM_CMD_GET_OPTION ->
  hdr_in hdr + sizeof_hdr abi <= len ->
  ucma_write abi cmd_value call file true len (Some hdr) s = Some (- ENOSYS, s).
Proof.
  intros Hinj Hl Hc Hi. apply ucma_write_null_entry; try done.
  - rewrite Hc. apply get_option_in_table.
  - rewrite Hc. by apply ucma_cmd_table_get_option.
Qed.

End DispatchFacts.

(** Claim C6, as the code has it.  For a header read from at least
    [sizeof hdr] bytes by a caller with unchanged credentials: an opcode
    at or beyond the size of the dispatch table fails with -EINVAL
    (InvalidArgument, not NotSupported); an opcode whose declared input
    length plus the header exceeds the bytes supplied fails with -EINVAL;
    an opcode within the table whose entry is NULL, with enough bytes
    supplied, fails with -ENOSYS (NotSupported), and get-option is such an
    opcode.  In all these cases the state is left as it was whatever the
    handlers do, so no handler has run. *)
Theorem ucma_write_rejects (abi : uapi_sizes) (cmd_value : rdma_user_cm_cmd -> Z)
    (call : ucma_handler -> loc -> Z -> Z -> M Z)
    (s : state) (file : loc) (len : Z) (hdr : rdma_ucm_cmd_hdr) :
  sizeof_hdr abi <= len ->
  (ARRAY_SIZE_ucma_cmd_table cmd_value <= hdr_cmd hdr ->
     ucma_write abi cmd_value call file true len (Some hdr) s = Some (- EINVAL, s))
  /\ (len < hdr_in hdr + sizeof_hdr abi ->
        ucma_write abi cmd_value call file true len (Some hdr) s = Some (- EINVAL, s))
  /\ (hdr_cmd hdr < ARRAY_SIZE_ucma_cmd_table cmd_value ->
      hdr_in hdr + sizeof_hdr abi <= len ->
      ucma_cmd_table cmd_value (hdr_cmd hdr) = None ->
        ucma_write abi cmd_value call file true len (Some hdr) s = Some (- ENOSYS, s))
  /\ (Inj (=) (=) cmd_value ->
      hdr_cmd hdr = cmd_value RDMA_USER_CM_CMD_GET_OPTION ->
      hdr_in hdr + sizeof_hdr abi <= len ->
        ucma_write abi cmd_value call file true len (Some hdr) s = Some (- ENOSYS, s)).
Proof.
  intros Hl. split; [|split; [|split]].
  - by apply ucma_write_out_of_range.
  - by apply ucma_write_short_input.
  - by apply ucma_write_null_entry.
  - intros Hinj Hc Hi. by apply ucma_write_get_option.
Qed.

Lemma ucma_write_rejects_witness :
  ucma_write uapi_abi uapi_cmd_value call_nothing 1%positive true 8
    (Some (mk_hdr 13 0 0)) demo_state = Some (- ENOSYS, demo_state).
Proof.
  refine (proj2 (proj2 (proj2 (ucma_write_rejects uapi_abi uapi_cmd_value
                                 call_nothing demo_state 1%positive 8
                                 (mk_hdr 13 0 0) _))) _ eq_refl _).
  - vm_compute. discriminate.
  - intros a b H. destruct a, b; (reflexivity || discriminate H).
  - vm_compute. discriminate.
Defined.

(** Claim C6 as stated fails: opcode 23 lies outside the table of 23
    entries, and the write returns -EINVAL where the claim has
    NotSupported (-ENOSYS). *)
Lemma ucma_write_unknown_opcode_counterexample :
  ARRAY_SIZE_ucma_cmd_table uapi_cmd_value <= 23
  /\ ucma_write uapi_abi uapi_cmd_value call_nothing 1%positive true 8
       (Some (mk_hdr 23 0 0)) demo_state = Some (- EINVAL, demo_state)
  /\ - EINVAL <> - ENOSYS.
Proof.
  split; [|split].
  - vm_compute. discriminate.
  - reflexivity.
  - discriminate.
Qed.

(** ** Event callback ingestion (claims C1 and C5) *)

Lemma ucma_event_handler_no_memory s cm_id ev cm :
  cm_ids s !! cm_id = Some cm ->
  ucma_event_handler cm_id ev false s =
    Some (if bool_decide (event ev = RDMA_CM_EVENT_CONNECT_REQUEST) then 1 else 0, s).
Proof.
  intros H. destruct s as [mb ct mt cx ms fs cs tr]; simpl in *.
  unfold ucma_event_handler. mrun. reflexivity.
Qed.

Lemma ucma_event_handler_refuses s cm_id ev cm ctx :
  cm_ids s !! cm_id = Some cm -> ctxs s !! cm_context cm = Some ctx ->
  event ev = RDMA_CM_EVENT_CONNECT_REQUEST ->
  ctx_backlog ctx = 0 ->
  ucma_event_handler cm_id ev true s =
    Some (- ENOMEM,
          logged s [op_mutex_lock (file_mut (ctx_file ctx));
                    op_kfree_uevent (connect_request_uevent cm_id ev cm ctx);
                    op_mutex_unlock (file_mut (ctx_file ctx))]).
Proof.
  intros H1 H2 H3 H4. destruct s as [mb ct mt cx ms fs cs tr]; simpl in *.
  unfold ucma_event_handler, ucma_set_event_context, connect_request_uevent.
  rewrite H3. mrun. simpl. mrun. state_eq.
Qed.

Lemma ucma_event_handler_admits s cm_id ev cm ctx f :
  cm_ids s !! cm_id = Some cm -> ctxs s !! cm_context cm = Some ctx ->
  files s !! ctx_file ctx = Some f ->
  event ev = RDMA_CM_EVENT_CONNECT_REQUEST ->
  ctx_backlog ctx <> 0 ->
  ucma_event_handler cm_id ev true s =
    Some (0,
          logged
            (st_with_files
               (st_with_ctxs s
                  (<[cm_context cm :=
                       ctx_with_backlog ctx (to_int (ctx_backlog ctx - 1))]> (ctxs s)))
               (<[ctx_file ctx :=
                    file_with_event_list f
                      (file_event_list f
                       ++ [connect_request_uevent cm_id ev cm ctx])]> (files s)))
            [op_mutex_lock (file_mut (ctx_file ctx));
             op_wake_up (ctx_file ctx);
             op_mutex_unlock (file_mut (ctx_file ctx))]).
Proof.
  intros H1 H2 H3 H4 H5. destruct s as [mb ct mt cx ms fs cs tr]; simpl in *.
  unfold ucma_event_handler, ucma_set_event_context, connect_request_uevent.
  rewrite H4. mrun. simpl. mrun. state_eq.
Qed.

Lemma to_int_small z : INT_MIN <= z <= INT_MAX -> to_int z = z.
Proof.
  unfold INT_MIN, INT_MAX, to_int. intros H.
  rewrite Z.mod_small by lia. lia.
Qed.

Lemma pending_snoc l q e :
  uevent_ctx e = l ->
  resp_event (uevent_resp e) = RDMA_CM_EVENT_CONNECT_REQUEST ->
  pending_connect_requests l (q ++ [e]) = pending_connect_requests l q + 1.
Proof.
  intros H1 H2. unfold pending_connect_requests.
  rewrite filter_app, length_app, filter_cons_True by done. simpl. lia.
Qed.




Lemma handler_step_same s s' :
  ctxs s' = ctxs s -> files s' = files s -> cm_ids s' = cm_ids s ->
  mcs s' = mcs s -> handler_step s s'.
Proof.
  intros Hc Hf Hcm Hmc. split.
  - repeat split; try done.
    + intros p c H. exists c. by rewrite Hc.
    + intros q H. by rewrite Hf.
  - intros l ctx f H1 H2 H3. exists ctx, f. rewrite Hc, Hf.
    repeat split; try done; lia.
Qed.

Lemma handler_step_trans s1 s2 s3 :
  handler_step s1 s2 -> handler_step s2 s3 -> handler_step s1 s3.
Proof.
  intros [(Ha1 & Ha2 & Ha3 & Ha4) Hs1] [(Hb1 & Hb2 & Hb3 & Hb4) Hs2]. split.
  - repeat split; try congruence.
    + intros p c H. destruct (Ha3 p c H) as (c1 & H1 & E1).
      destruct (Hb3 p c1 H1) as (c2 & H2 & E2). exists c2. split; congruence.
    + intros q H. auto.
  - intros l ctx f H1 H2 H3.
    destruct (Hs1 l ctx f H1 H2 H3) as (ctx1 & f1 & Hc1 & E1 & Hf1 & Hb & Hle).
    rewrite <- E1 in Hf1.
    destruct (Hs2 l ctx1 f1 Hc1 Hf1 Hb) as (ctx2 & f2 & Hc2 & E2 & Hf2 & Hb' & Hle').
    exists ctx2, f2. rewrite E1 in Hf2. repeat split; try congruence; lia.
Qed.

Lemma handler_step_closing s s' cp c :
  ctxs s !! cp = Some c ->
  ctxs s' = <[cp := ctx_with_closing c 1]> (ctxs s) ->
  files s' = files s -> cm_ids s' = cm_ids s -> mcs s' = mcs s ->
  handler_step s s'.
Proof.
  intros H Hc Hf Hcm Hmc. split.
  - repeat split; try done.
    + intros p c0 H0. rewrite Hc. destruct (decide (cp = p)) as [->|Hne].
      * rewrite lookup_insert_eq. eexists. split; [reflexivity|]. simpl. congruence.
      * rewrite lookup_insert_ne by done. by exists c0.
    + intros q Hq. by rewrite Hf.
  - intros l ctx f H1 H2 H3. rewrite Hc, Hf.
    destruct (decide (cp = l)) as [->|Hne].
    + rewrite lookup_insert_eq. assert (ctx = c) as -> by congruence.
      eexists _, f. repeat split; simpl; try done; lia.
    + rewrite lookup_insert_ne by done. exists ctx, f.
      repeat split; try done; lia.
Qed.

(** The queue of one session is replaced by a queue that holds no more
    connect requests for any listener. *)
Lemma handler_step_queue s s' q fq queue' :
  files s !! q = Some fq ->
  (forall l, pending_connect_requests l queue'
             <= pending_connect_requests l (file_event_list fq)) ->
  files s' = <[q := file_with_event_list fq queue']> (files s) ->
  ctxs s' = ctxs s -> cm_ids s' = cm_ids s -> mcs s' = mcs s ->
  handler_step s s'.
Proof.
  intros H Hle Hf Hc Hcm Hmc. split.
  - repeat split; try done.
    + intros p c H0. exists c. by rewrite Hc.
    + intros q0 Hq. rewrite Hf. destruct (decide (q = q0)) as [->|Hne].
      * rewrite lookup_insert_eq. by eexists.
      * by rewrite lookup_insert_ne.
  - intros l ctx f H1 H2 H3. rewrite Hc, Hf.
    destruct (decide (q = ctx_file ctx)) as [->|Hne].
    + rewrite lookup_insert_eq. assert (f = fq) as -> by congruence.
      eexists ctx, _. repeat split; try done; try lia. simpl.
      specialize (Hle l). lia.
    + rewrite lookup_insert_ne by done. exists ctx, f.
      repeat split; try done; lia.
Qed.

Lemma pending_snoc_other l q e :
  uevent_ctx e <> l
  \/ resp_event (uevent_resp e) <> RDMA_CM_EVENT_CONNECT_REQUEST ->
  pending_connect_requests l (q ++ [e]) = pending_connect_requests l q.
Proof.
  intros H. unfold pending_connect_requests.
  rewrite filter_app, length_app, filter_cons_False by tauto. simpl. lia.
Qed.

Lemma handler_step_admit s s' cp c fq u :
  ctxs s !! cp = Some c -> files s !! ctx_file c = Some fq ->
  ctx_backlog c <> 0 -> uevent_ctx u = cp ->
  resp_event (uevent_resp u) = RDMA_CM_EVENT_CONNECT_REQUEST ->
  ctxs s' = <[cp := ctx_with_backlog c (to_int (ctx_backlog c - 1))]> (ctxs s) ->
  files s' = <[ctx_file c := file_with_event_list fq (file_event_list fq ++ [u])]>
               (files s) ->
  cm_ids s' = cm_ids s -> mcs s' = mcs s ->
  handler_step s s'.
Proof.
  intros H Hq Hnz Hu Hev Hc Hf Hcm Hmc. split.
  - repeat split; try done.
    + intros p c0 H0. rewrite Hc. destruct (decide (cp = p)) as [->|Hne].
      * rewrite lookup_insert_eq. eexists. split; [reflexivity|]. simpl. congruence.
      * rewrite lookup_insert_ne by done. by exists c0.
    + intros q0 Hq0. rewrite Hf. destruct (decide (ctx_file c = q0)) as [->|Hne].
      * rewrite lookup_insert_eq. by eexists.
      * by rewrite lookup_insert_ne.
  - intros l ctx f H1 H2 H3. rewrite Hc, Hf.
    destruct (decide (cp = l)) as [->|Hne].
    + assert (ctx = c) as -> by congruence. assert (f = fq) as -> by congruence.
      rewrite !lookup_insert_eq. eexists _, _.
      split; [reflexivity|]. split; [reflexivity|]. split; [reflexivity|].
      simpl. rewrite to_int_small by (unfold INT_MIN, INT_MAX in *; lia).
      rewrite pending_snoc by done. lia.
    + rewrite lookup_insert_ne by done.
      destruct (decide (ctx_file c = ctx_file ctx)) as [E|Hnf].
      * rewrite E, lookup_insert_eq. assert (f = fq) as -> by congruence.
        eexists ctx, _. repeat split; try done; try lia. simpl.
        rewrite pending_snoc_other by (left; congruence). lia.
      * rewrite lookup_insert_ne by done. exists ctx, f.
        repeat split; try done; lia.
Qed.

Lemma find_con_req_eve_pending cm q e rest l :
  find_con_req_eve cm q = Some (e, rest) ->
  pending_connect_requests l rest <= pending_connect_requests l q.
Proof.
  revert e rest. induction q as [|x q IH]; intros e rest H; [discriminate|].
  simpl in H. unfold pending_connect_requests in *.
  destruct (bool_decide (uevent_cm_id x = cm)
            && bool_decide (resp_event (uevent_resp x) = RDMA_CM_EVENT_CONNECT_REQUEST)).
  - injection H as <- <-. rewrite filter_cons. case_decide; simpl; lia.
  - destruct (find_con_req_eve cm q) as [[y t]|]; [|discriminate].
    injection H as <- <-. specialize (IH y t eq_refl).
    rewrite !filter_cons. case_decide; simpl; lia.
Qed.

Lemma ucma_removal_event_handler_step s cm_id cm ctx :
  cm_ids s !! cm_id = Some cm -> ctxs s !! cm_context cm = Some ctx ->
  is_Some (files s !! ctx_file ctx) ->
  exists s', ucma_removal_event_handler cm_id s = Some (tt, s')
             /\ handler_step s s'.
Proof.
  intros H1 H2 [f H3]. destruct s as [mb ct mt cx ms fs cs tr]; simpl in *.
  unfold ucma_removal_event_handler. mrun.
  destruct (bool_decide (ctx_destroying ctx = 0)); mrun.
  2:{ eexists. split; [reflexivity|]. by apply handler_step_same. }
  destruct (bool_decide (ctx_cm_id ctx = Some cm_id)); mrun.
  { eexists. split; [reflexivity|]. by eapply handler_step_closing. }
  destruct (find_con_req_eve cm_id (file_event_list f)) as [[e rest]|] eqn:E; mrun.
  - eexists. split; [reflexivity|].
    eapply (handler_step_queue _ _ (ctx_file ctx) f rest); try done.
    intros l. by eapply find_con_req_eve_pending.
  - eexists. split; [reflexivity|]. by apply handler_step_same.
Qed.


(** Every path of the handler, for every event kind and both allocation
    outcomes: the value returned, and the step made. *)
Lemma ucma_event_handler_total s cm_id ev kz cm ctx f :
  cm_ids s !! cm_id = Some cm -> ctxs s !! cm_context cm = Some ctx ->
  files s !! ctx_file ctx = Some f ->
  (event ev = RDMA_CM_EVENT_MULTICAST_JOIN
   \/ event ev = RDMA_CM_EVENT_MULTICAST_ERROR ->
   exists mcp, ud_private_data (param_ud ev) = Some mcp /\ is_Some (mcs s !! mcp)) ->
  exists s',
    ucma_event_handler cm_id ev kz s =
      Some (if bool_decide (event ev = RDMA_CM_EVENT_CONNECT_REQUEST)
            then (if kz then (if bool_decide (ctx_backlog ctx = 0)
                              then - ENOMEM else 0)
                  else 1)
            else 0, s')
    /\ (kz = false -> s' = s)
    /\ handler_step s s'.
Proof.
  intros H1 H2 H3 Hmc. destruct kz.
  2:{ exists s. split; [|split; [done|by apply handler_step_same]].
      rewrite (ucma_event_handler_no_memory s cm_id ev cm H1).
      by destruct (bool_decide _). }
  destruct (decide (event ev = RDMA_CM_EVENT_CONNECT_REQUEST)) as [Hev|Hev].
  { rewrite (bool_decide_eq_true_2 _ Hev).
    destruct (decide (ctx_backlog ctx = 0)) as [Hz|Hnz].
    - rewrite (bool_decide_eq_true_2 _ Hz). eexists.
      split; [by eapply ucma_event_handler_refuses|].
      split; [discriminate|by apply handler_step_same].
    - rewrite (bool_decide_eq_false_2 _ Hnz). eexists.
      split; [by eapply ucma_event_handler_admits|].
      split; [discriminate|].
      eapply (handler_step_admit _ _ (cm_context cm) ctx f
                (connect_request_uevent cm_id ev cm ctx)); done. }
  rewrite (bool_decide_eq_false_2 _ Hev).
  assert (exists tgt, forall tr',
    ucma_set_event_context (cm_context cm) ev (st_with_trace s tr')
    = Some (tgt, st_with_trace s tr')) as [tgt Htgt].
  { unfold ucma_set_event_context.
    destruct (event ev) eqn:E;
      try (eexists; intros tr'; destruct s; simpl in *; mrun; reflexivity);
      (destruct Hmc as (mcp & Hp & [mc Hm]); [by auto|];
       eexists; intros tr'; rewrite Hp; destruct s; simpl in *; mrun;
       reflexivity). }
  unfold ucma_event_handler.
  erewrite bind_Some by (unfold load_cm_id; rewrite H1; reflexivity).
  change (negb true) with false. cbv beta iota zeta.
  erewrite bind_Some by (unfold load_ctx; rewrite H2; reflexivity).
  erewrite bind_Some by reflexivity.
  erewrite bind_Some by apply Htgt.
  cbv beta iota zeta.
  rewrite (bool_decide_eq_false_2 _ Hev).
  set (uevent := mk_uevent _ _ _ _).
  assert (resp_event (uevent_resp uevent) <> RDMA_CM_EVENT_CONNECT_REQUEST)
    as Hresp by exact Hev.
  clearbody uevent. clear Htgt.
  destruct (bool_decide (ctx_uid ctx = 0)
            || negb (bool_decide (ctx_cm_id ctx = Some cm_id))) eqn:Edrop.
  - (* the event is dropped *)
    destruct (bool_decide (event ev = RDMA_CM_EVENT_DEVICE_REMOVAL)).
    + edestruct (ucma_removal_event_handler_step
                   (st_with_trace s (trace s ++ [op_mutex_lock (file_mut (ctx_file ctx))]))
                   cm_id cm ctx) as (s1 & Hs1 & Hstep);
        [exact H1|exact H2|by eexists|].
      assert (exists ctx1, ctxs s1 !! cm_context cm = Some ctx1) as [ctx1 Hc1].
      { destruct Hstep as [(_ & _ & Hc & _) _].
        destruct (Hc _ _ H2) as (c' & ? & _). by exists c'. }
      erewrite bind_Some.
      2:{ erewrite bind_Some by exact Hs1. reflexivity. }
      destruct s1 as [mb ct mt cx ms fs cs tr]; simpl in *. mrun.
      eexists. split; [reflexivity|]. split; [discriminate|].
      eapply handler_step_trans; [|eapply handler_step_trans; [exact Hstep|]];
        by apply handler_step_same.
    + destruct s as [mb ct mt cx ms fs cs tr]; simpl in *. mrun.
      eexists. split; [reflexivity|]. split; [discriminate|].
      by apply handler_step_same.
  - (* the event is queued *)
    erewrite bind_Some by reflexivity. cbv beta iota.
    assert (handler_step s
              (logged
                 (st_with_files s
                    (<[ctx_file ctx :=
                         file_with_event_list f (file_event_list f ++ [uevent])]>
                       (files s)))
                 [op_mutex_lock (file_mut (ctx_file ctx));
                  op_wake_up (ctx_file ctx)])) as Hq.
    { eapply (handler_step_queue _ _ (ctx_file ctx) f
                (file_event_list f ++ [uevent])); try done.
      intros l. rewrite pending_snoc_other by (right; exact Hresp). lia. }
    destruct (bool_decide (event ev = RDMA_CM_EVENT_DEVICE_REMOVAL)).
    + edestruct (ucma_removal_event_handler_step
                   (logged
                      (st_with_files s
                         (<[ctx_file ctx :=
                              file_with_event_list f (file_event_list f ++ [uevent])]>
                            (files s)))
                      [op_mutex_lock (file_mut (ctx_file ctx));
                       op_wake_up (ctx_file ctx)])
                   cm_id cm ctx) as (s1 & Hs1 & Hstep);
        [exact H1|exact H2|simpl; rewrite lookup_insert_eq; by eexists|].
      assert (exists ctx1, ctxs s1 !! cm_context cm = Some ctx1) as [ctx1 Hc1].
      { destruct Hstep as [(_ & _ & Hc & _) _].
        destruct (Hc (cm_context cm) ctx) as (c' & ? & _); [exact H2|].
        by exists c'. }
      erewrite bind_Some.
      2:{ destruct s as [mb ct mt cx ms fs cs tr]; simpl in *. mrun.
          unfold logged, st_with_trace, st_with_files in Hs1. simpl in Hs1.
          rewrite <- app_assoc. simpl. rewrite Hs1. reflexivity. }
      destruct s1 as [mb ct mt cx ms fs cs tr]; simpl in *. mrun.
      eexists. split; [reflexivity|]. split; [discriminate|].
      eapply handler_step_trans; [exact Hq|].
      eapply handler_step_trans; [exact Hstep|]. by apply handler_step_same.
    + destruct s as [mb ct mt cx ms fs cs tr]; simpl in *. mrun.
      eexists. split; [reflexivity|]. split; [discriminate|].
      eapply handler_step_trans; [exact Hq|]. by apply handler_step_same.
Qed.






(** Claim C5, as the code has it.  The value returned to the engine is
    non-zero exactly when the event is a connect request and either the
    event could not be allocated (the callback returns 1) or the
    listener's backlog is zero (it returns -ENOMEM); every other path
    returns 0.  When the allocation fails the state is left as it was:
    the event is dropped and nothing records it. *)
Theorem ucma_event_handler_return (s : state) (cm_id : loc) (ev : rdma_cm_event)
    (kz : bool) (cm : rdma_cm_id) (ctx : ucma_context) (f : ucma_file) :
  cm_ids s !! cm_id = Some cm -> ctxs s !! cm_context cm = Some ctx ->
  files s !! ctx_file ctx = Some f ->
  (event ev = RDMA_CM_EVENT_MULTICAST_JOIN
   \/ event ev = RDMA_CM_EVENT_MULTICAST_ERROR ->
   exists mcp, ud_private_data (param_ud ev) = Some mcp /\ is_Some (mcs s !! mcp)) ->
  exists r s',
    ucma_event_handler cm_id ev kz s = Some (r, s')
    /\ (r <> 0 <-> event ev = RDMA_CM_EVENT_CONNECT_REQUEST
                   /\ (kz = false \/ ctx_backlog ctx = 0))
    /\ (event ev = RDMA_CM_EVENT_CONNECT_REQUEST -> kz = false -> r = 1)
    /\ (event ev = RDMA_CM_EVENT_CONNECT_REQUEST -> kz = true ->
        ctx_backlog ctx = 0 -> r = - ENOMEM)
    /\ (kz = false -> s' = s).
Proof.
  intros H1 H2 H3 Hmc.
  destruct (ucma_event_handler_total s cm_id ev kz cm ctx f H1 H2 H3 Hmc)
    as (s' & Hrun & Hsame & _).
  eexists _, s'. split; [exact Hrun|].
  split; [|split; [|split; [|exact Hsame]]].
  - destruct (bool_decide (event ev = RDMA_CM_EVENT_CONNECT_REQUEST)) eqn:E.
    + apply bool_decide_eq_true_1 in E. destruct kz.
      * destruct (bool_decide (ctx_backlog ctx = 0)) eqn:Eb.
        -- apply bool_decide_eq_true_1 in Eb. split; [by auto|discriminate].
        -- apply bool_decide_eq_false_1 in Eb.
           split; [done|]. intros [_ [?|?]]; [discriminate|done].
      * split; [by auto|discriminate].
    + apply bool_decide_eq_false_1 in E. split; [done|]. by intros [? _].
  - intros Hev ->. by rewrite (bool_decide_eq_true_2 _ Hev).
  - intros Hev -> Hz.
    by rewrite (bool_decide_eq_true_2 _ Hev), (bool_decide_eq_true_2 _ Hz).
Qed.

Lemma ucma_event_handler_return_witness :
  exists r s',
    ucma_event_handler 21%positive demo_connect_request true demo_state
    = Some (r, s') /\ r = 0.
Proof.
  destruct (ucma_event_handler_return demo_state 21%positive
              demo_connect_request true
              (mk_cm_id 10%positive None IB_QPT_RC) demo_ctx
              (mk_file false [10%positive] []) eq_refl eq_refl eq_refl)
    as (r & s' & Hrun & Hnz & _).
  - intros [H|H]; discriminate H.
  - exists r, s'. split; [exact Hrun|].
    destruct (decide (r = 0)) as [Hr|Hr]; [exact Hr|].
    apply Hnz in Hr as [_ [Hk|Hb]]; discriminate.
Defined.

(** Claim C5 as stated fails: with two free slots in the backlog, a
    connect request whose event cannot be allocated makes the callback
    return 1, a refusal, where the claim has an acknowledgement. *)
Lemma ucma_event_handler_alloc_failure_counterexample :
  ctx_backlog demo_ctx = 2
  /\ ucma_event_handler 21%positive demo_connect_request false demo_state
     = Some (1, demo_state)
  /\ 1 <> 0.
Proof. split; [reflexivity|]. split; [reflexivity|discriminate]. Qed.

(** ** Event consumption (claims C2 and C4) *)

Section GetEvent.

Variable abi : uapi_sizes.

Lemma ucma_get_event_connect_request s file out_len resp_addr signal p i copy_ok
    f uevent rest parent cm :
  min_event_resp abi <= out_len ->
  files s !! file = Some f -> file_event_list f = uevent :: rest ->
  resp_event (uevent_resp uevent) = RDMA_CM_EVENT_CONNECT_REQUEST ->
  ctxs s !! p = None ->
  ctxs s !! uevent_ctx uevent = Some parent ->
  cm_ids s !! uevent_cm_id uevent = Some cm ->
  (forall mcp, uevent_mc uevent = Some mcp -> is_Some (mcs s !! mcp)) ->
  let uevent' := uevent_with_resp uevent (resp_with_id (uevent_resp uevent) i) in
  let copied := op_copy_to_user
                  (resp_of_event (uevent_resp uevent')
                     (Z.min out_len (sizeof_event_resp abi))) copy_ok in
  exists s',
    ucma_get_event abi file out_len (Some resp_addr) signal (Some p) (Some i) copy_ok s
    = Some (Done (if copy_ok then 0 else - EFAULT), s')
    /\ ctx_table s' = <[i := p]> (ctx_table s)
    /\ ctxs s' !! p = Some (spawned_ctx file i (uevent_cm_id uevent))
    /\ cm_ids s' = <[uevent_cm_id uevent := cm_with_context cm p]> (cm_ids s)
    /\ ctxs s' !! uevent_ctx uevent =
         Some (if copy_ok
               then ctx_with_events_reported
                      (ctx_with_backlog parent (to_int (ctx_backlog parent + 1)))
                      (to_int (ctx_events_reported parent + 1))
               else ctx_with_backlog parent (to_int (ctx_backlog parent + 1)))
    /\ files s' !! file =
         Some (mk_file (file_nonblock f) (file_ctx_list f ++ [p])
                 (if copy_ok then rest else uevent' :: rest))
    /\ (exists l1 l2, trace s' = trace s ++ l1 ++ [copied] ++ l2
                      /\ forall r ok, op_copy_to_user r ok ∉ l1 ++ l2)
    /\ (copy_ok = false -> mcs s' = mcs s).
Proof.
  intros Hlen Hf Hq Hev Hp Hparent Hcm Hmc uevent' copied.
  assert (p <> uevent_ctx uevent) as Hne by congruence.
  unfold ucma_get_event, min_event_resp in *.
  rewrite (proj2 (Z.ltb_ge _ _) Hlen).
  destruct s as [mb ct mt cx ms fs cs tr]; simpl in *.
  unfold ucma_alloc_ctx. mrun. rewrite Hq. mrun. simpl. mrun.
  assert (forall r ok (l : list op),
            (forall o, o ∈ l -> match o with op_copy_to_user _ _ => False | _ => True end) ->
            op_copy_to_user r ok ∉ l) as Hnotin.
  { intros r ok l Hl Hin. apply (Hl _ Hin). }
  destruct copy_ok; mrun.
  - (* delivered *)
    destruct (uevent_mc uevent) as [mcp|] eqn:Emc;
      [destruct (Hmc mcp eq_refl) as [m Hm]|]; mrun;
      (eexists; split; [reflexivity|]; simpl;
       split; [reflexivity|];
       split; [by rewrite lookup_insert_ne, lookup_insert_eq by congruence|];
       split; [reflexivity|];
       split; [by rewrite lookup_insert_eq|];
       split; [by rewrite lookup_insert_eq|];
       split; [|discriminate]);
      (exists [op_mutex_lock (file_mut file)],
         [op_kfree_uevent uevent'; op_mutex_unlock (file_mut file)];
       split; [by rewrite <- !app_assoc|];
       intros r ok; apply Hnotin; intros o Ho;
       repeat (apply elem_of_cons in Ho as [->|Ho]; [done|]);
       by apply elem_of_nil in Ho).
  - (* the copy faults *)
    eexists; split; [reflexivity|]; simpl.
    split; [reflexivity|].
    split; [by rewrite lookup_insert_eq|].
    split; [reflexivity|].
    split; [by rewrite lookup_insert_ne, lookup_insert_eq by congruence|].
    split; [by rewrite lookup_insert_eq|].
    split; [|reflexivity].
    exists [op_mutex_lock (file_mut file)], [op_mutex_unlock (file_mut file)].
    split; [by rewrite <- !app_assoc|].
    intros r ok; apply Hnotin; intros o Ho;
      repeat (apply elem_of_cons in Ho as [->|Ho]; [done|]);
      by apply elem_of_nil in Ho.
Qed.

Lemma ucma_get_event_other s file out_len resp_addr signal kz xid copy_ok
    f uevent rest parent :
  min_event_resp abi <= out_len ->
  files s !! file = Some f -> file_event_list f = uevent :: rest ->
  resp_event (uevent_resp uevent) <> RDMA_CM_EVENT_CONNECT_REQUEST ->
  ctxs s !! uevent_ctx uevent = Some parent ->
  (forall mcp, uevent_mc uevent = Some mcp -> is_Some (mcs s !! mcp)) ->
  exists s',
    ucma_get_event abi file out_len (Some resp_addr) signal kz xid copy_ok s
    = Some (Done (if copy_ok then 0 else - EFAULT), s')
    /\ ctx_table s' = ctx_table s
    /\ ctxs s' =
         (if copy_ok
          then <[uevent_ctx uevent :=
                   ctx_with_events_reported parent
                     (to_int (ctx_events_reported parent + 1))]> (ctxs s)
          else ctxs s)
    /\ (forall mcp m, uevent_mc uevent = Some mcp -> mcs s !! mcp = Some m ->
          mcs s' =
            (if copy_ok
             then <[mcp := mc_with_events_reported m
                             (to_int (mc_events_reported m + 1))]> (mcs s)
             else mcs s))
    /\ (uevent_mc uevent = None -> mcs s' = mcs s)
    /\ files s' !! file =
         Some (file_with_event_list f (if copy_ok then rest else uevent :: rest)).
Proof.
  intros Hlen Hf Hq Hev Hparent Hmc.
  unfold ucma_get_event, min_event_resp in *.
  rewrite (proj2 (Z.ltb_ge _ _) Hlen).
  destruct s as [mb ct mt cx ms fs cs tr]; simpl in *.
  mrun. rewrite Hq. mrun.
  destruct copy_ok; mrun.
  - destruct (uevent_mc uevent) as [mcp|] eqn:Emc;
      [destruct (Hmc mcp eq_refl) as [m Hm]|]; mrun;
      (eexists; split; [reflexivity|]; simpl;
       split; [reflexivity|]; split; [reflexivity|]).
    + split; [|split; [discriminate|by rewrite lookup_insert_eq]].
      intros mcp' m' [= <-] Hm'. rewrite Hm in Hm'. by injection Hm' as ->.
    + split; [discriminate|]. split; [reflexivity|by rewrite lookup_insert_eq].
  - eexists; split; [reflexivity|]; simpl.
    split; [reflexivity|]. split; [reflexivity|]. split; [done|].
    split; [done|]. rewrite Hf. f_equal. destruct f; simpl in *. by subst.
Qed.

End GetEvent.

(** Claim C2.  A read whose head event is a connect request, with a
    context allocated for it: the new context is registered under its id
    and linked into the reading session, the engine object of the event is
    adopted (the context points to it and it points back), the response
    handed to [copy_to_user] is the response of the event with the id of
    the new context in the place of the listener's, and the backlog of the
    listener that the event targets goes up by one.  When the copy
    succeeds the read returns 0, the event leaves the queue and
    [events_reported] of the event's context goes up by one; when it
    faults the read returns -EFAULT and no [events_reported] moves.  For
    the other event kinds the context's counter, and the group's when the
    event targets a group, go up by one exactly when the copy succeeds,
    and stay as they are when it faults. *)
Theorem ucma_get_event_pop (abi : uapi_sizes) (s : state) (file : loc)
    (out_len resp_addr : Z) (signal copy_ok : bool) (f : ucma_file)
    (uevent : ucma_event) (rest : list ucma_event) (parent : ucma_context) :
  min_event_resp abi <= out_len ->
  files s !! file = Some f -> file_event_list f = uevent :: rest ->
  ctxs s !! uevent_ctx uevent = Some parent ->
  (forall mcp, uevent_mc uevent = Some mcp -> is_Some (mcs s !! mcp)) ->
  (resp_event (uevent_resp uevent) = RDMA_CM_EVENT_CONNECT_REQUEST ->
   forall p i cm,
     ctxs s !! p = None -> cm_ids s !! uevent_cm_id uevent = Some cm ->
     let uevent' := uevent_with_resp uevent (resp_with_id (uevent_resp uevent) i) in
     let copied := op_copy_to_user
                     (resp_of_event (uevent_resp uevent')
                        (Z.min out_len (sizeof_event_resp abi))) copy_ok in
     exists s',
       ucma_get_event abi file out_len (Some resp_addr) signal (Some p) (Some i)
         copy_ok s
       = Some (Done (if copy_ok then 0 else - EFAULT), s')
       /\ ctx_table s' = <[i := p]> (ctx_table s)
       /\ ctxs s' !! p = Some (spawned_ctx file i (uevent_cm_id uevent))
       /\ cm_ids s' = <[uevent_cm_id uevent := cm_with_context cm p]> (cm_ids s)
       /\ ctxs s' !! uevent_ctx uevent =
            Some (if copy_ok
                  then ctx_with_events_reported
                         (ctx_with_backlog parent (to_int (ctx_backlog parent + 1)))
                         (to_int (ctx_events_reported parent + 1))
                  else ctx_with_backlog parent (to_int (ctx_backlog parent + 1)))
       /\ files s' !! file =
            Some (mk_file (file_nonblock f) (file_ctx_list f ++ [p])
                    (if copy_ok then rest else uevent' :: rest))
       /\ (exists l1 l2, trace s' = trace s ++ l1 ++ [copied] ++ l2
                         /\ forall r ok, op_copy_to_user r ok ∉ l1 ++ l2)
       /\ (copy_ok = false -> mcs s' = mcs s)
       /\ uevent_resp uevent'
          = mk_resp (resp_uid (uevent_resp uevent)) i
              (resp_event (uevent_resp uevent)) (resp_status (uevent_resp uevent))
              (resp_param_of (uevent_resp uevent))
              (resp_ece_vendor_id (uevent_resp uevent))
              (resp_ece_attr_mod (uevent_resp uevent))
       /\ ctx_id <$> ctxs s' !! p = Some i
       /\ ctx_cm_id <$> ctxs s' !! p = Some (Some (uevent_cm_id uevent))
       /\ cm_context <$> cm_ids s' !! uevent_cm_id uevent = Some p
       /\ ctx_backlog <$> ctxs s' !! uevent_ctx uevent
          = Some (to_int (ctx_backlog parent + 1))
       /\ ctx_events_reported <$> ctxs s' !! uevent_ctx uevent
          = Some (if copy_ok then to_int (ctx_events_reported parent + 1)
                  else ctx_events_reported parent))
  /\ (resp_event (uevent_resp uevent) <> RDMA_CM_EVENT_CONNECT_REQUEST ->
      forall kz xid,
      exists s',
        ucma_get_event abi file out_len (Some resp_addr) signal kz xid copy_ok s
        = Some (Done (if copy_ok then 0 else - EFAULT), s')
        /\ ctx_table s' = ctx_table s
        /\ ctxs s' =
             (if copy_ok
              then <[uevent_ctx uevent :=
                       ctx_with_events_reported parent
                         (to_int (ctx_events_reported parent + 1))]> (ctxs s)
              else ctxs s)
        /\ (forall mcp m, uevent_mc uevent = Some mcp -> mcs s !! mcp = Some m ->
              mcs s' =
                (if copy_ok
                 then <[mcp := mc_with_events_reported m
                                 (to_int (mc_events_reported m + 1))]> (mcs s)
                 else mcs s))
        /\ (uevent_mc uevent = None -> mcs s' = mcs s)
        /\ files s' !! file =
             Some (file_with_event_list f (if copy_ok then rest else uevent :: rest))
        /\ ctx_events_reported <$> ctxs s' !! uevent_ctx uevent
           = Some (if copy_ok then to_int (ctx_events_reported parent + 1)
                   else ctx_events_reported parent)
        /\ (forall mcp m, uevent_mc uevent = Some mcp -> mcs s !! mcp = Some m ->
              mc_events_reported <$> mcs s' !! mcp
              = Some (if copy_ok then to_int (mc_events_reported m + 1)
                      else mc_events_reported m))
        /\ file_event_list <$> files s' !! file
           = Some (if copy_ok then rest else uevent :: rest)).
Proof.
  intros Hlen Hf Hq Hparent Hmc. split.
  - intros Hev p i cm Hp Hcm uevent' copied.
    destruct (ucma_get_event_connect_request abi s file out_len resp_addr signal
                p i copy_ok f uevent rest parent cm Hlen Hf Hq Hev Hp Hparent
                Hcm Hmc)
      as (s' & Hrun & Ht & Hc & Hcms & Hpar & Hfile & Htr & Hmcs).
    exists s'. split; [exact Hrun|]. split; [exact Ht|]. split; [exact Hc|].
    split; [exact Hcms|]. split; [exact Hpar|]. split; [exact Hfile|].
    split; [exact Htr|]. split; [exact Hmcs|].
    split; [reflexivity|].
    rewrite Hc, Hcms, Hpar, lookup_insert_eq. simpl.
    repeat (split; [reflexivity|]). by destruct copy_ok.
  - intros Hev kz xid.
    destruct (ucma_get_event_other abi s file out_len resp_addr signal kz xid
                copy_ok f uevent rest parent Hlen Hf Hq Hev Hparent Hmc)
      as (s' & Hrun & Ht & Hc & Hmcs & Hnomc & Hfile).
    exists s'. split; [exact Hrun|]. split; [exact Ht|]. split; [exact Hc|].
    split; [exact Hmcs|]. split; [exact Hnomc|]. split; [exact Hfile|].
    split; [|split].
    + rewrite Hc. destruct copy_ok.
      * by rewrite lookup_insert_eq.
      * by rewrite Hparent.
    + intros mcp m Hm1 Hm2. rewrite (Hmcs mcp m Hm1 Hm2). destruct copy_ok.
      * by rewrite lookup_insert_eq.
      * by rewrite Hm2.
    + rewrite Hfile. by destruct copy_ok.
Qed.

Lemma ucma_get_event_pop_witness :
  exists s',
    ucma_get_event uapi_abi 1%positive 336 (Some 0) false (Some 11%positive)
      (Some 1) true demo_queued = Some (Done 0, s')
    /\ ctx_table s' = <[1 := 11%positive]> (ctx_table demo_queued)
    /\ ctxs s' !! 11%positive = Some (spawned_ctx 1%positive 1 21%positive)
    /\ resp_id (uevent_resp demo_uevent) = 0
    /\ (exists l1 l2,
          trace s'
          = l1 ++ [op_copy_to_user
                     (resp_of_event
                        (mk_resp 7 1 RDMA_CM_EVENT_CONNECT_REQUEST 0
                           (resp_conn (mk_conn_param [] 0 0 0 0 0 0 0)) 0 0)
                        336) true] ++ l2)
    /\ ctx_events_reported <$> ctxs demo_queued !! 10%positive = Some 0
    /\ ctx_events_reported <$> ctxs s' !! 10%positive = Some 1
    /\ ctx_backlog <$> ctxs demo_queued !! 10%positive = Some 1
    /\ ctx_backlog <$> ctxs s' !! 10%positive = Some 2.
Proof.
  destruct (proj1 (ucma_get_event_pop uapi_abi demo_queued 1%positive 336 0 false
                     true (mk_file false [10%positive] [demo_uevent]) demo_uevent []
                     (ctx_with_backlog demo_ctx 1)
                     ltac:(vm_compute; discriminate) eq_refl eq_refl eq_refl
                     ltac:(intros mcp H; discriminate H))
              eq_refl 11%positive 1 (mk_cm_id 10%positive None IB_QPT_RC)
              eq_refl eq_refl)
    as (s' & Hrun & Ht & Hc & _ & _ & _ & (l1 & l2 & Htr & _) & _ & _ & _ & _
        & _ & Hb & Her).
  exists s'. split; [exact Hrun|]. split; [exact Ht|]. split; [exact Hc|].
  split; [reflexivity|]. split; [exists l1, l2; exact Htr|].
  split; [reflexivity|]. split; [exact Her|]. split; [reflexivity|exact Hb].
Defined.

(** Claim C4, where the code departs from it.  When the head event is a
    connect request and the copy of the response faults, the read returns
    -EFAULT but nothing it created is unwound: the new context stays
    registered under its id and linked into the session, it keeps the
    engine object, the listener keeps the admission slot it was handed
    back, and the event is still queued. *)
Theorem ucma_get_event_copy_fault_leaks (abi : uapi_sizes) (s : state)
    (file : loc) (out_len resp_addr : Z) (signal : bool) (f : ucma_file)
    (uevent : ucma_event) (rest : list ucma_event) (parent : ucma_context)
    (p : loc) (i : Z) (cm : rdma_cm_id) :
  min_event_resp abi <= out_len ->
  files s !! file = Some f -> file_event_list f = uevent :: rest ->
  resp_event (uevent_resp uevent) = RDMA_CM_EVENT_CONNECT_REQUEST ->
  ctxs s !! p = None -> ctx_table s !! i = None ->
  ctxs s !! uevent_ctx uevent = Some parent ->
  cm_ids s !! uevent_cm_id uevent = Some cm ->
  (forall mcp, uevent_mc uevent = Some mcp -> is_Some (mcs s !! mcp)) ->
  exists s',
    ucma_get_event abi file out_len (Some resp_addr) signal (Some p) (Some i)
      false s = Some (Done (- EFAULT), s')
    /\ ctx_table s' !! i = Some p
    /\ ctxs s' !! p = Some (spawned_ctx file i (uevent_cm_id uevent))
    /\ (file_ctx_list <$> files s' !! file) = Some (file_ctx_list f ++ [p])
    /\ (cm_context <$> cm_ids s' !! uevent_cm_id uevent) = Some p
    /\ (ctx_backlog <$> ctxs s' !! uevent_ctx uevent)
       = Some (to_int (ctx_backlog parent + 1))
    /\ (file_event_list <$> files s' !! file)
       = Some (uevent_with_resp uevent (resp_with_id (uevent_resp uevent) i) :: rest).
Proof.
  intros Hlen Hf Hq Hev Hp Hi Hparent Hcm Hmc.
  destruct (ucma_get_event_connect_request abi s file out_len resp_addr signal
              p i false f uevent rest parent cm Hlen Hf Hq Hev Hp Hparent Hcm Hmc)
    as (s' & Hrun & Ht & Hc & Hcms & Hpar & Hfile & _).
  exists s'. split; [exact Hrun|].
  rewrite Ht, Hc, Hcms, Hpar, Hfile, !lookup_insert_eq. done.
Qed.

Lemma ucma_get_event_copy_fault_leaks_witness :
  exists s',
    ucma_get_event uapi_abi 1%positive 336 (Some 0) false (Some 11%positive)
      (Some 1) false demo_queued = Some (Done (- EFAULT), s')
    /\ ctx_table demo_queued !! 1 = None
    /\ ctx_table s' !! 1 = Some 11%positive
    /\ (file_ctx_list <$> files s' !! 1%positive) = Some [10%positive; 11%positive]
    /\ (ctx_backlog <$> ctxs demo_queued !! 10%positive) = Some 1
    /\ (ctx_backlog <$> ctxs s' !! 10%positive) = Some 2
    /\ (file_event_list <$> files s' !! 1%positive)
       = Some [uevent_with_resp demo_uevent
                 (resp_with_id (uevent_resp demo_uevent) 1)].
Proof.
  destruct (ucma_get_event_copy_fault_leaks uapi_abi demo_queued 1%positive 336 0
              false (mk_file false [10%positive] [demo_uevent]) demo_uevent []
              (ctx_with_backlog demo_ctx 1) 11%positive 1
              (mk_cm_id 10%positive None IB_QPT_RC)
              ltac:(vm_compute; discriminate) eq_refl eq_refl eq_refl eq_refl
              eq_refl eq_refl eq_refl ltac:(intros mcp H; discriminate H))
    as (s' & Hrun & Ht & _ & Hl & _ & Hb & Hq).
  exists s'. split; [exact Hrun|]. split; [reflexivity|]. split; [exact Ht|].
  split; [exact Hl|]. split; [reflexivity|]. split; [exact Hb|exact Hq].
Defined.

(** ** Context creation (claim C8) *)

Lemma filter_ne_id (l : list loc) (p : loc) :
  p ∉ l -> filter (fun q => q <> p) l = l.
Proof.
  induction l as [|q l IH]; intros Hp; [reflexivity|].
  apply not_elem_of_cons in Hp as [Hq Hl].
  rewrite filter_cons_True by congruence. by rewrite IH.
Qed.

Lemma filter_ne_snoc (l : list loc) (p : loc) :
  p ∉ l -> filter (fun q => q <> p) (l ++ [p]) = l.
Proof.
  intros Hp. rewrite filter_app, filter_ne_id by done.
  rewrite filter_cons_False by (intros H; by apply H).
  by rewrite filter_nil, app_nil_r.
Qed.

Section CreateId.

Variable abi : uapi_sizes.

(** Claim C8.  A create-context command that fails after the context was
    inserted into the registry, because the engine cannot create the
    connection object or because the copy of the id to the client faults,
    returns the error with the registry, the session's context list, the
    context heap and the engine's objects exactly as they were before the
    command: the context is erased, unlinked and freed, and an engine
    object that was created is destroyed. *)
Theorem ucma_create_id_unwinds (s : state) (file : loc) (out_len : Z)
    (cmd : rdma_ucm_create_id) (p : loc) (i : Z) (engine : errptr)
    (copy_ok : bool) (f : ucma_file) :
  sizeof_create_id_resp abi <= out_len ->
  (ucma_get_qp_type cmd).1 = 0 ->
  files s !! file = Some f -> p ∉ file_ctx_list f ->
  ctxs s !! p = None -> ctx_table s !! i = None ->
  match engine with
  | Err _ => True
  | Ptr cm => cm_ids s !! cm = None /\ copy_ok = false
  end ->
  exists s',
    ucma_create_id abi file out_len (Some cmd) (Some p) (Some i) engine copy_ok s
    = Some (match engine with Err e => e | Ptr _ => - EFAULT end, s')
    /\ ctx_table s' = ctx_table s
    /\ files s' = files s
    /\ ctxs s' = ctxs s
    /\ cm_ids s' = cm_ids s
    /\ multicast_table s' = multicast_table s /\ mcs s' = mcs s
    /\ op_kfree_ctx p ∈ trace s'
    /\ match engine with
       | Err _ => True
       | Ptr cm => op_rdma_destroy_id cm ∈ trace s'
       end.
Proof.
  intros Hlen Hqp Hf Hnin Hp Hi Heng.
  unfold ucma_create_id.
  rewrite (proj2 (Z.ltb_ge _ _) Hlen).
  destruct (ucma_get_qp_type cmd) as [r qp]. simpl in Hqp. subst r.
  destruct s as [mb ct mt cx ms fs cs tr]; simpl in *.
  unfold ucma_alloc_ctx, __rdma_create_id.
  destruct engine as [e|cm]; [|destruct Heng as [Hcm ->]]; mrun; simpl; mrun;
    (eexists; split; [reflexivity|]; simpl;
     split; [by rewrite delete_insert_eq, delete_id|];
     split; [rewrite !insert_insert_eq, filter_ne_snoc by done;
             apply insert_id; rewrite Hf; by destruct f|];
     split; [by rewrite !delete_insert_eq, delete_id|];
     split; [by rewrite ?delete_insert_eq, ?delete_id|];
     split; [reflexivity|]; split; [reflexivity|]);
    rewrite ?elem_of_app, ?elem_of_cons; by auto 10.
Qed.

End CreateId.

Lemma ucma_create_id_unwinds_witness :
  exists s',
    ucma_create_id uapi_abi 1%positive 4
      (Some (mk_create_id 9 0 RDMA_PS_TCP IB_QPT_RC)) (Some 12%positive)
      (Some 3) (Ptr 25%positive) false demo_state = Some (- EFAULT, s')
    /\ ctx_table s' = ctx_table demo_state
    /\ files s' = files demo_state
    /\ ctxs s' = ctxs demo_state
    /\ cm_ids s' = cm_ids demo_state.
Proof.
  destruct (ucma_create_id_unwinds uapi_abi demo_state 1%positive 4
              (mk_create_id 9 0 RDMA_PS_TCP IB_QPT_RC) 12%positive 3
              (Ptr 25%positive) false (mk_file false [10%positive] [])
              ltac:(vm_compute; discriminate) eq_refl eq_refl
              ltac:(intros H; apply list_elem_of_singleton in H; discriminate H)
              eq_refl eq_refl (conj eq_refl eq_refl))
    as (s' & Hrun & H1 & H2 & H3 & H4 & _).
  exists s'. repeat split; assumption.
Defined.

(** ** Migration between sessions (claim C3) *)

Lemma move_events_loop_filter (ctx : loc) (l : list ucma_event) :
  move_events_loop ctx l =
    (filter (fun e => uevent_ctx e <> ctx) l,
     filter (fun e => uevent_ctx e = ctx) l).
Proof.
  induction l as [|e l IH]; [reflexivity|].
  simpl. rewrite IH. case_bool_decide as He.
  - rewrite filter_cons_False by (intros H; by apply H).
    by rewrite (filter_cons_True (fun e => uevent_ctx e = ctx)).
  - rewrite filter_cons_True by done.
    by rewrite (filter_cons_False (fun e => uevent_ctx e = ctx)).
Qed.

Lemma ucma_migrate_id_self s cmd copy_ok p c file :
  ctx_table s !! migrate_id cmd = Some p -> ctxs s !! p = Some c ->
  ctx_file c = file -> is_Some (ctx_cm_id c) -> ctx_closing c = 0 ->
  ctx_ref c <> 0 ->
  exists s',
    ucma_migrate_id file (Some cmd) (fd_ucma file) copy_ok s
    = Some (if copy_ok then 0 else - EFAULT, s')
    /\ ctx_table s' = ctx_table s /\ ctxs s' = ctxs s /\ files s' = files s
    /\ mcs s' = mcs s /\ cm_ids s' = cm_ids s
    /\ multicast_table s' = multicast_table s
    /\ op_copy_to_user (resp_of_events_reported (ctx_events_reported c)) copy_ok
       ∈ trace s'.
Proof.
  intros H1 H2 H3 H4 H5 H6. unfold ucma_migrate_id.
  erewrite bind_Some by (eapply ucma_get_ctx_found; eauto).
  destruct s as [mb ct mt cx ms fs cs tr]; simpl in *.
  unfold ctx_taken, ucma_put_ctx. mrun. simpl. mrun. simpl. mrun.
  eexists. split; [by destruct copy_ok|]. simpl.
  split; [reflexivity|].
  split.
  { rewrite insert_insert_eq. apply insert_id. rewrite H2. f_equal.
    destruct c; unfold ctx_with_ref; simpl. f_equal. lia. }
  repeat (split; [reflexivity|]).
  rewrite !elem_of_app, !elem_of_cons. by auto 10.
Qed.

Lemma ucma_migrate_id_distinct s cmd copy_ok p c cur_file new_file src dst :
  ctx_table s !! migrate_id cmd = Some p -> ctxs s !! p = Some c ->
  ctx_file c = cur_file -> is_Some (ctx_cm_id c) -> ctx_closing c = 0 ->
  ctx_ref c <> 0 ->
  cur_file <> new_file ->
  files s !! cur_file = Some src -> files s !! new_file = Some dst ->
  exists s',
    ucma_migrate_id new_file (Some cmd) (fd_ucma cur_file) copy_ok s
    = Some (if copy_ok then 0 else - EFAULT, s')
    /\ ctx_table s' = ctx_table s
    /\ ctxs s' = <[p := ctx_with_file c new_file]> (ctxs s)
    /\ files s' =
         <[new_file :=
             mk_file (file_nonblock dst) (file_ctx_list dst ++ [p])
               (file_event_list dst
                ++ filter (fun e => uevent_ctx e = p) (file_event_list src))]>
           (<[cur_file :=
                mk_file (file_nonblock src)
                  (filter (fun q => q <> p) (file_ctx_list src))
                  (filter (fun e => uevent_ctx e <> p) (file_event_list src))]>
              (files s))
    /\ mcs s' = mcs s /\ cm_ids s' = cm_ids s
    /\ multicast_table s' = multicast_table s
    /\ op_copy_to_user (resp_of_events_reported (ctx_events_reported c)) copy_ok
       ∈ trace s'.
Proof.
  intros H1 H2 H3 H4 H5 H6 Hne Hsrc Hdst. unfold ucma_migrate_id.
  erewrite bind_Some by (eapply ucma_get_ctx_found; eauto).
  destruct s as [mb ct mt cx ms fs cs tr]; simpl in *.
  unfold ctx_taken, ucma_put_ctx, ucma_move_events, ucma_lock_files,
    ucma_unlock_files.
  mrun. simpl. subst cur_file. mrun. simpl. mrun.
  destruct (ctx_file c <? new_file)%positive; mrun; simpl; mrun;
    rewrite move_events_loop_filter; mrun; simpl; mrun;
    (eexists; split; [by destruct copy_ok|]; simpl;
     split; [reflexivity|];
     split; [rewrite !insert_insert_eq; f_equal; destruct c;
             unfold ctx_with_ref, ctx_with_file; simpl; f_equal; lia|];
     split; [|repeat (split; [reflexivity|]);
              rewrite !elem_of_app, !elem_of_cons; by auto 20]).
  all: apply map_eq; intros k; rewrite !lookup_insert;
    repeat case_decide; try congruence; reflexivity.
Qed.

(** Claim C3.  A migration of a context that the lookup through the
    source descriptor finds, and that still holds its creator's
    reference.  Between two distinct sessions: the events of the source
    queue whose target is the context (those of its groups carry it as
    their context too) are appended, in their order, to the queue of the
    destination, the other events stay in the source queue in their order,
    the context moves from the source list to the end of the destination
    list and its owning session becomes the destination, its other
    fields staying as they are; the response handed to [copy_to_user] is
    its [events_reported].  From a session to
    itself: registry, contexts, sessions and queues are left as they were,
    and the response is again the context's [events_reported]. *)
Theorem ucma_migrate_id_moves_events (s : state) (cmd : rdma_ucm_migrate_id)
    (copy_ok : bool) (p : loc) (c : ucma_context) (cur_file new_file : loc)
    (src : ucma_file) :
  ctx_table s !! migrate_id cmd = Some p -> ctxs s !! p = Some c ->
  ctx_file c = cur_file -> is_Some (ctx_cm_id c) -> ctx_closing c = 0 ->
  ctx_ref c <> 0 ->
  files s !! cur_file = Some src ->
  (cur_file <> new_file ->
   forall dst, files s !! new_file = Some dst ->
   exists s',
     ucma_migrate_id new_file (Some cmd) (fd_ucma cur_file) copy_ok s
     = Some (if copy_ok then 0 else - EFAULT, s')
     /\ ctx_table s' = ctx_table s
     /\ ctxs s' = <[p := ctx_with_file c new_file]> (ctxs s)
     /\ files s' =
          <[new_file :=
              mk_file (file_nonblock dst) (file_ctx_list dst ++ [p])
                (file_event_list dst
                 ++ filter (fun e => uevent_ctx e = p) (file_event_list src))]>
            (<[cur_file :=
                 mk_file (file_nonblock src)
                   (filter (fun q => q <> p) (file_ctx_list src))
                   (filter (fun e => uevent_ctx e <> p) (file_event_list src))]>
               (files s))
     /\ mcs s' = mcs s /\ cm_ids s' = cm_ids s
     /\ multicast_table s' = multicast_table s
     /\ op_copy_to_user (resp_of_events_reported (ctx_events_reported c)) copy_ok
        ∈ trace s'
     /\ ctx_file <$> ctxs s' !! p = Some new_file
     /\ ctxs s' !! p
        = Some (mk_ctx (ctx_id c) (ctx_comp c) (ctx_ref c) (ctx_events_reported c)
                  (ctx_backlog c) new_file (ctx_cm_id c) (ctx_uid c)
                  (ctx_mc_list c) (ctx_closing c) (ctx_destroying c))
     /\ file_event_list <$> files s' !! new_file
        = Some (file_event_list dst
                ++ filter (fun e => uevent_ctx e = p) (file_event_list src))
     /\ file_event_list <$> files s' !! cur_file
        = Some (filter (fun e => uevent_ctx e <> p) (file_event_list src)))
  /\ (cur_file = new_file ->
      exists s',
        ucma_migrate_id new_file (Some cmd) (fd_ucma cur_file) copy_ok s
        = Some (if copy_ok then 0 else - EFAULT, s')
        /\ ctx_table s' = ctx_table s /\ ctxs s' = ctxs s /\ files s' = files s
        /\ mcs s' = mcs s /\ cm_ids s' = cm_ids s
        /\ multicast_table s' = multicast_table s
        /\ op_copy_to_user (resp_of_events_reported (ctx_events_reported c)) copy_ok
           ∈ trace s').
Proof.
  intros H1 H2 H3 H4 H5 H6 Hsrc. split.
  - intros Hne dst Hdst.
    destruct (ucma_migrate_id_distinct s cmd copy_ok p c cur_file new_file src
                dst H1 H2 H3 H4 H5 H6 Hne Hsrc Hdst)
      as (s' & Hrun & Ht & Hc & Hfs & Hm & Hcm & Hmt & Hcopy).
    exists s'. split; [exact Hrun|]. split; [exact Ht|]. split; [exact Hc|].
    split; [exact Hfs|]. split; [exact Hm|]. split; [exact Hcm|].
    split; [exact Hmt|]. split; [exact Hcopy|].
    rewrite Hc, Hfs, !lookup_insert_eq, lookup_insert_ne, lookup_insert_eq
      by congruence.
    done.
  - intros <-. by eapply ucma_migrate_id_self.
Qed.

Lemma ucma_migrate_id_moves_events_witness :
  exists s',
    ucma_migrate_id 2%positive (Some (mk_migrate_id 0 0 3)) (fd_ucma 1%positive)
      true demo_queued = Some (0, s')
    /\ files s' =
         <[2%positive := mk_file true [10%positive] [demo_uevent]]>
           (<[1%positive := mk_file false [] []]> (files demo_queued))
    /\ ctx_file <$> ctxs demo_queued !! 10%positive = Some 1%positive
    /\ ctx_file <$> ctxs s' !! 10%positive = Some 2%positive.
Proof.
  destruct (proj1 (ucma_migrate_id_moves_events demo_queued (mk_migrate_id 0 0 3)
                     true 10%positive (ctx_with_backlog demo_ctx 1) 1%positive
                     2%positive (mk_file false [10%positive] [demo_uevent])
                     eq_refl eq_refl eq_refl ltac:(by eexists) eq_refl
                     ltac:(discriminate) eq_refl)
              ltac:(discriminate) (mk_file true [] []) eq_refl)
    as (s' & Hrun & _ & _ & Hfiles & _ & _ & _ & _ & Hfile & _).
  exists s'. split; [exact Hrun|]. split; [exact Hfiles|].
  split; [reflexivity|exact Hfile].
Defined.

(** ** Multicast groups (claims C9 and C4) *)

Lemma cleanup_mc_events_loop_filter (mc : loc) (l : list ucma_event) :
  cleanup_mc_events_loop mc l =
    (filter (fun e => uevent_mc e <> Some mc) l,
     filter (fun e => uevent_mc e = Some mc) l).
Proof.
  induction l as [|e l IH]; [reflexivity|].
  simpl. rewrite IH. case_bool_decide as He; simpl.
  - rewrite filter_cons_False by (intros H; by apply H).
    by rewrite (filter_cons_True (fun e => uevent_mc e = Some mc)).
  - rewrite filter_cons_True by done.
    by rewrite (filter_cons_False (fun e => uevent_mc e = Some mc)).
Qed.

Lemma emit_all_run (l : list op) (s : state) :
  emit_all l s = Some (tt, logged s l).
Proof.
  revert s. induction l as [|o l IH]; intros s.
  - simpl. unfold ret. by rewrite logged_nil.
  - simpl. unfold bind, emit. rewrite IH. f_equal. f_equal.
    unfold logged, st_with_trace. simpl. by rewrite <- app_assoc.
Qed.

Section LeaveMulticast.

Variable abi : uapi_sizes.

(** Claim C9.  A leave-multicast command whose lookup succeeds (the group
    is published under the id, the caller's session owns the parent
    context and that context still has a reference): the parent's
    reference is taken and the group erased from the multicast registry
    between the lock and the unlock of that registry; the queue of the
    session loses exactly the events whose target is the group, the other
    events staying in their order; the group leaves the parent's list and
    is freed, the reference is given back, and the response handed to
    [copy_to_user] is the group's [events_reported]. *)
Theorem ucma_leave_multicast_removes_events (s : state) (file : loc)
    (out_len id : Z) (copy_ok : bool) (mcp : loc) (mc : ucma_multicast)
    (c : ucma_context) (cm : loc) (f : ucma_file) :
  sizeof_destroy_id_resp abi <= out_len ->
  multicast_table s !! id = Some (Some mcp) -> mcs s !! mcp = Some mc ->
  ctxs s !! mc_ctx mc = Some c -> ctx_file c = file -> ctx_ref c <> 0 ->
  ctx_cm_id c = Some cm -> files s !! file = Some f ->
  exists s',
    ucma_leave_multicast abi file out_len (Some id) copy_ok s
    = Some (if copy_ok then 0 else - EFAULT, s')
    /\ multicast_table s' = delete (mc_id mc) (multicast_table s)
    /\ files s' =
         <[file := file_with_event_list f
                     (filter (fun e => uevent_mc e <> Some mcp) (file_event_list f))]>
           (files s)
    /\ ctxs s' =
         <[mc_ctx mc :=
             ctx_with_mc_list c (filter (fun q => q <> mcp) (ctx_mc_list c))]>
           (ctxs s)
    /\ mcs s' = delete mcp (mcs s)
    /\ ctx_table s' = ctx_table s /\ cm_ids s' = cm_ids s
    /\ (exists l,
          trace s' =
            trace s
            ++ [op_xa_lock XA_multicast_table; op_refcount_inc (mc_ctx mc);
                op_xa_unlock XA_multicast_table]
            ++ l
            ++ [op_copy_to_user (resp_of_events_reported (mc_events_reported mc))
                  copy_ok]
          /\ op_rdma_leave_multicast cm mcp ∈ l
          /\ op_kfree_mc mcp ∈ l).
Proof.
  intros Hlen Hid Hmc Hc Hfile Href Hcm Hf.
  unfold ucma_leave_multicast.
  rewrite (proj2 (Z.ltb_ge _ _) Hlen).
  destruct s as [mb ct mt cx ms fs cs tr]; simpl in *.
  unfold ucma_cleanup_mc_events, ucma_put_ctx.
  mrun. simpl. mrun. simpl. rewrite Hcm. mrun. simpl. rewrite Hfile. mrun.
  rewrite cleanup_mc_events_loop_filter. mrun.
  rewrite emit_all_run.
  mrun. simpl. mrun.
  eexists. split; [by destruct copy_ok|]. simpl.
  split; [reflexivity|]. split; [reflexivity|].
  split.
  { rewrite !insert_insert_eq. f_equal.
    destruct c; unfold ctx_with_ref, ctx_with_mc_list; simpl. f_equal. lia. }
  split; [reflexivity|]. split; [reflexivity|]. split; [reflexivity|].
  exists ([op_mutex_lock (ctx_mutex (mc_ctx mc)); op_rdma_leave_multicast cm mcp;
           op_mutex_unlock (ctx_mutex (mc_ctx mc)); op_mutex_lock (file_mut file)]
          ++ map op_kfree_uevent
               (filter (fun e => uevent_mc e = Some mcp) (file_event_list f))
          ++ [op_mutex_unlock (file_mut (ctx_file c));
              op_refcount_dec (mc_ctx mc); op_kfree_mc mcp]).
  split; [|split].
  - rewrite <- !app_assoc. simpl. rewrite <- ?app_assoc. reflexivity.
  - rewrite !elem_of_app, !elem_of_cons. by auto 10.
  - rewrite !elem_of_app, !elem_of_cons. by auto 10.
Qed.

End LeaveMulticast.

Lemma ucma_leave_multicast_removes_events_witness :
  exists s',
    ucma_leave_multicast uapi_abi 1%positive 4 (Some 5) true demo_joined
    = Some (0, s')
    /\ files s' !! 1%positive = Some (mk_file false [10%positive] [demo_ctx_event])
    /\ multicast_table s' = ∅
    /\ op_copy_to_user (resp_of_events_reported 3) true ∈ trace s'.
Proof.
  destruct (ucma_leave_multicast_removes_events uapi_abi demo_joined 1%positive 4 5
              true 40%positive (mk_mc 10%positive 5 3 0 1 [])
              (ctx_with_mc_list demo_ctx [40%positive]) 20%positive
              (mk_file false [10%positive]
                 [demo_mc_event; demo_ctx_event; demo_mc_event])
              ltac:(vm_compute; discriminate) eq_refl eq_refl eq_refl eq_refl
              ltac:(discriminate) eq_refl eq_refl)
    as (s' & Hrun & Hmt & Hfiles & _ & _ & _ & _ & l & Htr & _).
  exists s'. split; [exact Hrun|].
  split; [by rewrite Hfiles|]. split; [rewrite Hmt; apply delete_singleton_eq|].
  rewrite Htr. rewrite !elem_of_app, !elem_of_cons. by auto 10.
Defined.

Section JoinMulticast.

Variable abi : uapi_sizes.
Variable rdma_addr_size : list Z -> Z.

(** The part of claim C4 that the code does honour: a join whose
    response copy faults returns -EFAULT after leaving the engine group,
    dropping the queued events of the group, erasing the reserved
    registry index and freeing the group, so that registry, groups and
    contexts are as before the command. *)
Lemma ucma_process_join_copy_fault_unwinds s file cmd out_len mp i p c cm cmo f :
  sizeof_create_id_resp abi <= out_len ->
  join_addr_size cmd = rdma_addr_size (join_addr cmd) ->
  (join_flags cmd = RDMA_MC_JOIN_FLAG_FULLMEMBER
   \/ join_flags cmd = RDMA_MC_JOIN_FLAG_SENDONLY_FULLMEMBER) ->
  ctx_table s !! join_id cmd = Some p -> ctxs s !! p = Some c ->
  ctx_file c = file -> ctx_cm_id c = Some cm -> ctx_closing c = 0 ->
  ctx_ref c <> 0 ->
  cm_ids s !! cm = Some cmo -> is_Some (cm_device cmo) ->
  files s !! file = Some f ->
  mcs s !! mp = None -> multicast_table s !! i = None -> mp ∉ ctx_mc_list c ->
  exists s',
    ucma_process_join abi rdma_addr_size file cmd out_len (Some mp) (Some i) 0
      false s = Some (- EFAULT, s')
    /\ multicast_table s' = multicast_table s
    /\ mcs s' = mcs s
    /\ ctxs s' = ctxs s
    /\ ctx_table s' = ctx_table s /\ cm_ids s' = cm_ids s
    /\ files s' =
         <[file := file_with_event_list f
                     (filter (fun e => uevent_mc e <> Some mp) (file_event_list f))]>
           (files s)
    /\ op_rdma_leave_multicast cm mp ∈ trace s'
    /\ op_kfree_mc mp ∈ trace s'.
Proof.
  intros Hlen Hsz Hfl H1 H2 H3 H4 H5 H6 H7 H8 Hf Hmp Hi Hnin.
  unfold ucma_process_join.
  rewrite (proj2 (Z.ltb_ge _ _) Hlen).
  rewrite (bool_decide_eq_true_2 _ Hsz). cbv beta iota delta [negb].
  assert (exists js, (match join_flags cmd with
                      | RDMA_MC_JOIN_FLAG_FULLMEMBER => Some (BIT FULLMEMBER_JOIN)
                      | RDMA_MC_JOIN_FLAG_SENDONLY_FULLMEMBER =>
                          Some (BIT SENDONLY_FULLMEMBER_JOIN)
                      | RDMA_MC_JOIN_FLAG_other _ => None
                      end) = Some js) as [js ->].
  { destruct Hfl as [-> | ->]; by eexists. }
  erewrite bind_Some by (eapply ucma_get_ctx_dev_bound; eauto).
  destruct s as [mb ct mt cx ms fs cs tr]; simpl in *.
  unfold ctx_taken, ucma_alloc_multicast, ucma_cleanup_mc_events, ucma_put_ctx.
  mgo. rewrite cleanup_mc_events_loop_filter. mgo. rewrite emit_all_run. mgo.
  eexists. split; [reflexivity|]. simpl.
  split; [by rewrite delete_insert_eq, delete_id|].
  split; [by rewrite !delete_insert_eq, delete_id|].
  split.
  { rewrite !insert_insert_eq. apply insert_id. rewrite H2. f_equal.
    destruct c; unfold ctx_with_ref, ctx_with_mc_list; simpl in *.
    rewrite filter_ne_snoc by done. f_equal. lia. }
  split; [reflexivity|]. split; [reflexivity|]. split; [reflexivity|].
  rewrite !elem_of_app, !elem_of_cons. split; by auto 20.
Qed.

End JoinMulticast.

(** * Properties of the remaining commands *)

(** ** Supporting lemmas: context teardown *)

Lemma erase_all_lookup {K A} `{Countable K} (ks : list K) (m : gmap K A) k :
  erase_all ks m !! k = if bool_decide (k ∈ ks) then None else m !! k.
Proof.
  unfold erase_all. revert m. induction ks as [|a ks IH]; intros m; cbn [foldl].
  - rewrite bool_decide_eq_false_2; [done|]. apply not_elem_of_nil.
  - rewrite IH. destruct (decide (k ∈ ks)) as [Hin|Hin].
    + rewrite !bool_decide_eq_true_2; [done| by right | done].
    + rewrite (bool_decide_eq_false_2 (k ∈ ks)) by done.
      destruct (decide (k = a)) as [->|Hne].
      * rewrite lookup_delete_eq, bool_decide_eq_true_2; [done|by left].
      * rewrite lookup_delete_ne by done.
        rewrite bool_decide_eq_false_2; [done|].
        intros Hx. apply elem_of_cons in Hx as [?|?]; done.
Qed.

Lemma group_ids_cons ms m l :
  group_ids ms (m :: l)
  = match ms !! m with Some mc => mc_id mc :: group_ids ms l | None => group_ids ms l end.
Proof. unfold group_ids. simpl. by destruct (ms !! m). Qed.

Lemma group_ids_delete ms m l :
  m ∉ l -> group_ids (delete m ms) l = group_ids ms l.
Proof.
  induction l as [|a l IH]; intros Hn; [done|].
  rewrite !group_ids_cons.
  rewrite lookup_delete_ne by (intros ->; apply Hn; by left).
  rewrite IH; [done|]. intros ?. apply Hn. by right.
Qed.

Lemma filter_not_in_cons (m : loc) (tmp l : list loc) :
  filter (fun q => q ∉ tmp) (filter (fun q => q <> m) l)
  = filter (fun q => q ∉ m :: tmp) l.
Proof.
  induction l as [|a l IH]; [done|].
  destruct (decide (a = m)) as [->|Hne].
  - rewrite (filter_cons_False (fun q => q <> m)) by (intros ?; done).
    rewrite (filter_cons_False (fun q => q ∉ m :: tmp)) by (intros Hx; apply Hx; by left).
    done.
  - rewrite (filter_cons_True (fun q => q <> m)) by done.
    destruct (decide (a ∈ tmp)) as [Hin|Hin].
    + rewrite (filter_cons_False (fun q => q ∉ tmp)) by (intros Hx; by apply Hx).
      rewrite (filter_cons_False (fun q => q ∉ m :: tmp))
        by (intros Hx; apply Hx; by right).
      done.
    + rewrite (filter_cons_True (fun q => q ∉ tmp)) by done.
      rewrite (filter_cons_True (fun q => q ∉ m :: tmp))
        by (intros Hx; apply elem_of_cons in Hx as [?|?]; done).
      by rewrite IH.
Qed.

Lemma filter_not_in_nil (l : list loc) : filter (fun q => q ∉ []) l = l.
Proof.
  induction l as [|a l IH]; [done|].
  rewrite filter_cons_True by (intros Hx; by apply elem_of_nil in Hx).
  by rewrite IH.
Qed.

Lemma cleanup_multicast_loop_run (p : loc) (l : list loc) :
  forall mb ct mt cx ms fs cs tr c,
  NoDup l -> (forall m, m ∈ l -> is_Some (ms !! m)) ->
  cx !! p = Some c ->
  cleanup_multicast_loop p l (mk_state mb ct mt cx ms fs cs tr)
  = Some (tt, mk_state mb ct (erase_all (group_ids ms l) mt)
                (<[p := ctx_with_mc_list c
                          (filter (fun q => q ∉ l) (ctx_mc_list c))]> cx)
                (erase_all l ms) fs cs (tr ++ map op_kfree_mc l)).
Proof.
  induction l as [|m tmp IH]; intros mb ct mt cx ms fs cs tr c Hnd Hex Hc.
  - simpl. unfold ret. rewrite filter_not_in_nil, app_nil_r.
    replace (ctx_with_mc_list c (ctx_mc_list c)) with c by (by destruct c).
    by rewrite insert_id.
  - apply NoDup_cons in Hnd as [Hm Hnd].
    destruct (Hex m) as [mc Hmc]; [by left|].
    simpl. mrun2.
    rewrite IH with (c := ctx_with_mc_list c (filter (fun q => q <> m) (ctx_mc_list c)));
      [|done| |by rewrite lookup_insert_eq].
    2:{ intros m' Hin. rewrite lookup_delete_ne by (intros ->; done).
        apply Hex. by right. }
    simpl. rewrite insert_insert_eq, filter_not_in_cons.
    rewrite group_ids_delete by done.
    rewrite <- ?app_assoc. reflexivity.
Qed.

Lemma free_events_loop_run (l : list ucma_event) :
  forall mb ct mt cx ms fs cs tr,
  free_events_loop l (mk_state mb ct mt cx ms fs cs tr)
  = Some (tt, mk_state mb ct mt cx ms fs
                (erase_all (connect_request_ids l) cs)
                (tr ++ free_events_log l)).
Proof.
  induction l as [|e l IH]; intros mb ct mt cx ms fs cs tr.
  - simpl. unfold ret. by rewrite app_nil_r.
  - simpl. unfold connect_request_ids.
    destruct (decide (resp_event (uevent_resp e) = RDMA_CM_EVENT_CONNECT_REQUEST))
      as [He|He].
    + rewrite filter_cons_True by done. mrun2. rewrite IH. simpl.
      rewrite <- !app_assoc. reflexivity.
    + rewrite filter_cons_False by done. mrun2. rewrite IH. simpl.
      rewrite <- !app_assoc. reflexivity.
Qed.

Lemma ucma_free_ctx_run mb ct mt cx ms fs cs tr p c f :
  cx !! p = Some c -> fs !! ctx_file c = Some f ->
  NoDup (ctx_mc_list c) -> (forall m, m ∈ ctx_mc_list c -> is_Some (ms !! m)) ->
  ucma_free_ctx p (mk_state mb ct mt cx ms fs cs tr)
  = Some (ctx_events_reported c,
          mk_state mb ct (erase_all (group_ids ms (ctx_mc_list c)) mt)
            (delete p cx) (erase_all (ctx_mc_list c) ms)
            (<[ctx_file c :=
                 mk_file (file_nonblock f)
                   (filter (fun q => q <> p) (file_ctx_list f))
                   (filter (fun e => uevent_ctx e <> p) (file_event_list f))]> fs)
            (erase_all
               (connect_request_ids
                  (filter (fun e => uevent_ctx e = p) (file_event_list f))) cs)
            (tr ++ [op_mutex_lock (file_mut (ctx_file c))]
                ++ map op_kfree_mc (ctx_mc_list c)
                ++ [op_mutex_unlock (file_mut (ctx_file c));
                    op_mutex_lock (file_mut (ctx_file c));
                    op_mutex_unlock (file_mut (ctx_file c))]
                ++ free_events_log
                     (filter (fun e => uevent_ctx e = p) (file_event_list f))
                ++ [op_kfree_ctx p])).
Proof.
  intros Hc Hf Hnd Hex. unfold ucma_free_ctx, ucma_cleanup_multicast. mrun2.
  erewrite cleanup_multicast_loop_run by eassumption.
  mgo2. rewrite move_events_loop_filter. mgo2.
  rewrite free_events_loop_run. mgo2.
  rewrite delete_insert_eq, insert_insert_eq.
  unfold file_with_ctx_list, file_with_event_list. simpl.
  rewrite <- !app_assoc. simpl. reflexivity.
Qed.

Lemma free_events_log_kfree (l : list ucma_event) (e : ucma_event) :
  e ∈ l -> op_kfree_uevent e ∈ free_events_log l.
Proof.
  intros Hin. unfold free_events_log. apply list_elem_of_In, in_flat_map.
  exists e. split; [by apply list_elem_of_In|].
  apply list_elem_of_In. rewrite elem_of_app. right. by left.
Qed.

Lemma free_events_log_destroy (l : list ucma_event) (cm : loc) :
  op_rdma_destroy_id cm ∈ free_events_log l -> cm ∈ connect_request_ids l.
Proof.
  unfold free_events_log, connect_request_ids. intros Hin.
  apply list_elem_of_In, in_flat_map in Hin as (e & He & Hin).
  apply list_elem_of_In in He, Hin.
  apply elem_of_app in Hin as [Hin|Hin].
  - case_bool_decide as Hr; [|by apply elem_of_nil in Hin].
    apply list_elem_of_singleton in Hin. injection Hin as ->.
    apply list_elem_of_fmap. exists e. split; [done|].
    by rewrite list_elem_of_filter.
  - apply list_elem_of_singleton in Hin. discriminate.
Qed.

Lemma kfree_mc_log_only (l : list loc) (o : op) :
  o ∈ map op_kfree_mc l -> exists m, o = op_kfree_mc m.
Proof.
  intros Hin. apply list_elem_of_In, in_map_iff in Hin as (m & Hm & _). eauto.
Qed.

Lemma free_events_log_only (l : list ucma_event) (o : op) :
  o ∈ free_events_log l ->
  (exists cm, o = op_rdma_destroy_id cm) \/ (exists e, o = op_kfree_uevent e).
Proof.
  unfold free_events_log. intros Hin.
  apply list_elem_of_In, in_flat_map in Hin as (e & _ & Hin).
  apply list_elem_of_In, elem_of_app in Hin as [Hin|Hin].
  - case_bool_decide; [|by apply elem_of_nil in Hin].
    apply list_elem_of_singleton in Hin. eauto.
  - apply list_elem_of_singleton in Hin. eauto.
Qed.

(** An operation that a log given as a concatenation does not hold. *)
Ltac not_in_trace :=
  let Hin := fresh "Hin" in
  intros Hin;
  repeat first [rewrite elem_of_app in Hin | rewrite elem_of_cons in Hin];
  rewrite elem_of_nil in Hin;
  repeat match goal with
  | H : _ \/ _ |- _ => destruct H as [H|H]
  | H : _ ∈ map op_kfree_mc _ |- _ => apply kfree_mc_log_only in H as [? H]
  | H : _ ∈ free_events_log _ |- _ =>
      first [ apply free_events_log_destroy in H
            | apply free_events_log_only in H as [[? H]|[? H]] ]
  end;
  first [discriminate | contradiction | done].

Section DestroyId.

Variable abi : uapi_sizes.

Lemma ucma_destroy_id_unknown s file out_len id pending copy_ok :
  sizeof_destroy_id_resp abi <= out_len ->
  ctx_table s !! id = None ->
  ucma_destroy_id abi file out_len (Some id) pending copy_ok s
  = Some (Done (- ENOENT), ctx_refused s).
Proof.
  intros Ho H. destruct s as [mb ct mt cx ms fs cs tr]; simpl in *.
  unfold ucma_destroy_id, _ucma_find_context, ctx_refused.
  rewrite (proj2 (Z.ltb_ge _ _) Ho). mrun2. state_eq.
Qed.

Lemma ucma_destroy_id_invalid s file out_len id pending copy_ok p c :
  sizeof_destroy_id_resp abi <= out_len ->
  ctx_table s !! id = Some p -> ctxs s !! p = Some c ->
  ctx_file c <> file \/ ctx_cm_id c = None ->
  ucma_destroy_id abi file out_len (Some id) pending copy_ok s
  = Some (Done (- EINVAL), ctx_refused s).
Proof.
  intros Ho H1 H2 H3. destruct s as [mb ct mt cx ms fs cs tr]; simpl in *.
  unfold ucma_destroy_id, _ucma_find_context, ctx_refused.
  rewrite (proj2 (Z.ltb_ge _ _) Ho). mrun2.
  destruct H3 as [H3|H3].
  - mrun2. state_eq.
  - rewrite H3. rewrite (bool_decide_eq_false_2 _ not_is_Some_None).
    destruct (bool_decide (ctx_file c = file)); mrun2; state_eq.
Qed.

Lemma ucma_destroy_id_idle_run mb ct mt cx ms fs cs tr file out_len id copy_ok p c cm f :
  sizeof_destroy_id_resp abi <= out_len ->
  ct !! id = Some p -> cx !! p = Some c ->
  ctx_file c = file -> ctx_cm_id c = Some cm ->
  ctx_closing c = 0 -> ctx_ref c = 1 ->
  fs !! file = Some f ->
  NoDup (ctx_mc_list c) -> (forall m, m ∈ ctx_mc_list c -> is_Some (ms !! m)) ->
  ucma_destroy_id abi file out_len (Some id) [] copy_ok (mk_state mb ct mt cx ms fs cs tr)
  = Some (Done (if copy_ok then 0 else - EFAULT),
          mk_state mb (delete (ctx_id c) ct)
            (erase_all (group_ids ms (ctx_mc_list c)) mt)
            (delete p cx) (erase_all (ctx_mc_list c) ms)
            (<[file :=
                 mk_file (file_nonblock f)
                   (filter (fun q => q <> p) (file_ctx_list f))
                   (filter (fun e => uevent_ctx e <> p) (file_event_list f))]> fs)
            (erase_all
               (connect_request_ids
                  (filter (fun e => uevent_ctx e = p) (file_event_list f)))
               (delete cm cs))
            (tr ++ [op_xa_lock XA_ctx_table; op_xa_unlock XA_ctx_table;
                    op_mutex_lock (file_mut file); op_mutex_unlock (file_mut file);
                    op_xa_lock XA_ctx_table; op_xa_unlock XA_ctx_table;
                    op_refcount_dec p; op_complete p; op_rdma_destroy_id cm;
                    op_mutex_lock (file_mut file)]
                ++ map op_kfree_mc (ctx_mc_list c)
                ++ [op_mutex_unlock (file_mut file);
                    op_mutex_lock (file_mut file);
                    op_mutex_unlock (file_mut file)]
                ++ free_events_log
                     (filter (fun e => uevent_ctx e = p) (file_event_list f))
                ++ [op_kfree_ctx p;
                    op_copy_to_user
                      (resp_of_events_reported (ctx_events_reported c)) copy_ok])).
Proof.
  intros Ho H1 H2 H3 H4 H5 H6 H7 H8 H9.
  unfold ucma_destroy_id, _ucma_find_context, ucma_put_ctx, wait_for_completion.
  rewrite (proj2 (Z.ltb_ge _ _) Ho). mgo2.
  erewrite ucma_free_ctx_run;
    [|by rewrite lookup_insert_eq|simpl; rewrite H3; exact H7|exact H8|exact H9].
  simpl. rewrite !delete_insert_eq, H3.
  destruct copy_ok; trace_eq.
Qed.

Lemma ucma_destroy_id_closing_run mb ct mt cx ms fs cs tr file out_len id copy_ok p c cm f :
  sizeof_destroy_id_resp abi <= out_len ->
  ct !! id = Some p -> cx !! p = Some c ->
  ctx_file c = file -> ctx_cm_id c = Some cm ->
  ctx_closing c <> 0 -> ctx_ref c = 1 ->
  fs !! file = Some f ->
  NoDup (ctx_mc_list c) -> (forall m, m ∈ ctx_mc_list c -> is_Some (ms !! m)) ->
  ucma_destroy_id abi file out_len (Some id) [work_close_id p] copy_ok
    (mk_state mb ct mt cx ms fs cs tr)
  = Some (Done (if copy_ok then 0 else - EFAULT),
          mk_state mb (delete (ctx_id c) ct)
            (erase_all (group_ids ms (ctx_mc_list c)) mt)
            (delete p cx) (erase_all (ctx_mc_list c) ms)
            (<[file :=
                 mk_file (file_nonblock f)
                   (filter (fun q => q <> p) (file_ctx_list f))
                   (filter (fun e => uevent_ctx e <> p) (file_event_list f))]> fs)
            (erase_all
               (connect_request_ids
                  (filter (fun e => uevent_ctx e = p) (file_event_list f)))
               (delete cm cs))
            (tr ++ [op_xa_lock XA_ctx_table; op_xa_unlock XA_ctx_table;
                    op_mutex_lock (file_mut file); op_mutex_unlock (file_mut file);
                    op_refcount_dec p; op_complete p; op_rdma_destroy_id cm;
                    op_xa_lock XA_ctx_table; op_xa_unlock XA_ctx_table;
                    op_mutex_lock (file_mut file)]
                ++ map op_kfree_mc (ctx_mc_list c)
                ++ [op_mutex_unlock (file_mut file);
                    op_mutex_lock (file_mut file);
                    op_mutex_unlock (file_mut file)]
                ++ free_events_log
                     (filter (fun e => uevent_ctx e = p) (file_event_list f))
                ++ [op_kfree_ctx p;
                    op_copy_to_user
                      (resp_of_events_reported (ctx_events_reported c)) copy_ok])).
Proof.
  intros Ho H1 H2 H3 H4 H5 H6 H7 H8 H9.
  unfold ucma_destroy_id, _ucma_find_context, flush_workqueue, ucma_close_id,
    ucma_put_ctx, wait_for_completion.
  rewrite (proj2 (Z.ltb_ge _ _) Ho). mgo2.
  erewrite ucma_free_ctx_run;
    [|by rewrite lookup_insert_eq|simpl; rewrite H3; exact H7|exact H8|exact H9].
  simpl. rewrite !delete_insert_eq, H3.
  destruct copy_ok; trace_eq.
Qed.

Lemma ucma_destroy_id_blocked_run mb ct mt cx ms fs cs tr file out_len id copy_ok p c cm :
  sizeof_destroy_id_resp abi <= out_len ->
  ct !! id = Some p -> cx !! p = Some c ->
  ctx_file c = file -> ctx_cm_id c = Some cm ->
  ctx_closing c = 0 -> ctx_ref c <> 1 -> ctx_comp c = 0%nat ->
  ucma_destroy_id abi file out_len (Some id) [] copy_ok
    (mk_state mb ct mt cx ms fs cs tr)
  = Some (Sleeps,
          mk_state mb (delete (ctx_id c) ct) mt
            (<[p := ctx_with_ref (ctx_with_destroying c 1) (ctx_ref c - 1)]> cx)
            ms fs cs
            (tr ++ [op_xa_lock XA_ctx_table; op_xa_unlock XA_ctx_table;
                    op_mutex_lock (file_mut file); op_mutex_unlock (file_mut file);
                    op_xa_lock XA_ctx_table; op_xa_unlock XA_ctx_table;
                    op_refcount_dec p])).
Proof.
  intros Ho H1 H2 H3 H4 H5 H6 H7.
  unfold ucma_destroy_id, _ucma_find_context, flush_workqueue,
    ucma_put_ctx, wait_for_completion.
  rewrite (proj2 (Z.ltb_ge _ _) Ho). mgo2. rewrite H7. mgo2.
  rewrite !insert_insert_eq. trace_eq.
Qed.

End DestroyId.

Lemma ucma_close_loop_step mb ct mt cx ms fs cs tr file p tmp c cm f :
  cx !! p = Some c -> ctx_file c = file -> ctx_ref c = 1 ->
  ctx_closing c = 0 -> ctx_cm_id c = Some cm ->
  fs !! file = Some f ->
  NoDup (ctx_mc_list c) -> (forall m, m ∈ ctx_mc_list c -> is_Some (ms !! m)) ->
  ucma_close_loop file no_pending (p :: tmp) (mk_state mb ct mt cx ms fs cs tr)
  = ucma_close_loop file no_pending tmp
      (mk_state mb (delete (ctx_id c) ct)
         (erase_all (group_ids ms (ctx_mc_list c)) mt)
         (delete p cx) (erase_all (ctx_mc_list c) ms)
         (<[file :=
              mk_file (file_nonblock f)
                (filter (fun q => q <> p) (file_ctx_list f))
                (filter (fun e => uevent_ctx e <> p) (file_event_list f))]> fs)
         (erase_all
            (connect_request_ids
               (filter (fun e => uevent_ctx e = p) (file_event_list f)))
            (delete cm cs))
         (tr ++ [op_mutex_unlock (file_mut file);
                 op_xa_lock XA_ctx_table; op_xa_unlock XA_ctx_table;
                 op_refcount_dec p; op_complete p; op_rdma_destroy_id cm;
                 op_mutex_lock (file_mut file)]
             ++ map op_kfree_mc (ctx_mc_list c)
             ++ [op_mutex_unlock (file_mut file);
                 op_mutex_lock (file_mut file);
                 op_mutex_unlock (file_mut file)]
             ++ free_events_log
                  (filter (fun e => uevent_ctx e = p) (file_event_list f))
             ++ [op_kfree_ctx p; op_mutex_lock (file_mut file)])).
Proof.
  intros H2 H3 H6 H5 H4 H7 H8 H9.
  cbn [ucma_close_loop]. unfold no_pending at 1.
  unfold flush_workqueue, ucma_put_ctx, wait_for_completion.
  mgo2.
  erewrite ucma_free_ctx_run;
    [|by rewrite lookup_insert_eq|simpl; rewrite H3; exact H7|exact H8|exact H9].
  mgo2. rewrite !delete_insert_eq. f_equal. f_equal. trace_eq.
Qed.

Lemma ucma_close_loop_run file (l : list loc) : forall s f,
  NoDup l -> files s !! file = Some f ->
  (forall q, q ∈ l -> ctx_idle s file q) ->
  exists s',
    ucma_close_loop file no_pending l s = Some (true, s')
    /\ is_Some (files s' !! file)
    /\ (forall q, q ∈ l \/ ctxs s !! q = None -> ctxs s' !! q = None)
    /\ (forall i, (exists q c, q ∈ l /\ ctxs s !! q = Some c /\ ctx_id c = i)
                  \/ ctx_table s !! i = None -> ctx_table s' !! i = None)
    /\ (forall k, (exists q c, q ∈ l /\ ctxs s !! q = Some c /\ ctx_cm_id c = Some k)
                  \/ cm_ids s !! k = None -> cm_ids s' !! k = None)
    /\ (forall m, (exists q c, q ∈ l /\ ctxs s !! q = Some c /\ m ∈ ctx_mc_list c)
                  \/ mcs s !! m = None -> mcs s' !! m = None)
    /\ (forall g, g <> file -> files s' !! g = files s !! g)
    /\ (forall q, q ∉ l -> ctxs s' !! q = ctxs s !! q).
Proof.
  induction l as [|p tmp IH]; intros s f Hnd Hf Hidle.
  - exists s. split; [reflexivity|]. split; [by eauto|].
    repeat split.
    + intros q [Hq|Hq]; [by apply elem_of_nil in Hq | done].
    + intros i [(q & c & Hq & _)|Hi]; [by apply elem_of_nil in Hq | done].
    + intros i [(q & c & Hq & _)|Hi]; [by apply elem_of_nil in Hq | done].
    + intros i [(q & c & Hq & _)|Hi]; [by apply elem_of_nil in Hq | done].
  - apply NoDup_cons in Hnd as [Hp Hnd].
    destruct (Hidle p) as (c & cm & Hc & Hfile & Href & Hcl & Hcm & Hmnd & Hmc);
      [by left|].
    destruct s as [mb ct mt cx ms fs cs tr]; simpl in Hf, Hc, Hmc.
    assert (forall m, m ∈ ctx_mc_list c -> is_Some (ms !! m)) as Hex.
    { intros m Hm. destruct (Hmc m Hm) as (mc & -> & _). eauto. }
    rewrite (ucma_close_loop_step mb ct mt cx ms fs cs tr file p tmp c cm f)
      by assumption.
    match goal with
    | |- context [ucma_close_loop _ _ tmp ?s1] =>
        destruct (IH s1 (mk_file (file_nonblock f)
                           (filter (fun q => q <> p) (file_ctx_list f))
                           (filter (fun e => uevent_ctx e <> p) (file_event_list f)))
                    Hnd)
          as (s' & Hrun & Hfs & Hcx & Hct & Hcs & Hms & Hother & Hkeep)
    end; [simpl; apply lookup_insert_eq | |].
    { intros q Hq. destruct (Hidle q) as (cq & cmq & Hcq & ? & ? & ? & ? & ? & Hmq);
        [by right|].
      assert (q <> p) as Hne by (intros ->; done).
      exists cq, cmq. simpl. rewrite lookup_delete_ne by done.
      repeat (split; [assumption|]).
      intros m Hm. destruct (Hmq m Hm) as (mc & Hmcs & Hback).
      exists mc. split; [|exact Hback].
      rewrite erase_all_lookup, bool_decide_eq_false_2; [done|].
      intros Hin. destruct (Hmc m Hin) as (mc' & Hmcs' & Hback').
      simpl in *. congruence. }
    simpl in *. exists s'. split; [exact Hrun|]. split; [exact Hfs|].
    split; [|split; [|split; [|split; [|split]]]].
    + intros q [Hq|Hq]; apply Hcx.
      * apply elem_of_cons in Hq as [->|Hq]; [right; apply lookup_delete_eq | by left].
      * right. destruct (decide (q = p)) as [->|Hne];
          [apply lookup_delete_eq | by rewrite lookup_delete_ne].
    + intros i [(q & cq & Hq & Hcq & Hi)|Hi]; apply Hct.
      * apply elem_of_cons in Hq as [->|Hq].
        -- right. rewrite Hc in Hcq. injection Hcq as <-. rewrite Hi.
           apply lookup_delete_eq.
        -- left. exists q, cq. split; [done|]. split; [|done].
           rewrite lookup_delete_ne; [done|]. intros ->. done.
      * right. destruct (decide (i = ctx_id c)) as [->|Hne];
          [apply lookup_delete_eq | by rewrite lookup_delete_ne].
    + intros k [(q & cq & Hq & Hcq & Hk)|Hk]; apply Hcs.
      * apply elem_of_cons in Hq as [->|Hq].
        -- right. rewrite Hc in Hcq. injection Hcq as <-.
           rewrite erase_all_lookup. case_bool_decide; [done|].
           assert (k = cm) as -> by congruence. apply lookup_delete_eq.
        -- left. exists q, cq. split; [done|]. split; [|done].
           rewrite lookup_delete_ne; [done|]. intros ->. done.
      * right. rewrite erase_all_lookup. case_bool_decide; [done|].
        destruct (decide (k = cm)) as [->|Hne];
          [apply lookup_delete_eq | by rewrite lookup_delete_ne].
    + intros m [(q & cq & Hq & Hcq & Hm)|Hm]; apply Hms.
      * apply elem_of_cons in Hq as [->|Hq].
        -- right. rewrite Hc in Hcq. injection Hcq as <-.
           rewrite erase_all_lookup. by rewrite bool_decide_eq_true_2.
        -- left. exists q, cq. split; [done|]. split; [|done].
           rewrite lookup_delete_ne; [done|]. intros ->. done.
      * right. rewrite erase_all_lookup. by case_bool_decide.
    + intros g Hg. rewrite Hother by done. by rewrite lookup_insert_ne.
    + intros q Hq. rewrite Hkeep by (intros ?; apply Hq; by right).
      rewrite lookup_delete_ne; [done|]. intros ->. apply Hq. by left.
Qed.

(** ** Supporting lemmas: multicast *)

Lemma filter_all {A} (P : A -> Prop) `{!forall x, Decision (P x)} (l : list A) :
  (forall x, x ∈ l -> P x) -> filter P l = l.
Proof.
  induction l as [|a l IH]; intros Hall; [done|].
  rewrite filter_cons_True by (apply Hall; by left).
  rewrite IH; [done|]. intros x Hx. apply Hall. by right.
Qed.

Section MulticastFacts.

Variable abi : uapi_sizes.
Variable rdma_addr_size : list Z -> Z.

Lemma ucma_process_join_run s file cmd out_len mp i p c cm cmo js :
  sizeof_create_id_resp abi <= out_len ->
  join_addr_size cmd = rdma_addr_size (join_addr cmd) ->
  join_state_of (join_flags cmd) = Some js ->
  ctx_table s !! join_id cmd = Some p -> ctxs s !! p = Some c ->
  ctx_file c = file -> ctx_cm_id c = Some cm -> ctx_closing c = 0 ->
  ctx_ref c <> 0 ->
  cm_ids s !! cm = Some cmo -> is_Some (cm_device cmo) ->
  ucma_process_join abi rdma_addr_size file cmd out_len (Some mp) (Some i) 0
    true s
  = Some (0,
      mk_state (max_backlog s) (ctx_table s)
        (<[i := Some mp]> (multicast_table s))
        (<[p := ctx_with_mc_list c (ctx_mc_list c ++ [mp])]> (ctxs s))
        (<[mp := mk_mc p i 0 (join_uid cmd) js
                   (take (Z.to_nat (join_addr_size cmd)) (join_addr cmd))]> (mcs s))
        (files s) (cm_ids s)
        (trace s ++
         [op_xa_lock XA_ctx_table; op_refcount_inc p; op_xa_unlock XA_ctx_table;
          op_mutex_lock (file_mut file); op_mutex_lock (ctx_mutex p);
          op_rdma_join_multicast cm mp; op_mutex_unlock (ctx_mutex p);
          op_copy_to_user (resp_of_id i) true;
          op_mutex_unlock (file_mut file); op_refcount_dec p])).
Proof.
  intros Hlen Hsz Hfl H1 H2 H3 H4 H5 H6 H7 H8.
  unfold ucma_process_join.
  rewrite (proj2 (Z.ltb_ge _ _) Hlen).
  rewrite (bool_decide_eq_true_2 _ Hsz). cbv beta iota delta [negb].
  change (match join_flags cmd with
          | RDMA_MC_JOIN_FLAG_FULLMEMBER => Some (BIT FULLMEMBER_JOIN)
          | RDMA_MC_JOIN_FLAG_SENDONLY_FULLMEMBER =>
              Some (BIT SENDONLY_FULLMEMBER_JOIN)
          | RDMA_MC_JOIN_FLAG_other _ => None
          end) with (join_state_of (join_flags cmd)).
  rewrite Hfl.
  erewrite bind_Some by (eapply ucma_get_ctx_dev_bound; eauto).
  destruct s as [mb ct mt cx ms fs cs tr]; simpl in *.
  unfold ctx_taken, ucma_alloc_multicast, ucma_put_ctx.
  mgo. f_equal. f_equal. f_equal.
  - by rewrite insert_insert_eq.
  - rewrite !insert_insert_eq. f_equal.
    destruct c; unfold ctx_with_ref, ctx_with_mc_list; simpl in *. f_equal. lia.
  - by rewrite !insert_insert_eq.
  - trace_eq.
Qed.

Lemma join_state_of_eq (fl : rdma_mc_join_flags) :
  match fl with
  | RDMA_MC_JOIN_FLAG_FULLMEMBER => Some (BIT FULLMEMBER_JOIN)
  | RDMA_MC_JOIN_FLAG_SENDONLY_FULLMEMBER => Some (BIT SENDONLY_FULLMEMBER_JOIN)
  | RDMA_MC_JOIN_FLAG_other _ => None
  end = join_state_of fl.
Proof. reflexivity. Qed.

Lemma ucma_process_join_no_memory s file cmd out_len kz engine copy_ok mp p c cm cmo js :
  sizeof_create_id_resp abi <= out_len ->
  join_addr_size cmd = rdma_addr_size (join_addr cmd) ->
  join_state_of (join_flags cmd) = Some js ->
  ctx_table s !! join_id cmd = Some p -> ctxs s !! p = Some c ->
  ctx_file c = file -> ctx_cm_id c = Some cm -> ctx_closing c = 0 ->
  ctx_ref c <> 0 ->
  cm_ids s !! cm = Some cmo -> is_Some (cm_device cmo) ->
  mcs s !! mp = None ->
  kz = None \/ kz = Some mp ->
  exists s',
    ucma_process_join abi rdma_addr_size file cmd out_len kz None engine
      copy_ok s = Some (- ENOMEM, s')
    /\ multicast_table s' = multicast_table s /\ mcs s' = mcs s
    /\ ctxs s' = ctxs s /\ ctx_table s' = ctx_table s /\ cm_ids s' = cm_ids s
    /\ files s' = files s
    /\ exists l, trace s' = trace s ++ l
                  /\ forall cm' mc', op_rdma_join_multicast cm' mc' ∉ l.
Proof.
  intros Hlen Hsz Hfl H1 H2 H3 H4 H5 H6 H7 H8 Hmp Hkz.
  unfold ucma_process_join.
  rewrite (proj2 (Z.ltb_ge _ _) Hlen).
  rewrite (bool_decide_eq_true_2 _ Hsz). cbv beta iota delta [negb].
  rewrite join_state_of_eq, Hfl.
  erewrite bind_Some by (eapply ucma_get_ctx_dev_bound; eauto).
  destruct s as [mb ct mt cx ms fs cs tr]; simpl in *.
  unfold ctx_taken, ucma_alloc_multicast, ucma_put_ctx.
  assert (<[p:=ctx_with_ref (ctx_with_ref c (ctx_ref c + 1)) (ctx_ref c + 1 - 1)]> cx = cx)
    as Hback.
  { apply insert_id. rewrite H2. f_equal.
    destruct c; unfold ctx_with_ref; simpl. f_equal. lia. }
  destruct Hkz as [-> | ->]; mgo.
  - eexists; split; [reflexivity|]; simpl.
    split; [reflexivity|]. split; [reflexivity|].
    split; [by rewrite insert_insert_eq|].
    split; [reflexivity|]. split; [reflexivity|]. split; [reflexivity|].
    exists [op_xa_lock XA_ctx_table; op_refcount_inc p; op_xa_unlock XA_ctx_table;
            op_mutex_lock (file_mut file); op_mutex_unlock (file_mut file);
            op_refcount_dec p].
    split; [trace_eq|]. intros cm' mc'. not_in_trace.
  - eexists; split; [reflexivity|]; simpl.
    split; [reflexivity|]. split; [by rewrite delete_insert_eq, delete_id|].
    split; [by rewrite insert_insert_eq|].
    split; [reflexivity|]. split; [reflexivity|]. split; [reflexivity|].
    exists [op_xa_lock XA_ctx_table; op_refcount_inc p; op_xa_unlock XA_ctx_table;
            op_mutex_lock (file_mut file); op_kfree_mc mp;
            op_mutex_unlock (file_mut file); op_refcount_dec p].
    split; [trace_eq|]. intros cm' mc'. not_in_trace.
Qed.

Lemma ucma_process_join_engine_failure s file cmd out_len engine copy_ok mp i p c
    cm cmo js :
  sizeof_create_id_resp abi <= out_len ->
  join_addr_size cmd = rdma_addr_size (join_addr cmd) ->
  join_state_of (join_flags cmd) = Some js ->
  ctx_table s !! join_id cmd = Some p -> ctxs s !! p = Some c ->
  ctx_file c = file -> ctx_cm_id c = Some cm -> ctx_closing c = 0 ->
  ctx_ref c <> 0 ->
  cm_ids s !! cm = Some cmo -> is_Some (cm_device cmo) ->
  mcs s !! mp = None -> multicast_table s !! i = None -> mp ∉ ctx_mc_list c ->
  engine <> 0 ->
  exists s',
    ucma_process_join abi rdma_addr_size file cmd out_len (Some mp) (Some i)
      engine copy_ok s = Some (engine, s')
    /\ multicast_table s' = multicast_table s /\ mcs s' = mcs s
    /\ ctxs s' = ctxs s /\ ctx_table s' = ctx_table s /\ cm_ids s' = cm_ids s
    /\ files s' = files s
    /\ exists l, trace s' = trace s ++ l
                  /\ forall r ok, op_copy_to_user r ok ∉ l.
Proof.
  intros Hlen Hsz Hfl H1 H2 H3 H4 H5 H6 H7 H8 Hmp Hi Hnin He.
  unfold ucma_process_join.
  rewrite (proj2 (Z.ltb_ge _ _) Hlen).
  rewrite (bool_decide_eq_true_2 _ Hsz). cbv beta iota delta [negb].
  rewrite join_state_of_eq, Hfl.
  erewrite bind_Some by (eapply ucma_get_ctx_dev_bound; eauto).
  destruct s as [mb ct mt cx ms fs cs tr]; simpl in *.
  unfold ctx_taken, ucma_alloc_multicast, ucma_put_ctx.
  mgo.
  eexists. split; [reflexivity|]. simpl.
  split; [by rewrite delete_insert_eq, delete_id|].
  split; [by rewrite !delete_insert_eq, delete_id|].
  split.
  { rewrite !insert_insert_eq. apply insert_id. rewrite H2. f_equal.
    destruct c; unfold ctx_with_ref, ctx_with_mc_list; simpl in *.
    rewrite filter_ne_snoc by done. f_equal. lia. }
  split; [reflexivity|]. split; [reflexivity|]. split; [reflexivity|].
  exists [op_xa_lock XA_ctx_table; op_refcount_inc p; op_xa_unlock XA_ctx_table;
          op_mutex_lock (file_mut file); op_mutex_lock (ctx_mutex p);
          op_rdma_join_multicast cm mp; op_mutex_unlock (ctx_mutex p);
          op_kfree_mc mp; op_mutex_unlock (file_mut file); op_refcount_dec p].
  split; [trace_eq|]. intros r ok. not_in_trace.
Qed.

Lemma ucma_leave_multicast_run s file out_len id copy_ok mcp mc c cm f :
  sizeof_destroy_id_resp abi <= out_len ->
  multicast_table s !! id = Some (Some mcp) -> mcs s !! mcp = Some mc ->
  ctxs s !! mc_ctx mc = Some c -> ctx_file c = file -> ctx_ref c <> 0 ->
  ctx_cm_id c = Some cm -> files s !! file = Some f ->
  exists s',
    ucma_leave_multicast abi file out_len (Some id) copy_ok s
    = Some (if copy_ok then 0 else - EFAULT, s')
    /\ multicast_table s' = delete (mc_id mc) (multicast_table s)
    /\ files s' =
         <[file := file_with_event_list f
                     (filter (fun e => uevent_mc e <> Some mcp) (file_event_list f))]>
           (files s)
    /\ ctxs s' =
         <[mc_ctx mc :=
             ctx_with_mc_list c (filter (fun q => q <> mcp) (ctx_mc_list c))]>
           (ctxs s)
    /\ mcs s' = delete mcp (mcs s)
    /\ ctx_table s' = ctx_table s /\ cm_ids s' = cm_ids s.
Proof.
  intros Hlen Hid Hmc Hc Hfile Href Hcm Hf.
  unfold ucma_leave_multicast.
  rewrite (proj2 (Z.ltb_ge _ _) Hlen).
  destruct s as [mb ct mt cx ms fs cs tr]; simpl in *.
  unfold ucma_cleanup_mc_events, ucma_put_ctx.
  mgo. rewrite cleanup_mc_events_loop_filter. mgo.
  rewrite emit_all_run. mgo.
  eexists. split; [by destruct copy_ok|]. simpl.
  split; [reflexivity|]. split; [reflexivity|].
  split.
  { rewrite !insert_insert_eq. f_equal.
    destruct c; unfold ctx_with_ref, ctx_with_mc_list; simpl. f_equal. lia. }
  split; [reflexivity|]. split; reflexivity.
Qed.

Lemma ucma_leave_multicast_absent s file out_len id copy_ok :
  sizeof_destroy_id_resp abi <= out_len ->
  multicast_table s !! id = None \/ multicast_table s !! id = Some None ->
  ucma_leave_multicast abi file out_len (Some id) copy_ok s
  = Some (- ENOENT,
          logged s [op_xa_lock XA_multicast_table; op_xa_unlock XA_multicast_table]).
Proof.
  intros Hlen Hid. unfold ucma_leave_multicast.
  rewrite (proj2 (Z.ltb_ge _ _) Hlen).
  destruct s as [mb ct mt cx ms fs cs tr]; simpl in *.
  destruct Hid as [Hid|Hid]; mgo; state_eq.
Qed.

Lemma ucma_leave_multicast_foreign s file out_len id copy_ok mcp mc c :
  sizeof_destroy_id_resp abi <= out_len ->
  multicast_table s !! id = Some (Some mcp) -> mcs s !! mcp = Some mc ->
  ctxs s !! mc_ctx mc = Some c -> ctx_file c <> file ->
  ucma_leave_multicast abi file out_len (Some id) copy_ok s
  = Some (- EINVAL,
          logged s [op_xa_lock XA_multicast_table; op_xa_unlock XA_multicast_table]).
Proof.
  intros Hlen Hid Hmc Hc Hfile. unfold ucma_leave_multicast.
  rewrite (proj2 (Z.ltb_ge _ _) Hlen).
  destruct s as [mb ct mt cx ms fs cs tr]; simpl in *.
  mgo. state_eq.
Qed.

Lemma ucma_leave_multicast_dead s file out_len id copy_ok mcp mc c :
  sizeof_destroy_id_resp abi <= out_len ->
  multicast_table s !! id = Some (Some mcp) -> mcs s !! mcp = Some mc ->
  ctxs s !! mc_ctx mc = Some c -> ctx_file c = file -> ctx_ref c = 0 ->
  ucma_leave_multicast abi file out_len (Some id) copy_ok s
  = Some (- ENXIO,
          logged s [op_xa_lock XA_multicast_table; op_xa_unlock XA_multicast_table]).
Proof.
  intros Hlen Hid Hmc Hc Hfile Href. unfold ucma_leave_multicast.
  rewrite (proj2 (Z.ltb_ge _ _) Hlen).
  destruct s as [mb ct mt cx ms fs cs tr]; simpl in *.
  mgo. state_eq.
Qed.

End MulticastFacts.

(** ** Supporting lemmas: event delivery *)

Lemma ucma_event_handler_queues s cm_id ev cm ctx f :
  cm_ids s !! cm_id = Some cm -> ctxs s !! cm_context cm = Some ctx ->
  files s !! ctx_file ctx = Some f ->
  plain_event (event ev) ->
  ctx_uid ctx <> 0 -> ctx_cm_id ctx = Some cm_id ->
  ucma_event_handler cm_id ev true s =
    Some (0,
          logged
            (st_with_files s
               (<[ctx_file ctx :=
                    file_with_event_list f
                      (file_event_list f ++ [ctx_uevent cm_id ev cm ctx])]> (files s)))
            [op_mutex_lock (file_mut (ctx_file ctx));
             op_wake_up (ctx_file ctx);
             op_mutex_unlock (file_mut (ctx_file ctx))]).
Proof.
  intros H1 H2 H3 (Ha & Hb & Hc & Hd) H4 H5.
  destruct s as [mb ct mt cx ms fs cs tr]; simpl in *.
  unfold ucma_event_handler, ucma_set_event_context, ctx_uevent.
  destruct (event ev) eqn:E; try congruence; mgo; state_eq.
Qed.

Lemma ucma_event_handler_drops s cm_id ev cm ctx :
  cm_ids s !! cm_id = Some cm -> ctxs s !! cm_context cm = Some ctx ->
  plain_event (event ev) ->
  ctx_uid ctx = 0 \/ ctx_cm_id ctx <> Some cm_id ->
  ucma_event_handler cm_id ev true s =
    Some (0,
          logged s
            [op_mutex_lock (file_mut (ctx_file ctx));
             op_kfree_uevent (ctx_uevent cm_id ev cm ctx);
             op_mutex_unlock (file_mut (ctx_file ctx))]).
Proof.
  intros H1 H2 (Ha & Hb & Hc & Hd) H4.
  destruct s as [mb ct mt cx ms fs cs tr]; simpl in *.
  unfold ucma_event_handler, ucma_set_event_context, ctx_uevent.
  destruct H4 as [H4|H4];
    destruct (event ev) eqn:E; try congruence; mgo;
    try (destruct (bool_decide (ctx_uid ctx = 0)); mgo); state_eq.
Qed.

Lemma ucma_event_handler_removal s cm_id ev cm ctx f :
  cm_ids s !! cm_id = Some cm -> ctxs s !! cm_context cm = Some ctx ->
  files s !! ctx_file ctx = Some f ->
  event ev = RDMA_CM_EVENT_DEVICE_REMOVAL ->
  ctx_cm_id ctx = Some cm_id -> ctx_destroying ctx = 0 ->
  ucma_event_handler cm_id ev true s =
    Some (0,
          if bool_decide (ctx_uid ctx = 0) then
            logged
              (st_with_ctxs s (<[cm_context cm := ctx_with_closing ctx 1]> (ctxs s)))
              [op_mutex_lock (file_mut (ctx_file ctx));
               op_xa_lock XA_ctx_table; op_xa_unlock XA_ctx_table;
               op_queue_close_id (ctx_file ctx) (cm_context cm);
               op_kfree_uevent (ctx_uevent cm_id ev cm ctx);
               op_mutex_unlock (file_mut (ctx_file ctx))]
          else
            logged
              (st_with_files
                 (st_with_ctxs s
                    (<[cm_context cm := ctx_with_closing ctx 1]> (ctxs s)))
                 (<[ctx_file ctx :=
                      file_with_event_list f
                        (file_event_list f ++ [ctx_uevent cm_id ev cm ctx])]>
                    (files s)))
              [op_mutex_lock (file_mut (ctx_file ctx));
               op_wake_up (ctx_file ctx);
               op_xa_lock XA_ctx_table; op_xa_unlock XA_ctx_table;
               op_queue_close_id (ctx_file ctx) (cm_context cm);
               op_mutex_unlock (file_mut (ctx_file ctx))]).
Proof.
  intros H1 H2 H3 H4 H5 H6.
  destruct s as [mb ct mt cx ms fs cs tr]; simpl in *.
  unfold ucma_event_handler, ucma_set_event_context, ucma_removal_event_handler,
    ctx_uevent.
  rewrite H4. mgo.
  destruct (bool_decide (ctx_uid ctx = 0)) eqn:E; mgo; state_eq.
Qed.

Section GetEventFacts.

Variable abi : uapi_sizes.

Lemma ucma_get_event_empty_run s file out_len resp_addr signal kz xid copy_ok f :
  min_event_resp abi <= out_len ->
  files s !! file = Some f -> file_event_list f = [] ->
  ucma_get_event abi file out_len (Some resp_addr) signal kz xid copy_ok s
  = Some (if file_nonblock f then Done (- EAGAIN)
          else if signal then Done (- ERESTARTSYS) else Sleeps,
          logged s [op_mutex_lock (file_mut file); op_mutex_unlock (file_mut file)]).
Proof.
  intros Hlen Hf Hq. unfold ucma_get_event, min_event_resp in *.
  rewrite (proj2 (Z.ltb_ge _ _) Hlen).
  destruct s as [mb ct mt cx ms fs cs tr]; simpl in *.
  mrun. rewrite Hq. mrun.
  destruct (file_nonblock f); [state_eq|]. destruct signal; state_eq.
Qed.

Lemma ucma_get_event_short s file out_len cmd signal kz xid copy_ok :
  out_len < min_event_resp abi ->
  ucma_get_event abi file out_len cmd signal kz xid copy_ok s
  = Some (Done (- ENOSPC), s).
Proof.
  intros Hlen. unfold ucma_get_event, min_event_resp in *.
  by rewrite (proj2 (Z.ltb_lt _ _) Hlen).
Qed.

Lemma ucma_get_event_no_memory s file out_len resp_addr signal kz copy_ok f
    uevent rest p :
  min_event_resp abi <= out_len ->
  files s !! file = Some f -> file_event_list f = uevent :: rest ->
  resp_event (uevent_resp uevent) = RDMA_CM_EVENT_CONNECT_REQUEST ->
  kz = None \/ (kz = Some p /\ ctxs s !! p = None) ->
  exists l,
    ucma_get_event abi file out_len (Some resp_addr) signal kz None copy_ok s
    = Some (Done (- ENOMEM), logged s l)
    /\ forall r ok, op_copy_to_user r ok ∉ l.
Proof.
  intros Hlen Hf Hq Hev Hkz. unfold ucma_get_event, min_event_resp in *.
  rewrite (proj2 (Z.ltb_ge _ _) Hlen).
  destruct s as [mb ct mt cx ms fs cs tr]; simpl in *.
  unfold ucma_alloc_ctx. mrun. rewrite Hq. mrun.
  destruct Hkz as [->|[-> Hp]]; mrun.
  - exists [op_mutex_lock (file_mut file); op_mutex_unlock (file_mut file)].
    split; [state_eq|]. intros r ok. not_in_trace.
  - exists [op_mutex_lock (file_mut file); op_kfree_ctx p;
            op_mutex_unlock (file_mut file)].
    split; [|intros r ok; not_in_trace].
    rewrite delete_insert_eq, delete_id by done. state_eq.
Qed.

Lemma ucma_get_event_deliver_run mb ct mt cx ms fs cs tr file out_len resp_addr
    signal kz xid f uevent rest parent :
  min_event_resp abi <= out_len ->
  fs !! file = Some f -> file_event_list f = uevent :: rest ->
  resp_event (uevent_resp uevent) <> RDMA_CM_EVENT_CONNECT_REQUEST ->
  cx !! uevent_ctx uevent = Some parent ->
  (forall mcp, uevent_mc uevent = Some mcp -> is_Some (ms !! mcp)) ->
  exists cx' ms',
    ucma_get_event abi file out_len (Some resp_addr) signal kz xid true
      (mk_state mb ct mt cx ms fs cs tr)
    = Some (Done 0,
            mk_state mb ct mt cx' ms' (<[file := file_with_event_list f rest]> fs) cs
              (tr ++ [op_mutex_lock (file_mut file);
                      op_copy_to_user
                        (resp_of_event (uevent_resp uevent)
                           (Z.min out_len (sizeof_event_resp abi))) true;
                      op_kfree_uevent uevent;
                      op_mutex_unlock (file_mut file)]))
    /\ (forall q, is_Some (cx !! q) -> is_Some (cx' !! q))
    /\ (forall q, is_Some (ms !! q) -> is_Some (ms' !! q))
    /\ cx' !! uevent_ctx uevent
       = Some (ctx_with_events_reported parent
                 (to_int (ctx_events_reported parent + 1))).
Proof.
  intros Hlen Hf Hq Hev Hparent Hmc.
  unfold ucma_get_event, min_event_resp in *.
  rewrite (proj2 (Z.ltb_ge _ _) Hlen).
  mrun. rewrite Hq. mrun.
  assert (forall (A : Type) (m : gmap loc A) k v q,
            is_Some (m !! q) -> is_Some (<[k := v]> m !! q)) as Hdom.
  { intros A m k v q Hs. destruct (decide (q = k)) as [->|Hne].
    - rewrite lookup_insert_eq. eauto.
    - by rewrite lookup_insert_ne. }
  destruct (uevent_mc uevent) as [mcp|] eqn:Emc;
    [destruct (Hmc mcp eq_refl) as [m Hm]|]; mrun.
  - eexists _, _. split; [f_equal; f_equal; f_equal; trace_eq|].
    split; [intros q; apply Hdom|]. split; [intros q; apply Hdom|].
    apply lookup_insert_eq.
  - eexists _, _. split; [f_equal; f_equal; f_equal; trace_eq|].
    split; [intros q; apply Hdom|]. split; [auto|].
    apply lookup_insert_eq.
Qed.

End GetEventFacts.

Lemma delivered_app (l1 l2 : list op) :
  delivered (l1 ++ l2) = delivered l1 ++ delivered l2.
Proof. unfold delivered. apply omap_app. Qed.

Lemma read_events_run abi file out_len (n : nat) : forall s f,
  min_event_resp abi <= out_len ->
  files s !! file = Some f -> (n <= length (file_event_list f))%nat ->
  (forall e, e ∈ file_event_list f -> event_readable s e) ->
  exists s',
    read_events abi file out_len n s = Some (replicate n (Done 0), s')
    /\ delivered (trace s')
       = delivered (trace s) ++ (uevent_resp <$> take n (file_event_list f))
    /\ files s' !! file
       = Some (file_with_event_list f (drop n (file_event_list f))).
Proof.
  induction n as [|n IH]; intros s f Hlen Hf Hn Hok.
  - exists s. split; [reflexivity|]. simpl. rewrite app_nil_r.
    split; [reflexivity|]. rewrite Hf. by destruct f.
  - destruct (file_event_list f) as [|e rest] eqn:Hq; [simpl in Hn; lia|].
    destruct (Hok e) as (Hev & [parent Hparent] & Hmc); [by left|].
    destruct s as [mb ct mt cx ms fs cs tr]; simpl in Hf, Hparent, Hmc.
    destruct (ucma_get_event_deliver_run abi mb ct mt cx ms fs cs tr file out_len
                0 false None None f e rest parent Hlen Hf Hq Hev Hparent Hmc)
      as (cx' & ms' & Hrun & Hcx & Hms & _).
    match type of Hrun with
    | _ = Some (_, ?s1) =>
        destruct (IH s1 (file_with_event_list f rest) Hlen)
          as (s' & Hrun' & Hdel & Hfs)
    end.
    { simpl. apply lookup_insert_eq. }
    { simpl in *. lia. }
    { intros e' He'. simpl in He'.
      destruct (Hok e') as (Hev' & Hc' & Hmc'); [by right|].
      split; [exact Hev'|]. simpl in *. split; [by apply Hcx|].
      intros mcp Hm. apply Hms. by apply Hmc'. }
    exists s'. cbn [read_events].
    rewrite (bind_Some _ _ _ _ _ Hrun), (bind_Some _ _ _ _ _ Hrun').
    split; [reflexivity|]. split.
    + rewrite Hdel. simpl. rewrite delivered_app. simpl.
      by rewrite <- app_assoc.
    + rewrite Hfs. reflexivity.
Qed.

Lemma deliver_plain_run cm_id cm ctx (evs : list rdma_cm_event) : forall s f,
  cm_ids s !! cm_id = Some cm -> ctxs s !! cm_context cm = Some ctx ->
  files s !! ctx_file ctx = Some f ->
  ctx_uid ctx <> 0 -> ctx_cm_id ctx = Some cm_id ->
  (forall ev, ev ∈ evs -> plain_event (event ev)) ->
  exists s',
    deliver ((fun ev => (cm_id, ev, true)) <$> evs) s
    = Some (replicate (length evs) 0, s')
    /\ files s' =
         <[ctx_file ctx :=
             file_with_event_list f
               (file_event_list f
                ++ ((fun ev => ctx_uevent cm_id ev cm ctx) <$> evs))]> (files s)
    /\ ctxs s' = ctxs s /\ mcs s' = mcs s /\ cm_ids s' = cm_ids s
    /\ ctx_table s' = ctx_table s
    /\ delivered (trace s') = delivered (trace s).
Proof.
  induction evs as [|ev evs IH]; intros s f H1 H2 H3 H4 H5 Hplain.
  - exists s. split; [reflexivity|]. simpl. rewrite app_nil_r.
    split; [|by repeat split].
    symmetry. apply insert_id. rewrite H3. by destruct f.
  - pose proof (ucma_event_handler_queues s cm_id ev cm ctx f H1 H2 H3
                  (Hplain ev ltac:(by left)) H4 H5) as Hrun.
    match type of Hrun with
    | _ = Some (_, ?s1) =>
        destruct (IH s1 (file_with_event_list f
                           (file_event_list f ++ [ctx_uevent cm_id ev cm ctx])))
          as (s' & Hrun' & Hfs & Hcx & Hms & Hcs & Hct & Hdel)
    end; try (by destruct s).
    { destruct s; simpl. apply lookup_insert_eq. }
    { intros ev' Hin. apply Hplain. by right. }
    exists s'. rewrite fmap_cons. cbn [deliver].
    rewrite (bind_Some _ _ _ _ _ Hrun), (bind_Some _ _ _ _ _ Hrun').
    split; [reflexivity|].
    destruct s as [mb ct mt cx ms fs cs tr]; simpl in *.
    split.
    { rewrite Hfs, insert_insert_eq. f_equal. unfold file_with_event_list. simpl.
      by rewrite <- app_assoc. }
    repeat (split; [assumption|]).
    rewrite Hdel, delivered_app. simpl. by rewrite app_nil_r.
Qed.

(** ** Supporting lemmas: commands *)

Section CreateIdFacts.

Variable abi : uapi_sizes.


End CreateIdFacts.

Lemma ctx_ref_restored (cx : gmap loc ucma_context) (p : loc) (c : ucma_context) :
  cx !! p = Some c ->
  <[p := ctx_with_ref (ctx_with_ref c (ctx_ref c + 1)) (ctx_ref c + 1 - 1)]>
    (<[p := ctx_with_ref c (ctx_ref c + 1)]> cx) = cx.
Proof.
  intros Hc. rewrite insert_insert_eq. apply insert_id. rewrite Hc. f_equal.
  destruct c; unfold ctx_with_ref; simpl. f_equal. lia.
Qed.

(** Symbolic execution of a command that takes a usable context, with
    the lookup that requires a device and with the plain lookup. *)
Ltac forward_dev Hu :=
  destruct Hu as (Hu1 & Hu2 & Hu3 & Hu4 & Hu5 & Hu6 & cmo & Hu7 & Hu8);
  erewrite bind_Some by (eapply ucma_get_ctx_dev_bound; eauto);
  match goal with s : state |- _ =>
    destruct s as [mb ct mt cx ms fs cs tr]; simpl in * end;
  unfold ctx_taken, ucma_put_ctx; mgo2;
  try (rewrite ctx_ref_restored by done; unfold forwarded_log; trace_eq).

Ltac forward_plain Hu :=
  destruct Hu as (Hu1 & Hu2 & Hu3 & Hu4 & Hu5 & Hu6);
  erewrite bind_Some
    by (eapply ucma_get_ctx_found; eauto; rewrite Hu4; eauto);
  match goal with s : state |- _ =>
    destruct s as [mb ct mt cx ms fs cs tr]; simpl in * end;
  unfold ctx_taken, ucma_put_ctx; mgo2;
  try (rewrite ctx_ref_restored by done; unfold forwarded_log; trace_eq).

Ltac forward_any Hu :=
  destruct Hu as (Hu1 & Hu2 & Hu3 & Hu4 & Hu5 & Hu6 & cmo & Hu7 & Hu8);
  erewrite bind_Some
    by (eapply ucma_get_ctx_found; eauto; rewrite Hu4; eauto);
  match goal with s : state |- _ =>
    destruct s as [mb ct mt cx ms fs cs tr]; simpl in * end;
  unfold ctx_taken, ucma_put_ctx; mgo2;
  try (rewrite ctx_ref_restored by done; unfold forwarded_log; trace_eq).

Lemma ucma_resolve_route_run s file cmd engine p c cm :
  ctx_usable s file (resolve_route_id cmd) p c cm ->
  ucma_resolve_route file (Some cmd) engine s
  = Some (engine, logged s (forwarded_log p)).
Proof. intros Hu. unfold ucma_resolve_route. forward_dev Hu. Qed.

Lemma ucma_disconnect_run s file id engine p c cm :
  ctx_usable s file id p c cm ->
  ucma_disconnect file (Some id) engine s
  = Some (engine, logged s (forwarded_log p)).
Proof. intros Hu. unfold ucma_disconnect. forward_dev Hu. Qed.

Lemma ucma_notify_run s file cmd engine p c cm :
  ctx_usable s file (notify_id cmd) p c cm ->
  ucma_notify file (Some cmd) engine s
  = Some (engine, logged s (forwarded_log p)).
Proof.
  intros Hu. unfold ucma_notify. forward_any Hu.
  destruct (cm_device cmo) eqn:E; [|by destruct Hu8].
  rewrite ctx_ref_restored by done. unfold forwarded_log. trace_eq.
Qed.

Section ForwardingFacts.

Variable rdma_addr_size_in6 : sockaddr -> Z.
Variable rdma_addr_size_kss : sockaddr -> Z.

Lemma ucma_bind_ip_run s file cmd engine p c cm :
  rdma_addr_size_in6 (bind_ip_addr cmd) <> 0 ->
  ctx_in_use s file (bind_ip_id cmd) p c cm ->
  ucma_bind_ip rdma_addr_size_in6 file (Some cmd) engine s
  = Some (engine, logged s (forwarded_log p)).
Proof.
  intros Ha Hu. unfold ucma_bind_ip.
  rewrite bool_decide_eq_false_2 by done. forward_plain Hu.
Qed.

Lemma ucma_bind_run s file cmd engine p c cm :
  bind_reserved cmd = 0 -> bind_addr_size cmd <> 0 ->
  bind_addr_size cmd = rdma_addr_size_kss (bind_addr cmd) ->
  ctx_in_use s file (bind_id cmd) p c cm ->
  ucma_bind rdma_addr_size_kss file (Some cmd) engine s
  = Some (engine, logged s (forwarded_log p)).
Proof.
  intros Ha Hb Hc Hu. unfold ucma_bind.
  rewrite (bool_decide_eq_true_2 _ Ha), (bool_decide_eq_false_2 _ Hb),
    (bool_decide_eq_true_2 _ Hc).
  cbv beta iota delta [negb orb]. forward_plain Hu.
Qed.

Lemma ucma_resolve_ip_run s file cmd engine p c cm :
  (sa_family (resolve_ip_src_addr cmd) = 0
   \/ rdma_addr_size_in6 (resolve_ip_src_addr cmd) <> 0) ->
  rdma_addr_size_in6 (resolve_ip_dst_addr cmd) <> 0 ->
  ctx_in_use s file (resolve_ip_id cmd) p c cm ->
  ucma_resolve_ip rdma_addr_size_in6 file (Some cmd) engine s
  = Some (engine, logged s (forwarded_log p)).
Proof.
  intros Ha Hb Hu. unfold ucma_resolve_ip.
  rewrite (bool_decide_eq_false_2 _ Hb).
  replace (negb (bool_decide (sa_family (resolve_ip_src_addr cmd) = 0))
           && bool_decide (rdma_addr_size_in6 (resolve_ip_src_addr cmd) = 0))
    with false.
  2:{ destruct Ha as [Ha|Ha].
      - by rewrite (bool_decide_eq_true_2 _ Ha).
      - rewrite (bool_decide_eq_false_2 _ Ha). by rewrite andb_false_r. }
  cbv beta iota delta [orb]. forward_plain Hu.
Qed.

Lemma ucma_resolve_addr_run s file cmd engine p c cm :
  resolve_reserved cmd = 0 ->
  (resolve_src_size cmd = 0
   \/ resolve_src_size cmd = rdma_addr_size_kss (resolve_src_addr cmd)) ->
  resolve_dst_size cmd <> 0 ->
  resolve_dst_size cmd = rdma_addr_size_kss (resolve_dst_addr cmd) ->
  ctx_in_use s file (resolve_id cmd) p c cm ->
  ucma_resolve_addr rdma_addr_size_kss file (Some cmd) engine s
  = Some (engine, logged s (forwarded_log p)).
Proof.
  intros Ha Hb Hc Hd Hu. unfold ucma_resolve_addr.
  rewrite (bool_decide_eq_true_2 _ Ha), (bool_decide_eq_false_2 _ Hc),
    (bool_decide_eq_true_2 _ Hd).
  replace (negb (bool_decide (resolve_src_size cmd = 0))
           && negb (bool_decide (resolve_src_size cmd
                                 = rdma_addr_size_kss (resolve_src_addr cmd))))
    with false.
  2:{ destruct Hb as [Hb|Hb].
      - by rewrite (bool_decide_eq_true_2 _ Hb).
      - rewrite (bool_decide_eq_true_2 (resolve_src_size cmd = rdma_addr_size_kss _))
          by done.
        by rewrite andb_false_r. }
  cbv beta iota delta [negb orb]. forward_plain Hu.
Qed.

End ForwardingFacts.

Lemma ucma_reject_run cd vo s file cmd engine p c cm :
  reject_reason cmd = 0 \/ reject_reason cmd = cd \/ reject_reason cmd = vo ->
  ctx_usable s file (reject_id cmd) p c cm ->
  ucma_reject cd vo file (Some cmd) engine s
  = Some (engine (reject_private_data cmd) (reject_private_data_len cmd)
            (if bool_decide (reject_reason cmd = 0) then cd else reject_reason cmd),
          logged s (forwarded_log p)).
Proof.
  intros Hr Hu. unfold ucma_reject.
  assert (bool_decide
            ((if bool_decide (reject_reason cmd = 0) then cd else reject_reason cmd)
             = cd)
          || bool_decide
               ((if bool_decide (reject_reason cmd = 0) then cd else reject_reason cmd)
                = vo) = true) as ->.
  { destruct (decide (reject_reason cmd = 0)) as [H0|H0].
    - rewrite (bool_decide_eq_true_2 _ H0).
      by rewrite (bool_decide_eq_true_2 (cd = cd)).
    - rewrite (bool_decide_eq_false_2 _ H0).
      destruct Hr as [Hr|[Hr|Hr]]; [done| |].
      + by rewrite (bool_decide_eq_true_2 _ Hr).
      + rewrite (bool_decide_eq_true_2 _ Hr). apply orb_true_r. }
  cbv beta iota delta [negb]. forward_dev Hu.
Qed.

Lemma ucma_reject_invalid cd vo s file cmd engine :
  reject_reason cmd <> 0 -> reject_reason cmd <> cd -> reject_reason cmd <> vo ->
  ucma_reject cd vo file (Some cmd) engine s = Some (- EINVAL, s).
Proof.
  intros H0 H1 H2. unfold ucma_reject.
  rewrite (bool_decide_eq_false_2 _ H0), (bool_decide_eq_false_2 _ H1),
    (bool_decide_eq_false_2 _ H2).
  reflexivity.
Qed.

Lemma ucma_connect_run lay s file in_len cmd src_is_ib engine p c cm :
  offsetofend_reserved lay <= in_len ->
  ucp_valid (connect_conn_param cmd) <> 0 ->
  ctx_usable s file (connect_id cmd) p c cm ->
  ucma_connect lay file in_len (Some cmd) src_is_ib engine s
  = Some (engine (ucma_copy_conn_param src_is_ib (connect_conn_param cmd))
            (if offsetofend_ece lay <=? Z.min in_len (sizeof_cmd lay)
             then connect_ece cmd else mk_ece 0 0),
          logged s (forwarded_log p)).
Proof.
  intros Hlen Hv Hu. unfold ucma_connect.
  rewrite (proj2 (Z.ltb_ge _ _) Hlen), (bool_decide_eq_false_2 _ Hv).
  forward_dev Hu.
Qed.

Lemma ucma_init_qp_attr_run sz err s file out_len cmd engine copy_ok p c cm :
  sz <= out_len -> init_qp_attr_qp_state cmd <= err ->
  ctx_usable s file (init_qp_attr_id cmd) p c cm ->
  ucma_init_qp_attr sz err file out_len (Some cmd) engine copy_ok s
  = Some (if bool_decide (engine (init_qp_attr_qp_state cmd) = 0)
          then (if copy_ok then 0 else - EFAULT)
          else engine (init_qp_attr_qp_state cmd),
          logged s (forwarded_log p)).
Proof.
  intros Hlen Hst Hu. unfold ucma_init_qp_attr.
  rewrite (proj2 (Z.ltb_ge _ _) Hlen), (proj2 (Z.ltb_ge _ _) Hst).
  forward_dev Hu.
  rewrite ctx_ref_restored by done. unfold forwarded_log.
  case_bool_decide as He; simpl.
  - rewrite He. destruct copy_ok; trace_eq.
  - trace_eq.
Qed.

Lemma ucma_accept_run lay s file in_len cmd src_is_ib engine p c cm :
  offsetofend_reserved lay <= in_len ->
  ctx_usable s file (accept_id cmd) p c cm ->
  let r := engine (accept_params src_is_ib cmd) (accept_ece_of lay in_len cmd) in
  exists l,
    ucma_accept lay file in_len (Some cmd) src_is_ib engine s
    = Some (r,
            logged
              (if negb (bool_decide (ucp_valid (accept_conn_param cmd) = 0))
                  && bool_decide (r = 0)
               then st_with_ctxs s (<[p := ctx_with_uid c (accept_uid cmd)]> (ctxs s))
               else s) l)
    /\ forall r' ok, op_copy_to_user r' ok ∉ l.
Proof.
  intros Hlen Hu r. unfold ucma_accept.
  rewrite (proj2 (Z.ltb_ge _ _) Hlen).
  subst r. unfold accept_params, accept_ece_of.
  destruct (bool_decide (ucp_valid (accept_conn_param cmd) = 0)) eqn:Ev;
    cbv beta iota delta [negb andb].
  - forward_dev Hu.
    exists (forwarded_log p).
    split; [|unfold forwarded_log; intros r' ok; not_in_trace].
    rewrite ctx_ref_restored by done. unfold forwarded_log. trace_eq.
  - forward_dev Hu.
    destruct (bool_decide
                (engine (Some (ucma_copy_conn_param src_is_ib (accept_conn_param cmd)))
                   (if offsetofend_ece lay <=? in_len `min` sizeof_cmd lay
                    then accept_ece cmd else mk_ece 0 0) = 0)) eqn:Er; mgo2.
    + exists [op_xa_lock XA_ctx_table; op_refcount_inc p; op_xa_unlock XA_ctx_table;
              op_mutex_lock (file_mut file); op_mutex_lock (ctx_mutex p);
              op_mutex_unlock (ctx_mutex p); op_mutex_unlock (file_mut file);
              op_refcount_dec p].
      split; [|intros r' ok; not_in_trace].
      rewrite !insert_insert_eq. f_equal. f_equal. f_equal.
      * f_equal. destruct c; unfold ctx_with_ref, ctx_with_uid; simpl.
        f_equal. lia.
      * trace_eq.
    + exists [op_xa_lock XA_ctx_table; op_refcount_inc p; op_xa_unlock XA_ctx_table;
              op_mutex_lock (file_mut file); op_mutex_lock (ctx_mutex p);
              op_mutex_unlock (ctx_mutex p); op_mutex_unlock (file_mut file);
              op_refcount_dec p].
      split; [|intros r' ok; not_in_trace].
      rewrite ctx_ref_restored by done. trace_eq.
Qed.

Section QueryFacts.

Variable qs : query_sizes.

Lemma query_path_loop_closed (fuel : nat) : forall num_paths i out_len,
  0 < sizeof_path_rec_data qs -> 0 <= i <= num_paths ->
  (Z.to_nat (num_paths - i) <= fuel)%nat ->
  query_path_loop qs fuel num_paths i out_len
  = Z.min num_paths (i + Z.max 0 ((out_len - 1) / sizeof_path_rec_data qs)).
Proof.
  induction fuel as [|fuel IH]; intros n i R Hs Hi Hfuel.
  - simpl. assert (i = n) as -> by lia.
    pose proof (Z.le_max_l 0 ((R - 1) / sizeof_path_rec_data qs)). lia.
  - cbn [query_path_loop].
    destruct (i <? n) eqn:Ei; cbn [andb].
    + apply Z.ltb_lt in Ei.
      destruct (sizeof_path_rec_data qs <? R) eqn:Er.
      * apply Z.ltb_lt in Er. rewrite IH by lia.
        replace (R - 1) with ((R - sizeof_path_rec_data qs - 1)
                              + 1 * sizeof_path_rec_data qs) by lia.
        rewrite Z.div_add by lia.
        assert (0 <= (R - sizeof_path_rec_data qs - 1) / sizeof_path_rec_data qs)
          by (apply Z.div_pos; lia).
        lia.
      * apply Z.ltb_ge in Er.
        assert ((R - 1) / sizeof_path_rec_data qs <= 0).
        { destruct (decide (R <= 0)).
          - apply Z.div_le_upper_bound; lia.
          - rewrite Z.div_small by lia. lia. }
        lia.
    + apply Z.ltb_ge in Ei. assert (i = n) as -> by lia.
      pose proof (Z.le_max_l 0 ((R - 1) / sizeof_path_rec_data qs)). lia.
Qed.

Lemma query_path_loop_fuel (fuel : nat) num_paths out_len :
  0 < sizeof_path_rec_data qs -> 0 <= num_paths ->
  (Z.to_nat num_paths <= fuel)%nat ->
  query_path_loop qs fuel num_paths 0 out_len
  = query_path_loop qs (Z.to_nat num_paths) num_paths 0 out_len.
Proof.
  intros Hs Hn Hf. rewrite !query_path_loop_closed; lia.
Qed.

End QueryFacts.

Lemma query_path_records_fit (S_rec R n : Z) :
  0 < S_rec -> 0 <= R -> 0 <= n ->
  let i := Z.min n (Z.max 0 ((R - 1) / S_rec)) in
  0 <= i <= n /\ i * S_rec <= R.
Proof.
  intros Hs HR Hn i. subst i.
  destruct (decide (R = 0)) as [->|Hne].
  - replace ((0 - 1) / S_rec) with (-1).
    2:{ apply Z.div_unique with (r := S_rec - 1); lia. }
    rewrite Z.max_l by lia. rewrite Z.min_r by lia. lia.
  - assert (0 <= (R - 1) / S_rec) by (apply Z.div_pos; lia).
    rewrite Z.max_r by lia.
    pose proof (Z.mul_div_le (R - 1) S_rec Hs).
    split; [lia|].
    assert (Z.min n ((R - 1) / S_rec) * S_rec <= (R - 1) / S_rec * S_rec)
      by (apply Z.mul_le_mono_nonneg_r; lia).
    lia.
Qed.

Section QueryRuns.

Variable qs : query_sizes.

Lemma ucma_query_path_size num_paths out_len kz copy_ok r size :
  0 < sizeof_path_rec_data qs -> 0 <= sizeof_path_resp qs -> 0 <= num_paths ->
  ucma_query_path qs num_paths out_len kz copy_ok = (r, Some size) ->
  size <= out_len.
Proof.
  intros Hs Hr Hn. unfold ucma_query_path.
  destruct (out_len <? sizeof_path_resp qs) eqn:E; [discriminate|].
  apply Z.ltb_ge in E. destruct kz; [|discriminate]. simpl.
  intros [= _ <-]. rewrite query_path_loop_closed by lia.
  rewrite Z.add_0_l.
  pose proof (query_path_records_fit (sizeof_path_rec_data qs)
                (out_len - sizeof_path_resp qs) num_paths Hs ltac:(lia) Hn)
    as [_ Hfit].
  simpl in Hfit. lia.
Qed.

Lemma ucma_query_run s file out_len cmd num_paths kz copy_ok p c cm :
  ctx_usable s file (query_id cmd) p c cm ->
  ucma_query qs file out_len (Some cmd) num_paths kz copy_ok s
  = Some (match query_option cmd with
          | RDMA_USER_CM_QUERY_ADDR => ucma_query_addr qs out_len copy_ok
          | RDMA_USER_CM_QUERY_PATH => ucma_query_path qs num_paths out_len kz copy_ok
          | RDMA_USER_CM_QUERY_GID => ucma_query_gid qs out_len copy_ok
          | RDMA_USER_CM_QUERY_other _ => (- ENOSYS, None)
          end, logged s (forwarded_log p)).
Proof.
  intros Hu. unfold ucma_query. forward_any Hu.
  destruct (query_option cmd); mgo2;
    rewrite ctx_ref_restored by done; unfold forwarded_log; trace_eq.
Qed.

Lemma ucma_query_route_run s file out_len cmd copy_ok p c cm :
  offsetof_route_resp_ibdev_index qs <= out_len ->
  ctx_usable s file (query_id cmd) p c cm ->
  ucma_query_route qs file out_len (Some cmd) copy_ok s
  = Some ((if copy_ok then 0 else - EFAULT,
           Some (Z.min out_len (sizeof_route_resp qs))),
          logged s (forwarded_log p)).
Proof.
  intros Hlen Hu. unfold ucma_query_route.
  rewrite (proj2 (Z.ltb_ge _ _) Hlen). forward_any Hu.
Qed.

End QueryRuns.

Section OptionFacts.

Variable oc : option_consts.
Variable u32_of_bytes : list Z -> Z.

Lemma find_path_data_none (l : list (list Z)) :
  Forall (fun e => u32_of_bytes (take 4 e) <> IB_PATH_PRIMARY_FLAGS oc) l ->
  find_path_data oc u32_of_bytes l = None.
Proof.
  induction 1 as [|e l He _ IH]; [reflexivity|].
  simpl. by rewrite (bool_decide_eq_false_2 _ He).
Qed.

Lemma find_path_data_first (l : list (list Z)) (e : list Z) :
  find_path_data oc u32_of_bytes l = Some e ->
  exists before after,
    l = before ++ e :: after
    /\ Forall (fun e' => u32_of_bytes (take 4 e') <> IB_PATH_PRIMARY_FLAGS oc) before
    /\ u32_of_bytes (take 4 e) = IB_PATH_PRIMARY_FLAGS oc.
Proof.
  induction l as [|a l IH]; [discriminate|]. simpl.
  case_bool_decide as Ha.
  - intros [= ->]. exists [], l. by repeat split.
  - intros Hf. destruct (IH Hf) as (before & after & -> & Hb & He).
    exists (a :: before), after. split; [done|]. split; [by constructor|done].
Qed.

Lemma ucma_set_option_refused_run s file cmd optval err engine_id opa engine_ib
    kz p c cm :
  set_option_optlen cmd <= KMALLOC_MAX_SIZE oc ->
  ctx_usable s file (set_option_id cmd) p c cm ->
  option_refused oc u32_of_bytes cmd optval err ->
  exists l,
    ucma_set_option oc u32_of_bytes file (Some cmd) (inr optval) engine_id opa
      engine_ib kz s = Some (err, logged s l).
Proof.
  intros Hlen Hu Href. unfold ucma_set_option.
  rewrite (proj2 (Z.ltb_ge _ _) Hlen).
  unfold ucma_set_option_level, ucma_set_option_id, ucma_set_option_ib,
    ucma_set_ib_path.
  destruct Href as [(Ha & Hb & ->)
    |[(Ha & [(Hb & Hc & ->)|[(Hb & Hc & Hd & ->)|[(Hb & Hc & Hd & He & ->)
       |[(Hb & Hc & Hd & He & Hf & ->)|(Hb & Hc & Hd & He & ->)]]]])
     |(Ha & Hb & [(Hc & ->)|[(Hc & Hd & ->)|(Hc & Hd & He & ->)]])]];
    try rewrite (find_path_data_none _ He);
    forward_any Hu;
    rewrite ctx_ref_restored by done;
    eexists; unfold logged, st_with_trace; simpl; f_equal; f_equal; f_equal;
    rewrite <- ?app_assoc; simpl; reflexivity.
Qed.

End OptionFacts.

Section OptionPath.

Variable oc : option_consts.
Variable u32_of_bytes : list Z -> Z.

Lemma ucma_set_option_path_run s file cmd optval engine_id opa engine_ib kz
    p c cm cmo f e :
  set_option_optlen cmd <= KMALLOC_MAX_SIZE oc ->
  ctx_table s !! set_option_id cmd = Some p -> ctxs s !! p = Some c ->
  ctx_file c = file -> ctx_cm_id c = Some cm -> ctx_closing c = 0 ->
  ctx_ref c <> 0 ->
  cm_ids s !! cm = Some cmo -> is_Some (cm_device cmo) -> cm_context cmo = p ->
  files s !! file = Some f ->
  set_option_level cmd <> RDMA_OPTION_ID oc ->
  set_option_level cmd = RDMA_OPTION_IB oc ->
  set_option_optname cmd = RDMA_OPTION_IB_PATH oc ->
  set_option_optlen cmd mod sizeof_ib_path_rec_data oc = 0 ->
  find_path_data oc u32_of_bytes (path_entries oc optval (set_option_optlen cmd))
  = Some e ->
  exists l,
    ucma_set_option oc u32_of_bytes file (Some cmd) (inr optval) engine_id opa
      engine_ib kz s
    = Some (engine_ib opa e,
            logged
              (if bool_decide (engine_ib opa e = 0) && kz
                  && negb (bool_decide (ctx_uid c = 0))
               then st_with_files s
                      (<[file :=
                           file_with_event_list f
                             (file_event_list f
                              ++ [ctx_uevent cm route_resolved_event cmo c])]>
                         (files s))
               else s) l).
Proof.
  intros Hlen H1 H2 H3 H4 H5 H6 H7 [d H8] H9 Hf Ha Hb Hc Hd He.
  unfold ucma_set_option.
  rewrite (proj2 (Z.ltb_ge _ _) Hlen).
  unfold ucma_set_option_level, ucma_set_option_ib, ucma_set_ib_path.
  rewrite (bool_decide_eq_false_2 _ Ha), (bool_decide_eq_true_2 _ Hb),
    (bool_decide_eq_true_2 _ Hc), (bool_decide_eq_true_2 _ Hd), He.
  cbv beta iota delta [negb].
  erewrite bind_Some by (eapply ucma_get_ctx_found; eauto; rewrite H4; eauto).
  destruct s as [mb ct mt cx ms fs cs tr]; simpl in *.
  unfold ctx_taken, ucma_put_ctx. mgo2. rewrite H8. mgo2.
  destruct (bool_decide (engine_ib opa e = 0)) eqn:Er; mgo2.
  2:{ rewrite ctx_ref_restored by done. apply bool_decide_eq_false_1 in Er.
      eexists. unfold logged, st_with_trace. simpl.
      f_equal. f_equal. f_equal. rewrite <- ?app_assoc. simpl. reflexivity. }
  apply bool_decide_eq_true_1 in Er. rewrite Er.
  unfold ucma_event_handler, ucma_set_event_context, route_resolved_event,
    ctx_uevent.
  destruct kz; mgo2.
  2:{ rewrite ?H9. mgo2. rewrite ctx_ref_restored by done.
      eexists. unfold logged, st_with_trace. simpl.
      f_equal. f_equal. f_equal. rewrite <- ?app_assoc. simpl. reflexivity. }
  rewrite H9. mgo2.
  destruct (bool_decide (ctx_uid c = 0)) eqn:Eu; mgo2.
  - rewrite ctx_ref_restored by done.
    eexists. unfold logged, st_with_trace. simpl.
    f_equal. f_equal. f_equal. rewrite <- ?app_assoc. simpl. reflexivity.
  - rewrite ctx_ref_restored by done.
    eexists. unfold logged, st_with_trace, st_with_files. simpl.
    f_equal. f_equal. f_equal. rewrite <- ?app_assoc. simpl. reflexivity.
Qed.

End OptionPath.

Section DispatchTable.

Variable cmd_value : rdma_user_cm_cmd -> Z.

Lemma table_fold_absent (init : list (rdma_user_cm_cmd * option ucma_handler))
    (c : rdma_user_cm_cmd) (h0 : option ucma_handler) :
  Inj (=) (=) cmd_value -> c ∉ init.*1 ->
  foldl (fun h e => if bool_decide (cmd_value e.1 = cmd_value c) then e.2 else h)
    h0 init = h0.
Proof.
  intros Hinj. revert h0. induction init as [|e init IH]; intros h0 Hn; [done|].
  simpl in *. apply not_elem_of_cons in Hn as [Hne Hn].
  rewrite bool_decide_eq_false_2 by (intros E; apply Hinj in E; done).
  by apply IH.
Qed.

Lemma table_fold_designated (init : list (rdma_user_cm_cmd * option ucma_handler))
    (c : rdma_user_cm_cmd) (h h0 : option ucma_handler) :
  Inj (=) (=) cmd_value -> NoDup init.*1 -> (c, h) ∈ init ->
  foldl (fun h e => if bool_decide (cmd_value e.1 = cmd_value c) then e.2 else h)
    h0 init = h.
Proof.
  intros Hinj. revert h0. induction init as [|e init IH]; intros h0 Hnd Hin.
  - by apply elem_of_nil in Hin.
  - simpl in *. apply NoDup_cons in Hnd as [Hne Hnd].
    apply elem_of_cons in Hin as [<-|Hin].
    + simpl. rewrite bool_decide_eq_true_2 by done.
      by apply table_fold_absent.
    + by apply IH.
Qed.

Lemma ucma_cmd_table_init_NoDup : NoDup ucma_cmd_table_init.*1.
Proof. by apply (bool_decide_unpack _); vm_compute. Qed.

Lemma ucma_cmd_table_designated (c : rdma_user_cm_cmd) (h : option ucma_handler) :
  Inj (=) (=) cmd_value -> (c, h) ∈ ucma_cmd_table_init ->
  ucma_cmd_table cmd_value (cmd_value c) = h.
Proof.
  intros Hinj Hin. unfold ucma_cmd_table.
  by apply table_fold_designated; [|apply ucma_cmd_table_init_NoDup|].
Qed.

End DispatchTable.

Lemma deliver_admits cm_id ev cm (k : nat) : forall s ctx f,
  cm_ids s !! cm_id = Some cm -> ctxs s !! cm_context cm = Some ctx ->
  files s !! ctx_file ctx = Some f ->
  event ev = RDMA_CM_EVENT_CONNECT_REQUEST ->
  Z.of_nat k <= ctx_backlog ctx <= INT_MAX ->
  exists s',
    deliver (replicate k (cm_id, ev, true)) s = Some (replicate k 0, s')
    /\ ctxs s' =
         <[cm_context cm := ctx_with_backlog ctx (ctx_backlog ctx - Z.of_nat k)]>
           (ctxs s)
    /\ files s' =
         <[ctx_file ctx :=
             file_with_event_list f
               (file_event_list f
                ++ replicate k (connect_request_uevent cm_id ev cm ctx))]> (files s)
    /\ cm_ids s' = cm_ids s /\ ctx_table s' = ctx_table s.
Proof.
  induction k as [|k IH]; intros s ctx f H1 H2 H3 H4 Hb.
  - exists s. split; [reflexivity|]. simpl. rewrite Z.sub_0_r, app_nil_r.
    split.
    { symmetry. apply insert_id. rewrite H2. by destruct ctx. }
    split; [|done]. symmetry. apply insert_id. rewrite H3. by destruct f.
  - assert (ctx_backlog ctx <> 0) as Hnz by lia.
    pose proof (ucma_event_handler_admits s cm_id ev cm ctx f H1 H2 H3 H4 Hnz)
      as Hrun.
    assert (to_int (ctx_backlog ctx - 1) = ctx_backlog ctx - 1) as Hint.
    { apply to_int_small. unfold INT_MIN, INT_MAX in *. lia. }
    rewrite Hint in Hrun.
    match type of Hrun with
    | _ = Some (_, ?s1) =>
        destruct (IH s1 (ctx_with_backlog ctx (ctx_backlog ctx - 1))
                    (file_with_event_list f
                       (file_event_list f
                        ++ [connect_request_uevent cm_id ev cm ctx])))
          as (s' & Hrun' & Hcx & Hfs & Hcs & Hct)
    end; try (by destruct s).
    { destruct s; simpl. apply lookup_insert_eq. }
    { destruct s; simpl. apply lookup_insert_eq. }
    { simpl. lia. }
    exists s'. cbn [replicate deliver].
    rewrite (bind_Some _ _ _ _ _ Hrun), (bind_Some _ _ _ _ _ Hrun').
    split; [reflexivity|].
    destruct s as [mb ct mt cx ms fs cs tr]; simpl in *.
    split.
    { rewrite Hcx, insert_insert_eq. f_equal.
      unfold ctx_with_backlog. simpl. f_equal. lia. }
    split; [|done].
    rewrite Hfs, insert_insert_eq. f_equal.
    unfold file_with_event_list, connect_request_uevent. simpl.
    by rewrite <- app_assoc.
Qed.

(** ** Context teardown *)

(** Teardown of a context.  [ucma_free_ctx] returns the number of events
    reported for the context and frees it; it takes the context's events
    off the queue of its session and leaves the other events in their
    order, removes the context from the session's list, erases and frees
    every multicast group of the context, and destroys the engine object
    of every connect request of the context that was never read.  The
    registry of contexts is left to the caller. *)
Theorem ucma_free_ctx_releases (s : state) (p : loc) (c : ucma_context)
    (f : ucma_file) :
  ctxs s !! p = Some c -> files s !! ctx_file c = Some f ->
  NoDup (ctx_mc_list c) ->
  (forall m, m ∈ ctx_mc_list c -> is_Some (mcs s !! m)) ->
  exists s',
    ucma_free_ctx p s = Some (ctx_events_reported c, s')
    /\ ctxs s' = delete p (ctxs s)
    /\ ctx_table s' = ctx_table s
    /\ files s' =
         <[ctx_file c :=
             mk_file (file_nonblock f)
               (filter (fun q => q <> p) (file_ctx_list f))
               (filter (fun e => uevent_ctx e <> p) (file_event_list f))]>
           (files s)
    /\ (forall m mc, m ∈ ctx_mc_list c -> mcs s !! m = Some mc ->
          mcs s' !! m = None /\ multicast_table s' !! mc_id mc = None)
    /\ (forall m, m ∉ ctx_mc_list c -> mcs s' !! m = mcs s !! m)
    /\ (forall e, e ∈ file_event_list f -> uevent_ctx e = p ->
          op_kfree_uevent e ∈ trace s'
          /\ (resp_event (uevent_resp e) = RDMA_CM_EVENT_CONNECT_REQUEST ->
              cm_ids s' !! uevent_cm_id e = None)).
Proof.
  intros Hc Hf Hnd Hex. destruct s as [mb ct mt cx ms fs cs tr]; simpl in *.
  eexists. split; [by eapply ucma_free_ctx_run|]. simpl.
  split; [reflexivity|]. split; [reflexivity|]. split; [reflexivity|].
  split; [|split].
  - intros m mc Hin Hmc. rewrite !erase_all_lookup.
    rewrite bool_decide_eq_true_2 by done.
    rewrite bool_decide_eq_true_2; [done|].
    unfold group_ids. apply list_elem_of_omap. exists m. by rewrite Hmc.
  - intros m Hin. rewrite erase_all_lookup. by rewrite bool_decide_eq_false_2.
  - intros e Hin He. split.
    + assert (op_kfree_uevent e
              ∈ free_events_log
                  (filter (fun e => uevent_ctx e = p) (file_event_list f))) as Hk
        by (apply free_events_log_kfree; by rewrite list_elem_of_filter).
      in_trace.
    + intros Hr. rewrite erase_all_lookup, bool_decide_eq_true_2; [done|].
      unfold connect_request_ids. apply list_elem_of_fmap. exists e.
      split; [done|]. by rewrite !list_elem_of_filter.
Qed.

Lemma ucma_free_ctx_releases_witness :
  exists s',
    ucma_free_ctx 10%positive demo_joined = Some (0, s')
    /\ ctxs s' = ∅
    /\ mcs s' !! 40%positive = None /\ multicast_table s' !! 5 = None
    /\ file_event_list <$> files s' !! 1%positive = Some [].
Proof.
  destruct (ucma_free_ctx_releases demo_joined 10%positive
              (ctx_with_mc_list demo_ctx [40%positive])
              (mk_file false [10%positive]
                 [demo_mc_event; demo_ctx_event; demo_mc_event])
              eq_refl eq_refl ltac:(apply NoDup_singleton)
              ltac:(intros m Hm; apply list_elem_of_singleton in Hm; subst m;
                    by eexists))
    as (s' & Hrun & Hcx & _ & Hfs & Hmc & _).
  destruct (Hmc 40%positive (mk_mc 10%positive 5 3 0 1 []) ltac:(by left) eq_refl)
    as [Hm Ht].
  exists s'. split; [exact Hrun|].
  split; [rewrite Hcx; apply delete_singleton_eq|].
  split; [exact Hm|]. split; [exact Ht|].
  by rewrite Hfs.
Defined.

(** Destroy refuses what a lookup refuses.  A destroy command for an id
    with no entry in the registry returns -ENOENT, and one for a context
    of another session, or for a context without an engine object,
    returns -EINVAL; in both cases nothing is erased, freed or marked:
    only the lock and the unlock of the registry are logged. *)
Theorem ucma_destroy_id_refuses (abi : uapi_sizes) (s : state) (file : loc)
    (out_len id : Z) (pending : list close_work) (copy_ok : bool) :
  sizeof_destroy_id_resp abi <= out_len ->
  (ctx_table s !! id = None ->
     ucma_destroy_id abi file out_len (Some id) pending copy_ok s
     = Some (Done (- ENOENT), ctx_refused s))
  /\ (forall p c,
        ctx_table s !! id = Some p -> ctxs s !! p = Some c ->
        ctx_file c <> file \/ ctx_cm_id c = None ->
        ucma_destroy_id abi file out_len (Some id) pending copy_ok s
        = Some (Done (- EINVAL), ctx_refused s)).
Proof.
  intros Ho. split.
  - intros H. by apply ucma_destroy_id_unknown.
  - intros p c H1 H2 H3. by eapply ucma_destroy_id_invalid.
Qed.

Lemma ucma_destroy_id_refuses_witness :
  ucma_destroy_id uapi_abi 2%positive 4 (Some 0) [] true demo_state
  = Some (Done (- EINVAL), ctx_refused demo_state).
Proof.
  exact (proj2 (ucma_destroy_id_refuses uapi_abi demo_state 2%positive 4 0 [] true
                  ltac:(vm_compute; discriminate))
           10%positive demo_ctx eq_refl eq_refl ltac:(left; discriminate)).
Defined.

(** Destroy of an idle context.  When the creator's reference is the only
    one, no deferred close is pending and the context is not closing, the
    destroy command returns 0, or -EFAULT when the response cannot be
    written, and in both cases the context is gone: its registry entry is
    erased, the context is freed and off its session's list, its engine
    object is destroyed, its events are off the queue, and the count of
    reported events is what is handed to the client.  A later lookup of
    the id and a second destroy both find nothing (-ENOENT). *)
Theorem ucma_destroy_id_destroys (abi : uapi_sizes) (s : state) (file : loc)
    (out_len id : Z) (copy_ok : bool) (p : loc) (c : ucma_context) (cm : loc)
    (f : ucma_file) :
  sizeof_destroy_id_resp abi <= out_len ->
  ctx_table s !! id = Some p -> ctxs s !! p = Some c -> ctx_id c = id ->
  ctx_file c = file -> ctx_cm_id c = Some cm ->
  ctx_closing c = 0 -> ctx_ref c = 1 ->
  files s !! file = Some f ->
  NoDup (ctx_mc_list c) -> (forall m, m ∈ ctx_mc_list c -> is_Some (mcs s !! m)) ->
  exists s',
    ucma_destroy_id abi file out_len (Some id) [] copy_ok s
    = Some (Done (if copy_ok then 0 else - EFAULT), s')
    /\ ctx_table s' = delete id (ctx_table s)
    /\ ctxs s' = delete p (ctxs s)
    /\ cm_ids s' !! cm = None
    /\ files s' =
         <[file :=
             mk_file (file_nonblock f)
               (filter (fun q => q <> p) (file_ctx_list f))
               (filter (fun e => uevent_ctx e <> p) (file_event_list f))]>
           (files s)
    /\ (exists l,
          trace s' =
            trace s ++ l
            ++ [op_copy_to_user
                  (resp_of_events_reported (ctx_events_reported c)) copy_ok])
    /\ ucma_get_ctx file id s' = Some (Err (- ENOENT), ctx_refused s')
    /\ ucma_destroy_id abi file out_len (Some id) [] copy_ok s'
       = Some (Done (- ENOENT), ctx_refused s').
Proof.
  intros Ho H1 H2 Hid H3 H4 H5 H6 H7 H8 H9.
  destruct s as [mb ct mt cx ms fs cs tr]; simpl in *.
  eexists. split; [by eapply ucma_destroy_id_idle_run|].
  assert (delete (ctx_id c) ct !! id = None) as Hgone
    by (rewrite Hid; apply lookup_delete_eq).
  simpl. split; [by rewrite Hid|]. split; [reflexivity|]. split.
  { rewrite erase_all_lookup, lookup_delete_eq. by case_bool_decide. }
  split; [reflexivity|]. split.
  { exists ([op_xa_lock XA_ctx_table; op_xa_unlock XA_ctx_table;
             op_mutex_lock (file_mut file); op_mutex_unlock (file_mut file);
             op_xa_lock XA_ctx_table; op_xa_unlock XA_ctx_table;
             op_refcount_dec p; op_complete p; op_rdma_destroy_id cm;
             op_mutex_lock (file_mut file)]
            ++ map op_kfree_mc (ctx_mc_list c)
            ++ [op_mutex_unlock (file_mut file);
                op_mutex_lock (file_mut file);
                op_mutex_unlock (file_mut file)]
            ++ free_events_log
                 (filter (fun e => uevent_ctx e = p) (file_event_list f))
            ++ [op_kfree_ctx p]).
    trace_eq. }
  split.
  - by apply ucma_get_ctx_unknown.
  - by apply ucma_destroy_id_unknown.
Qed.

Lemma ucma_destroy_id_destroys_witness :
  exists s',
    ucma_destroy_id uapi_abi 1%positive 4 (Some 0) [] true demo_queued
    = Some (Done 0, s')
    /\ ctx_table s' = ∅ /\ ctxs s' = ∅
    /\ files s' !! 1%positive = Some (mk_file false [] [])
    /\ ucma_get_ctx 1%positive 0 s' = Some (Err (- ENOENT), ctx_refused s').
Proof.
  destruct (ucma_destroy_id_destroys uapi_abi demo_queued 1%positive 4 0 true
              10%positive (ctx_with_backlog demo_ctx 1) 20%positive
              (mk_file false [10%positive] [demo_uevent])
              ltac:(vm_compute; discriminate) eq_refl eq_refl eq_refl eq_refl
              eq_refl eq_refl eq_refl eq_refl ltac:(constructor)
              ltac:(intros m Hm; by apply elem_of_nil in Hm))
    as (s' & Hrun & Hct & Hcx & _ & Hfs & _ & Hget & _).
  exists s'. split; [exact Hrun|].
  split; [rewrite Hct; apply delete_singleton_eq|].
  split; [rewrite Hcx; apply delete_singleton_eq|].
  split; [by rewrite Hfs|exact Hget].
Defined.

(** Destroy waits for the operations in flight.  When another reference
    to the context is held, the destroy command goes to sleep in
    [wait_for_completion].  By then the registry entry is erased, so no
    new lookup finds the context, and the context is marked as being
    destroyed; but nothing is freed: the context, its engine object, the
    sessions and the groups are all still there. *)
Theorem ucma_destroy_id_waits (abi : uapi_sizes) (s : state) (file : loc)
    (out_len id : Z) (copy_ok : bool) (p : loc) (c : ucma_context) (cm : loc) :
  sizeof_destroy_id_resp abi <= out_len ->
  ctx_table s !! id = Some p -> ctxs s !! p = Some c -> ctx_id c = id ->
  ctx_file c = file -> ctx_cm_id c = Some cm ->
  ctx_closing c = 0 -> ctx_ref c <> 1 -> ctx_comp c = 0%nat ->
  exists s',
    ucma_destroy_id abi file out_len (Some id) [] copy_ok s = Some (Sleeps, s')
    /\ ctx_table s' = delete id (ctx_table s)
    /\ ctxs s' =
         <[p := ctx_with_ref (ctx_with_destroying c 1) (ctx_ref c - 1)]> (ctxs s)
    /\ cm_ids s' = cm_ids s /\ files s' = files s /\ mcs s' = mcs s
    /\ multicast_table s' = multicast_table s
    /\ (forall o, o ∈ trace s' -> o ∈ trace s \/ forall r ok, o <> op_copy_to_user r ok)
    /\ ucma_get_ctx file id s' = Some (Err (- ENOENT), ctx_refused s').
Proof.
  intros Ho H1 H2 Hid H3 H4 H5 H6 H7.
  destruct s as [mb ct mt cx ms fs cs tr]; simpl in *.
  eexists. split; [by eapply ucma_destroy_id_blocked_run|].
  simpl. split; [by rewrite Hid|].
  do 5 (split; [reflexivity|]). split.
  - intros o Hin. apply elem_of_app in Hin as [Hin|Hin]; [by left|right].
    intros r ok ->.
    repeat (apply elem_of_cons in Hin as [Hin|Hin]; [discriminate|]).
    by apply elem_of_nil in Hin.
  - apply ucma_get_ctx_unknown. simpl. rewrite Hid. apply lookup_delete_eq.
Qed.

Lemma ucma_destroy_id_waits_witness :
  exists s',
    ucma_destroy_id uapi_abi 1%positive 4 (Some 0) [] true
      (ctx_taken demo_state 10%positive demo_ctx) = Some (Sleeps, s')
    /\ ucma_get_ctx 1%positive 0 s' = Some (Err (- ENOENT), ctx_refused s').
Proof.
  destruct (ucma_destroy_id_waits uapi_abi
              (ctx_taken demo_state 10%positive demo_ctx) 1%positive 4 0 true
              10%positive (ctx_with_ref demo_ctx 2) 20%positive
              ltac:(vm_compute; discriminate) eq_refl eq_refl eq_refl eq_refl
              eq_refl eq_refl ltac:(vm_compute; discriminate) eq_refl)
    as (s' & Hrun & _ & _ & _ & _ & _ & _ & _ & Hget).
  exists s'. split; [exact Hrun|exact Hget].
Defined.

(** The engine object is destroyed once.  Whether the context is torn
    down by the destroy command itself, or was marked closing by a device
    removal whose deferred close is still on the workqueue when the
    command flushes it, the operations of the command hold exactly one
    drop of a reference to the context and, after it, exactly one call
    of [rdma_destroy_id] on the context's engine object; no reference is
    taken, and the context is freed after the call. *)
Theorem ucma_destroy_id_closes_once (abi : uapi_sizes) (s : state) (file : loc)
    (out_len id : Z) (pending : list close_work) (copy_ok : bool) (p : loc)
    (c : ucma_context) (cm : loc) (f : ucma_file) :
  sizeof_destroy_id_resp abi <= out_len ->
  ctx_table s !! id = Some p -> ctxs s !! p = Some c ->
  ctx_file c = file -> ctx_cm_id c = Some cm -> ctx_ref c = 1 ->
  files s !! file = Some f ->
  NoDup (ctx_mc_list c) -> (forall m, m ∈ ctx_mc_list c -> is_Some (mcs s !! m)) ->
  cm ∉ connect_request_ids
         (filter (fun e => uevent_ctx e = p) (file_event_list f)) ->
  (ctx_closing c = 0 /\ pending = [])
  \/ (ctx_closing c <> 0 /\ pending = [work_close_id p]) ->
  exists s' l0 l1 l2,
    ucma_destroy_id abi file out_len (Some id) pending copy_ok s
    = Some (Done (if copy_ok then 0 else - EFAULT), s')
    /\ trace s'
       = trace s ++ l0 ++ [op_refcount_dec p] ++ l1
         ++ [op_rdma_destroy_id cm] ++ l2
    /\ (op_refcount_dec p ∉ l0 ++ l1 ++ l2)
    /\ (op_rdma_destroy_id cm ∉ l0 ++ l1 ++ l2)
    /\ (op_refcount_inc p ∉ l0 ++ l1 ++ l2)
    /\ op_kfree_ctx p ∈ l2
    /\ cm_ids s' !! cm = None /\ ctxs s' !! p = None.
Proof.
  intros Ho H1 H2 H3 H4 H6 H7 H8 H9 Hcm Hcase.
  destruct s as [mb ct mt cx ms fs cs tr]; simpl in *.
  destruct Hcase as [[H5 ->]|[H5 ->]].
  - eexists _,
      [op_xa_lock XA_ctx_table; op_xa_unlock XA_ctx_table;
       op_mutex_lock (file_mut file); op_mutex_unlock (file_mut file);
       op_xa_lock XA_ctx_table; op_xa_unlock XA_ctx_table],
      [op_complete p],
      ([op_mutex_lock (file_mut file)]
       ++ map op_kfree_mc (ctx_mc_list c)
       ++ [op_mutex_unlock (file_mut file); op_mutex_lock (file_mut file);
           op_mutex_unlock (file_mut file)]
       ++ free_events_log
            (filter (fun e => uevent_ctx e = p) (file_event_list f))
       ++ [op_kfree_ctx p;
           op_copy_to_user (resp_of_events_reported (ctx_events_reported c))
             copy_ok]).
    split; [by eapply ucma_destroy_id_idle_run|]. simpl.
    split; [trace_eq|]. split; [|split; [|split; [|split; [|split]]]].
    + not_in_trace.
    + not_in_trace.
    + not_in_trace.
    + in_trace.
    + rewrite erase_all_lookup, lookup_delete_eq. by case_bool_decide.
    + apply lookup_delete_eq.
  - eexists _,
      [op_xa_lock XA_ctx_table; op_xa_unlock XA_ctx_table;
       op_mutex_lock (file_mut file); op_mutex_unlock (file_mut file)],
      [op_complete p],
      ([op_xa_lock XA_ctx_table; op_xa_unlock XA_ctx_table;
        op_mutex_lock (file_mut file)]
       ++ map op_kfree_mc (ctx_mc_list c)
       ++ [op_mutex_unlock (file_mut file); op_mutex_lock (file_mut file);
           op_mutex_unlock (file_mut file)]
       ++ free_events_log
            (filter (fun e => uevent_ctx e = p) (file_event_list f))
       ++ [op_kfree_ctx p;
           op_copy_to_user (resp_of_events_reported (ctx_events_reported c))
             copy_ok]).
    split; [by eapply ucma_destroy_id_closing_run|]. simpl.
    split; [trace_eq|]. split; [|split; [|split; [|split; [|split]]]].
    + not_in_trace.
    + not_in_trace.
    + not_in_trace.
    + in_trace.
    + rewrite erase_all_lookup, lookup_delete_eq. by case_bool_decide.
    + apply lookup_delete_eq.
Qed.

Lemma ucma_destroy_id_closes_once_witness :
  exists s' l0 l1 l2,
    ucma_destroy_id uapi_abi 1%positive 4 (Some 0) [] false demo_queued
    = Some (Done (- EFAULT), s')
    /\ trace s'
       = l0 ++ [op_refcount_dec 10%positive] ++ l1
         ++ [op_rdma_destroy_id 20%positive] ++ l2
    /\ (op_refcount_dec 10%positive ∉ l0 ++ l1 ++ l2)
    /\ (op_rdma_destroy_id 20%positive ∉ l0 ++ l1 ++ l2).
Proof.
  destruct (ucma_destroy_id_closes_once uapi_abi demo_queued 1%positive 4 0 []
              false 10%positive (ctx_with_backlog demo_ctx 1) 20%positive
              (mk_file false [10%positive] [demo_uevent])
              ltac:(vm_compute; discriminate) eq_refl eq_refl eq_refl eq_refl
              eq_refl eq_refl ltac:(constructor)
              ltac:(intros m Hm; by apply elem_of_nil in Hm)
              ltac:(vm_compute; intros Hin;
                    apply list_elem_of_singleton in Hin; discriminate)
              ltac:(left; split; reflexivity))
    as (s' & l0 & l1 & l2 & Hrun & Htr & Hdec & Hno & _).
  exists s', l0, l1, l2. split; [exact Hrun|]. split; [exact Htr|].
  split; [exact Hdec|exact Hno].
Defined.

(** ** Session open, poll and close *)

(** Closing a session frees what it owns.  When every context of the
    session is idle and nothing is pending on its workqueue, closing the
    session returns 0 and leaves nothing of it behind: the session is
    freed, and each of its contexts is freed, erased from the registry,
    has its engine object destroyed and its multicast groups freed.  The
    contexts of other sessions and the other sessions are as they were. *)
Theorem ucma_close_frees_session (s : state) (file : loc) (f : ucma_file) :
  files s !! file = Some f -> NoDup (file_ctx_list f) ->
  (forall q, q ∈ file_ctx_list f -> ctx_idle s file q) ->
  exists s',
    ucma_close file no_pending s = Some (Done 0, s')
    /\ files s' !! file = None
    /\ (forall q c, q ∈ file_ctx_list f -> ctxs s !! q = Some c ->
          ctxs s' !! q = None
          /\ ctx_table s' !! ctx_id c = None
          /\ (forall cm, ctx_cm_id c = Some cm -> cm_ids s' !! cm = None)
          /\ (forall m, m ∈ ctx_mc_list c -> mcs s' !! m = None))
    /\ (forall g, g <> file -> files s' !! g = files s !! g)
    /\ (forall q, q ∉ file_ctx_list f -> ctxs s' !! q = ctxs s !! q).
Proof.
  intros Hf Hnd Hidle.
  assert (exists s1, s1 = logged s [op_mutex_lock (file_mut file)]) as (s1 & Hs1)
    by eauto.
  destruct (ucma_close_loop_run file (file_ctx_list f) s1 f Hnd) as
    (s' & Hrun & Hfs & Hcx & Hct & Hcs & Hms & Hother & Hkeep).
  { subst s1. by destruct s. }
  { intros q Hq. subst s1. destruct s. exact (Hidle q Hq). }
  subst s1. destruct s as [mb ct mt cx ms fs cs tr]; simpl in *.
  destruct s' as [mb' ct' mt' cx' ms' fs' cs' tr']; simpl in *.
  unfold ucma_close. mrun2. unfold logged, st_with_trace in Hrun. simpl in Hrun.
  rewrite Hrun. mrun2.
  eexists. split; [reflexivity|]. simpl.
  split; [apply lookup_delete_eq|]. split; [|split].
  - intros q c Hq Hc. split; [apply Hcx; by left|]. split; [|split].
    + apply Hct. left. eauto.
    + intros cm Hcm. apply Hcs. left. eauto.
    + intros m Hm. apply Hms. left. eauto.
  - intros g Hg. rewrite lookup_delete_ne by done. by apply Hother.
  - exact Hkeep.
Qed.

Lemma ucma_close_frees_session_witness :
  exists s',
    ucma_close 1%positive no_pending demo_joined = Some (Done 0, s')
    /\ files s' !! 1%positive = None
    /\ ctxs s' !! 10%positive = None
    /\ ctx_table s' !! 0 = None
    /\ mcs s' !! 40%positive = None.
Proof.
  destruct (ucma_close_frees_session demo_joined 1%positive
              (mk_file false [10%positive]
                 [demo_mc_event; demo_ctx_event; demo_mc_event]) eq_refl
              ltac:(apply NoDup_singleton)
              ltac:(intros q Hq; apply list_elem_of_singleton in Hq; subst q;
                    exists (ctx_with_mc_list demo_ctx [40%positive]), 20%positive;
                    repeat (split; [reflexivity|]);
                    split; [apply NoDup_singleton|];
                    intros m Hm; apply list_elem_of_singleton in Hm; subst m;
                    by exists (mk_mc 10%positive 5 3 0 1 [])))
    as (s' & Hrun & Hfs & Hall & _).
  destruct (Hall 10%positive (ctx_with_mc_list demo_ctx [40%positive])
              ltac:(by left) eq_refl) as (Hcx & Hct & _ & Hms).
  exists s'. split; [exact Hrun|]. split; [exact Hfs|]. split; [exact Hcx|].
  split; [exact Hct|]. apply Hms. by left.
Defined.

(** Poll tells whether a read would deliver.  [ucma_poll] changes
    nothing and reports the session readable (EPOLLIN | EPOLLRDNORM)
    exactly when its queue holds an event.  When it reports nothing, a
    read with a sufficient buffer delivers nothing: it returns -EAGAIN
    on a non-blocking session, and otherwise sleeps or is interrupted.
    When it reports the session readable and the head of the queue needs
    no allocation, a read whose copy succeeds returns 0 and hands the
    client the response of that head event. *)
Theorem ucma_poll_readable (abi : uapi_sizes) (s : state) (file : loc)
    (f : ucma_file) (out_len : Z) :
  files s !! file = Some f -> min_event_resp abi <= out_len ->
  exists mask,
    ucma_poll file s = Some (mask, s)
    /\ (mask = 0 \/ mask = Z.lor EPOLLIN EPOLLRDNORM)
    /\ (mask = 0 <-> file_event_list f = [])
    /\ (mask = 0 -> forall resp_addr signal kz xid copy_ok,
          ucma_get_event abi file out_len (Some resp_addr) signal kz xid copy_ok s
          = Some (if file_nonblock f then Done (- EAGAIN)
                  else if signal then Done (- ERESTARTSYS) else Sleeps,
                  logged s [op_mutex_lock (file_mut file);
                            op_mutex_unlock (file_mut file)]))
    /\ (mask <> 0 -> forall e rest resp_addr signal kz xid,
          file_event_list f = e :: rest -> event_readable s e ->
          exists s',
            ucma_get_event abi file out_len (Some resp_addr) signal kz xid true s
            = Some (Done 0, s')
            /\ delivered (trace s') = delivered (trace s) ++ [uevent_resp e]
            /\ file_event_list <$> files s' !! file = Some rest).
Proof.
  intros Hf Hlen. unfold ucma_poll.
  destruct (file_event_list f) as [|e rest] eqn:Hq.
  - exists 0. split.
    { destruct s; simpl in *. mrun2. by rewrite Hq. }
    split; [by left|]. split; [done|]. split; [|done].
    intros _ resp_addr signal kz xid copy_ok.
    by apply ucma_get_event_empty_run.
  - exists (Z.lor EPOLLIN EPOLLRDNORM). split.
    { destruct s; simpl in *. mrun2. by rewrite Hq. }
    split; [by right|]. split; [split; [discriminate|discriminate]|].
    split; [discriminate|].
    intros _ e' rest' resp_addr signal kz xid [= <- <-] (Hev & [parent Hp] & Hmc).
    destruct s as [mb ct mt cx ms fs cs tr]; simpl in *.
    destruct (ucma_get_event_deliver_run abi mb ct mt cx ms fs cs tr file out_len
                resp_addr signal kz xid f e rest parent Hlen Hf Hq Hev Hp Hmc)
      as (cx' & ms' & Hrun & _).
    eexists. split; [exact Hrun|]. simpl. split.
    + rewrite delivered_app. reflexivity.
    + by rewrite lookup_insert_eq.
Qed.

Lemma ucma_poll_readable_witness :
  ucma_poll 1%positive demo_queued = Some (Z.lor EPOLLIN EPOLLRDNORM, demo_queued)
  /\ ucma_poll 2%positive demo_queued = Some (0, demo_queued).
Proof.
  split.
  - destruct (ucma_poll_readable uapi_abi demo_queued 1%positive
                (mk_file false [10%positive] [demo_uevent]) 400 eq_refl
                ltac:(vm_compute; discriminate))
      as (mask & Hrun & [Hm|Hm] & Hiff & _).
    + apply Hiff in Hm. discriminate Hm.
    + by rewrite <- Hm.
  - reflexivity.
Defined.

(** A session from open to close.  [ucma_open] fails with -ENOMEM, and
    leaves nothing behind, when the session or its workqueue cannot be
    allocated.  Otherwise it returns what [stream_open] returns and
    leaves in [private_data] a new session with no contexts and no
    events: poll reports it not readable, and closing it returns 0 and
    frees it, so that the sessions, the contexts, the registries and the
    engine objects are again as before the open. *)
Theorem ucma_open_close (s : state) (p : loc) (wq nonblock : bool) (stream : Z)
    (pending : loc -> list close_work) :
  files s !! p = None ->
  ucma_open None wq nonblock stream s = Some ((- ENOMEM, None), s)
  /\ ucma_open (Some p) false nonblock stream s = Some ((- ENOMEM, None), s)
  /\ exists s1 s2,
       ucma_open (Some p) true nonblock stream s = Some ((stream, Some p), s1)
       /\ files s1 = <[p := mk_file nonblock [] []]> (files s)
       /\ ucma_poll p s1 = Some (0, s1)
       /\ ucma_close p pending s1 = Some (Done 0, s2)
       /\ files s2 = files s /\ ctxs s2 = ctxs s /\ ctx_table s2 = ctx_table s
       /\ cm_ids s2 = cm_ids s /\ mcs s2 = mcs s
       /\ multicast_table s2 = multicast_table s.
Proof.
  intros Hp. split; [reflexivity|]. split; [reflexivity|].
  destruct s as [mb ct mt cx ms fs cs tr]; simpl in *.
  eexists _, _. split; [reflexivity|]. simpl.
  split; [reflexivity|]. split.
  { unfold ucma_poll. by mrun2. }
  split.
  { unfold ucma_close. mrun2. simpl. mrun2. reflexivity. }
  simpl. split; [by rewrite delete_insert_eq, delete_id|].
  by repeat split.
Qed.

Lemma ucma_open_close_witness :
  exists s1 s2,
    ucma_open (Some 3%positive) true true 0 demo_state
    = Some ((0, Some 3%positive), s1)
    /\ ucma_close 3%positive no_pending s1 = Some (Done 0, s2)
    /\ files s2 = files demo_state.
Proof.
  destruct (ucma_open_close demo_state 3%positive true true 0 no_pending eq_refl)
    as (_ & _ & s1 & s2 & Hopen & _ & _ & Hclose & Hfs & _).
  exists s1, s2. split; [exact Hopen|]. split; [exact Hclose|exact Hfs].
Defined.

(** ** Multicast join and leave *)

(** A failed join leaves no trace in the registries.  An IP join asks
    for a full-member join of the address it carries, cut to the size of
    that address, and is refused with -EINVAL when the address has no
    size.  Whether the group cannot be allocated, no registry index can
    be allocated for it, the engine refuses the join, or the response
    cannot be written, the command returns the corresponding error
    (-ENOMEM, the engine's error, -EFAULT) and the multicast registry,
    the groups, the contexts with their reference counts and group
    lists, the context registry, the engine objects and the sessions are
    all as before the command. *)
Theorem ucma_join_ip_multicast_unwinds (abi : uapi_sizes)
    (rdma_addr_size_in6 rdma_addr_size_kss : list Z -> Z) (s : state)
    (file : loc) (cmd : rdma_ucm_join_ip_mcast) (out_len : Z)
    (kz : option loc) (xid : option Z) (engine : Z) (copy_ok : bool)
    (mp : loc) (i : Z) (p : loc) (c : ucma_context) (cm : loc)
    (cmo : rdma_cm_id) (f : ucma_file) (err : Z) :
  sizeof_create_id_resp abi <= out_len ->
  (rdma_addr_size_in6 (join_ip_addr cmd) = 0 ->
     ucma_join_ip_multicast abi rdma_addr_size_in6 rdma_addr_size_kss file
       (Some cmd) out_len kz xid engine copy_ok s = Some (- EINVAL, s))
  /\ (rdma_addr_size_in6 (join_ip_addr cmd) <> 0 ->
      rdma_addr_size_kss
        (take (Z.to_nat (rdma_addr_size_in6 (join_ip_addr cmd))) (join_ip_addr cmd))
      = rdma_addr_size_in6 (join_ip_addr cmd) ->
      ctx_table s !! join_ip_id cmd = Some p -> ctxs s !! p = Some c ->
      ctx_file c = file -> ctx_cm_id c = Some cm -> ctx_closing c = 0 ->
      ctx_ref c <> 0 ->
      cm_ids s !! cm = Some cmo -> is_Some (cm_device cmo) ->
      files s !! file = Some f ->
      mcs s !! mp = None -> multicast_table s !! i = None ->
      mp ∉ ctx_mc_list c ->
      (forall e, e ∈ file_event_list f -> uevent_mc e <> Some mp) ->
      (kz = None /\ err = - ENOMEM)
      \/ (kz = Some mp /\ xid = None /\ err = - ENOMEM)
      \/ (kz = Some mp /\ xid = Some i /\ engine <> 0 /\ err = engine)
      \/ (kz = Some mp /\ xid = Some i /\ engine = 0 /\ copy_ok = false
          /\ err = - EFAULT) ->
      exists s',
        ucma_join_ip_multicast abi rdma_addr_size_in6 rdma_addr_size_kss file
          (Some cmd) out_len kz xid engine copy_ok s = Some (err, s')
        /\ multicast_table s' = multicast_table s /\ mcs s' = mcs s
        /\ ctxs s' = ctxs s /\ ctx_table s' = ctx_table s
        /\ cm_ids s' = cm_ids s /\ files s' = files s).
Proof.
  intros Hlen. split.
  { intros Hz. unfold ucma_join_ip_multicast.
    by rewrite (bool_decide_eq_true_2 _ Hz). }
  intros Hnz Hsz H1 H2 H3 H4 H5 H6 H7 H8 Hf Hmp Hi Hnin Hev Hmode.
  unfold ucma_join_ip_multicast. rewrite (bool_decide_eq_false_2 _ Hnz).
  set (jcmd := mk_join_mcast (join_ip_response cmd) (join_ip_uid cmd)
                 (join_ip_id cmd) (rdma_addr_size_in6 (join_ip_addr cmd))
                 RDMA_MC_JOIN_FLAG_FULLMEMBER
                 (take (Z.to_nat (rdma_addr_size_in6 (join_ip_addr cmd)))
                    (join_ip_addr cmd))).
  assert (join_addr_size jcmd = rdma_addr_size_kss (join_addr jcmd)) as Hsz'
    by (simpl; by rewrite Hsz).
  assert (join_state_of (join_flags jcmd) = Some (BIT FULLMEMBER_JOIN)) as Hfl
    by reflexivity.
  destruct Hmode as [[-> ->]|[(-> & -> & ->)|[(-> & -> & He & ->)
                    |(-> & -> & -> & -> & ->)]]].
  - destruct (ucma_process_join_no_memory abi rdma_addr_size_kss s file jcmd
                out_len None engine copy_ok mp p c cm cmo (BIT FULLMEMBER_JOIN))
      as (s' & Hrun & ? & ? & ? & ? & ? & ? & _); auto.
    exists s'. by repeat split.
  - destruct (ucma_process_join_no_memory abi rdma_addr_size_kss s file jcmd
                out_len (Some mp) engine copy_ok mp p c cm cmo (BIT FULLMEMBER_JOIN))
      as (s' & Hrun & ? & ? & ? & ? & ? & ? & _); auto.
    exists s'. by repeat split.
  - destruct (ucma_process_join_engine_failure abi rdma_addr_size_kss s file jcmd
                out_len engine copy_ok mp i p c cm cmo (BIT FULLMEMBER_JOIN))
      as (s' & Hrun & ? & ? & ? & ? & ? & ? & _); auto.
    exists s'. by repeat split.
  - destruct (ucma_process_join_copy_fault_unwinds abi rdma_addr_size_kss s file
                jcmd out_len mp i p c cm cmo f)
      as (s' & Hrun & ? & ? & ? & ? & ? & Hfs & _); auto.
    exists s'. repeat (split; [assumption|]).
    rewrite Hfs, filter_all by exact Hev.
    apply insert_id. rewrite Hf. by destruct f.
Qed.

Lemma ucma_join_ip_multicast_unwinds_witness :
  exists s',
    ucma_join_ip_multicast uapi_abi (fun _ => 16) (fun _ => 16) 1%positive
      (Some (mk_join_ip_mcast 0 9 [] 0)) 4
      (Some 40%positive) (Some 5) (- 110) true demo_state = Some (- 110, s')
    /\ multicast_table s' = ∅ /\ mcs s' = ∅ /\ ctxs s' = ctxs demo_state.
Proof.
  destruct (proj2 (ucma_join_ip_multicast_unwinds uapi_abi (fun _ => 16)
              (fun _ => 16) demo_state 1%positive
              (mk_join_ip_mcast 0 9 [] 0) 4
              (Some 40%positive) (Some 5) (- 110) true 40%positive 5 10%positive
              demo_ctx 20%positive (mk_cm_id 10%positive (Some 30%positive) IB_QPT_RC)
              (mk_file false [10%positive] []) (- 110)
              ltac:(vm_compute; discriminate))
              ltac:(discriminate) eq_refl eq_refl eq_refl
              eq_refl eq_refl eq_refl ltac:(discriminate) eq_refl
              ltac:(by eexists) eq_refl eq_refl eq_refl
              ltac:(apply not_elem_of_nil)
              ltac:(intros e He; by apply elem_of_nil in He)
              ltac:(right; right; left; repeat split; discriminate))
    as (s' & Hrun & Hmt & Hms & Hcx & _).
  exists s'. split; [exact Hrun|]. split; [exact Hmt|]. split; [exact Hms|exact Hcx].
Defined.

(** Join followed by leave is a round trip.  A successful join, of an
    address that has a size, publishes the new group under an id,
    appends it to the context's group list, and hands that id, and
    nothing else, to the client; a leave of that id then succeeds (or
    returns -EFAULT when its response cannot be written, the group being
    gone all the same), and afterwards the multicast registry, the
    groups, the contexts, the sessions, the context registry and the
    engine objects are exactly as before the join. *)
Theorem ucma_join_leave_round_trip (abi : uapi_sizes)
    (rdma_addr_size_kss : list Z -> Z) (s : state) (file : loc)
    (cmd : rdma_ucm_join_mcast) (out_len out_len' : Z) (copy_ok : bool)
    (mp : loc) (i : Z) (p : loc) (c : ucma_context) (cm : loc)
    (cmo : rdma_cm_id) (f : ucma_file) (js : Z) :
  sizeof_create_id_resp abi <= out_len ->
  sizeof_destroy_id_resp abi <= out_len' ->
  rdma_addr_size_kss (join_addr cmd) <> 0 ->
  join_addr_size cmd = rdma_addr_size_kss (join_addr cmd) ->
  join_state_of (join_flags cmd) = Some js ->
  ctx_table s !! join_id cmd = Some p -> ctxs s !! p = Some c ->
  ctx_file c = file -> ctx_cm_id c = Some cm -> ctx_closing c = 0 ->
  ctx_ref c <> 0 ->
  cm_ids s !! cm = Some cmo -> is_Some (cm_device cmo) ->
  files s !! file = Some f ->
  mcs s !! mp = None -> multicast_table s !! i = None -> mp ∉ ctx_mc_list c ->
  (forall e, e ∈ file_event_list f -> uevent_mc e <> Some mp) ->
  exists s1 s2,
    ucma_join_multicast abi rdma_addr_size_kss file (Some cmd) out_len (Some mp)
      (Some i) 0 true s = Some (0, s1)
    /\ multicast_table s1 !! i = Some (Some mp)
    /\ mcs s1 !! mp
       = Some (mk_mc p i 0 (join_uid cmd) js
                 (take (Z.to_nat (join_addr_size cmd)) (join_addr cmd)))
    /\ ctx_mc_list <$> ctxs s1 !! p = Some (ctx_mc_list c ++ [mp])
    /\ (exists l1 l2,
          trace s1 = trace s ++ l1 ++ [op_copy_to_user (resp_of_id i) true] ++ l2
          /\ forall r ok, op_copy_to_user r ok ∉ l1 ++ l2)
    /\ ucma_leave_multicast abi file out_len' (Some i) copy_ok s1
       = Some (if copy_ok then 0 else - EFAULT, s2)
    /\ multicast_table s2 = multicast_table s /\ mcs s2 = mcs s
    /\ ctxs s2 = ctxs s /\ files s2 = files s
    /\ ctx_table s2 = ctx_table s /\ cm_ids s2 = cm_ids s.
Proof.
  intros Hlen Hlen' Hnz Hsz Hfl H1 H2 H3 H4 H5 H6 H7 H8 Hf Hmp Hi Hnin Hev.
  eexists.

  destruct (ucma_leave_multicast_run abi
              (mk_state (max_backlog s) (ctx_table s)
                 (<[i := Some mp]> (multicast_table s))
                 (<[p := ctx_with_mc_list c (ctx_mc_list c ++ [mp])]> (ctxs s))
                 (<[mp := mk_mc p i 0 (join_uid cmd) js
                            (take (Z.to_nat (join_addr_size cmd)) (join_addr cmd))]>
                    (mcs s))
                 (files s) (cm_ids s)
                 (trace s ++
                  [op_xa_lock XA_ctx_table; op_refcount_inc p;
                   op_xa_unlock XA_ctx_table;
                   op_mutex_lock (file_mut file); op_mutex_lock (ctx_mutex p);
                   op_rdma_join_multicast cm mp; op_mutex_unlock (ctx_mutex p);
                   op_copy_to_user (resp_of_id i) true;
                   op_mutex_unlock (file_mut file); op_refcount_dec p]))
              file out_len' i copy_ok mp
              (mk_mc p i 0 (join_uid cmd) js
                 (take (Z.to_nat (join_addr_size cmd)) (join_addr cmd)))
              (ctx_with_mc_list c (ctx_mc_list c ++ [mp])) cm f Hlen')
    as (s2 & Hrun2 & Hmt & Hfs & Hcx & Hms & Hct & Hcs);
    try (simpl; by rewrite ?lookup_insert_eq).
  exists s2.
  split.
  { unfold ucma_join_multicast. rewrite (bool_decide_eq_false_2 _ Hnz).
    by eapply ucma_process_join_run. }
  simpl.
  split; [apply lookup_insert_eq|]. split; [apply lookup_insert_eq|].
  split; [by rewrite lookup_insert_eq|].
  split.
  { exists [op_xa_lock XA_ctx_table; op_refcount_inc p; op_xa_unlock XA_ctx_table;
            op_mutex_lock (file_mut file); op_mutex_lock (ctx_mutex p);
            op_rdma_join_multicast cm mp; op_mutex_unlock (ctx_mutex p)],
           [op_mutex_unlock (file_mut file); op_refcount_dec p].
    split; [reflexivity|]. intros r ok. not_in_trace. }
  split; [exact Hrun2|].
  simpl in *.
  split; [by rewrite Hmt, delete_insert_eq, delete_id|].
  split; [by rewrite Hms, delete_insert_eq, delete_id|].
  split.
  { rewrite Hcx, insert_insert_eq. apply insert_id. rewrite H2. f_equal.
    destruct c; unfold ctx_with_mc_list; simpl in *.
    by rewrite filter_ne_snoc. }
  split.
  { rewrite Hfs, filter_all by exact Hev. apply insert_id. rewrite Hf.
    by destruct f. }
  split; assumption.
Qed.

(** Leave refuses what it may not remove.  A leave command returns
    -ENOENT for an id that is absent from the multicast registry or only
    reserved by a join still in progress, -EINVAL for a group whose
    context belongs to another session, and -ENXIO for a group whose
    context has no reference left; in each case the group stays
    registered and nothing changes but the log of the registry lock. *)
Theorem ucma_leave_multicast_refuses (abi : uapi_sizes) (s : state)
    (file : loc) (out_len id : Z) (copy_ok : bool) :
  sizeof_destroy_id_resp abi <= out_len ->
  let refused :=
    logged s [op_xa_lock XA_multicast_table; op_xa_unlock XA_multicast_table] in
  (multicast_table s !! id = None \/ multicast_table s !! id = Some None ->
     ucma_leave_multicast abi file out_len (Some id) copy_ok s
     = Some (- ENOENT, refused))
  /\ (forall mcp mc c,
        multicast_table s !! id = Some (Some mcp) -> mcs s !! mcp = Some mc ->
        ctxs s !! mc_ctx mc = Some c ->
        (ctx_file c <> file ->
           ucma_leave_multicast abi file out_len (Some id) copy_ok s
           = Some (- EINVAL, refused))
        /\ (ctx_file c = file -> ctx_ref c = 0 ->
              ucma_leave_multicast abi file out_len (Some id) copy_ok s
              = Some (- ENXIO, refused))).
Proof.
  intros Hlen refused. split.
  - intros Hid. by apply ucma_leave_multicast_absent.
  - intros mcp mc c Hid Hmc Hc. split.
    + intros Hfile. by eapply ucma_leave_multicast_foreign.
    + intros Hfile Href. by eapply ucma_leave_multicast_dead.
Qed.

Lemma ucma_leave_multicast_refuses_witness :
  ucma_leave_multicast uapi_abi 2%positive 4 (Some 5) true demo_joined
  = Some (- EINVAL,
          logged demo_joined
            [op_xa_lock XA_multicast_table; op_xa_unlock XA_multicast_table]).
Proof.
  exact (proj1 (proj2 (ucma_leave_multicast_refuses uapi_abi demo_joined
                         2%positive 4 5 true ltac:(vm_compute; discriminate))
                  40%positive (mk_mc 10%positive 5 3 0 1 [])
                  (ctx_with_mc_list demo_ctx [40%positive])
                  eq_refl eq_refl eq_refl)
           ltac:(discriminate)).
Defined.

Lemma ucma_join_leave_round_trip_witness :
  exists s1 s2,
    ucma_join_multicast uapi_abi (fun _ => 16) 1%positive
      (Some (mk_join_mcast 0 9 0 16 RDMA_MC_JOIN_FLAG_FULLMEMBER [])) 4
      (Some 40%positive) (Some 5) 0 true demo_state = Some (0, s1)
    /\ multicast_table s1 !! 5 = Some (Some 40%positive)
    /\ (exists l1 l2,
          trace s1 = l1 ++ [op_copy_to_user (resp_of_id 5) true] ++ l2)
    /\ ucma_leave_multicast uapi_abi 1%positive 4 (Some 5) true s1 = Some (0, s2)
    /\ multicast_table s2 = ∅ /\ mcs s2 = ∅ /\ ctxs s2 = ctxs demo_state.
Proof.
  destruct (ucma_join_leave_round_trip uapi_abi (fun _ => 16) demo_state 1%positive
              (mk_join_mcast 0 9 0 16 RDMA_MC_JOIN_FLAG_FULLMEMBER []) 4 4 true
              40%positive 5 10%positive demo_ctx 20%positive
              (mk_cm_id 10%positive (Some 30%positive) IB_QPT_RC)
              (mk_file false [10%positive] []) 1
              ltac:(vm_compute; discriminate) ltac:(vm_compute; discriminate)
              ltac:(discriminate) eq_refl eq_refl eq_refl eq_refl
              eq_refl eq_refl eq_refl ltac:(discriminate) eq_refl
              ltac:(by eexists) eq_refl eq_refl eq_refl
              ltac:(apply not_elem_of_nil)
              ltac:(intros e He; by apply elem_of_nil in He))
    as (s1 & s2 & Hjoin & Hpub & _ & _ & (l1 & l2 & Htr & _) & Hleave & Hmt
        & Hms & Hcx & _).
  exists s1, s2. split; [exact Hjoin|]. split; [exact Hpub|].
  split; [exists l1, l2; exact Htr|].
  repeat (split; [assumption|]). exact Hcx.
Defined.

(** ** Event delivery *)

(** Events reach the client in the order the engine reported them.  The
    statement is about the events that target the context itself: none
    of the reported events is a connect request, a device removal or a
    multicast event, and the event of every report can be allocated.
    When the engine object of a context whose uid is set reports a run
    of such events, each is appended to the session's queue.  If the
    events queued before need no allocation either (none is a connect
    request, and their contexts and groups exist), a client that then
    reads as many times as there are events queued, with room in its
    buffer and every copy succeeding, gets 0 from every read, first the
    responses of the events that were queued already and then those of
    the reported events, each carrying the context's uid and id, in the
    order of the reports; the queue is empty afterwards. *)
Theorem ucma_events_in_order (abi : uapi_sizes) (s : state) (cm_id : loc)
    (cm : rdma_cm_id) (ctx : ucma_context) (f : ucma_file)
    (evs : list rdma_cm_event) (out_len : Z) :
  min_event_resp abi <= out_len ->
  cm_ids s !! cm_id = Some cm -> ctxs s !! cm_context cm = Some ctx ->
  files s !! ctx_file ctx = Some f ->
  ctx_uid ctx <> 0 -> ctx_cm_id ctx = Some cm_id ->
  (forall ev, ev ∈ evs -> plain_event (event ev)) ->
  (forall e, e ∈ file_event_list f -> event_readable s e) ->
  exists s1 s2,
    deliver ((fun ev => (cm_id, ev, true)) <$> evs) s
    = Some (replicate (length evs) 0, s1)
    /\ read_events abi (ctx_file ctx) out_len
         (length (file_event_list f) + length evs) s1
       = Some (replicate (length (file_event_list f) + length evs) (Done 0), s2)
    /\ delivered (trace s2)
       = delivered (trace s)
         ++ (uevent_resp <$> file_event_list f)
         ++ ((fun ev =>
                mk_resp (ctx_uid ctx) (ctx_id ctx) (event ev) (status ev)
                  (if bool_decide (cm_qp_type cm = IB_QPT_UD)
                   then ucma_copy_ud_event (param_ud ev)
                   else ucma_copy_conn_event (param_conn ev))
                  (ece_vendor_id ev) (ece_attr_mod ev)) <$> evs)
    /\ file_event_list <$> files s2 !! ctx_file ctx = Some [].
Proof.
  intros Hlen H1 H2 H3 H4 H5 Hplain Hok.
  destruct (deliver_plain_run cm_id cm ctx evs s f H1 H2 H3 H4 H5 Hplain)
    as (s1 & Hrun1 & Hfs & Hcx & Hms & Hcs & Hct & Hdel).
  set (q := file_event_list f ++ ((fun ev => ctx_uevent cm_id ev cm ctx) <$> evs)).
  destruct (read_events_run abi (ctx_file ctx) out_len
              (length (file_event_list f) + length evs) s1
              (file_with_event_list f q) Hlen)
    as (s2 & Hrun2 & Hdel2 & Hfs2).
  { rewrite Hfs. apply lookup_insert_eq. }
  { simpl. unfold q. rewrite length_app, length_fmap. lia. }
  { simpl. intros e He. unfold q in He. apply elem_of_app in He as [He|He].
    - destruct (Hok e He) as (Ha & Hb & Hc).
      split; [exact Ha|]. rewrite Hcx, Hms. by split.
    - apply list_elem_of_fmap in He as (ev & -> & Hev).
      destruct (Hplain ev Hev) as (Ha & _).
      split; [exact Ha|]. split.
      + simpl. rewrite Hcx, H2. eauto.
      + intros mcp Hm. discriminate. }
  exists s1, s2. split; [exact Hrun1|]. split; [exact Hrun2|]. split.
  - rewrite Hdel2, Hdel. simpl. f_equal.
    rewrite take_ge by (unfold q; rewrite length_app, length_fmap; lia).
    unfold q. rewrite fmap_app. f_equal.
    rewrite <- list_fmap_compose. reflexivity.
  - rewrite Hfs2. simpl.
    rewrite drop_ge by (unfold q; rewrite length_app, length_fmap; lia).
    reflexivity.
Qed.

Lemma ucma_events_in_order_witness :
  exists s1 s2,
    deliver [(20%positive, demo_established, true);
             (20%positive, demo_disconnected, true)] demo_state
    = Some ([0; 0], s1)
    /\ read_events uapi_abi 1%positive 400 2 s1 = Some ([Done 0; Done 0], s2)
    /\ resp_event <$> delivered (trace s2)
       = [RDMA_CM_EVENT_ESTABLISHED; RDMA_CM_EVENT_DISCONNECTED].
Proof.
  destruct (ucma_events_in_order uapi_abi demo_state 20%positive
              (mk_cm_id 10%positive (Some 30%positive) IB_QPT_RC) demo_ctx
              (mk_file false [10%positive] [])
              [demo_established; demo_disconnected] 400
              ltac:(vm_compute; discriminate) eq_refl eq_refl eq_refl
              ltac:(discriminate) eq_refl
              ltac:(intros ev Hev;
                    apply elem_of_cons in Hev as [->|Hev];
                    [|apply list_elem_of_singleton in Hev; subst ev];
                    repeat split; discriminate)
              ltac:(intros e He; by apply elem_of_nil in He))
    as (s1 & s2 & Hrun1 & Hrun2 & Hdel & _).
  exists s1, s2. split; [exact Hrun1|]. split; [exact Hrun2|].
  rewrite Hdel. reflexivity.
Defined.

(** A device removal closes the context to commands.  When the engine
    reports the removal of the device of a context's own engine object,
    the context is not being destroyed and the event can be allocated,
    the handler marks the context as closing and queues its deferred
    close on the session's workqueue, whether or not the context has a
    uid; the removal event itself is queued for the client only when
    the uid is set.  The registry entry stays, and from then on a lookup
    of the context's id by its session is refused with -EIO.  When the
    event cannot be allocated the handler returns 0 and changes nothing:
    the context is not marked, no close is queued, and the lookup of a
    context that was not closing still finds it. *)
Theorem ucma_event_handler_removal_closes (s : state) (cm_id : loc)
    (ev : rdma_cm_event) (cm : rdma_cm_id) (ctx : ucma_context) (f : ucma_file)
    (id : Z) :
  cm_ids s !! cm_id = Some cm -> ctxs s !! cm_context cm = Some ctx ->
  files s !! ctx_file ctx = Some f ->
  event ev = RDMA_CM_EVENT_DEVICE_REMOVAL ->
  ctx_cm_id ctx = Some cm_id -> ctx_destroying ctx = 0 ->
  ctx_table s !! id = Some (cm_context cm) ->
  (exists s',
     ucma_event_handler cm_id ev true s = Some (0, s')
     /\ ctxs s' = <[cm_context cm := ctx_with_closing ctx 1]> (ctxs s)
     /\ ctx_closing <$> ctxs s' !! cm_context cm = Some 1
     /\ ctx_table s' = ctx_table s /\ cm_ids s' = cm_ids s
     /\ op_queue_close_id (ctx_file ctx) (cm_context cm) ∈ trace s'
     /\ files s' !! ctx_file ctx
        = Some (if bool_decide (ctx_uid ctx = 0) then f
                else file_with_event_list f
                       (file_event_list f ++ [ctx_uevent cm_id ev cm ctx]))
     /\ ucma_get_ctx (ctx_file ctx) id s' = Some (Err (- EIO), ctx_refused s'))
  /\ ucma_event_handler cm_id ev false s = Some (0, s)
  /\ (ctx_closing ctx = 0 ->
      ucma_get_ctx (ctx_file ctx) id s
      = Some (Ptr (cm_context cm), ctx_taken s (cm_context cm) ctx)).
Proof.
  intros H1 H2 H3 H4 H5 H6 H7. split; [|split].
  2:{ rewrite (ucma_event_handler_no_memory s cm_id ev cm H1).
      rewrite bool_decide_eq_false_2; [reflexivity|]. rewrite H4. discriminate. }
  2:{ intros Hcl. apply ucma_get_ctx_found; rewrite ?H5; eauto. }
  eexists. split; [by eapply ucma_event_handler_removal|].
  destruct s as [mb ct mt cx ms fs cs tr]; simpl in *.
  case_bool_decide as Hu; simpl.
  - split; [reflexivity|]. split; [by rewrite lookup_insert_eq|].
    split; [reflexivity|]. split; [reflexivity|].
    split; [in_trace|]. split; [exact H3|].
    apply (ucma_get_ctx_closing _ _ _ (cm_context cm) (ctx_with_closing ctx 1));
      simpl; [exact H7|apply lookup_insert_eq|reflexivity
             |rewrite H5; eauto|discriminate].
  - split; [reflexivity|]. split; [by rewrite lookup_insert_eq|].
    split; [reflexivity|]. split; [reflexivity|].
    split; [in_trace|]. split; [apply lookup_insert_eq|].
    apply (ucma_get_ctx_closing _ _ _ (cm_context cm) (ctx_with_closing ctx 1));
      simpl; [exact H7|apply lookup_insert_eq|reflexivity
             |rewrite H5; eauto|discriminate].
Qed.

Lemma ucma_event_handler_removal_closes_witness :
  (exists s',
     ucma_event_handler 20%positive demo_removal true demo_state = Some (0, s')
     /\ ctx_closing <$> ctxs s' !! 10%positive = Some 1
     /\ ucma_get_ctx 1%positive 0 s' = Some (Err (- EIO), ctx_refused s'))
  /\ ucma_event_handler 20%positive demo_removal false demo_state
     = Some (0, demo_state).
Proof.
  destruct (ucma_event_handler_removal_closes demo_state 20%positive demo_removal
              (mk_cm_id 10%positive (Some 30%positive) IB_QPT_RC) demo_ctx
              (mk_file false [10%positive] []) 0
              eq_refl eq_refl eq_refl eq_refl eq_refl eq_refl eq_refl)
    as ((s' & Hrun & _ & Hcl & _ & _ & _ & _ & Hget) & Hdrop & _).
  split; [|exact Hdrop].
  exists s'. split; [exact Hrun|]. split; [exact Hcl|exact Hget].
Defined.

(** A read that delivers nothing leaves the queue alone.  With a buffer
    too short for the smallest response the read returns -ENOSPC without
    touching anything, even when events are queued.  On an empty queue it
    returns -EAGAIN for a non-blocking session, and otherwise sleeps, or
    returns -ERESTARTSYS when a signal arrives.  When the head of the
    queue is a connect request and no context can be allocated for it, it
    returns -ENOMEM.  In the last two cases only lock operations and the
    release of the failed allocation are logged: the queue, the
    listener's backlog and the registry are unchanged and nothing is
    copied to the client. *)
Theorem ucma_get_event_keeps_queue (abi : uapi_sizes) (s : state) (file : loc)
    (out_len resp_addr : Z) (signal : bool) (kz : option loc)
    (xid : option Z) (copy_ok : bool) (f : ucma_file) :
  files s !! file = Some f ->
  (out_len < min_event_resp abi ->
     ucma_get_event abi file out_len (Some resp_addr) signal kz xid copy_ok s
     = Some (Done (- ENOSPC), s))
  /\ (min_event_resp abi <= out_len -> file_event_list f = [] ->
        ucma_get_event abi file out_len (Some resp_addr) signal kz xid copy_ok s
        = Some (if file_nonblock f then Done (- EAGAIN)
                else if signal then Done (- ERESTARTSYS) else Sleeps,
                logged s [op_mutex_lock (file_mut file);
                          op_mutex_unlock (file_mut file)]))
  /\ (forall uevent rest p,
        min_event_resp abi <= out_len -> file_event_list f = uevent :: rest ->
        resp_event (uevent_resp uevent) = RDMA_CM_EVENT_CONNECT_REQUEST ->
        kz = None \/ (kz = Some p /\ ctxs s !! p = None) ->
        exists l,
          ucma_get_event abi file out_len (Some resp_addr) signal kz None copy_ok s
          = Some (Done (- ENOMEM), logged s l)
          /\ forall r ok, op_copy_to_user r ok ∉ l).
Proof.
  intros Hf. split; [|split].
  - intros Hlen. by apply ucma_get_event_short.
  - intros Hlen Hq. by apply ucma_get_event_empty_run.
  - intros uevent rest p Hlen Hq Hev Hkz. by eapply ucma_get_event_no_memory.
Qed.

Lemma ucma_get_event_keeps_queue_witness :
  ucma_get_event uapi_abi 2%positive 400 (Some 0) false None None true demo_state
  = Some (Done (- EAGAIN),
          logged demo_state [op_mutex_lock (file_mut 2%positive);
                             op_mutex_unlock (file_mut 2%positive)]).
Proof.
  exact (proj1 (proj2 (ucma_get_event_keeps_queue uapi_abi demo_state 2%positive
                         400 0 false None None true (mk_file true [] []) eq_refl))
           ltac:(vm_compute; discriminate) eq_refl).
Defined.

(** ** Context creation *)



(** ** Commands forwarded to the engine *)

(** The address commands check sizes first and leak no reference.  Each
    of bind_ip, bind, resolve_ip and resolve_addr returns -EINVAL, without
    looking anything up, for an address whose size the size function does
    not recognise or that does not match the size the command states, and
    for a set reserved field.  With arguments that pass these checks, on
    a context of the caller that has its engine object and is not
    closing, whether or not that object is bound to a device (it is not
    on a context just created), it returns what the engine returned, and
    the reference it took is released: the state is the state before the
    command, with only the operations of the lookup, of the context's
    mutex and of the release added to the log. *)
Theorem ucma_address_commands_release
    (rdma_addr_size_in6 rdma_addr_size_kss : sockaddr -> Z) (s : state)
    (file : loc) (id : Z) (p : loc) (c : ucma_context) (cm : loc) (engine : Z) :
  ctx_in_use s file id p c cm ->
  let after := Some (engine, logged s (forwarded_log p)) in
  let refused := Some (- EINVAL, s) in
  (forall cmd, bind_ip_id cmd = id ->
     ucma_bind_ip rdma_addr_size_in6 file (Some cmd) engine s
     = if bool_decide (rdma_addr_size_in6 (bind_ip_addr cmd) = 0)
       then refused else after)
  /\ (forall cmd, bind_id cmd = id ->
        ucma_bind rdma_addr_size_kss file (Some cmd) engine s
        = if bool_decide (bind_reserved cmd = 0 /\ bind_addr_size cmd <> 0
                          /\ bind_addr_size cmd
                             = rdma_addr_size_kss (bind_addr cmd))
          then after else refused)
  /\ (forall cmd, resolve_ip_id cmd = id ->
        ucma_resolve_ip rdma_addr_size_in6 file (Some cmd) engine s
        = if bool_decide
               ((sa_family (resolve_ip_src_addr cmd) = 0
                 \/ rdma_addr_size_in6 (resolve_ip_src_addr cmd) <> 0)
                /\ rdma_addr_size_in6 (resolve_ip_dst_addr cmd) <> 0)
          then after else refused)
  /\ (forall cmd, resolve_id cmd = id ->
        ucma_resolve_addr rdma_addr_size_kss file (Some cmd) engine s
        = if bool_decide
               (resolve_reserved cmd = 0
                /\ (resolve_src_size cmd = 0
                    \/ resolve_src_size cmd
                       = rdma_addr_size_kss (resolve_src_addr cmd))
                /\ resolve_dst_size cmd <> 0
                /\ resolve_dst_size cmd
                   = rdma_addr_size_kss (resolve_dst_addr cmd))
          then after else refused).
Proof.
  intros Hu after refused. subst after refused.
  split; [|split; [|split]].
  - intros cmd <-. case_bool_decide as Ha.
    + unfold ucma_bind_ip. by rewrite (bool_decide_eq_true_2 _ Ha).
    + by eapply ucma_bind_ip_run.
  - intros cmd <-. case_bool_decide as Ha.
    + destruct Ha as (Ha & Hb & Hc). by eapply ucma_bind_run.
    + unfold ucma_bind.
      destruct (decide (bind_reserved cmd = 0)) as [H1|H1];
        [rewrite (bool_decide_eq_true_2 _ H1)
        |by rewrite (bool_decide_eq_false_2 _ H1)].
      destruct (decide (bind_addr_size cmd = 0)) as [H2|H2];
        [by rewrite (bool_decide_eq_true_2 _ H2)
        |rewrite (bool_decide_eq_false_2 _ H2)].
      destruct (decide (bind_addr_size cmd = rdma_addr_size_kss (bind_addr cmd)))
        as [H3|H3]; [by destruct Ha|].
      by rewrite (bool_decide_eq_false_2 _ H3).
  - intros cmd <-. case_bool_decide as Ha.
    + destruct Ha as (Ha & Hb). by eapply ucma_resolve_ip_run.
    + unfold ucma_resolve_ip.
      destruct (decide (rdma_addr_size_in6 (resolve_ip_dst_addr cmd) = 0))
        as [H2|H2].
      { rewrite (bool_decide_eq_true_2 _ H2). by rewrite orb_true_r. }
      destruct (decide (sa_family (resolve_ip_src_addr cmd) = 0)) as [H1|H1];
        [destruct Ha; by auto|].
      destruct (decide (rdma_addr_size_in6 (resolve_ip_src_addr cmd) = 0))
        as [H3|H3]; [|destruct Ha; by auto].
      by rewrite (bool_decide_eq_false_2 _ H1), (bool_decide_eq_true_2 _ H3).
  - intros cmd <-. case_bool_decide as Ha.
    + destruct Ha as (Ha & Hb & Hc & Hd). by eapply ucma_resolve_addr_run.
    + unfold ucma_resolve_addr.
      destruct (decide (resolve_reserved cmd = 0)) as [H1|H1];
        [rewrite (bool_decide_eq_true_2 _ H1)
        |by rewrite (bool_decide_eq_false_2 _ H1)].
      destruct (decide (resolve_dst_size cmd = 0)) as [H2|H2].
      { rewrite (bool_decide_eq_true_2 _ H2). simpl.
        by rewrite orb_true_r. }
      destruct (decide (resolve_dst_size cmd
                        = rdma_addr_size_kss (resolve_dst_addr cmd))) as [H3|H3].
      2:{ rewrite (bool_decide_eq_false_2 _ H3). simpl.
          by rewrite !orb_true_r. }
      destruct (decide (resolve_src_size cmd = 0)) as [H4|H4];
        [destruct Ha; by auto|].
      destruct (decide (resolve_src_size cmd
                        = rdma_addr_size_kss (resolve_src_addr cmd))) as [H5|H5];
        [destruct Ha; by auto|].
      by rewrite (bool_decide_eq_false_2 _ H4), (bool_decide_eq_false_2 _ H5).
Qed.

Lemma ucma_address_commands_release_witness :
  cm_device <$> cm_ids demo_created !! 20%positive = Some None
  /\ ucma_bind_ip (fun a => sa_family a) 1%positive
       (Some (mk_bind_ip 0 (mk_sockaddr 28 []))) (- 98) demo_created
     = Some (- 98, logged demo_created (forwarded_log 10%positive)).
Proof.
  split; [reflexivity|].
  exact (proj1 (ucma_address_commands_release (fun a => sa_family a)
                  (fun a => sa_family a) demo_created 1%positive 0 10%positive
                  demo_ctx 20%positive (- 98)
                  ltac:(repeat split; try reflexivity; discriminate))
           (mk_bind_ip 0 (mk_sockaddr 28 [])) eq_refl).
Defined.

(** The connection commands leak no reference.  On a context the caller
    may use and that is bound to a device, each of resolve_route,
    connect, disconnect and notify returns what the engine returned; the
    engine gets from connect the parameters of the command as
    [ucma_copy_conn_param] passes them on, and the ECE data only when the
    command is long enough to hold them, zeros otherwise.  When the
    command returns, the reference it took is released and the state is
    as before but for the log.  A connect command that is too short or
    whose parameters are not marked valid returns -EINVAL without
    looking anything up. *)
Theorem ucma_connection_commands_release (lay : ece_layout) (s : state)
    (file : loc) (id : Z) (p : loc) (c : ucma_context) (cm : loc) (engine : Z) :
  ctx_usable s file id p c cm ->
  let after := logged s (forwarded_log p) in
  (forall cmd, resolve_route_id cmd = id ->
     ucma_resolve_route file (Some cmd) engine s = Some (engine, after))
  /\ ucma_disconnect file (Some id) engine s = Some (engine, after)
  /\ (forall cmd, notify_id cmd = id ->
        ucma_notify file (Some cmd) engine s = Some (engine, after))
  /\ (forall cmd in_len src_is_ib engine_c, connect_id cmd = id ->
        ucma_connect lay file in_len (Some cmd) src_is_ib engine_c s
        = if (in_len <? offsetofend_reserved lay)
             || bool_decide (ucp_valid (connect_conn_param cmd) = 0)
          then Some (- EINVAL, s)
          else Some (engine_c
                       (ucma_copy_conn_param src_is_ib (connect_conn_param cmd))
                       (if offsetofend_ece lay <=? Z.min in_len (sizeof_cmd lay)
                        then connect_ece cmd else mk_ece 0 0),
                     after)).
Proof.
  intros Hu after. subst after.
  split; [|split; [|split]].
  - intros cmd <-. by eapply ucma_resolve_route_run.
  - by eapply ucma_disconnect_run.
  - intros cmd <-. by eapply ucma_notify_run.
  - intros cmd in_len src_is_ib engine_c <-.
    destruct (in_len <? offsetofend_reserved lay) eqn:El.
    { unfold ucma_connect. by rewrite El. }
    apply Z.ltb_ge in El.
    case_bool_decide as Hv; simpl.
    { unfold ucma_connect.
      by rewrite (proj2 (Z.ltb_ge _ _) El), (bool_decide_eq_true_2 _ Hv). }
    by eapply ucma_connect_run.
Qed.

Lemma ucma_connection_commands_release_witness :
  ucma_disconnect 1%positive (Some 0) (- 107) demo_state
  = Some (- 107, logged demo_state (forwarded_log 10%positive)).
Proof.
  exact (proj1 (proj2 (ucma_connection_commands_release (mk_ece_layout 0 0 0)
                         demo_state 1%positive 0 10%positive demo_ctx 20%positive
                         (- 107)
                         ltac:(repeat split; try reflexivity; try discriminate;
                               exists (mk_cm_id 10%positive (Some 30%positive)
                                         IB_QPT_RC);
                               split; [reflexivity|by eexists])))).
Defined.

(** What init_qp_attr returns.  With a response buffer too short the
    command returns -ENOSPC, and with a queue-pair state beyond the last
    one -EINVAL, in both cases without looking anything up.  Otherwise,
    on a usable context, it asks the engine for the attributes of the
    state given and returns the engine's error if there is one, -EFAULT
    if the attributes cannot be written to the client, and 0 otherwise;
    the reference it took is released in each of these cases. *)
Theorem ucma_init_qp_attr_result (sizeof_qp_attr IB_QPS_ERR : Z) (s : state)
    (file : loc) (out_len : Z) (cmd : rdma_ucm_init_qp_attr) (engine : Z -> Z)
    (copy_ok : bool) (p : loc) (c : ucma_context) (cm : loc) :
  ctx_usable s file (init_qp_attr_id cmd) p c cm ->
  ucma_init_qp_attr sizeof_qp_attr IB_QPS_ERR file out_len (Some cmd) engine
    copy_ok s
  = if out_len <? sizeof_qp_attr then Some (- ENOSPC, s)
    else if IB_QPS_ERR <? init_qp_attr_qp_state cmd then Some (- EINVAL, s)
    else Some (if bool_decide (engine (init_qp_attr_qp_state cmd) = 0)
               then (if copy_ok then 0 else - EFAULT)
               else engine (init_qp_attr_qp_state cmd),
               logged s (forwarded_log p)).
Proof.
  intros Hu.
  destruct (out_len <? sizeof_qp_attr) eqn:El.
  { unfold ucma_init_qp_attr. by rewrite El. }
  destruct (IB_QPS_ERR <? init_qp_attr_qp_state cmd) eqn:Es.
  { unfold ucma_init_qp_attr. by rewrite El, Es. }
  apply Z.ltb_ge in El, Es. by eapply ucma_init_qp_attr_run.
Qed.

Lemma ucma_init_qp_attr_result_witness :
  ucma_init_qp_attr 144 6 1%positive 144 (Some (mk_init_qp_attr 0 0 2))
    (fun _ => 0) false demo_state
  = Some (- EFAULT, logged demo_state (forwarded_log 10%positive)).
Proof.
  exact (ucma_init_qp_attr_result 144 6 demo_state 1%positive 144
           (mk_init_qp_attr 0 0 2) (fun _ => 0) false 10%positive demo_ctx
           20%positive
           ltac:(repeat split; try reflexivity; try discriminate;
                 exists (mk_cm_id 10%positive (Some 30%positive) IB_QPT_RC);
                 split; [reflexivity|by eexists])).
Defined.

(** Reject passes on only the reasons a client may give.  A reject
    command whose reason is neither zero nor one of the two reasons open
    to clients returns -EINVAL before any lookup, leaving the state
    untouched.  Otherwise the engine is handed the private data and the
    reason of the command, a reason of zero being replaced by the
    consumer-defined reason, and its result is returned. *)
Theorem ucma_reject_reason (cd vo : Z) (s : state) (file : loc)
    (cmd : rdma_ucm_reject) (engine : list Z -> Z -> Z -> Z) :
  (reject_reason cmd <> 0 -> reject_reason cmd <> cd -> reject_reason cmd <> vo ->
     ucma_reject cd vo file (Some cmd) engine s = Some (- EINVAL, s))
  /\ (forall p c cm,
        reject_reason cmd = 0 \/ reject_reason cmd = cd \/ reject_reason cmd = vo ->
        ctx_usable s file (reject_id cmd) p c cm ->
        ucma_reject cd vo file (Some cmd) engine s
        = Some (engine (reject_private_data cmd) (reject_private_data_len cmd)
                  (if bool_decide (reject_reason cmd = 0) then cd
                   else reject_reason cmd),
                logged s (forwarded_log p))).
Proof.
  split.
  - intros H0 H1 H2. by apply ucma_reject_invalid.
  - intros p c cm Hr Hu. by eapply ucma_reject_run.
Qed.

Lemma ucma_reject_reason_witness :
  ucma_reject 28 35 1%positive (Some (mk_reject 0 0 0 []))
    (fun _ _ reason => reason) demo_state
  = Some (28, logged demo_state (forwarded_log 10%positive)).
Proof.
  exact (proj2 (ucma_reject_reason 28 35 demo_state 1%positive (mk_reject 0 0 0 [])
                  (fun _ _ reason => reason))
           10%positive demo_ctx 20%positive ltac:(by left)
           ltac:(repeat split; try reflexivity; try discriminate;
                 exists (mk_cm_id 10%positive (Some 30%positive) IB_QPT_RC);
                 split; [reflexivity|by eexists])).
Defined.

(** The parameters handed to the engine.  The queue-pair number that
    [ucma_copy_conn_param] passes on is the low 24 bits of the client's
    value, so it is below 2^24 whatever the client supplies, and equal to
    the client's value when that is a 24-bit number; the qkey is passed
    on only for an AF_IB source address and is zero otherwise; the other
    fields are passed on as they are. *)
Theorem ucma_copy_conn_param_masks (src_is_ib : bool) (src : rdma_ucm_conn_param) :
  let dst := ucma_copy_conn_param src_is_ib src in
  0 <= conn_qp_num (req_param dst) < 2 ^ 24
  /\ conn_qp_num (req_param dst) = ucp_qp_num src mod 2 ^ 24
  /\ (0 <= ucp_qp_num src < 2 ^ 24 ->
      conn_qp_num (req_param dst) = ucp_qp_num src)
  /\ req_qkey dst = (if src_is_ib then ucp_qkey src else 0)
  /\ conn_private_data (req_param dst) = ucp_private_data src
  /\ req_private_data_len dst = ucp_private_data_len src
  /\ conn_responder_resources (req_param dst) = ucp_responder_resources src
  /\ conn_initiator_depth (req_param dst) = ucp_initiator_depth src
  /\ conn_flow_control (req_param dst) = ucp_flow_control src
  /\ conn_retry_count (req_param dst) = ucp_retry_count src
  /\ conn_rnr_retry_count (req_param dst) = ucp_rnr_retry_count src
  /\ conn_srq (req_param dst) = ucp_srq src
  /\ ucma_copy_conn_param src_is_ib
       (mk_ucm_conn_param (conn_qp_num (req_param dst)) (req_qkey dst)
          (ucp_private_data src) (ucp_private_data_len src) (ucp_srq src)
          (ucp_responder_resources src) (ucp_initiator_depth src)
          (ucp_flow_control src) (ucp_retry_count src)
          (ucp_rnr_retry_count src) (ucp_valid src)) = dst.
Proof.
  intros dst. subst dst. unfold ucma_copy_conn_param. simpl.
  assert (Z.land (ucp_qp_num src) 16777215 = ucp_qp_num src mod 2 ^ 24) as Hmask.
  { change 16777215 with (Z.ones 24). apply Z.land_ones. lia. }
  rewrite Hmask.
  assert (0 <= ucp_qp_num src mod 2 ^ 24 < 2 ^ 24) as Hr
    by (apply Z.mod_pos_bound; lia).
  split; [exact Hr|]. split; [reflexivity|].
  split; [intros Hs; by apply Z.mod_small|].
  split; [reflexivity|]. split; [reflexivity|]. split; [reflexivity|].
  do 6 (split; [reflexivity|]).
  f_equal.
  - f_equal. change 16777215 with (Z.ones 24). rewrite Z.land_ones by lia.
    apply Z.mod_mod. lia.
  - by destruct src_is_ib.
Qed.

(** Accept claims the context for the client.  An accept command on a
    usable context returns what the engine returned.  When the command
    carries valid connection parameters and the engine accepts (returns
    0), the context's uid becomes the uid of the command; in every other
    case the context is as before.  Either way the reference taken is
    released, the registries and the queues are as before, and nothing
    is copied to the client.  After the command, an event of the engine
    object that targets the context itself (neither a connect request,
    nor a device removal, nor a multicast event) and that can be
    allocated is queued with the context's uid and id when that uid is
    non-zero, and dropped when it is zero: a context spawned by a connect
    request gets no such event until an accept has claimed it.  An event
    that cannot be allocated is dropped whatever the uid. *)
Theorem ucma_accept_claims (lay : ece_layout) (s : state) (file : loc)
    (in_len : Z) (cmd : rdma_ucm_accept) (src_is_ib : bool)
    (engine : option conn_request -> rdma_ucm_ece -> Z) (p : loc)
    (c : ucma_context) (cm : loc) (cmo : rdma_cm_id) (f : ucma_file)
    (ev : rdma_cm_event) :
  offsetofend_reserved lay <= in_len ->
  ctx_usable s file (accept_id cmd) p c cm ->
  cm_ids s !! cm = Some cmo -> cm_context cmo = p ->
  files s !! file = Some f -> plain_event (event ev) ->
  let r := engine (accept_params src_is_ib cmd) (accept_ece_of lay in_len cmd) in
  let c' := if negb (bool_decide (ucp_valid (accept_conn_param cmd) = 0))
               && bool_decide (r = 0)
            then ctx_with_uid c (accept_uid cmd) else c in
  exists s1 s2 l,
    ucma_accept lay file in_len (Some cmd) src_is_ib engine s = Some (r, s1)
    /\ s1 = logged (st_with_ctxs s (<[p := c']> (ctxs s))) l
    /\ (forall r' ok, op_copy_to_user r' ok ∉ l)
    /\ ucma_event_handler cm ev true s1 = Some (0, s2)
    /\ file_event_list <$> files s2 !! file
       = Some (if bool_decide (ctx_uid c' = 0) then file_event_list f
               else file_event_list f ++ [ctx_uevent cm ev cmo c'])
    /\ ctxs s2 = ctxs s1
    /\ ctx_uid <$> ctxs s1 !! p
       = Some (if negb (bool_decide (ucp_valid (accept_conn_param cmd) = 0))
                  && bool_decide (r = 0)
               then accept_uid cmd else ctx_uid c)
    /\ ucma_event_handler cm ev false s1 = Some (0, s1).
Proof.
  intros Hlen Hu Hcm Hback Hf Hplain r c'.
  destruct (ucma_accept_run lay s file in_len cmd src_is_ib engine p c cm Hlen Hu)
    as (l & Hrun & Hl).
  fold r in Hrun.
  destruct Hu as (Hu1 & Hu2 & Hu3 & Hu4 & Hu5 & Hu6 & _).
  set (s1 := logged (st_with_ctxs s (<[p := c']> (ctxs s))) l).
  assert (ucma_accept lay file in_len (Some cmd) src_is_ib engine s = Some (r, s1))
    as Hrun1.
  { rewrite Hrun. f_equal. f_equal. unfold s1, c'.
    destruct (negb (bool_decide (ucp_valid (accept_conn_param cmd) = 0))
              && bool_decide (r = 0)); [reflexivity|].
    destruct s; simpl. unfold st_with_ctxs. simpl. by rewrite insert_id. }
  assert (ctx_file c' = file /\ ctx_cm_id c' = Some cm) as [Hfile' Hcm'].
  { unfold c'. by destruct (negb _ && _). }
  assert (cm_ids s1 !! cm = Some cmo) as Hcm1 by (by destruct s).
  assert (ctxs s1 !! cm_context cmo = Some c') as Hc1.
  { rewrite Hback. destruct s; simpl. apply lookup_insert_eq. }
  assert (files s1 !! ctx_file c' = Some f) as Hf1
    by (rewrite Hfile'; by destruct s).
  assert (ctx_uid <$> ctxs s1 !! p
          = Some (if negb (bool_decide (ucp_valid (accept_conn_param cmd) = 0))
                     && bool_decide (r = 0)
                  then accept_uid cmd else ctx_uid c)) as Huid.
  { rewrite <- Hback, Hc1. unfold c'. by destruct (negb _ && _). }
  assert (ucma_event_handler cm ev false s1 = Some (0, s1)) as Hdrop.
  { rewrite (ucma_event_handler_no_memory s1 cm ev cmo Hcm1).
    rewrite bool_decide_eq_false_2; [reflexivity|]. apply Hplain. }
  destruct (decide (ctx_uid c' = 0)) as [Hz|Hnz].
  - eexists s1, _, l. split; [exact Hrun1|]. split; [reflexivity|].
    split; [exact Hl|]. split.
    { apply (ucma_event_handler_drops s1 cm ev cmo c' Hcm1 Hc1 Hplain). by left. }
    rewrite (bool_decide_eq_true_2 _ Hz). rewrite Hfile' in Hf1.
    split; [|split; [|split; [exact Huid|exact Hdrop]]].
    + destruct s1; simpl in *. by rewrite Hf1.
    + reflexivity.
  - eexists s1, _, l. split; [exact Hrun1|]. split; [reflexivity|].
    split; [exact Hl|]. split.
    { apply (ucma_event_handler_queues s1 cm ev cmo c' f Hcm1 Hc1 Hf1 Hplain Hnz Hcm'). }
    rewrite (bool_decide_eq_false_2 _ Hnz). rewrite Hfile'.
    split; [|split; [|split; [exact Huid|exact Hdrop]]].
    + destruct s1; simpl in *. by rewrite lookup_insert_eq.
    + reflexivity.
Qed.

Lemma ucma_accept_claims_witness :
  exists s1 s2,
    ucma_accept (mk_ece_layout 112 120 120) 1%positive 120
      (Some (mk_accept 9 demo_ucm_conn_param 1 (mk_ece 0 0))) false
      (fun _ _ => 0) demo_spawned = Some (0, s1)
    /\ ctx_uid <$> ctxs s1 !! 11%positive = Some 9
    /\ ucma_event_handler 21%positive demo_established true s1 = Some (0, s2)
    /\ exists e, file_event_list <$> files s2 !! 1%positive = Some [e]
                  /\ resp_uid (uevent_resp e) = 9.
Proof.
  destruct (ucma_accept_claims (mk_ece_layout 112 120 120) demo_spawned 1%positive
              120 (mk_accept 9 demo_ucm_conn_param 1 (mk_ece 0 0)) false
              (fun _ _ => 0) 11%positive (spawned_ctx 1%positive 1 21%positive)
              21%positive (mk_cm_id 11%positive (Some 30%positive) IB_QPT_RC)
              (mk_file false [10%positive; 11%positive] []) demo_established
              ltac:(vm_compute; discriminate)
              ltac:(repeat split; try reflexivity; try discriminate;
                    exists (mk_cm_id 11%positive (Some 30%positive) IB_QPT_RC);
                    split; [reflexivity|by eexists])
              eq_refl eq_refl eq_refl
              ltac:(repeat split; discriminate))
    as (s1 & s2 & l & Hrun & Hs1 & _ & Hev & Hq & _).
  exists s1, s2. split; [exact Hrun|]. split.
  { rewrite Hs1. simpl. by rewrite lookup_insert_eq. }
  split; [exact Hev|]. eexists. split; [exact Hq|reflexivity].
Defined.

(** ** Queries *)

(** How many path records a query returns.  With a buffer that holds the
    response header, [ucma_query_path] copies the header and [i] records
    where [i] is the smaller of the number of paths of the route and of
    the number of records that fit in the rest of the buffer with at
    least one byte to spare.  So the copy never exceeds the client's
    buffer, and a buffer with room for exactly [k] records gets only
    [k - 1] of them.  The loop has run to its end after as many
    iterations as the route has paths. *)
Theorem ucma_query_path_records (qs : query_sizes) (num_paths out_len : Z)
    (copy_ok : bool) :
  0 < sizeof_path_rec_data qs -> 0 <= sizeof_path_resp qs <= out_len ->
  0 <= num_paths ->
  let i := Z.min num_paths
             (Z.max 0 ((out_len - sizeof_path_resp qs - 1)
                       / sizeof_path_rec_data qs)) in
  ucma_query_path qs num_paths out_len true copy_ok
  = (if copy_ok then 0 else - EFAULT,
     Some (sizeof_path_resp qs + i * sizeof_path_rec_data qs))
  /\ 0 <= i <= num_paths
  /\ sizeof_path_resp qs + i * sizeof_path_rec_data qs <= out_len
  /\ (forall k, 1 <= k ->
        out_len = sizeof_path_resp qs + k * sizeof_path_rec_data qs ->
        i = Z.min num_paths (k - 1))
  /\ (forall fuel, (Z.to_nat num_paths <= fuel)%nat ->
        query_path_loop qs fuel num_paths 0 (out_len - sizeof_path_resp qs) = i).
Proof.
  intros Hs Hr Hn i.
  pose proof (query_path_records_fit (sizeof_path_rec_data qs)
                (out_len - sizeof_path_resp qs) num_paths Hs ltac:(lia) Hn)
    as [Hi Hfit].
  simpl in Hi, Hfit. fold i in Hi, Hfit.
  split; [|split; [exact Hi|split; [lia|split]]].
  - unfold ucma_query_path.
    rewrite (proj2 (Z.ltb_ge _ _) (proj2 Hr)). simpl.
    rewrite query_path_loop_closed by lia. rewrite Z.add_0_l. reflexivity.
  - intros k Hk Hlen. subst i. rewrite Hlen.
    replace (sizeof_path_resp qs + k * sizeof_path_rec_data qs
             - sizeof_path_resp qs - 1)
      with ((sizeof_path_rec_data qs - 1) + (k - 1) * sizeof_path_rec_data qs)
      by lia.
    rewrite Z.div_add by lia. rewrite Z.div_small by lia. lia.
  - intros fuel Hfuel. rewrite query_path_loop_closed by lia.
    rewrite Z.add_0_l. reflexivity.
Qed.

Lemma ucma_query_path_records_witness :
  ucma_query_path (mk_query_sizes 0 0 0 0 8 72) 5 (8 + 3 * 72) true true
  = (0, Some (8 + 2 * 72)).
Proof.
  exact (proj1 (ucma_query_path_records (mk_query_sizes 0 0 0 0 8 72) 5
                  (8 + 3 * 72) true ltac:(reflexivity)
                  ltac:(vm_compute; split; discriminate)
                  ltac:(vm_compute; discriminate))).
Defined.

(** A query stays within the client's buffer.  On a usable context the
    query command, whatever its option, and the route query release the
    reference they took and leave the state as it was but for the log;
    whenever they copy a response, its size is at most the [out_len] of
    the command; and an option that is none of the three known ones gives
    -ENOSYS without a copy. *)
Theorem ucma_query_fits (qs : query_sizes) (s : state) (file : loc)
    (out_len : Z) (cmd : rdma_ucm_query) (num_paths : Z) (kz copy_ok : bool)
    (p : loc) (c : ucma_context) (cm : loc) :
  0 < sizeof_path_rec_data qs -> 0 <= sizeof_path_resp qs -> 0 <= num_paths ->
  ctx_usable s file (query_id cmd) p c cm ->
  (exists r n,
     ucma_query qs file out_len (Some cmd) num_paths kz copy_ok s
     = Some ((r, n), logged s (forwarded_log p))
     /\ (forall size, n = Some size -> size <= out_len)
     /\ (forall k, query_option cmd = RDMA_USER_CM_QUERY_other k ->
           r = - ENOSYS /\ n = None))
  /\ (offsetof_route_resp_ibdev_index qs <= out_len ->
      exists r size,
        ucma_query_route qs file out_len (Some cmd) copy_ok s
        = Some ((r, Some size), logged s (forwarded_log p))
        /\ size <= out_len).
Proof.
  intros Hs Hr Hn Hu. split.
  - rewrite (ucma_query_run qs s file out_len cmd num_paths kz copy_ok p c cm Hu).
    destruct (query_option cmd) eqn:Eo.
    + unfold ucma_query_addr.
      destruct (out_len <? offsetof_addr_resp_ibdev_index qs);
        (eexists _, _; split; [reflexivity|]; split; [|discriminate]);
        intros size [= <-]. lia.
    + destruct (ucma_query_path qs num_paths out_len kz copy_ok) as [r n] eqn:Ep.
      exists r, n. split; [reflexivity|]. split; [|discriminate].
      intros size ->. by eapply ucma_query_path_size.
    + unfold ucma_query_gid.
      destruct (out_len <? offsetof_addr_resp_ibdev_index qs);
        (eexists _, _; split; [reflexivity|]; split; [|discriminate]);
        intros size [= <-]. lia.
    + eexists _, _. split; [reflexivity|]. split; [discriminate|].
      intros k _. done.
  - intros Hlen.
    rewrite (ucma_query_route_run qs s file out_len cmd copy_ok p c cm Hlen Hu).
    eexists _, _. split; [reflexivity|]. lia.
Qed.

Lemma ucma_query_fits_witness :
  exists r n,
    ucma_query (mk_query_sizes 0 0 0 0 8 72) 1%positive 100
      (Some (mk_query 0 0 RDMA_USER_CM_QUERY_PATH)) 2 true true demo_state
    = Some ((r, n), logged demo_state (forwarded_log 10%positive))
    /\ forall size, n = Some size -> size <= 100.
Proof.
  destruct (ucma_query_fits (mk_query_sizes 0 0 0 0 8 72) demo_state 1%positive 100
              (mk_query 0 0 RDMA_USER_CM_QUERY_PATH) 2 true true 10%positive
              demo_ctx 20%positive ltac:(reflexivity) ltac:(vm_compute; discriminate)
              ltac:(vm_compute; discriminate)
              ltac:(repeat split; try reflexivity; try discriminate;
                    exists (mk_cm_id 10%positive (Some 30%positive) IB_QPT_RC);
                    split; [reflexivity|by eexists]))
    as [(r & n & Hrun & Hfit & _) _].
  exists r, n. split; [exact Hrun|exact Hfit].
Defined.

(** ** Options *)

(** An option that is refused changes nothing.  A set-option command
    whose length exceeds [KMALLOC_MAX_SIZE] returns -EINVAL before any
    lookup.  On a usable context, a command whose option value cannot be
    read returns the error of the read, and a command with an unknown
    level or name (-ENOSYS), with a value of the wrong length, with a
    path array that is no whole number of entries or with no entry that
    has the primary flags (-EINVAL) returns that error, whatever the
    engine would have answered; in each case the reference taken is
    released and the state is as before, but for the log. *)
Theorem ucma_set_option_refuses (oc : option_consts)
    (u32_of_bytes : list Z -> Z) (s : state) (file : loc)
    (cmd : rdma_ucm_set_option) (engine_id : Z -> Z -> Z) (opa : bool)
    (engine_ib : bool -> list Z -> Z) (kz : bool) :
  (forall optval, KMALLOC_MAX_SIZE oc < set_option_optlen cmd ->
     ucma_set_option oc u32_of_bytes file (Some cmd) optval engine_id opa
       engine_ib kz s = Some (- EINVAL, s))
  /\ (forall p c cm, set_option_optlen cmd <= KMALLOC_MAX_SIZE oc ->
        ctx_usable s file (set_option_id cmd) p c cm ->
        (forall e, exists l,
            ucma_set_option oc u32_of_bytes file (Some cmd) (inl e) engine_id
              opa engine_ib kz s = Some (e, logged s l))
        /\ (forall optval err,
              option_refused oc u32_of_bytes cmd optval err ->
              exists l,
                ucma_set_option oc u32_of_bytes file (Some cmd) (inr optval)
                  engine_id opa engine_ib kz s = Some (err, logged s l))).
Proof.
  split.
  - intros optval Hlen. unfold ucma_set_option.
    by rewrite (proj2 (Z.ltb_lt _ _) Hlen).
  - intros p c cm Hlen Hu. split.
    + intros e. unfold ucma_set_option.
      rewrite (proj2 (Z.ltb_ge _ _) Hlen). forward_any Hu.
      rewrite ctx_ref_restored by done.
      exists [op_xa_lock XA_ctx_table; op_refcount_inc p; op_xa_unlock XA_ctx_table;
              op_refcount_dec p].
      trace_eq.
    + intros optval err Href. by eapply ucma_set_option_refused_run.
Qed.

Lemma ucma_set_option_refuses_witness :
  exists l,
    ucma_set_option demo_option_consts (fun _ => 0) 1%positive
      (Some (mk_set_option 0 0 0 1 1)) (inr [1]) (fun _ _ => 0) false
      (fun _ _ => 0) true demo_state
    = Some (- EINVAL, logged demo_state l).
Proof.
  exact (proj2 (proj2 (ucma_set_option_refuses demo_option_consts (fun _ => 0)
                         demo_state 1%positive (mk_set_option 0 0 0 1 1)
                         (fun _ _ => 0) false (fun _ _ => 0) true)
                  10%positive demo_ctx 20%positive
                  ltac:(vm_compute; discriminate)
                  ltac:(repeat split; try reflexivity; try discriminate;
                        exists (mk_cm_id 10%positive (Some 30%positive) IB_QPT_RC);
                        split; [reflexivity|by eexists]))
           [1] (- EINVAL)
           ltac:(right; left; split; [reflexivity|];
                 right; left; repeat split; discriminate)).
Defined.

(** Setting a path reports the route.  A set-option command that carries
    an array of path entries hands the engine the first entry whose
    flags are the primary flags, the entries before it being skipped,
    and returns what the engine returns.  When the engine accepts the
    path, a route-resolved event with status 0 is queued for the context
    as if the engine had reported it: it joins the tail of the session's
    queue when the event can be allocated and the context has been
    claimed, and is dropped otherwise, the command returning 0 all the
    same.  When the engine refuses, nothing is queued.  The reference
    taken is released in every case. *)
Theorem ucma_set_option_path_reports (oc : option_consts)
    (u32_of_bytes : list Z -> Z) (s : state) (file : loc)
    (cmd : rdma_ucm_set_option) (optval : list Z) (engine_id : Z -> Z -> Z)
    (opa : bool) (engine_ib : bool -> list Z -> Z) (kz : bool) (p : loc)
    (c : ucma_context) (cm : loc) (cmo : rdma_cm_id) (f : ucma_file)
    (e : list Z) :
  set_option_optlen cmd <= KMALLOC_MAX_SIZE oc ->
  ctx_usable s file (set_option_id cmd) p c cm ->
  cm_ids s !! cm = Some cmo -> cm_context cmo = p ->
  files s !! file = Some f ->
  set_option_level cmd <> RDMA_OPTION_ID oc ->
  set_option_level cmd = RDMA_OPTION_IB oc ->
  set_option_optname cmd = RDMA_OPTION_IB_PATH oc ->
  set_option_optlen cmd mod sizeof_ib_path_rec_data oc = 0 ->
  find_path_data oc u32_of_bytes (path_entries oc optval (set_option_optlen cmd))
  = Some e ->
  (exists before after,
     path_entries oc optval (set_option_optlen cmd) = before ++ e :: after
     /\ Forall (fun e' => u32_of_bytes (take 4 e') <> IB_PATH_PRIMARY_FLAGS oc)
          before
     /\ u32_of_bytes (take 4 e) = IB_PATH_PRIMARY_FLAGS oc)
  /\ exists s' l,
       ucma_set_option oc u32_of_bytes file (Some cmd) (inr optval) engine_id opa
         engine_ib kz s = Some (engine_ib opa e, s')
       /\ ctxs s' = ctxs s /\ ctx_table s' = ctx_table s
       /\ cm_ids s' = cm_ids s /\ mcs s' = mcs s
       /\ trace s' = trace s ++ l
       /\ files s' =
            (if bool_decide (engine_ib opa e = 0) && kz
                && negb (bool_decide (ctx_uid c = 0))
             then <[file :=
                      file_with_event_list f
                        (file_event_list f
                         ++ [mk_uevent p None cm
                               (mk_resp (ctx_uid c) (ctx_id c)
                                  RDMA_CM_EVENT_ROUTE_RESOLVED 0
                                  (if bool_decide (cm_qp_type cmo = IB_QPT_UD)
                                   then resp_ud [] 0 0
                                   else resp_conn (mk_conn_param [] 0 0 0 0 0 0 0))
                                  0 0)])]> (files s)
             else files s).
Proof.
  intros Hlen Hu Hcm Hback Hf Ha Hb Hc Hd He. split.
  { by apply find_path_data_first. }
  destruct Hu as (Hu1 & Hu2 & Hu3 & Hu4 & Hu5 & Hu6 & cmo' & Hu7 & Hu8).
  assert (cmo' = cmo) as -> by congruence.
  destruct (ucma_set_option_path_run oc u32_of_bytes s file cmd optval engine_id
              opa engine_ib kz p c cm cmo f e)
    as (l & Hrun); try assumption.
  eexists _, l. split; [exact Hrun|].
  destruct (bool_decide (engine_ib opa e = 0) && kz
            && negb (bool_decide (ctx_uid c = 0)));
    destruct s; simpl; repeat (split; [reflexivity|]); try reflexivity.
  unfold ctx_uevent, route_resolved_event. simpl. by rewrite Hback.
Qed.

Lemma ucma_set_option_path_reports_witness :
  exists s',
    ucma_set_option demo_option_consts (fun b => nth 0 b 0) 1%positive
      (Some (mk_set_option 0 0 1 1 144))
      (inr (replicate 72 0 ++ 43 :: replicate 71 0)) (fun _ _ => 0) false
      (fun _ _ => 0) true demo_state = Some (0, s')
    /\ (exists e, file_event_list <$> files s' !! 1%positive = Some [e]
                  /\ resp_event (uevent_resp e) = RDMA_CM_EVENT_ROUTE_RESOLVED).
Proof.
  destruct (ucma_set_option_path_reports demo_option_consts (fun b => nth 0 b 0)
              demo_state 1%positive (mk_set_option 0 0 1 1 144)
              (replicate 72 0 ++ 43 :: replicate 71 0) (fun _ _ => 0) false
              (fun _ _ => 0) true 10%positive demo_ctx 20%positive
              (mk_cm_id 10%positive (Some 30%positive) IB_QPT_RC)
              (mk_file false [10%positive] []) (43 :: replicate 71 0)
              ltac:(vm_compute; discriminate)
              ltac:(repeat split; try reflexivity; try discriminate;
                    exists (mk_cm_id 10%positive (Some 30%positive) IB_QPT_RC);
                    split; [reflexivity|by eexists])
              eq_refl eq_refl eq_refl ltac:(discriminate) eq_refl eq_refl
              eq_refl ltac:(vm_compute; reflexivity))
    as (_ & s' & l & Hrun & _ & _ & _ & _ & _ & Hfs).
  exists s'. split; [exact Hrun|].
  eexists. rewrite Hfs. split; reflexivity.
Defined.

(** ** Dispatch of the remaining opcodes *)

(** Every opcode reaches its own handler.  With distinct opcode numbers,
    the table entry of each command is the handler that its initialiser
    names, no initialiser being overridden by another.  A write with
    unchanged credentials, a complete header and at least the bytes the
    header declares calls that handler with the lengths of the header
    and returns the number of bytes written when the handler returns 0,
    and the handler's result otherwise; the state is the state the
    handler leaves.  A write with changed credentials returns -EACCES
    and calls no handler. *)
Theorem ucma_write_dispatches (abi : uapi_sizes)
    (cmd_value : rdma_user_cm_cmd -> Z)
    (call : ucma_handler -> loc -> Z -> Z -> M Z) (s : state) (file : loc)
    (len : Z) (hdr : rdma_ucm_cmd_hdr) (c : rdma_user_cm_cmd)
    (h : ucma_handler) (r : Z) (s' : state) :
  Inj (=) (=) cmd_value -> (c, Some h) ∈ ucma_cmd_table_init ->
  sizeof_hdr abi <= len -> hdr_cmd hdr = cmd_value c ->
  hdr_in hdr + sizeof_hdr abi <= len ->
  call h file (hdr_in hdr) (hdr_out hdr) s = Some (r, s') ->
  ucma_cmd_table cmd_value (cmd_value c) = Some h
  /\ ucma_write abi cmd_value call file true len (Some hdr) s
     = Some (if bool_decide (r = 0) then len else r, s')
  /\ ucma_write abi cmd_value call file false len (Some hdr) s
     = Some (- EACCES, logged s [op_pr_err]).
Proof.
  intros Hinj Hin Hl Hc Hi Hcall.
  pose proof (ucma_cmd_table_designated cmd_value c (Some h) Hinj Hin) as Ht.
  split; [exact Ht|]. split.
  - unfold ucma_write. simpl.
    rewrite (proj2 (Z.ltb_ge _ _) Hl).
    rewrite (proj2 (Z.leb_gt _ _)).
    2:{ rewrite Hc. apply (designated_in_table cmd_value ucma_cmd_table_init _ _ Hin). }
    rewrite (proj2 (Z.ltb_ge _ _) Hi), Hc, Ht.
    by rewrite (bind_Some _ _ _ _ _ Hcall).
  - unfold ucma_write. simpl. destruct s; reflexivity.
Qed.

Lemma ucma_write_dispatches_witness :
  ucma_write uapi_abi uapi_cmd_value call_nothing 1%positive true 24
    (Some (mk_hdr 7 16 0)) demo_state = Some (24, demo_state).
Proof.
  refine (proj1 (proj2 (ucma_write_dispatches uapi_abi uapi_cmd_value
                          call_nothing demo_state 1%positive 24 (mk_hdr 7 16 0)
                          RDMA_USER_CM_CMD_LISTEN h_ucma_listen 0 demo_state
                          _ _ _ eq_refl _ eq_refl))).
  - intros a b H. destruct a, b; (reflexivity || discriminate H).
  - unfold ucma_cmd_table_init. rewrite !elem_of_cons. by auto 20.
  - vm_compute. discriminate.
  - vm_compute. discriminate.
Defined.

(** ** Listen and the connect requests it admits *)

(** A listener admits exactly its backlog.  After a listen command that
    asks for a backlog [n] strictly between zero and the maximum, with
    every event allocation succeeding and no read in between, the first
    [n] connect requests that the engine reports for the listener are
    admitted (the handler returns 0 and queues them, in order, at the
    tail of the session's queue) and leave the listener without an
    admission slot; the next one is refused with -ENOMEM and the queue
    is left as it is. *)
Theorem ucma_listen_admits_exactly (s : state) (file : loc)
    (cmd : rdma_ucm_listen) (engine : Z) (p : loc) (c : ucma_context)
    (cm : loc) (cm_id : loc) (cmo : rdma_cm_id) (ev : rdma_cm_event)
    (f : ucma_file) :
  ctx_table s !! listen_id cmd = Some p -> ctxs s !! p = Some c ->
  ctx_file c = file -> ctx_cm_id c = Some cm -> ctx_closing c = 0 ->
  0 < listen_backlog cmd < max_backlog s -> listen_backlog cmd <= INT_MAX ->
  cm_ids s !! cm_id = Some cmo -> cm_context cmo = p ->
  files s !! file = Some f ->
  event ev = RDMA_CM_EVENT_CONNECT_REQUEST ->
  let n := Z.to_nat (listen_backlog cmd) in
  exists s1 s2 s3,
    ucma_listen file (Some cmd) engine s = Some (engine, s1)
    /\ deliver (replicate n (cm_id, ev, true)) s1 = Some (replicate n 0, s2)
    /\ ctx_backlog <$> ctxs s2 !! p = Some 0
    /\ file_event_list <$> files s2 !! file
       = Some (file_event_list f
               ++ replicate n (connect_request_uevent cm_id ev cmo c))
    /\ ucma_event_handler cm_id ev true s2 = Some (- ENOMEM, s3)
    /\ files s3 = files s2 /\ ctxs s3 = ctxs s2.
Proof.
  intros H1 H2 H3 H4 H5 Hb Hmax Hcm Hback Hf Hev n.
  destruct (ucma_listen_run s file cmd engine p c cm H1 H2 H3 H4 H5)
    as (s1 & Hrun1 & Hbl & _).
  assert (listen_clamp s cmd = listen_backlog cmd) as Hclamp.
  { unfold listen_clamp.
    by rewrite (proj2 (Z.ltb_lt _ _) (proj1 Hb)), (proj2 (Z.ltb_lt _ _) (proj2 Hb)). }
  rewrite Hclamp, to_int_small in Hbl by (unfold INT_MIN, INT_MAX in *; lia).
  destruct (ctxs s1 !! p) as [c1|] eqn:Hc1; [|discriminate].
  simpl in Hbl. injection Hbl as Hbl.
  assert (cm_ids s1 = cm_ids s /\ files s1 = files s
          /\ ctx_file c1 = file /\ ctx_uid c1 = ctx_uid c /\ ctx_id c1 = ctx_id c)
    as (Hcs1 & Hfs1 & Hfile1 & Huid1 & Hid1).
  { clear Hbl. unfold ucma_listen in Hrun1.
    erewrite bind_Some in Hrun1
      by (eapply ucma_get_ctx_found; eauto; rewrite H4; eauto).
    destruct s as [mb ct mt cx ms fs cs tr]; simpl in *.
    unfold ctx_taken, ucma_put_ctx in Hrun1.
    revert Hrun1. mgo.
    destruct (bool_decide (ctx_ref c + 1 - 1 = 0)); mgo;
      intros [= <-]; simpl in *; rewrite lookup_insert_eq in Hc1;
      injection Hc1 as <-; by repeat split. }
  destruct (deliver_admits cm_id ev cmo n s1 c1 f) as (s2 & Hrun2 & Hcx2 & Hfs2 & Hcs2 & _);
    try (by rewrite ?Hcs1, ?Hback, ?Hfile1, ?Hfs1).
  { rewrite Hbl. unfold n. lia. }
  assert (connect_request_uevent cm_id ev cmo c1
          = connect_request_uevent cm_id ev cmo c) as Hue.
  { unfold connect_request_uevent. by rewrite Huid1, Hid1. }
  rewrite Hue, Hfile1 in Hfs2. rewrite Hback in Hcx2.
  assert (ctx_backlog c1 - Z.of_nat n = 0) as Hzero by (unfold n; lia).
  rewrite Hzero in Hcx2.
  pose proof (ucma_event_handler_refuses s2 cm_id ev cmo (ctx_with_backlog c1 0))
    as Hrun3.
  rewrite Hcs2, Hcs1, Hback, Hcx2, lookup_insert_eq in Hrun3.
  specialize (Hrun3 Hcm eq_refl Hev eq_refl).
  eexists s1, s2, _. split; [exact Hrun1|]. split; [exact Hrun2|].
  split; [by rewrite Hcx2, lookup_insert_eq|].
  split; [by rewrite Hfs2, lookup_insert_eq|].
  split; [exact Hrun3|]. by destruct s2.
Qed.

Lemma ucma_listen_admits_exactly_witness :
  exists s1 s2 s3,
    ucma_listen 1%positive (Some (mk_listen 0 2)) 0 demo_state = Some (0, s1)
    /\ deliver [(21%positive, demo_connect_request, true);
                (21%positive, demo_connect_request, true)] s1 = Some ([0; 0], s2)
    /\ ucma_event_handler 21%positive demo_connect_request true s2
       = Some (- ENOMEM, s3).
Proof.
  destruct (ucma_listen_admits_exactly demo_state 1%positive (mk_listen 0 2) 0
              10%positive demo_ctx 20%positive 21%positive
              (mk_cm_id 10%positive None IB_QPT_RC) demo_connect_request
              (mk_file false [10%positive] [])
              eq_refl eq_refl eq_refl eq_refl eq_refl
              ltac:(vm_compute; split; reflexivity)
              ltac:(vm_compute; discriminate) eq_refl eq_refl eq_refl eq_refl)
    as (s1 & s2 & s3 & Hrun1 & Hrun2 & _ & _ & Hrun3 & _).
  exists s1, s2, s3. split; [exact Hrun1|]. split; [exact Hrun2|exact Hrun3].
Defined.

(** ** Lock order of a migration *)

(** The two session mutexes are always taken in the same order, whatever
    the order of the arguments: [ucma_lock_files] run on a pair of
    sessions and on the swapped pair does the same thing, and so does
    [ucma_unlock_files].  Lock followed by unlock takes the mutex of the
    lower session first and the mutex of the higher session second,
    releases them in the opposite order, and changes nothing else. *)
Theorem ucma_lock_files_ordered (file1 file2 : loc) (s : state) :
  ucma_lock_files file1 file2 s = ucma_lock_files file2 file1 s
  /\ ucma_unlock_files file1 file2 s = ucma_unlock_files file2 file1 s
  /\ (ucma_lock_files file1 file2 ;;; ucma_unlock_files file1 file2) s
     = Some (tt, logged s
          [op_mutex_lock (file_mut (Pos.min file1 file2));
           op_mutex_lock (file_mut (Pos.max file1 file2));
           op_mutex_unlock (file_mut (Pos.max file1 file2));
           op_mutex_unlock (file_mut (Pos.min file1 file2))]).
Proof.
  unfold ucma_lock_files, ucma_unlock_files.
  destruct (Pos.ltb_spec file1 file2) as [Hlt|Hge].
  - assert ((file2 <? file1)%positive = false) as ->
      by (apply Pos.ltb_ge; lia).
    rewrite Pos.min_l, Pos.max_r by lia.
    repeat split. mred. by rewrite <- !app_assoc.
  - destruct (Pos.ltb_spec file2 file1) as [Hlt|Hge'].
    + rewrite Pos.min_r, Pos.max_l by lia.
      repeat split. mred. by rewrite <- !app_assoc.
    + assert (file1 = file2) as -> by lia.
      rewrite Pos.min_id, Pos.max_id.
      repeat split. mred. by rewrite <- !app_assoc.
Qed.

(** ** Module registration and the GPIO helper *)

(** Module initialisation is all or nothing.  [ucma_init] returns 0
    exactly when all four registrations succeed, and then all four are in
    force; when one fails it returns the error of the first that fails
    (-ENOMEM for the sysctl table, which gives none of its own) after
    undoing the registrations made before it, latest first, so that none
    is left in force.  [ucma_cleanup] after a successful
    initialisation undoes the four registrations, latest first. *)
Theorem ucma_init_unwinds (misc attr : Z) (sysctl : bool) (client : Z) :
  let r := (ucma_init misc attr sysctl client).1 in
  let l := (ucma_init misc attr sysctl client).2 in
  (r = 0 <-> misc = 0 /\ attr = 0 /\ sysctl = true /\ client = 0)
  /\ replay l []
     = Some (if bool_decide (r = 0)
             then [REG_ib_client; REG_sysctl; REG_abi_version; REG_misc]
             else [])
  /\ (r = 0 -> replay (l ++ ucma_cleanup) [] = Some [])
  /\ r = (if bool_decide (misc <> 0) then misc
          else if bool_decide (attr <> 0) then attr
          else if negb sysctl then - ENOMEM
          else client).
Proof.
  unfold ucma_init.
  destruct (decide (misc = 0)) as [Hm|Hm].
  2:{ rewrite (bool_decide_eq_false_2 _ Hm). simpl.
      rewrite (bool_decide_eq_false_2 _ Hm), (bool_decide_eq_true_2 (misc <> 0) Hm).
      intuition (try done; try discriminate). }
  rewrite (bool_decide_eq_true_2 _ Hm). simpl.
  rewrite (bool_decide_eq_false_2 (misc <> 0)) by (intros H; by apply H).
  destruct (decide (attr = 0)) as [Ha|Ha].
  2:{ rewrite (bool_decide_eq_false_2 _ Ha). simpl.
      rewrite (bool_decide_eq_false_2 _ Ha), (bool_decide_eq_true_2 (attr <> 0) Ha).
      intuition (try done; try discriminate). }
  rewrite (bool_decide_eq_true_2 _ Ha). simpl.
  rewrite (bool_decide_eq_false_2 (attr <> 0)) by (intros H; by apply H).
  destruct sysctl; simpl.
  2:{ intuition (try done; try discriminate). }
  destruct (decide (client = 0)) as [Hc|Hc].
  2:{ rewrite (bool_decide_eq_false_2 _ Hc). simpl.
      rewrite (bool_decide_eq_false_2 _ Hc).
      intuition (try done; try discriminate). }
  rewrite (bool_decide_eq_true_2 _ Hc). simpl.
  intuition (try done; try discriminate).
Qed.

(** The resources of a GPIO bank.  [mxc_register_gpio] registers the
    memory window and the interrupt of the bank, and the second (high)
    interrupt only when one is given: two resources when [irq_high] is
    zero and three otherwise.  The memory resource starts at [iobase]
    and, when the window lies within the address space, spans exactly
    [iosize] bytes; every interrupt resource is a single line. *)
Theorem mxc_register_gpio_resources (bits : Z) (name : list Z)
    (id iobase iosize irq irq_high : Z) :
  let c := mxc_register_gpio bits name id iobase iosize irq irq_high in
  call_num c = (if bool_decide (irq_high = 0) then 2 else 3)
  /\ Z.of_nat (length (call_res c)) = call_num c
  /\ (exists mem irqs,
        call_res c = mem :: irqs
        /\ res_flags mem = IORESOURCE_MEM /\ res_start mem = iobase
        /\ (1 <= iosize -> 0 <= iobase -> iobase + iosize <= 2 ^ bits ->
            res_end mem - res_start mem + 1 = iosize)
        /\ Forall (fun r => res_flags r = IORESOURCE_IRQ /\ res_start r = res_end r)
             irqs
        /\ (res_start <$> irqs)
           = (if bool_decide (irq_high = 0) then [to_resource_size bits irq]
              else [to_resource_size bits irq; to_resource_size bits irq_high])).
Proof.
  intros c. subst c. unfold mxc_register_gpio.
  destruct (decide (irq_high = 0)) as [Hz|Hz].
  - rewrite (bool_decide_eq_true_2 _ Hz). simpl.
    split; [reflexivity|]. split; [reflexivity|].
    eexists _, _. split; [reflexivity|]. simpl.
    split; [reflexivity|]. split; [reflexivity|]. split.
    + intros H1 H0 H2. unfold to_resource_size. rewrite Z.mod_small; lia.
    + split; [|reflexivity]. repeat constructor.
  - rewrite (bool_decide_eq_false_2 _ Hz). simpl.
    split; [reflexivity|]. split; [reflexivity|].
    eexists _, _. split; [reflexivity|]. simpl.
    split; [reflexivity|]. split; [reflexivity|]. split.
    + intros H1 H0 H2. unfold to_resource_size. rewrite Z.mod_small; lia.
    + split; [|reflexivity]. repeat constructor.
Qed.
